(** * XLink USB host transport (src/pc/protocols/usb_host.cpp)

    A shallow embedding of the libusb-backed host side of XLink: device
    enumeration (getUSBDevices), the device path encoder
    (getLibusbDevicePath), the MxId acquisition protocol
    (getLibusbDeviceMxId), the firmware boot send loop (usb_open_device,
    send_file), closing a link (usbLinkClose, usbPlatformClose) and the
    bulk data pipe (usb_read, usb_write), in the USE_USB_VSC
    configuration; then the lookup by path (refLibusbDeviceByName), the
    boot sequence (usb_boot, usbPlatformBootFirmware), opening a link
    (usbLinkOpen, usbPlatformConnect), the bootloader request
    (usbLinkBootBootloader) and the platform entry points of the pipe
    (usbPlatformRead, usbPlatformWrite).

    The C++ code talks to libusb and to the steady clock.  Both are
    modelled as one deterministic backend: a function from the history
    of calls (with their replies) and the next call to its reply.  Every
    call the code makes is appended to a trace held in the program
    state, next to the file-scope variables, so the properties below can
    speak about what was put on the wire.  A statement that holds for
    every backend holds for every behaviour of the library, the device
    and the clock.

    Loops that wait on the backend ([do .. while] on the clock, [while]
    on the bytes left) take fuel; running out of fuel is [None].

    Not modelled: usbInitialize, xlink_libusb_strerror and the code
    outside USE_USB_VSC; the mutex (the model is sequential), the text
    of log lines (the clock readings of the one log line that makes
    them are modelled, under the build flag NDEBUG), buffer
    overruns (a character array is carried as the C string it holds, and
    is assumed large enough where the code writes without a bound), and
    the contents of the payloads sent to the device (only their
    lengths). *)

From Stdlib Require Import ZArith String Ascii List Lia ZifyBool DecimalString.
From Stdlib Require Import DecimalPos DecimalN.
From stdpp Require Import base list strings.
Import ListNotations.

#[local] Open Scope string_scope.
#[local] Open Scope list_scope.
#[local] Open Scope Z_scope.

(** ** Machine integers

    C++ integer types are carried as [Z] with the wrap-around of each
    conversion written out. *)

Definition to_uint8 (z : Z) : Z := z mod 2 ^ 8.
Definition to_uint16 (z : Z) : Z := z mod 2 ^ 16.
Definition to_unsigned (z : Z) : Z := z mod 2 ^ 32.
Definition to_int (z : Z) : Z := (z + 2 ^ 31) mod 2 ^ 32 - 2 ^ 31.
Definition to_size_t (z : Z) : Z := z mod 2 ^ 64.

Definition INT_MAX : Z := 2 ^ 31 - 1.
Definition UINT_MAX : Z := 2 ^ 32 - 1.
Definition SIZE_MAX : Z := 2 ^ 64 - 1.

(** ** libusb error codes (libusb.h, [enum libusb_error]) *)

Definition LIBUSB_SUCCESS : Z := 0.
Definition LIBUSB_ERROR_IO : Z := -1.
Definition LIBUSB_ERROR_INVALID_PARAM : Z := -2.
Definition LIBUSB_ERROR_ACCESS : Z := -3.
Definition LIBUSB_ERROR_NO_DEVICE : Z := -4.
Definition LIBUSB_ERROR_NOT_FOUND : Z := -5.
Definition LIBUSB_ERROR_BUSY : Z := -6.
Definition LIBUSB_ERROR_TIMEOUT : Z := -7.
Definition LIBUSB_ERROR_OVERFLOW : Z := -8.

Definition LIBUSB_TRANSFER_TYPE_MASK : Z := 0x03.
Definition LIBUSB_TRANSFER_TYPE_BULK : Z := 2.
Definition LIBUSB_ENDPOINT_DIR_MASK : Z := 0x80.

(** ** Constants of usb_host.cpp *)

Definition MAXIMUM_PORT_NUMBERS : Z := 7.
Definition MX_ID_TIMEOUT_MS : Z := 100.
Definition DEFAULT_WRITE_TIMEOUT : Z := 2000.
Definition USB1_CHUNKSZ : Z := 64.
Definition USB_ENDPOINT_IN : Z := 0x81.
Definition USB_ENDPOINT_OUT : Z := 0x01.
Definition XLINK_USB_DATA_TIMEOUT : Z := 0.

(** Durations of [std::chrono] are carried in nanoseconds. *)
Definition DEFAULT_SEND_FILE_TIMEOUT : Z := 10000 * 1000000.
Definition RETRY_TIMEOUT : Z := 5 * 1000000.
Definition SLEEP_BETWEEN_RETRIES : Z := 100 * 1000.

(** [static int write_timeout = DEFAULT_WRITE_TIMEOUT;] is never assigned
    in this translation unit. *)
Definition write_timeout : Z := DEFAULT_WRITE_TIMEOUT.

(** ** Enumerations of the public headers *)

Inductive XLinkDeviceState_t : Type :=
| X_LINK_ANY_STATE
| X_LINK_BOOTED
| X_LINK_UNBOOTED
| X_LINK_BOOTLOADER.

Inductive XLinkError_t : Type :=
| X_LINK_SUCCESS
| X_LINK_ERROR
| X_LINK_INSUFFICIENT_PERMISSIONS.

Inductive xLinkPlatformErrorCode_t : Type :=
| X_LINK_PLATFORM_SUCCESS
| X_LINK_PLATFORM_DEVICE_NOT_FOUND
| X_LINK_PLATFORM_ERROR
| X_LINK_PLATFORM_INSUFFICIENT_PERMISSIONS.

Inductive XLinkPlatform_t : Type := X_LINK_MYRIAD_X.
Inductive XLinkProtocol_t : Type := X_LINK_USB_VSC.

Definition XLinkDeviceState_eqb (a b : XLinkDeviceState_t) : bool :=
  match a, b with
  | X_LINK_ANY_STATE, X_LINK_ANY_STATE
  | X_LINK_BOOTED, X_LINK_BOOTED
  | X_LINK_UNBOOTED, X_LINK_UNBOOTED
  | X_LINK_BOOTLOADER, X_LINK_BOOTLOADER => true
  | _, _ => false
  end.

(** [deviceDesc_t]: the record exported to callers, also used as the
    filter.  The two character arrays are carried as the C strings they
    hold. *)
Record deviceDesc_t : Type := {
  status : XLinkError_t;
  platform : XLinkPlatform_t;
  protocol : XLinkProtocol_t;
  state : XLinkDeviceState_t;
  name : string;
  mxid : string
}.

(** ** The backend: libusb and the clock *)

Inductive Call : Type :=
| libusb_get_device_list
| libusb_free_device_list
| libusb_get_device_descriptor (dev : Z)
| libusb_get_bus_number (dev : Z)
| libusb_get_port_numbers (dev : Z) (port_numbers_len : Z)
| libusb_open (dev : Z)
| libusb_close
| libusb_get_configuration
| libusb_set_configuration (configuration : Z)
| libusb_claim_interface (interface_number : Z)
| libusb_release_interface (interface_number : Z)
| libusb_bulk_transfer (endpoint : Z) (length : Z) (timeout : Z)
| libusb_get_string_descriptor_ascii (desc_index : Z) (length : Z)
| libusb_get_config_descriptor (dev : Z) (config_index : Z)
| libusb_free_config_descriptor
| steady_clock_now
| sleep_for (ns : Z).

(** What a call hands back: the return code [rc], one number [val] and
    a buffer [data].  How the code reads them:
    - libusb_get_device_list: [rc] is the count or an error, [data] the
      device pointers (0 for a null pointer);
    - libusb_get_device_descriptor: [data] holds bcdUSB, idVendor,
      idProduct, iSerialNumber;
    - libusb_get_bus_number: [val] is the bus;
    - libusb_get_port_numbers: [rc] is the count or an error, [data] the
      port numbers;
    - libusb_get_configuration: [val] is the active configuration;
    - libusb_bulk_transfer: [val] is [transferred], [data] the bytes
      received on an IN endpoint;
    - libusb_get_string_descriptor_ascii: [data] is the string;
    - libusb_get_config_descriptor: [data] holds bEndpointAddress,
      bmAttributes, wMaxPacketSize of each endpoint of the first
      alternate setting;
    - steady_clock_now: [val] is the reading in nanoseconds. *)
Record Reply : Type := {
  rc : Z;
  val : Z;
  data : list Z
}.

Record Event : Type := {
  ev_call : Call;
  ev_reply : Reply
}.

Definition Backend : Type := list Event -> Call -> Reply.

(** ** MxId cache entries (usb_mx_id.cpp keeps the array) *)

Record MxIdListEntry : Type := {
  entry_path : string;
  entry_mx_id : string;
  entry_valid : bool
}.

(** ** Program state: the trace and the file-scope variables *)

Record State : Type := {
  trace : list Event;
  list_mx_id : list MxIdListEntry;
  bulk_chunklen : Z
}.

Definition set_trace (t : list Event) (s : State) : State :=
  {| trace := t; list_mx_id := list_mx_id s; bulk_chunklen := bulk_chunklen s |}.

Definition set_list_mx_id (c : list MxIdListEntry) (s : State) : State :=
  {| trace := trace s; list_mx_id := c; bulk_chunklen := bulk_chunklen s |}.

Definition set_bulk_chunklen (n : Z) (s : State) : State :=
  {| trace := trace s; list_mx_id := list_mx_id s; bulk_chunklen := n |}.

Definition record_event (c : Call) (r : Reply) (s : State) : State :=
  set_trace (trace s ++ [{| ev_call := c; ev_reply := r |}]) s.

(** ** A state monad with fuel exhaustion

    [None] means that a loop of the model ran out of fuel. *)

Definition M (A : Type) : Type := State -> option (A * State).

Definition ret {A : Type} (a : A) : M A := fun s => Some (a, s).

Definition bind {A B : Type} (m : M A) (k : A -> M B) : M B :=
  fun s => match m s with
           | Some (a, s') => k a s'
           | None => None
           end.

Definition out_of_fuel {A : Type} : M A := fun _ => None.

Definition get_state : M State := fun s => Some (s, s).
Definition modify (f : State -> State) : M unit := fun s => Some (tt, f s).

Declare Scope usb_scope.
Delimit Scope usb_scope with usb.
Notation "x <- m ;; k" := (bind m (fun x => k))
  (at level 100, m at next level, right associativity) : usb_scope.
Notation "m ;;; k" := (bind m (fun _ => k))
  (at level 100, right associativity) : usb_scope.
#[local] Open Scope usb_scope.

(** ** Strings *)

(** [std::to_string] on a non-negative value. *)
Definition to_string (z : Z) : string :=
  NilZero.string_of_uint (N.to_uint (Z.to_N z)).

Definition HEX_DIGITS : string := "0123456789ABCDEF".

Definition hex_digit (d : Z) : ascii :=
  match String.get (Z.to_nat d) HEX_DIGITS with
  | Some c => c
  | None => "?"%char
  end.

(** [sprintf(.., "%02X", v)] for [v] a promoted [uint8_t]. *)
Definition fmt_02X (v : Z) : string :=
  String (hex_digit (v / 16)) (String (hex_digit (v mod 16)) EmptyString).

(** [sprintf(buf + off, ..)] seen through the C string held in [buf]:
    the text lands at [off] and is terminated right after; when [off]
    lies beyond the terminator the visible string is unchanged. *)
Definition sprintf_at (buf : string) (off : nat) (text : string) : string :=
  if (off <=? String.length buf)%nat
  then String.substring 0 off buf +:+ text
  else buf.

(** [strncpy] into a zeroed array of [n] characters, read back as a
    C string. *)
Definition strncpy (n : nat) (src : string) : string :=
  String.substring 0 n src.

Definition ascii_of_byte (z : Z) : ascii := ascii_of_N (Z.to_N (to_uint8 z)).

(** The C string held by a byte buffer: everything before the first NUL. *)
Fixpoint c_str (bytes : list Z) : string :=
  match bytes with
  | [] => EmptyString
  | b :: rest =>
      if to_uint8 b =? 0 then EmptyString
      else String (ascii_of_byte b) (c_str rest)
  end.

Section Host.

(** The backend the code runs against. *)
Variable bk : Backend.

(** Constants of headers that are not part of this translation unit. *)
Variable DEFAULT_CHUNKSZ : Z.
Variable XLINK_MAX_NAME_SIZE : nat.
Variable XLINK_MAX_MX_ID_SIZE : nat.
Variable USB_BOOT_ERROR : Z.
Variable USB_BOOT_TIMEOUT : Z.
Variable usb_mx_id_get_payload_size : Z.
Variable usb_mx_id_get_payload_end_size : Z.

(** The build: [true] when the translation unit is compiled with NDEBUG
    defined, [false] otherwise. *)
Variable NDEBUG : bool.

(** One backend call: ask, record, return. *)
Definition libusb (c : Call) : M Reply :=
  fun s =>
    let r := bk (trace s) c in
    Some (r, record_event c r s).

(** ** Device path encoder *)

(** The [for] loop that appends all but the last port number. *)
Definition append_ports (devicePath : string) (portNumbers : list Z) (count : Z) : string :=
  fold_left
    (fun devicePath i => devicePath +:+ to_string (to_uint8 (portNumbers !!! i)) +:+ ".")
    (seq 0 (Z.to_nat (count - 1))) devicePath.

(** libusb_get_port_numbers returns the number of ports written or
    LIBUSB_ERROR_OVERFLOW; the array cells are read from the reply. *)
Definition getLibusbDevicePath (dev : Z) : M string :=
  let devicePath := "" in
  b <- libusb (libusb_get_bus_number dev) ;;
  let bus := to_uint8 (val b) in
  let devicePath := devicePath +:+ to_string bus +:+ "." in
  p <- libusb (libusb_get_port_numbers dev MAXIMUM_PORT_NUMBERS) ;;
  let portNumbers := data p in
  let count := rc p in
  if count =? LIBUSB_ERROR_OVERFLOW then ret "<error>"
  else if count =? 0 then ret devicePath
  else
    let devicePath := append_ports devicePath portNumbers count in
    ret (devicePath +:+ to_string (to_uint8 (portNumbers !!! Z.to_nat (count - 1)))).

(** ** MxId cache *)

(** Modelled from the spec: usb_mx_id.cpp is not under src/.  Section 4.2:
    init-for-sweep invalidates all entries. *)
Definition usb_mx_id_cache_init : M unit :=
  modify (fun s =>
    set_list_mx_id
      (map (fun e => {| entry_path := entry_path e;
                        entry_mx_id := entry_mx_id e;
                        entry_valid := false |}) (list_mx_id s)) s).

Definition entry_matches (path : string) (e : MxIdListEntry) : bool :=
  entry_valid e && String.eqb (entry_path e) path.

(** Modelled from the spec: usb_mx_id.cpp is not under src/.  Section 4.2:
    lookup returns the cached serial for an exactly-matching path, or
    misses. *)
Definition usb_mx_id_cache_get_entry (path : string) : M (option string) :=
  s <- get_state ;;
  ret (option_map entry_mx_id (find (entry_matches path) (list_mx_id s))).

(** Modelled from the spec: usb_mx_id.cpp is not under src/.  Section 4.2:
    store puts the pair into the first empty slot and returns that slot,
    or reports that the cache is full (a negative index for the caller's
    [cache_index >= 0] test). *)
Definition usb_mx_id_cache_store_entry (mx_id path : string) : M Z :=
  s <- get_state ;;
  match list_find (fun e => entry_valid e = false) (list_mx_id s) with
  | Some (i, _) =>
      modify (set_list_mx_id
                (<[i := {| entry_path := path; entry_mx_id := mx_id;
                           entry_valid := true |}]> (list_mx_id s))) ;;;
      ret (Z.of_nat i)
  | None => ret (-1)
  end.

(** ** MxId acquisition protocol *)

Record libusb_device_descriptor : Type := {
  bcdUSB : Z;
  idVendor : Z;
  idProduct : Z;
  iSerialNumber : Z
}.

(** [uint8_t rbuf[128]] after a bulk read delivered [bytes]; cells the
    transfer did not write are indeterminate in C and zero here. *)
Definition rbuf_of (bytes : list Z) : list Z :=
  take 128 (map to_uint8 bytes ++ replicate 128 0).

(** [rbuf[8] &= 0xF0] followed by the [sprintf] loop over 9 bytes; the
    loop needs 19 characters of [mxId]. *)
Definition mxid_hex (rbuf : list Z) (mxId : string) : string :=
  let rbuf := <[8%nat := Z.land (rbuf !!! 8%nat) 0xF0]> rbuf in
  fold_left
    (fun mxId i => sprintf_at mxId (2 * i) (fmt_02X (rbuf !!! i)))
    (seq 0 9) mxId.

(** The [continue] of the retry loop: sleep, keep the error code. *)
Definition retry_after_sleep (libusb_rc : Z) (mxId : string) : M (Z * string) :=
  libusb (sleep_for SLEEP_BETWEEN_RETRIES) ;;;
  ret (libusb_rc, mxId).

(** Loop body, UNBOOTED branch, from the interface claim on. *)
Definition mxid_exchange (mxId : string) : M (Z * string) :=
  c <- libusb (libusb_claim_interface 0) ;;
  if rc c <? 0 then retry_after_sleep (rc c) mxId
  else
    let send_ep := 0x01 in
    w <- libusb (libusb_bulk_transfer send_ep usb_mx_id_get_payload_size MX_ID_TIMEOUT_MS) ;;
    if (rc w <? 0) || negb (usb_mx_id_get_payload_size =? val w)
    then retry_after_sleep (-1) mxId
    else
      let recv_ep := 0x81 in
      let expectedMxIdReadSize := 9 in
      r <- libusb (libusb_bulk_transfer recv_ep 128 MX_ID_TIMEOUT_MS) ;;
      let rbuf := rbuf_of (data r) in
      if (rc r <? 0) || negb (expectedMxIdReadSize =? val r)
      then retry_after_sleep (-1) mxId
      else
        e <- libusb (libusb_bulk_transfer send_ep usb_mx_id_get_payload_end_size MX_ID_TIMEOUT_MS) ;;
        if (rc e <? 0) || negb (usb_mx_id_get_payload_end_size =? val e)
        then retry_after_sleep (-1) mxId
        else
          libusb (libusb_release_interface 0) ;;;
          ret (0, mxid_hex rbuf mxId).

(** Loop body, UNBOOTED branch. *)
Definition mxid_attempt_unbooted (mxId : string) : M (Z * string) :=
  g <- libusb libusb_get_configuration ;;
  let active_configuration := val g in
  if rc g =? 0 then
    if negb (active_configuration =? 1) then
      sc <- libusb (libusb_set_configuration 1) ;;
      if rc sc <? 0 then retry_after_sleep (rc sc) mxId
      else mxid_exchange mxId
    else mxid_exchange mxId
  else retry_after_sleep (rc g) mxId.

(** Loop body, BOOTED and BOOTLOADER branch: the serial-number string
    descriptor, at most [sizeof(mxId) - 1] characters and a terminator. *)
Definition mxid_attempt_booted (pDesc : libusb_device_descriptor) (mxId : string) : M (Z * string) :=
  d <- libusb (libusb_get_string_descriptor_ascii (iSerialNumber pDesc)
                 (Z.of_nat XLINK_MAX_MX_ID_SIZE)) ;;
  if rc d <? 0 then retry_after_sleep (rc d) mxId
  else ret (0, c_str (take (XLINK_MAX_MX_ID_SIZE - 1) (data d))).

Definition mxid_attempt (state : XLinkDeviceState_t) (pDesc : libusb_device_descriptor)
    (mxId : string) : M (Z * string) :=
  match state with
  | X_LINK_UNBOOTED => mxid_attempt_unbooted mxId
  | _ => mxid_attempt_booted pDesc mxId
  end.

(** [do { .. } while (libusb_rc != 0 && now() - t1 < RETRY_TIMEOUT)];
    the clock is read only when the attempt failed. *)
Fixpoint mxid_retry_loop (fuel : nat) (state : XLinkDeviceState_t)
    (pDesc : libusb_device_descriptor) (t1 : Z) (mxId : string) : M (Z * string) :=
  match fuel with
  | O => out_of_fuel
  | S fuel' =>
      a <- mxid_attempt state pDesc mxId ;;
      let libusb_rc := fst a in
      let mxId := snd a in
      if libusb_rc =? 0 then ret (libusb_rc, mxId)
      else
        now <- libusb steady_clock_now ;;
        if val now - t1 <? RETRY_TIMEOUT
        then mxid_retry_loop fuel' state pDesc t1 mxId
        else ret (libusb_rc, mxId)
  end.

(** Returns the [libusb_error] and the value left in [outMxId]. *)
Definition getLibusbDeviceMxId (fuel : nat) (state : XLinkDeviceState_t)
    (devicePath : string) (pDesc : libusb_device_descriptor) (dev : Z) : M (Z * string) :=
  let mxId := "" in
  let outMxId := "" in
  found <- usb_mx_id_cache_get_entry devicePath ;;
  match found with
  | Some mxId => ret (LIBUSB_SUCCESS, mxId)
  | None =>
      o <- libusb (libusb_open dev) ;;
      if rc o <? 0 then ret (rc o, outMxId)
      else
        t1 <- libusb steady_clock_now ;;
        a <- mxid_retry_loop fuel state pDesc (val t1) mxId ;;
        let libusb_rc := fst a in
        let mxId := snd a in
        libusb libusb_close ;;;
        if negb (libusb_rc =? 0) then ret (libusb_rc, outMxId)
        else
          usb_mx_id_cache_store_entry mxId devicePath ;;;
          ret (LIBUSB_SUCCESS, mxId)
  end.

(** ** Enumerator *)

Definition vidPidToDeviceState (vidpid : Z * Z) : option XLinkDeviceState_t :=
  let '(vid, pid) := vidpid in
  if (vid =? 0x03E7) && (pid =? 0x2485) then Some X_LINK_UNBOOTED
  else if (vid =? 0x03E7) && (pid =? 0xf63b) then Some X_LINK_BOOTED
  else if (vid =? 0x03E7) && (pid =? 0xf63c) then Some X_LINK_BOOTLOADER
  else None.

(** The descriptor libusb_get_device_descriptor fills in, with the
    fields in the order of the reply words this file reads. *)
Definition descriptor_of (r : Reply) : libusb_device_descriptor :=
  {| bcdUSB := to_uint16 (data r !!! 0%nat);
     idVendor := to_uint16 (data r !!! 1%nat);
     idProduct := to_uint16 (data r !!! 2%nat);
     iSerialNumber := to_uint8 (data r !!! 3%nat) |}.

(** The [switch] on the MxId result. *)
Definition status_of_rc (rc : Z) : XLinkError_t :=
  if rc =? LIBUSB_SUCCESS then X_LINK_SUCCESS
  else if rc =? LIBUSB_ERROR_ACCESS then X_LINK_INSUFFICIENT_PERMISSIONS
  else X_LINK_ERROR.

(** How one pass through the body of the device loop ends. *)
Inductive LoopExit : Type :=
| Continue
| Break
| Filled (d : deviceDesc_t).

(** Second half of the loop body, from "Get device mxid" on: acquire the
    MxId, turn its result into the record status, apply the MxId filter
    and fill the record. *)
Definition report_device (fuel : nat) (in_deviceRequirements : deviceDesc_t)
    (state : XLinkDeviceState_t) (devicePath : string)
    (desc : libusb_device_descriptor) (dev : Z) : M LoopExit :=
  m <- getLibusbDeviceMxId fuel state devicePath desc dev ;;
  let mxId := snd m in
  let status := status_of_rc (fst m) in
  let requiredMxId := mxid in_deviceRequirements in
  if (0 <? String.length requiredMxId)%nat && negb (String.eqb requiredMxId mxId)
  then ret Continue
  else
    ret (Filled {| status := status;
                   platform := X_LINK_MYRIAD_X;
                   protocol := X_LINK_USB_VSC;
                   state := state;
                   name := strncpy XLINK_MAX_NAME_SIZE devicePath;
                   mxid := strncpy XLINK_MAX_MX_ID_SIZE mxId |}).

(** The loop body: select the candidate, then report it. *)
Definition visit_device (fuel : nat) (in_deviceRequirements : deviceDesc_t)
    (sizeFoundDevices : Z) (numDevicesFound : Z) (dev : Z) : M LoopExit :=
  let requiredState := state in_deviceRequirements in
  if dev =? 0 then ret Continue
  else if numDevicesFound >=? sizeFoundDevices then ret Break
  else
    res <- libusb (libusb_get_device_descriptor dev) ;;
    if rc res <? 0 then ret Continue
    else
      let desc := descriptor_of res in
      let vidpid := (idVendor desc, idProduct desc) in
      match vidPidToDeviceState vidpid with
      | None => ret Continue
      | Some state =>
          if negb (XLinkDeviceState_eqb requiredState X_LINK_ANY_STATE)
             && negb (XLinkDeviceState_eqb state requiredState)
          then ret Continue
          else
            devicePath <- getLibusbDevicePath dev ;;
            let requiredName := name in_deviceRequirements in
            if (0 <? String.length requiredName)%nat && negb (String.eqb requiredName devicePath)
            then ret Continue
            else report_device fuel in_deviceRequirements state devicePath desc dev
      end.

(** The [for] loop over [devs]; [found] is the written prefix of
    [out_foundDevices], so [numDevicesFound] is its length. *)
Fixpoint devices_loop (fuel : nat) (in_deviceRequirements : deviceDesc_t)
    (sizeFoundDevices : Z) (devs : list Z) (found : list deviceDesc_t)
    : M (list deviceDesc_t) :=
  match devs with
  | [] => ret found
  | dev :: devs' =>
      x <- visit_device fuel in_deviceRequirements sizeFoundDevices
             (Z.of_nat (List.length found)) dev ;;
      match x with
      | Continue => devices_loop fuel in_deviceRequirements sizeFoundDevices devs' found
      | Break => ret found
      | Filled d =>
          devices_loop fuel in_deviceRequirements sizeFoundDevices devs' (found ++ [d])
      end
  end.

(** What getUSBDevices leaves behind: the return code, the records
    written to [out_foundDevices] and the value stored through
    [out_amountOfFoundDevices], if any. *)
Record Enumeration : Type := {
  enum_rc : xLinkPlatformErrorCode_t;
  out_foundDevices : list deviceDesc_t;
  out_amountOfFoundDevices : option Z
}.

Definition getUSBDevices (fuel : nat) (in_deviceRequirements : deviceDesc_t)
    (sizeFoundDevices : Z) : M Enumeration :=
  l <- libusb libusb_get_device_list ;;
  let numDevices := rc l in
  if numDevices <? 0 then
    ret {| enum_rc := X_LINK_PLATFORM_ERROR; out_foundDevices := [];
           out_amountOfFoundDevices := None |}
  else
    let devs := take (Z.to_nat numDevices) (data l) in
    usb_mx_id_cache_init ;;;
    found <- devices_loop fuel in_deviceRequirements sizeFoundDevices devs [] ;;
    libusb libusb_free_device_list ;;;
    let numDevicesFound := Z.of_nat (List.length found) in
    ret {| enum_rc := X_LINK_PLATFORM_SUCCESS; out_foundDevices := found;
           out_amountOfFoundDevices := Some (to_unsigned numDevicesFound) |}.

(** ** Firmware boot transfer *)

Record libusb_endpoint_descriptor : Type := {
  bEndpointAddress : Z;
  bmAttributes : Z;
  wMaxPacketSize : Z
}.

(** The endpoint array of the first alternate setting, three reply
    words per endpoint. *)
Fixpoint endpoints_of (words : list Z) : list libusb_endpoint_descriptor :=
  match words with
  | a :: b :: m :: rest =>
      {| bEndpointAddress := to_uint8 a; bmAttributes := to_uint8 b;
         wMaxPacketSize := to_uint16 m |} :: endpoints_of rest
  | _ => []
  end.

(** The scan for the first bulk OUT endpoint. *)
Fixpoint find_bulk_out (eps : list libusb_endpoint_descriptor)
    : option libusb_endpoint_descriptor :=
  match eps with
  | [] => None
  | ep :: eps' =>
      if negb (Z.land (bmAttributes ep) LIBUSB_TRANSFER_TYPE_MASK =? LIBUSB_TRANSFER_TYPE_BULK)
      then find_bulk_out eps'
      else if Z.land (bEndpointAddress ep) LIBUSB_ENDPOINT_DIR_MASK =? 0
      then Some ep
      else find_bulk_out eps'
  end.

(** Returns the endpoint written through [endpoint] when a handle is
    returned, [None] for the null handle. *)
Definition usb_open_device (dev : Z) : M (option Z) :=
  o <- libusb (libusb_open dev) ;;
  if rc o <? 0 then ret None
  else
    g <- libusb libusb_get_configuration ;;
    let active_configuration := val g in
    if rc g <? 0 then libusb libusb_close ;;; ret None
    else
      let claim :=
        c <- libusb (libusb_claim_interface 0) ;;
        if rc c <? 0 then libusb libusb_close ;;; ret None
        else
          cd <- libusb (libusb_get_config_descriptor dev 0) ;;
          if rc cd <? 0 then libusb libusb_close ;;; ret None
          else
            match find_bulk_out (endpoints_of (data cd)) with
            | Some ep =>
                modify (set_bulk_chunklen (wMaxPacketSize ep)) ;;;
                libusb libusb_free_config_descriptor ;;;
                ret (Some (bEndpointAddress ep))
            | None =>
                libusb libusb_free_config_descriptor ;;;
                libusb libusb_close ;;;
                ret None
            end in
      if negb (active_configuration =? 1) then
        sc <- libusb (libusb_set_configuration 1) ;;
        if rc sc <? 0 then libusb libusb_close ;;; ret None
        else claim
      else claim.

(** The [while] loop of send_file.  [Some r] is a [return r] from inside
    the loop, [None] leaves the loop ([break] or a false condition). *)
Fixpoint send_file_loop (fuel : nat) (endpoint : Z) (filesize : Z) (send_zlp : bool)
    (bulk_chunklen : Z) (t1 : Z) (twb : Z) : M (option Z) :=
  match fuel with
  | O => out_of_fuel
  | S fuel' =>
      if (to_unsigned twb <? filesize) || send_zlp then
        let wb := to_int (to_unsigned (filesize - to_unsigned twb)) in
        let wb := if wb >? bulk_chunklen then bulk_chunklen else wb in
        x <- libusb (libusb_bulk_transfer endpoint wb write_timeout) ;;
        let wbr := val x in
        if (negb (rc x =? 0) || negb (wb =? wbr)) && negb (wb =? 0) then
          if rc x =? LIBUSB_ERROR_NO_DEVICE then ret None
          else if rc x =? LIBUSB_ERROR_TIMEOUT then ret (Some USB_BOOT_TIMEOUT)
          else ret (Some USB_BOOT_ERROR)
        else
          now <- libusb steady_clock_now ;;
          if val now - t1 >? DEFAULT_SEND_FILE_TIMEOUT then ret (Some USB_BOOT_TIMEOUT)
          else if wb =? 0 then ret None
          else send_file_loop fuel' endpoint filesize send_zlp bulk_chunklen t1
                 (to_int (twb + wbr))
      else ret None
  end.

(** The block under [#ifndef NDEBUG] that follows the loop: the
    throughput and the log line read the clock once each.  The text of
    the log line is not modelled. *)
Definition send_file_debug_log : M unit :=
  if NDEBUG then ret tt
  else
    libusb steady_clock_now ;;;
    libusb steady_clock_now ;;;
    ret tt.

(** The local [bulk_chunklen] hides the file-scope variable of the same
    name, as in the source.  A [return] from inside the loop skips the
    block under [#ifndef NDEBUG]. *)
Definition send_file (fuel : nat) (endpoint : Z) (filesize : Z) (bcdusb : Z) : M Z :=
  let bulk_chunklen := to_int DEFAULT_CHUNKSZ in
  let twb := 0 in
  let send_zlp := filesize mod 512 =? 0 in
  let bulk_chunklen := if bcdusb <? 0x200 then USB1_CHUNKSZ else bulk_chunklen in
  t1 <- libusb steady_clock_now ;;
  r <- send_file_loop fuel endpoint filesize send_zlp bulk_chunklen (val t1) twb ;;
  match r with
  | Some code => ret code
  | None =>
      send_file_debug_log ;;;
      ret 0
  end.

(** ** Closing a link (USE_USB_VSC configuration) *)

Definition usbLinkClose : M unit :=
  libusb (libusb_release_interface 0) ;;;
  libusb libusb_close ;;;
  ret tt.

Definition usbPlatformClose : M Z :=
  usbLinkClose ;;;
  ret (-1).

(** ** Bulk data pipe *)

Fixpoint usb_read (fuel : nat) (size : Z) : M Z :=
  match fuel with
  | O => out_of_fuel
  | S fuel' =>
      let chunk_size := to_int DEFAULT_CHUNKSZ in
      if size >? 0 then
        let ss := to_int size in
        let ss := if ss >? chunk_size then chunk_size else ss in
        x <- libusb (libusb_bulk_transfer USB_ENDPOINT_IN ss XLINK_USB_DATA_TIMEOUT) ;;
        let bt := val x in
        if negb (rc x =? 0) then ret (rc x)
        else usb_read fuel' (to_size_t (size - bt))
      else ret 0
  end.

Fixpoint usb_write (fuel : nat) (size : Z) : M Z :=
  match fuel with
  | O => out_of_fuel
  | S fuel' =>
      let chunk_size := to_int DEFAULT_CHUNKSZ in
      if size >? 0 then
        let ss := to_int size in
        let ss := if ss >? chunk_size then chunk_size else ss in
        x <- libusb (libusb_bulk_transfer USB_ENDPOINT_OUT ss XLINK_USB_DATA_TIMEOUT) ;;
        let bt := val x in
        if negb (rc x =? 0) then ret (rc x)
        else usb_write fuel' (to_size_t (size - bt))
      else ret 0
  end.

End Host.

(** * Observations on traces *)

(** The lengths requested by the bulk transfers of a trace, in order. *)
Fixpoint bulk_lengths (evs : list Event) : list Z :=
  match evs with
  | [] => []
  | e :: evs' =>
      match ev_call e with
      | libusb_bulk_transfer _ len _ => len :: bulk_lengths evs'
      | _ => bulk_lengths evs'
      end
  end.

(** The bytes the backend reports as moved by the bulk transfers of a
    trace. *)
Fixpoint bytes_transferred (evs : list Event) : Z :=
  match evs with
  | [] => 0
  | e :: evs' =>
      match ev_call e with
      | libusb_bulk_transfer _ _ _ => val (ev_reply e) + bytes_transferred evs'
      | _ => bytes_transferred evs'
      end
  end.

(** The time a trace spent in [sleep_for]. *)
Fixpoint slept (evs : list Event) : Z :=
  match evs with
  | [] => 0
  | e :: evs' =>
      match ev_call e with
      | sleep_for ns => ns + slept evs'
      | _ => slept evs'
      end
  end.

(** A clock that does not stand still while the caller sleeps: between
    two readings at least the time slept in between has passed. *)
Definition steady_clock (bk : Backend) : Prop :=
  forall h h' : list Event,
    slept h' <= val (bk (h ++ h') steady_clock_now) - val (bk h steady_clock_now).

Definition is_open (c : Call) : bool :=
  match c with
  | libusb_open _ => true
  | _ => false
  end.

(** How often a device was opened in a trace. *)
Definition opens (evs : list Event) : nat :=
  List.length (filter (fun e => is_open (ev_call e)) evs).

(** A bulk transfer that moved exactly what was asked for; a backend
    moves a non-negative number of bytes. *)
Definition transfer_ok (e : Event) : Prop :=
  match ev_call e with
  | libusb_bulk_transfer _ len _ =>
      rc (ev_reply e) = 0 /\ val (ev_reply e) = len /\ 0 <= len
  | _ => True
  end.

(** A clock reading that is within the send deadline counted from [t1]. *)
Definition within_deadline (t1 : Z) (e : Event) : Prop :=
  match ev_call e with
  | steady_clock_now => val (ev_reply e) - t1 <= DEFAULT_SEND_FILE_TIMEOUT
  | _ => True
  end.

(** A chunk transfer of send_file that failed: a non-zero return code or
    a short write, on a chunk that is not the zero-length packet. *)
Definition chunk_failed (e : Event) : Prop :=
  match ev_call e with
  | libusb_bulk_transfer _ wb _ =>
      (rc (ev_reply e) <> 0 \/ val (ev_reply e) <> wb) /\ wb <> 0
  | _ => False
  end.

(** A transfer of the data pipe: the given endpoint, at most [chunk]
    bytes, no timeout. *)
Definition pipe_transfer (ep chunk : Z) (e : Event) : Prop :=
  exists ss, ev_call e = libusb_bulk_transfer ep ss XLINK_USB_DATA_TIMEOUT /\ ss <= chunk.

(** The backend kept its contract: it moved between nothing and what
    was asked for. *)
Definition transferred_in_range (e : Event) : Prop :=
  match ev_call e with
  | libusb_bulk_transfer _ len _ => 0 <= val (ev_reply e) <= len
  | _ => True
  end.

(** The length send_file asks for when [twb] bytes are written. *)
Definition next_chunk (filesize chunk twb : Z) : Z :=
  let wb := to_int (to_unsigned (filesize - to_unsigned twb)) in
  if wb >? chunk then chunk else wb.

Definition is_upper_hex (c : ascii) : bool :=
  let n := nat_of_ascii c in
  ((48 <=? n) && (n <=? 57) || (65 <=? n) && (n <=? 70))%nat.

Fixpoint all_chars (p : ascii -> bool) (s : string) : bool :=
  match s with
  | EmptyString => true
  | String c s' => p c && all_chars p s'
  end.

(** The rendering the interface description asks for: byte 8 masked
    with 0xF0, every byte as two uppercase hexadecimal digits. *)
Definition render_mxid (bytes : list Z) : string :=
  String.concat "" (map fmt_02X (<[8%nat := Z.land (bytes !!! 8%nat) 0xF0]> bytes)).

(** The bulk read of the MxId exchange, answered with [r]. *)
Definition mxid_read (r : Reply) : Event :=
  {| ev_call := libusb_bulk_transfer 0x81 128 MX_ID_TIMEOUT_MS; ev_reply := r |}.

(** What one attempt on an unbooted device leaves: a non-zero code and
    the buffer untouched, or 0 and the rendering of a 9-byte read. *)
Definition attempt_outcome (mxId : string) (code : Z) (m : string) (evs : list Event) : Prop :=
  (code <> 0 /\ m = mxId) \/
  (code = 0 /\
   exists r, In (mxid_read r) evs /\ val r = 9 /\ m = mxid_hex (rbuf_of (data r)) mxId).

(** The slot a stored pair occupies. *)
Definition stored (mx_id path : string) : MxIdListEntry :=
  {| entry_path := path; entry_mx_id := mx_id; entry_valid := true |}.

(** A failed chunk transfer is the last event of a run and decides the
    way the loop is left. *)
Definition failure_verdict (USB_BOOT_ERROR USB_BOOT_TIMEOUT : Z)
    (r : option Z) (evs : list Event) : Prop :=
  forall pre e post,
    evs = pre ++ e :: post -> chunk_failed e ->
    post = [] /\
    (rc (ev_reply e) = LIBUSB_ERROR_NO_DEVICE -> r = None) /\
    (rc (ev_reply e) = LIBUSB_ERROR_TIMEOUT -> r = Some USB_BOOT_TIMEOUT) /\
    (rc (ev_reply e) <> LIBUSB_ERROR_NO_DEVICE ->
     rc (ev_reply e) <> LIBUSB_ERROR_TIMEOUT -> r = Some USB_BOOT_ERROR).

(** A run without errors and within the deadline writes what is left of
    the image in positive chunks, then the zero-length packet if asked. *)
Definition clean_totals (filesize : Z) (send_zlp : bool) (t1 : Z)
    (twb : Z) (r : option Z) (evs : list Event) : Prop :=
  Forall transfer_ok evs -> Forall (within_deadline t1) evs ->
  r = None /\
  bytes_transferred evs = filesize - to_unsigned twb /\
  exists chunks,
    bulk_lengths evs = chunks ++ (if send_zlp then [0] else []) /\
    Forall (fun c => 0 < c) chunks.

(** usb_read and usb_write are the same loop on two endpoints. *)
Fixpoint pipe_loop (bk : Backend) (DEFAULT_CHUNKSZ : Z) (ep : Z) (fuel : nat) (size : Z)
    : M Z :=
  match fuel with
  | O => out_of_fuel
  | S fuel' =>
      if size >? 0 then
        let ss := to_int size in
        let ss := if ss >? to_int DEFAULT_CHUNKSZ then to_int DEFAULT_CHUNKSZ else ss in
        x <- libusb bk (libusb_bulk_transfer ep ss XLINK_USB_DATA_TIMEOUT) ;;
        if negb (rc x =? 0) then ret (rc x)
        else pipe_loop bk DEFAULT_CHUNKSZ ep fuel' (to_size_t (size - val x))
      else ret 0
  end.

(** The filter of the enumerator, as a property of a record. *)
Definition passes_filter (F d : deviceDesc_t) : Prop :=
  (state F = X_LINK_ANY_STATE \/ state F = state d) /\
  (name F = "" \/ name F = name d) /\
  (mxid F = "" \/ mxid F = mxid d).

(** A path as the interface description writes it: decimal components
    joined by dots. *)
Definition join_dots (components : list Z) : string :=
  String.concat "." (map to_string components).

(** How many events of a trace satisfy a test. *)
Fixpoint count_events (p : Event -> bool) (evs : list Event) : nat :=
  match evs with
  | [] => O
  | e :: evs' => if p e then S (count_events p evs') else count_events p evs'
  end.

(** libusb_open calls that handed out a handle. *)
Definition opened_handle (e : Event) : bool :=
  match ev_call e with
  | libusb_open _ => negb (rc (ev_reply e) <? 0)
  | _ => false
  end.

Definition closed_handle (e : Event) : bool :=
  match ev_call e with
  | libusb_close => true
  | _ => false
  end.

(** An endpoint the boot transfer can use: bulk, and host to device. *)
Definition is_bulk_out (ep : libusb_endpoint_descriptor) : bool :=
  (Z.land (bmAttributes ep) LIBUSB_TRANSFER_TYPE_MASK =? LIBUSB_TRANSFER_TYPE_BULK)
  && (Z.land (bEndpointAddress ep) LIBUSB_ENDPOINT_DIR_MASK =? 0).

(** Calls that fetch or free the device list. *)
Definition is_list_call (c : Call) : bool :=
  match c with
  | libusb_get_device_list | libusb_free_device_list => true
  | _ => false
  end.

(** libusb_get_device_list calls that handed out a list. *)
Definition listed_devices (e : Event) : bool :=
  match ev_call e with
  | libusb_get_device_list => negb (rc (ev_reply e) <? 0)
  | _ => false
  end.

Definition freed_devices (e : Event) : bool :=
  match ev_call e with
  | libusb_free_device_list => true
  | _ => false
  end.

(** A stretch of a trace that closed every handle it opened and left
    the device list alone. *)
Definition balanced (evs : list Event) : Prop :=
  count_events closed_handle evs = count_events opened_handle evs /\
  Forall (fun e => is_list_call (ev_call e) = false) evs.

(** What every record written by the enumerator has in common. *)
Definition sound_record (NAME_SIZE MXID_SIZE : nat) (d : deviceDesc_t) : Prop :=
  platform d = X_LINK_MYRIAD_X /\
  protocol d = X_LINK_USB_VSC /\
  state d <> X_LINK_ANY_STATE /\
  (String.length (name d) <= NAME_SIZE)%nat /\
  (String.length (mxid d) <= MXID_SIZE)%nat /\
  (status d <> X_LINK_SUCCESS -> mxid d = "").

(** * The platform entry points of the data pipe (USE_USB_VSC)

    [int size] becomes the [size_t] parameter of usb_read and usb_write. *)

Section PlatformPipe.

Variable bk : Backend.
Variable DEFAULT_CHUNKSZ : Z.

Definition usbPlatformRead (fuel : nat) (size : Z) : M Z :=
  let rc := 0 in
  rc <- usb_read bk DEFAULT_CHUNKSZ fuel (to_size_t size) ;;
  ret rc.

Definition usbPlatformWrite (fuel : nat) (size : Z) : M Z :=
  let rc := 0 in
  rc <- usb_write bk DEFAULT_CHUNKSZ fuel (to_size_t size) ;;
  ret rc.

End PlatformPipe.

(** * Device references, links and boot

    libusb_ref_device, libusb_unref_device, libusb_detach_kernel_driver
    and libusb_control_transfer are calls whose result this file never
    reads.  They are logged, in the order made, in a list of their own
    next to the program state; the answers of the backend do not depend
    on them. *)

Inductive HostOp : Type :=
| libusb_ref_device (dev : Z)
| libusb_unref_device (dev : Z)
| libusb_detach_kernel_driver (interface_number : Z)
| libusb_control_transfer (bmRequestType bRequest wValue wIndex wLength timeout : Z).

Record HostState : Type := {
  usb_state : State;
  host_ops : list HostOp
}.

Definition HM (A : Type) : Type := HostState -> option (A * HostState).

Definition retH {A : Type} (a : A) : HM A := fun h => Some (a, h).

Definition bindH {A B : Type} (m : HM A) (k : A -> HM B) : HM B :=
  fun h => match m h with
           | Some (a, h') => k a h'
           | None => None
           end.

Definition out_of_fuelH {A : Type} : HM A := fun _ => None.

(** A computation on the program state, run inside the larger state. *)
Definition lift {A : Type} (m : M A) : HM A :=
  fun h => match m (usb_state h) with
           | Some (a, s') => Some (a, {| usb_state := s'; host_ops := host_ops h |})
           | None => None
           end.

Definition host_op (o : HostOp) : HM unit :=
  fun h => Some (tt, {| usb_state := usb_state h; host_ops := host_ops h ++ [o] |}).

Declare Scope host_scope.
Delimit Scope host_scope with host.
Notation "x <- m ;; k" := (bindH m (fun x => k))
  (at level 100, m at next level, right associativity) : host_scope.
Notation "m ;;; k" := (bindH m (fun _ => k))
  (at level 100, right associativity) : host_scope.

(** Durations of [std::chrono], in nanoseconds. *)
Definition DEFAULT_OPEN_TIMEOUT : Z := 5 * 1000000000.
Definition DEFAULT_CONNECT_TIMEOUT : Z := 20000 * 1000000.



Section Links.

#[local] Open Scope host_scope.

Variable bk : Backend.

(** Constants of headers that are not part of this translation unit;
    [platform_code] is the [int] value of an [xLinkPlatformErrorCode_t]. *)
Variable DEFAULT_CHUNKSZ : Z.
Variable USB_BOOT_ERROR : Z.
Variable USB_BOOT_TIMEOUT : Z.
Variable platform_code : xLinkPlatformErrorCode_t -> Z.

(** The build, as for send_file. *)
Variable NDEBUG : bool.

(** The [for] loop of refLibusbDeviceByName; the result is [found] and
    the value of [*pdev]. *)
Fixpoint ref_device_loop (name : string) (devs : list Z) (pdev : Z) : HM (bool * Z) :=
  match devs with
  | [] => retH (false, pdev)
  | dev :: devs' =>
      if dev =? 0 then ref_device_loop name devs' pdev
      else
        devicePath <- lift (getLibusbDevicePath bk dev) ;;
        let requiredName := name in
        if (0 <? String.length requiredName)%nat && String.eqb requiredName devicePath
        then
          host_op (libusb_ref_device dev) ;;;
          retH (true, dev)
        else ref_device_loop name devs' pdev
  end.

(** Returns the code and the value of [*pdev], which the caller passes
    in as it was. *)
Definition refLibusbDeviceByName (name : string) (pdev : Z)
    : HM (xLinkPlatformErrorCode_t * Z) :=
  l <- lift (libusb bk libusb_get_device_list) ;;
  let numDevices := rc l in
  if numDevices <? 0 then retH (X_LINK_PLATFORM_ERROR, pdev)
  else
    let devs := take (Z.to_nat numDevices) (data l) in
    r <- ref_device_loop name devs pdev ;;
    let found := fst r in
    lift (libusb bk libusb_free_device_list) ;;;
    if negb found then retH (X_LINK_PLATFORM_DEVICE_NOT_FOUND, snd r)
    else retH (X_LINK_PLATFORM_SUCCESS, snd r).

Definition is_platform_success (c : xLinkPlatformErrorCode_t) : bool :=
  match c with
  | X_LINK_PLATFORM_SUCCESS => true
  | _ => false
  end.

(** First [do .. while] of usb_boot: look the device up, every 10 ms. *)
Fixpoint boot_find_loop (fuel : nat) (addr : string) (t1 : Z) (dev : Z) : HM Z :=
  match fuel with
  | O => out_of_fuelH
  | S fuel' =>
      r <- refLibusbDeviceByName addr dev ;;
      let dev := snd r in
      if is_platform_success (fst r) then retH dev
      else
        lift (libusb bk (sleep_for (10 * 1000000))) ;;;
        now <- lift (libusb bk steady_clock_now) ;;
        if val now - t1 <? DEFAULT_CONNECT_TIMEOUT
        then boot_find_loop fuel' addr t1 dev
        else retH dev
  end.

(** Second [do .. while] of usb_boot: open the device, every 100 ms.
    The result is the endpoint of the handle, or [None] for the null
    handle. *)
Fixpoint boot_open_loop (fuel : nat) (dev : Z) (t2 : Z) : HM (option Z) :=
  match fuel with
  | O => out_of_fuelH
  | S fuel' =>
      h <- lift (usb_open_device bk dev) ;;
      match h with
      | Some _ => retH h
      | None =>
          lift (libusb bk (sleep_for (100 * 1000000))) ;;;
          now <- lift (libusb bk steady_clock_now) ;;
          if val now - t2 <? DEFAULT_CONNECT_TIMEOUT
          then boot_open_loop fuel' dev t2
          else retH h
      end
  end.

Definition usb_boot (fuel : nat) (addr : string) (size : Z) : HM Z :=
  let dev := 0 in
  let bcdusb := to_uint16 (-1) in
  t1 <- lift (libusb bk steady_clock_now) ;;
  dev <- boot_find_loop fuel addr (val t1) dev ;;
  if dev =? 0 then retH (platform_code X_LINK_PLATFORM_DEVICE_NOT_FOUND)
  else
    t2 <- lift (libusb bk steady_clock_now) ;;
    h <- boot_open_loop fuel dev (val t2) ;;
    rc <- match h with
          | Some endpoint =>
              rc <- lift (send_file bk DEFAULT_CHUNKSZ USB_BOOT_ERROR USB_BOOT_TIMEOUT
                            NDEBUG fuel endpoint size bcdusb) ;;
              lift (libusb bk (libusb_release_interface 0)) ;;;
              lift (libusb bk libusb_close) ;;;
              retH rc
          | None => retH (platform_code X_LINK_PLATFORM_INSUFFICIENT_PERMISSIONS)
          end ;;
    (if negb (dev =? 0) then host_op (libusb_unref_device dev) else retH tt) ;;;
    retH rc.

(** The [do .. while] of usbLinkOpen, which polls without sleeping; the
    result is [found] and [dev]. *)
Fixpoint link_find_loop (fuel : nat) (path : string) (t1 : Z) (dev : Z) : HM (bool * Z) :=
  match fuel with
  | O => out_of_fuelH
  | S fuel' =>
      r <- refLibusbDeviceByName path dev ;;
      let dev := snd r in
      if is_platform_success (fst r) then retH (true, dev)
      else
        now <- lift (libusb bk steady_clock_now) ;;
        if val now - t1 <? DEFAULT_OPEN_TIMEOUT
        then link_find_loop fuel' path t1 dev
        else retH (false, dev)
  end.

(** [path] is [None] for a null pointer; the result is [true] for a
    handle and [false] for the null handle. *)
Definition usbLinkOpen (fuel : nat) (path : option string) : HM bool :=
  match path with
  | None => retH false
  | Some path =>
      let dev := 0 in
      t1 <- lift (libusb bk steady_clock_now) ;;
      r <- link_find_loop fuel path (val t1) dev ;;
      let found := fst r in
      let dev := snd r in
      if negb found then retH false
      else
        o <- lift (libusb bk (libusb_open dev)) ;;
        if rc o <? 0 then
          host_op (libusb_unref_device dev) ;;;
          retH false
        else
          host_op (libusb_unref_device dev) ;;;
          host_op (libusb_detach_kernel_driver 0) ;;;
          c <- lift (libusb bk (libusb_claim_interface 0)) ;;
          if rc c <? 0 then
            lift (libusb bk libusb_close) ;;;
            retH false
          else retH true
  end.


(** USE_USB_VSC configuration; the result is the return value and
    [*fd]. *)
Definition usbPlatformConnect (fuel : nat) (devPathRead devPathWrite : option string)
    : HM (Z * bool) :=
  fd <- usbLinkOpen fuel devPathWrite ;;
  if negb fd then retH (-1, fd)
  else if fd then retH (0, fd)
  else retH (-1, fd).

Definition usbPlatformBootFirmware (fuel : nat) (deviceDesc : deviceDesc_t) (length : Z)
    : HM Z :=
  rc <- usb_boot fuel (name deviceDesc) (to_unsigned length) ;;
  retH rc.

End Links.

(** The two queries getLibusbDevicePath makes. *)
Definition is_path_call (c : Call) : bool :=
  match c with
  | libusb_get_bus_number _ | libusb_get_port_numbers _ _ => true
  | _ => false
  end.

(** A state reached by making the calls [evs] and [os] and nothing
    else. *)
Definition advance (evs : list Event) (os : list HostOp) (h : HostState) : HostState :=
  {| usb_state := set_trace (trace (usb_state h) ++ evs) (usb_state h);
     host_ops := host_ops h ++ os |}.

(** Every handle opened was closed, and the device list was freed as
    often as it was obtained. *)
Definition resources_kept (evs : list Event) : Prop :=
  count_events closed_handle evs = count_events opened_handle evs /\
  count_events freed_devices evs = count_events listed_devices evs.

(** The calls of the send loop. *)
Definition is_transfer_call (c : Call) : bool :=
  match c with
  | libusb_bulk_transfer _ _ _ | steady_clock_now => true
  | _ => false
  end.

(** A call of the send loop: a bulk transfer to the given endpoint, of
    at most [chunk] bytes, with the write timeout; or a clock reading. *)
Definition send_call (endpoint chunk : Z) (e : Event) : Prop :=
  (exists wb, ev_call e = libusb_bulk_transfer endpoint wb write_timeout /\ wb <= chunk) \/
  ev_call e = steady_clock_now.

(** A clock reading beyond the send deadline counted from [t1]. *)
Definition past_deadline (t1 : Z) (e : Event) : Prop :=
  ev_call e = steady_clock_now /\ val (ev_reply e) - t1 > DEFAULT_SEND_FILE_TIMEOUT.

(** A zero-length bulk transfer. *)
Definition zero_length_packet (e : Event) : Prop :=
  exists ep t, ev_call e = libusb_bulk_transfer ep 0 t.

(** A bulk transfer of send_file that passed the check after it: it is
    no failed chunk. *)
Definition chunk_done (e : Event) : Prop :=
  (exists ep len t, ev_call e = libusb_bulk_transfer ep len t) /\ ~ chunk_failed e.

(** The calls of the serial-number branch of the MxId acquisition: the
    string descriptor request with the given index and buffer length,
    sleeps and clock readings. *)
Definition is_serial_call (desc_index len : Z) (c : Call) : bool :=
  match c with
  | libusb_get_string_descriptor_ascii i l => (i =? desc_index) && (l =? len)
  | sleep_for _ | steady_clock_now => true
  | _ => false
  end.

(** A string without the separator of the path. *)
Definition dot_free (s : string) : bool :=
  all_chars (fun c => negb (Ascii.eqb c ".")) s.

(** No device but [dev] is opened by this call. *)
Definition opens_only (dev : Z) (c : Call) : bool :=
  match c with
  | libusb_open d => d =? dev
  | _ => true
  end.

(** A descriptor reply that lets the enumerator go on with the device:
    it was read, its vendor and product are known, and the state they
    stand for is the one the filter asks for, if it asks for one. *)
Definition vetted (F : deviceDesc_t) (d : Reply) : Prop :=
  0 <= rc d /\
  exists st,
    vidPidToDeviceState (idVendor (descriptor_of d), idProduct (descriptor_of d)) = Some st /\
    (state F = X_LINK_ANY_STATE \/ st = state F).

(** Every libusb_open of a trace comes after a vetted descriptor of the
    same device. *)
Definition opens_vetted (F : deviceDesc_t) (evs : list Event) : Prop :=
  forall pre e post dev,
    evs = pre ++ e :: post -> ev_call e = libusb_open dev ->
    exists d,
      In {| ev_call := libusb_get_device_descriptor dev; ev_reply := d |} pre /\
      vetted F d.

(** The length usb_read and usb_write ask for when [size] bytes are
    left: the size as an [int], cut to the chunk size. *)
Definition pipe_request (DEFAULT_CHUNKSZ size : Z) : Z :=
  if to_int size >? to_int DEFAULT_CHUNKSZ then to_int DEFAULT_CHUNKSZ else to_int size.

(** What is left of a buffer of [size] bytes after the transfers of a
    trace: the [size_t] counted down by what each transfer reported. *)
Definition bytes_left (size : Z) (evs : list Event) : Z :=
  fold_left (fun left e => to_size_t (left - val (ev_reply e))) evs size.

(** The states a sweep passes through after [s]: it makes backend calls,
    which leave the MxId cache alone, and it acquires MxIds; it does not
    initialise the cache again. *)
Inductive sweep_steps (bk : Backend) (XLINK_MAX_MX_ID_SIZE : nat)
    (usb_mx_id_get_payload_size usb_mx_id_get_payload_end_size : Z)
    : State -> State -> Prop :=
| sweep_stays (s : State) :
    sweep_steps bk XLINK_MAX_MX_ID_SIZE usb_mx_id_get_payload_size
      usb_mx_id_get_payload_end_size s s
| sweep_calls (c : Call) (s s' : State) :
    sweep_steps bk XLINK_MAX_MX_ID_SIZE usb_mx_id_get_payload_size
      usb_mx_id_get_payload_end_size (record_event c (bk (trace s) c) s) s' ->
    sweep_steps bk XLINK_MAX_MX_ID_SIZE usb_mx_id_get_payload_size
      usb_mx_id_get_payload_end_size s s'
| sweep_acquires (fuel : nat) (state : XLinkDeviceState_t) (devicePath : string)
    (pDesc : libusb_device_descriptor) (dev : Z) (r : Z * string) (s s1 s' : State) :
    getLibusbDeviceMxId bk XLINK_MAX_MX_ID_SIZE usb_mx_id_get_payload_size
      usb_mx_id_get_payload_end_size fuel state devicePath pDesc dev s = Some (r, s1) ->
    sweep_steps bk XLINK_MAX_MX_ID_SIZE usb_mx_id_get_payload_size
      usb_mx_id_get_payload_end_size s1 s' ->
    sweep_steps bk XLINK_MAX_MX_ID_SIZE usb_mx_id_get_payload_size
      usb_mx_id_get_payload_end_size s s'.

(** * Scripted backends *)

Definition reply (a b : Z) (d : list Z) : Reply := {| rc := a; val := b; data := d |}.

Definition empty_cache : list MxIdListEntry :=
  replicate 16 {| entry_path := ""; entry_mx_id := ""; entry_valid := false |}.

Definition initial_state : State :=
  {| trace := []; list_mx_id := empty_cache; bulk_chunklen := 1048576 |}.

Definition no_filter : deviceDesc_t :=
  {| status := X_LINK_SUCCESS; platform := X_LINK_MYRIAD_X; protocol := X_LINK_USB_VSC;
     state := X_LINK_ANY_STATE; name := ""; mxid := "" |}.

(** Two unbooted devices; device 11 sits on bus 1 behind ports 2 and 3,
    device 12 is on bus 1 with no port chain.  Every transfer succeeds,
    the MxId read answers 12 34 56 78 9A BC DE F0 5A, the only endpoint
    is bulk OUT 0x01 with a max packet size of 512, and the clock
    advances by one tick per call and by the time slept. *)
Definition healthy_bus : Backend := fun h c =>
  match c with
  | libusb_get_device_list => reply 2 0 [11; 12]
  | libusb_get_device_descriptor _ => reply 0 0 [0x200; 0x03E7; 0x2485; 3]
  | libusb_get_bus_number _ => reply 0 1 []
  | libusb_get_port_numbers d _ => if d =? 11 then reply 2 0 [2; 3] else reply 0 0 []
  | libusb_get_configuration => reply 0 1 []
  | libusb_bulk_transfer ep len _ =>
      if ep =? 0x81
      then reply 0 9 [0x12; 0x34; 0x56; 0x78; 0x9A; 0xBC; 0xDE; 0xF0; 0x5A]
      else reply 0 len []
  | libusb_get_config_descriptor _ _ => reply 0 0 [0x01; 0x02; 512]
  | steady_clock_now => reply 0 (Z.of_nat (List.length h) + slept h) []
  | _ => reply 0 0 []
  end.

(** As [healthy_bus], but both list entries report the same topology
    (bus 1, ports 2) and so share the path 1.2. *)
Definition shared_path_bus : Backend := fun h c =>
  match c with
  | libusb_get_port_numbers _ _ => reply 1 0 [2]
  | _ => healthy_bus h c
  end.

(** As [healthy_bus], but opening a device is refused. *)
Definition locked_bus : Backend := fun h c =>
  match c with
  | libusb_open _ => reply LIBUSB_ERROR_ACCESS 0 []
  | _ => healthy_bus h c
  end.

(** As [healthy_bus], but every bulk transfer fails with the given code
    after moving nothing. *)
Definition failing_bus (code : Z) : Backend := fun h c =>
  match c with
  | libusb_bulk_transfer _ _ _ => reply code 0 []
  | _ => healthy_bus h c
  end.

(** As [healthy_bus], but every bulk transfer takes 1.9 seconds (less
    than the write timeout of 2 seconds), which is all the clock shows. *)
Definition slow_bus : Backend := fun h c =>
  match c with
  | steady_clock_now =>
      reply 0 (1900 * 1000000 * Z.of_nat (List.length (bulk_lengths h))) []
  | _ => healthy_bus h c
  end.

(** As [healthy_bus], but every bulk transfer succeeds without moving a
    byte. *)
Definition stalled_bus : Backend := fun h c =>
  match c with
  | libusb_bulk_transfer _ _ _ => reply 0 0 []
  | _ => healthy_bus h c
  end.

(** As [healthy_bus], but the clock stands at 0 for the first three
    calls and at 11 seconds from then on. *)
Definition lagging_bus : Backend := fun h c =>
  match c with
  | steady_clock_now =>
      reply 0 (if (3 <=? List.length h)%nat then 11000 * 1000000 else 0) []
  | _ => healthy_bus h c
  end.

(** Values for the [int] behind the platform codes, for the scripted
    runs. *)
Definition sample_platform_code (c : xLinkPlatformErrorCode_t) : Z :=
  match c with
  | X_LINK_PLATFORM_SUCCESS => 0
  | X_LINK_PLATFORM_DEVICE_NOT_FOUND => -1
  | X_LINK_PLATFORM_ERROR => -2
  | X_LINK_PLATFORM_INSUFFICIENT_PERMISSIONS => -5
  end.

Definition initial_host : HostState :=
  {| usb_state := initial_state; host_ops := [] |}.

(** As [healthy_bus], but the bus has no device. *)
Definition empty_bus : Backend := fun h c =>
  match c with
  | libusb_get_device_list => reply 0 0 []
  | _ => healthy_bus h c
  end.

(** As [healthy_bus], but both devices are booted and answer the
    serial-number request with "14442C10" and a terminator. *)
Definition booted_bus : Backend := fun h c =>
  match c with
  | libusb_get_device_descriptor _ => reply 0 0 [0x200; 0x03E7; 0xf63b; 3]
  | libusb_get_string_descriptor_ascii _ _ => reply 8 0 [49; 52; 52; 52; 50; 67; 49; 48; 0]
  | _ => healthy_bus h c
  end.

(** As [healthy_bus], but with three devices on bus 1, at the ports 11,
    12 and 13: opening the first is refused, the second answers, the
    third is gone by the time it is opened. *)
Definition mixed_bus : Backend := fun h c =>
  match c with
  | libusb_get_device_list => reply 3 0 [11; 12; 13]
  | libusb_get_port_numbers d _ => reply 1 0 [d]
  | libusb_open d =>
      if d =? 11 then reply LIBUSB_ERROR_ACCESS 0 []
      else if d =? 13 then reply LIBUSB_ERROR_NO_DEVICE 0 []
      else reply 0 0 []
  | _ => healthy_bus h c
  end.

(** The device opened last in a trace, 0 if there is none. *)
Definition last_opened (h : list Event) : Z :=
  fold_left (fun d e => match ev_call e with
                        | libusb_open d' => d'
                        | _ => d
                        end) h 0.

(** As [healthy_bus], but with three devices: the first and the third
    report the same topology (bus 1, ports 2 and 3), the second sits at
    port 7, and the MxId bytes a device answers with begin with its
    number. *)
Definition revisited_bus : Backend := fun h c =>
  match c with
  | libusb_get_device_list => reply 3 0 [11; 12; 13]
  | libusb_get_port_numbers d _ => if d =? 12 then reply 1 0 [7] else reply 2 0 [2; 3]
  | libusb_bulk_transfer ep len _ =>
      if ep =? 0x81
      then reply 0 9 [last_opened h; 0x34; 0x56; 0x78; 0x9A; 0xBC; 0xDE; 0xF0; 0x5A]
      else reply 0 len []
  | _ => healthy_bus h c
  end.

(** * Reasoning about the monad *)

Lemma bind_Some {A B : Type} (m : M A) (k : A -> M B) (s s' : State) (b : B) :
  bind m k s = Some (b, s') ->
  exists a s1, m s = Some (a, s1) /\ k a s1 = Some (b, s').
Proof.
  unfold bind. destruct (m s) as [[a s1]|] eqn:E; [|discriminate].
  intros H. exists a, s1. split; [reflexivity|exact H].
Qed.

Lemma bind_libusb {B : Type} (bk : Backend) (c : Call) (k : Reply -> M B) (s : State) :
  bind (libusb bk c) k s = k (bk (trace s) c) (record_event c (bk (trace s) c) s).
Proof. reflexivity. Qed.

Lemma bind_ret {A B : Type} (a : A) (k : A -> M B) (s : State) :
  bind (ret a) k s = k a s.
Proof. reflexivity. Qed.

Lemma bind_assoc {A B C : Type} (m : M A) (k : A -> M B) (k' : B -> M C) (s : State) :
  bind (bind m k) k' s = bind m (fun a => bind (k a) k') s.
Proof. unfold bind. destruct (m s) as [[a s1]|]; reflexivity. Qed.

(** Runs the next backend calls of a monadic program in the goal. *)
Ltac mstep :=
  repeat first [ rewrite bind_assoc | rewrite bind_libusb | rewrite bind_ret
               | progress cbv beta ].

Lemma set_trace_trace (s : State) : set_trace (trace s) s = s.
Proof. destruct s; reflexivity. Qed.

Lemma set_trace_twice (t t' : list Event) (s : State) :
  set_trace t' (set_trace t s) = set_trace t' s.
Proof. reflexivity. Qed.

(** * Closing a link *)

(** C10: usbPlatformClose returns -1 whatever the backend answered to
    the interface release and to the close, in particular when both
    succeeded; the two calls are all it does. *)
Theorem usbPlatformClose_always_minus_one (bk : Backend) (s : State) :
  exists r1 r2,
    usbPlatformClose bk s =
      Some (-1, set_trace (trace s ++ [{| ev_call := libusb_release_interface 0; ev_reply := r1 |};
                                      {| ev_call := libusb_close; ev_reply := r2 |}]) s).
Proof.
  unfold usbPlatformClose, usbLinkClose. mstep.
  eexists _, _. unfold ret, record_event. cbn [trace set_trace].
  rewrite <- app_assoc. reflexivity.
Qed.

(** * Device path encoder *)

(** C3: for a device with an empty port chain the encoder returns the
    decimal bus number followed by a dot: the separator appended after
    the bus number is not taken back on the early return. *)
Theorem getLibusbDevicePath_bus_only (bk : Backend) (dev : Z) (s : State) :
  let b := bk (trace s) (libusb_get_bus_number dev) in
  let s1 := record_event (libusb_get_bus_number dev) b s in
  rc (bk (trace s1) (libusb_get_port_numbers dev MAXIMUM_PORT_NUMBERS)) = 0 ->
  exists s', getLibusbDevicePath bk dev s = Some (to_string (to_uint8 (val b)) +:+ ".", s').
Proof.
  intros b s1 Hcount. unfold getLibusbDevicePath. mstep.
  fold b. fold s1. rewrite Hcount.
  change (0 =? LIBUSB_ERROR_OVERFLOW) with false.
  change (0 =? 0) with true. cbv iota.
  eexists. reflexivity.
Qed.

Lemma getLibusbDevicePath_bus_only_witness :
  exists s', getLibusbDevicePath healthy_bus 12 initial_state = Some ("1.", s').
Proof.
  apply (getLibusbDevicePath_bus_only healthy_bus 12 initial_state).
  reflexivity.
Defined.

(** With ports present the path has no trailing separator. *)
Example getLibusbDevicePath_with_ports :
  exists s', getLibusbDevicePath healthy_bus 11 initial_state = Some ("1.2.3", s').
Proof. eexists. vm_compute. reflexivity. Qed.

(** * Firmware boot transfer: the chunk size *)

Lemma send_file_loop_chunklen_global (bk : Backend) (BE BT : Z) (n : Z) (fuel : nat) :
  forall (endpoint filesize : Z) (send_zlp : bool) (chunk t1 twb : Z) (s : State),
    send_file_loop bk BE BT fuel endpoint filesize send_zlp chunk t1 twb (set_bulk_chunklen n s) =
    match send_file_loop bk BE BT fuel endpoint filesize send_zlp chunk t1 twb s with
    | Some (r, s') => Some (r, set_bulk_chunklen n s')
    | None => None
    end.
Proof.
  induction fuel as [|fuel IH]; intros; [reflexivity|].
  cbn [send_file_loop].
  destruct ((to_unsigned twb <? filesize) || send_zlp); [|reflexivity].
  mstep. cbn [trace set_bulk_chunklen].
  match goal with |- context [bk (trace s) ?c] =>
    set (call := c); set (x := bk (trace s) call) end.
  change (record_event call x (set_bulk_chunklen n s))
    with (set_bulk_chunklen n (record_event call x s)).
  destruct ((negb (rc x =? 0) || negb (_ =? val x)) && negb (_ =? 0)).
  - destruct (rc x =? LIBUSB_ERROR_NO_DEVICE); [reflexivity|].
    destruct (rc x =? LIBUSB_ERROR_TIMEOUT); reflexivity.
  - mstep. cbn [trace set_bulk_chunklen].
    set (s1 := record_event call x s).
    set (now := bk (trace s1) steady_clock_now).
    change (record_event steady_clock_now now (set_bulk_chunklen n s1))
      with (set_bulk_chunklen n (record_event steady_clock_now now s1)).
    destruct (val now - t1 >? DEFAULT_SEND_FILE_TIMEOUT); [reflexivity|].
    destruct (_ =? 0); [reflexivity|].
    apply IH.
Qed.

(** send_file never reads the file-scope [bulk_chunklen]: whatever
    usb_open_device stored there, the run is the same. *)
Lemma send_file_chunklen_global (bk : Backend) (CH BE BT : Z) (NDEBUG : bool)
    (n : Z) (fuel : nat) (endpoint filesize bcdusb : Z) (s : State) :
  send_file bk CH BE BT NDEBUG fuel endpoint filesize bcdusb (set_bulk_chunklen n s) =
  match send_file bk CH BE BT NDEBUG fuel endpoint filesize bcdusb s with
  | Some (r, s') => Some (r, set_bulk_chunklen n s')
  | None => None
  end.
Proof.
  unfold send_file. mstep. cbn [trace set_bulk_chunklen].
  set (t1 := bk (trace s) steady_clock_now).
  change (record_event steady_clock_now t1 (set_bulk_chunklen n s))
    with (set_bulk_chunklen n (record_event steady_clock_now t1 s)).
  unfold bind. rewrite send_file_loop_chunklen_global.
  destruct (send_file_loop _ _ _ _ _ _ _ _ _ _ _) as [[[code|] s']|]; try reflexivity.
  unfold send_file_debug_log. destruct NDEBUG; reflexivity.
Qed.

(** C4: on a device whose bulk OUT endpoint has a max packet size of
    512, usb_open_device stores 512 in the file-scope [bulk_chunklen],
    and send_file then sends a 1024-byte image of a USB 2 device as one
    transfer of 1024 bytes (followed by the zero-length packet), not as
    chunks of 512: its chunk size is DEFAULT_CHUNKSZ. *)
Theorem send_file_chunk_not_endpoint_size (NDEBUG : bool) :
  exists s1 s2,
    usb_open_device healthy_bus 11 initial_state = Some (Some 0x01, s1) /\
    bulk_chunklen s1 = 512 /\
    send_file healthy_bus 1048576 1 3 NDEBUG 8 0x01 1024 0xFFFF s1 = Some (0, s2) /\
    bulk_lengths (drop (List.length (trace s1)) (trace s2)) = [1024; 0].
Proof.
  destruct NDEBUG.
  all: eexists; eexists.
  all: split; [vm_compute; reflexivity|].
  all: split; [reflexivity|].
  all: split; [vm_compute; reflexivity|].
  all: vm_compute; reflexivity.
Qed.

(** * Machine integer facts *)

Lemma to_unsigned_to_int (z : Z) : to_unsigned (to_int z) = to_unsigned z.
Proof.
  unfold to_unsigned, to_int.
  change (2 ^ 32) with 4294967296. change (2 ^ 31) with 2147483648.
  Z.div_mod_to_equations. lia.
Qed.

Lemma to_unsigned_small (z : Z) : 0 <= z <= UINT_MAX -> to_unsigned z = z.
Proof.
  unfold to_unsigned, UINT_MAX. change (2 ^ 32) with 4294967296.
  intros H. apply Z.mod_small. lia.
Qed.

Lemma to_unsigned_range (z : Z) : 0 <= to_unsigned z <= UINT_MAX.
Proof.
  unfold to_unsigned, UINT_MAX. change (2 ^ 32) with 4294967296.
  pose proof (Z.mod_pos_bound z 4294967296). lia.
Qed.

Lemma to_unsigned_add_l (a b : Z) : to_unsigned (to_unsigned a + b) = to_unsigned (a + b).
Proof. unfold to_unsigned. apply Zplus_mod_idemp_l. Qed.

Lemma to_int_small (z : Z) : - 2 ^ 31 <= z <= INT_MAX -> to_int z = z.
Proof.
  unfold to_int, INT_MAX.
  change (2 ^ 32) with 4294967296. change (2 ^ 31) with 2147483648.
  intros H. rewrite Z.mod_small; lia.
Qed.

Lemma to_int_wrapped (z : Z) : INT_MAX < z <= UINT_MAX -> to_int z = z - 2 ^ 32.
Proof.
  unfold to_int, INT_MAX, UINT_MAX.
  change (2 ^ 32) with 4294967296. change (2 ^ 31) with 2147483648.
  intros H. Z.div_mod_to_equations. lia.
Qed.

Lemma to_size_t_small (z : Z) : 0 <= z <= SIZE_MAX -> to_size_t z = z.
Proof.
  unfold to_size_t, SIZE_MAX. intros H. apply Z.mod_small. lia.
Qed.

Lemma to_int_of_size_nonneg (z : Z) : 0 <= z -> 0 <= to_int z -> to_int z <= z.
Proof.
  unfold to_int.
  change (2 ^ 32) with 4294967296. change (2 ^ 31) with 2147483648.
  intros H1 H2. Z.div_mod_to_equations. lia.
Qed.

(** * Firmware boot transfer: the send loop *)

Section SendFile.

Variable bk : Backend.
Variables USB_BOOT_ERROR USB_BOOT_TIMEOUT : Z.
Variables endpoint filesize : Z.
Variable send_zlp : bool.
Variables chunk t1 : Z.

Let loop (fuel : nat) (twb : Z) : M (option Z) :=
  send_file_loop bk USB_BOOT_ERROR USB_BOOT_TIMEOUT fuel endpoint filesize send_zlp chunk t1 twb.

(** One pass through the loop body, by cases. *)
Lemma send_file_loop_S (fuel : nat) (twb : Z) (s : State) :
  loop (S fuel) twb s =
  if (to_unsigned twb <? filesize) || send_zlp then
    let wb := next_chunk filesize chunk twb in
    let c := libusb_bulk_transfer endpoint wb write_timeout in
    let x := bk (trace s) c in
    let s1 := record_event c x s in
    if (negb (rc x =? 0) || negb (wb =? val x)) && negb (wb =? 0) then
      if rc x =? LIBUSB_ERROR_NO_DEVICE then Some (None, s1)
      else if rc x =? LIBUSB_ERROR_TIMEOUT then Some (Some USB_BOOT_TIMEOUT, s1)
      else Some (Some USB_BOOT_ERROR, s1)
    else
      let now := bk (trace s1) steady_clock_now in
      let s2 := record_event steady_clock_now now s1 in
      if val now - t1 >? DEFAULT_SEND_FILE_TIMEOUT then Some (Some USB_BOOT_TIMEOUT, s2)
      else if wb =? 0 then Some (None, s2)
      else loop fuel (to_int (twb + val x)) s2
  else Some (None, s).
Proof.
  unfold loop. cbn [send_file_loop]. fold (next_chunk filesize chunk twb).
  destruct ((to_unsigned twb <? filesize) || send_zlp); [|reflexivity].
  mstep. cbv zeta.
  destruct ((negb (rc _ =? 0) || negb (_ =? val _)) && negb (_ =? 0)).
  - destruct (rc _ =? LIBUSB_ERROR_NO_DEVICE); [reflexivity|].
    destruct (rc _ =? LIBUSB_ERROR_TIMEOUT); reflexivity.
  - mstep.
    destruct (val _ - t1 >? DEFAULT_SEND_FILE_TIMEOUT); [reflexivity|].
    destruct (_ =? 0); reflexivity.
Qed.

Lemma next_chunk_cases (twb : Z) :
  to_unsigned twb <= filesize <= UINT_MAX -> 0 < chunk ->
  let rem := filesize - to_unsigned twb in
  (rem <= INT_MAX /\ next_chunk filesize chunk twb = Z.min rem chunk) \/
  (INT_MAX < rem /\ next_chunk filesize chunk twb = rem - 2 ^ 32).
Proof.
  intros Hr Hc rem. pose proof (to_unsigned_range twb) as Hu.
  unfold next_chunk. fold rem.
  rewrite (to_unsigned_small rem) by (unfold rem; lia).
  destruct (Z_le_gt_dec rem INT_MAX) as [Hle|Hgt].
  - left. split; [exact Hle|].
    rewrite to_int_small by (unfold INT_MAX in *; unfold rem; lia).
    destruct (rem >? chunk) eqn:E; lia.
  - right. split; [lia|].
    rewrite to_int_wrapped by (unfold rem; lia).
    destruct (rem - 2 ^ 32 >? chunk) eqn:E; [|reflexivity].
    unfold UINT_MAX, rem in *. lia.
Qed.

(** The written count after a chunk went out in full. *)
Lemma twb_advance (twb wb : Z) :
  to_unsigned twb <= filesize <= UINT_MAX -> 0 < chunk ->
  wb = next_chunk filesize chunk twb -> wb <> 0 ->
  to_unsigned twb < to_unsigned (to_int (twb + wb)) <= filesize \/
  (to_unsigned twb < filesize /\ to_unsigned (to_int (twb + wb)) = filesize).
Proof.
  intros Hr Hc -> Hnz. pose proof (to_unsigned_range twb) as Hu.
  rewrite to_unsigned_to_int, <- to_unsigned_add_l.
  destruct (next_chunk_cases twb Hr Hc) as [[Hle E]|[Hgt E]]; rewrite E in *.
  - left. rewrite (to_unsigned_small (to_unsigned twb + _)) by lia. lia.
  - right. split; [unfold INT_MAX in *; lia|].
    replace (to_unsigned twb + (filesize - to_unsigned twb - 2 ^ 32))
      with (filesize + (-1) * 2 ^ 32) by ring.
    unfold to_unsigned at 1. rewrite Z.mod_add by discriminate.
    apply to_unsigned_small. lia.
Qed.

Lemma send_file_loop_run (fuel : nat) :
  forall twb s r s',
    to_unsigned twb <= filesize <= UINT_MAX -> 0 < chunk ->
    loop fuel twb s = Some (r, s') ->
    exists evs,
      s' = set_trace (trace s ++ evs) s /\
      failure_verdict USB_BOOT_ERROR USB_BOOT_TIMEOUT r evs /\
      clean_totals filesize send_zlp t1 twb r evs.
Proof.
  induction fuel as [|fuel IH]; intros twb s r s' Hr Hc H; [discriminate|].
  rewrite send_file_loop_S in H. cbv zeta in H.
  set (wb := next_chunk filesize chunk twb) in *.
  set (c := libusb_bulk_transfer endpoint wb write_timeout) in *.
  set (x := bk (trace s) c) in *.
  set (s1 := record_event c x s) in *.
  set (now := bk (trace s1) steady_clock_now) in *.
  set (s2 := record_event steady_clock_now now s1) in *.
  set (e1 := {| ev_call := c; ev_reply := x |}).
  set (e2 := {| ev_call := steady_clock_now; ev_reply := now |}).
  assert (E1 : s1 = set_trace (trace s ++ [e1]) s) by reflexivity.
  assert (E2 : s2 = set_trace (trace s ++ [e1; e2]) s).
  { unfold s2, s1, record_event. cbn [trace set_trace]. rewrite <- app_assoc. reflexivity. }
  pose proof (to_unsigned_range twb) as Hu.
  destruct ((to_unsigned twb <? filesize) || send_zlp) eqn:Hcond.
  2:{ (* the condition is false: nothing is sent *)
    injection H as <- <-. exists []. split; [|split].
    - rewrite app_nil_r, set_trace_trace. reflexivity.
    - intros pre e post Hevs. destruct pre; discriminate.
    - intros _ _. split; [reflexivity|]. split; [cbn; lia|].
      exists []. destruct send_zlp; [lia|]. split; constructor. }
  destruct ((negb (rc x =? 0) || negb (wb =? val x)) && negb (wb =? 0)) eqn:Hfail.
  { (* the chunk failed *)
    exists [e1]. split; [|split].
    - destruct (rc x =? LIBUSB_ERROR_NO_DEVICE); [injection H as <- <-; exact E1|].
      destruct (rc x =? LIBUSB_ERROR_TIMEOUT); injection H as <- <-; exact E1.
    - intros pre e post Hevs _.
      destruct pre as [|p0 pre]; [|destruct pre; discriminate].
      injection Hevs as <- <-. split; [reflexivity|]. cbn [ev_reply e1].
      destruct (rc x =? LIBUSB_ERROR_NO_DEVICE) eqn:End;
        [|destruct (rc x =? LIBUSB_ERROR_TIMEOUT) eqn:Eto];
        injection H as <- <-; unfold LIBUSB_ERROR_NO_DEVICE, LIBUSB_ERROR_TIMEOUT in *;
        repeat split; intros; try reflexivity; lia.
    - intros Hok _. exfalso. inversion Hok as [|? ? Hx _]; subst.
      unfold transfer_ok in Hx. cbn in Hx. lia. }
  assert (Hnofail : ~ chunk_failed e1).
  { unfold chunk_failed. cbn. lia. }
  destruct (val now - t1 >? DEFAULT_SEND_FILE_TIMEOUT) eqn:Hlate.
  { (* the deadline passed *)
    injection H as <- <-. exists [e1; e2]. split; [exact E2|]. split.
    - intros pre e post Hevs Hf.
      destruct pre as [|p0 pre]; [injection Hevs as <- <-; contradiction|].
      destruct pre as [|p1 pre]; [injection Hevs as _ <- <-; contradiction|].
      destruct pre; discriminate.
    - intros _ Hdl. exfalso.
      inversion Hdl as [|? ? _ Hdl']; subst. inversion Hdl' as [|? ? Hn _]; subst.
      unfold within_deadline in Hn. cbn in Hn. lia. }
  destruct (wb =? 0) eqn:Hz.
  { (* the zero-length packet went out: last pass *)
    injection H as <- <-. exists [e1; e2]. split; [exact E2|]. split.
    - intros pre e post Hevs Hf.
      destruct pre as [|p0 pre]; [injection Hevs as <- <-; contradiction|].
      destruct pre as [|p1 pre]; [injection Hevs as _ <- <-; contradiction|].
      destruct pre; discriminate.
    - intros Hok _. split; [reflexivity|].
      inversion Hok as [|? ? Hx _]; subst. unfold transfer_ok in Hx. cbn in Hx.
      assert (Hrem : filesize - to_unsigned twb = 0).
      { destruct (next_chunk_cases twb Hr Hc) as [[Hle E]|[Hgt E]];
          fold wb in E; unfold INT_MAX, UINT_MAX in *; lia. }
      split; [cbn; lia|].
      exists []. assert (send_zlp = true) as -> by lia.
      split; [cbn; f_equal; lia|constructor]. }
  (* a chunk went out in full: next pass *)
  assert (Hval : val x = wb) by lia. rewrite Hval in H.
  assert (Hadv := twb_advance twb wb Hr Hc eq_refl ltac:(lia)).
  apply IH in H; [|lia|exact Hc].
  destruct H as (evs & -> & HA & HB).
  exists ([e1; e2] ++ evs). split; [|split].
  - rewrite E2. cbn [trace set_trace]. rewrite set_trace_twice, <- app_assoc. reflexivity.
  - intros pre e post Hevs Hf.
    destruct pre as [|p0 pre]; [injection Hevs as <- <-; contradiction|].
    destruct pre as [|p1 pre]; [injection Hevs as _ <- <-; contradiction|].
    injection Hevs as _ _ Hevs. exact (HA pre e post Hevs Hf).
  - intros Hok Hdl.
    inversion Hok as [|? ? Hx Hok']; subst. inversion Hok' as [|? ? _ Hok'']; subst.
    inversion Hdl as [|? ? _ Hdl']; subst. inversion Hdl' as [|? ? _ Hdl'']; subst.
    destruct (HB Hok'' Hdl'') as (-> & Hbytes & chunks & Hlens & Hpos).
    unfold transfer_ok in Hx. cbn in Hx.
    assert (Hnext : to_unsigned (to_int (twb + wb)) = to_unsigned twb + wb).
    { rewrite to_unsigned_to_int, <- to_unsigned_add_l.
      destruct (next_chunk_cases twb Hr Hc) as [[Hle E]|[Hgt E]]; fold wb in E.
      - apply to_unsigned_small. lia.
      - unfold INT_MAX, UINT_MAX in *. lia. }
    split; [reflexivity|]. split.
    + cbn. rewrite Hbytes, Hnext. lia.
    + exists (wb :: chunks). split; [cbn; rewrite Hlens; reflexivity|].
      constructor; [lia|exact Hpos].
Qed.

(** With a positive chunk size the loop ends after at most one pass per
    byte that is left, and one more. *)
Lemma send_file_loop_terminates (fuel : nat) :
  forall twb s,
    to_unsigned twb <= filesize <= UINT_MAX -> 0 < chunk ->
    (Z.to_nat (filesize - to_unsigned twb) + 1 <= fuel)%nat ->
    exists r s', loop fuel twb s = Some (r, s').
Proof.
  induction fuel as [|fuel IH]; intros twb s Hr Hc Hfuel; [lia|].
  rewrite send_file_loop_S. cbv zeta.
  set (wb := next_chunk filesize chunk twb).
  set (c := libusb_bulk_transfer endpoint wb write_timeout).
  set (x := bk (trace s) c).
  set (s1 := record_event c x s).
  set (now := bk (trace s1) steady_clock_now).
  destruct ((to_unsigned twb <? filesize) || send_zlp); [|eauto].
  destruct ((negb (rc x =? 0) || negb (wb =? val x)) && negb (wb =? 0)) eqn:Hfail.
  { destruct (rc x =? LIBUSB_ERROR_NO_DEVICE); [eauto|].
    destruct (rc x =? LIBUSB_ERROR_TIMEOUT); eauto. }
  destruct (val now - t1 >? DEFAULT_SEND_FILE_TIMEOUT); [eauto|].
  destruct (wb =? 0) eqn:Hz; [eauto|].
  assert (Hval : val x = wb) by lia. rewrite Hval.
  assert (Hadv := twb_advance twb wb Hr Hc eq_refl ltac:(lia)).
  apply IH; [lia|exact Hc|lia].
Qed.

End SendFile.

Lemma bulk_lengths_app (a b : list Event) :
  bulk_lengths (a ++ b) = bulk_lengths a ++ bulk_lengths b.
Proof.
  induction a as [|e a IH]; [reflexivity|].
  cbn [app bulk_lengths]. destruct (ev_call e); cbn [app]; rewrite ?IH; reflexivity.
Qed.

Lemma bytes_transferred_app (a b : list Event) :
  bytes_transferred (a ++ b) = bytes_transferred a + bytes_transferred b.
Proof.
  induction a as [|e a IH]; [reflexivity|].
  cbn [app bytes_transferred]. destruct (ev_call e); rewrite ?IH; lia.
Qed.

(** Clock readings move no bytes. *)
Lemma clock_readings_silent (dbg : list Event) :
  Forall (fun e => ev_call e = steady_clock_now) dbg ->
  bulk_lengths dbg = [] /\ bytes_transferred dbg = 0.
Proof.
  induction 1 as [|e dbg He _ IH]; [split; reflexivity|].
  cbn [bulk_lengths bytes_transferred]. rewrite He. exact IH.
Qed.

(** An event that is no clock reading and lies in a run that ends with
    clock readings lies before them. *)
Lemma split_before_clock_readings (dbg : list Event) (e : Event) :
  Forall (fun e => ev_call e = steady_clock_now) dbg ->
  ev_call e <> steady_clock_now ->
  forall evs pre post,
    evs ++ dbg = pre ++ e :: post ->
    exists post', evs = pre ++ e :: post' /\ post = post' ++ dbg.
Proof.
  intros Hclk He. induction evs as [|a evs IH]; intros pre post H.
  - exfalso. cbn [app] in H. subst dbg.
    apply Forall_app in Hclk. destruct Hclk as [_ Hclk].
    inversion Hclk as [|? ? Hx _]; subst. contradiction.
  - destruct pre as [|p pre].
    + injection H as -> <-. exists evs. split; reflexivity.
    + injection H as -> H. destruct (IH pre post H) as (post' & -> & ->).
      exists post'. split; reflexivity.
Qed.

(** The block under [#ifndef NDEBUG]: nothing with NDEBUG, two clock
    readings without. *)
Lemma send_file_debug_log_run (bk : Backend) (NDEBUG : bool) (s : State) :
  exists dbg,
    send_file_debug_log bk NDEBUG s = Some (tt, set_trace (trace s ++ dbg) s) /\
    Forall (fun e => ev_call e = steady_clock_now) dbg /\
    List.length dbg = (if NDEBUG then 0 else 2)%nat.
Proof.
  unfold send_file_debug_log. destruct NDEBUG.
  - exists []. rewrite app_nil_r, set_trace_trace.
    split; [reflexivity|]. split; [constructor|reflexivity].
  - mstep. eexists [_; _]. unfold ret, record_event. cbn [trace set_trace].
    rewrite <- app_assoc. cbn [app].
    split; [reflexivity|]. split; [|reflexivity].
    constructor; [reflexivity|]. constructor; [reflexivity|constructor].
Qed.

(** send_file as a whole: the clock is read, the loop runs, and leaving
    the loop without a [return] runs the block under [#ifndef NDEBUG]
    and gives 0. *)
Lemma send_file_run (bk : Backend) (CH BE BT : Z) (NDEBUG : bool) (fuel : nat)
    (endpoint filesize bcdusb : Z) (s : State) :
  0 <= filesize <= UINT_MAX -> 0 < to_int CH ->
  (Z.to_nat filesize + 1 <= fuel)%nat ->
  let t1 := bk (trace s) steady_clock_now in
  let e0 := {| ev_call := steady_clock_now; ev_reply := t1 |} in
  exists r evs dbg,
    send_file bk CH BE BT NDEBUG fuel endpoint filesize bcdusb s =
      Some (match r with Some code => code | None => 0 end,
            set_trace (trace s ++ e0 :: evs ++ dbg) s) /\
    failure_verdict BE BT r evs /\
    clean_totals filesize (filesize mod 512 =? 0) (val t1) 0 r evs /\
    Forall (fun e => ev_call e = steady_clock_now) dbg /\
    List.length dbg =
      match r with
      | Some _ => 0%nat
      | None => if NDEBUG then 0%nat else 2%nat
      end.
Proof.
  intros Hsize Hchunk Hfuel t1 e0.
  set (chunk := if bcdusb <? 0x200 then USB1_CHUNKSZ else to_int CH).
  assert (Hc : 0 < chunk) by (unfold chunk, USB1_CHUNKSZ; destruct (bcdusb <? 0x200); lia).
  assert (H0 : to_unsigned 0 = 0) by reflexivity.
  set (s1 := record_event steady_clock_now t1 s).
  destruct (send_file_loop_terminates bk BE BT endpoint filesize
              (filesize mod 512 =? 0) chunk (val t1) fuel 0 s1) as (r & s' & Hloop);
    [lia|exact Hc|lia|].
  destruct (send_file_loop_run bk BE BT endpoint filesize
              (filesize mod 512 =? 0) chunk (val t1) fuel 0 s1 r s') as (evs & -> & HA & HB);
    [lia|exact Hc|exact Hloop|].
  assert (Hs1 : forall l, set_trace (trace s1 ++ l) s1 = set_trace (trace s ++ e0 :: l) s).
  { intros l. unfold s1, record_event. cbn [trace set_trace].
    rewrite set_trace_twice, <- app_assoc. reflexivity. }
  destruct r as [code|].
  - exists (Some code), evs, []. rewrite app_nil_r.
    split; [|split; [exact HA|split; [exact HB|split; [constructor|reflexivity]]]].
    unfold send_file. mstep. fold t1. fold s1. fold chunk.
    unfold bind. rewrite Hloop, Hs1. reflexivity.
  - destruct (send_file_debug_log_run bk NDEBUG (set_trace (trace s1 ++ evs) s1))
      as (dbg & Hd & Hclk & Hlen).
    exists None, evs, dbg.
    split; [|split; [exact HA|split; [exact HB|split; [exact Hclk|exact Hlen]]]].
    unfold send_file. mstep. fold t1. fold s1. fold chunk.
    unfold bind. rewrite Hloop, Hd. unfold ret. cbn [trace set_trace].
    rewrite set_trace_twice, <- app_assoc, Hs1. reflexivity.
Qed.

(** C5, as amended: send_file returns; its calls are those up to the end
    of the loop, [evs], and the clock readings [dbg] of the log line
    under [#ifndef NDEBUG], none in a build with NDEBUG.  When every
    bulk transfer moved what was asked for and every clock reading up to
    the end of the loop was within DEFAULT_SEND_FILE_TIMEOUT of the
    start, send_file returns 0, the bytes moved add up to the image
    length, and the transfers are positive chunks followed by exactly
    one zero-length transfer if the length is a multiple of 512 and by
    nothing otherwise. *)
Theorem send_file_totals (bk : Backend) (CH BE BT : Z) (NDEBUG : bool) (fuel : nat)
    (endpoint filesize bcdusb : Z) (s : State) :
  0 <= filesize <= UINT_MAX -> 0 < to_int CH ->
  (Z.to_nat filesize + 1 <= fuel)%nat ->
  exists r s' evs dbg,
    send_file bk CH BE BT NDEBUG fuel endpoint filesize bcdusb s = Some (r, s') /\
    trace s' = trace s ++ evs ++ dbg /\
    Forall (fun e => ev_call e = steady_clock_now) dbg /\
    (NDEBUG = true -> dbg = []) /\
    (Forall transfer_ok evs ->
     Forall (within_deadline (val (bk (trace s) steady_clock_now))) evs ->
     r = 0 /\
     bytes_transferred (evs ++ dbg) = filesize /\
     exists chunks,
       bulk_lengths (evs ++ dbg) = chunks ++ (if filesize mod 512 =? 0 then [0] else []) /\
       Forall (fun c => 0 < c) chunks).
Proof.
  intros Hsize Hchunk Hfuel.
  destruct (send_file_run bk CH BE BT NDEBUG fuel endpoint filesize bcdusb s
              Hsize Hchunk Hfuel) as (r & evs & dbg & Hrun & _ & HB & Hclk & Hlen).
  eexists _, _, (_ :: evs), dbg. split; [exact Hrun|]. split; [reflexivity|].
  split; [exact Hclk|]. split.
  { intros ->. destruct r, dbg; try reflexivity; discriminate. }
  intros Hok Hdl.
  inversion Hok as [|? ? _ Hok']; subst. inversion Hdl as [|? ? _ Hdl']; subst.
  destruct (HB Hok' Hdl') as (-> & Hbytes & chunks & Hlens & Hpos).
  destruct (clock_readings_silent dbg Hclk) as [Hl0 Hb0].
  split; [reflexivity|]. split.
  - rewrite bytes_transferred_app, Hb0. cbn. rewrite Hbytes.
    change (to_unsigned 0) with 0. lia.
  - exists chunks. split; [|exact Hpos].
    rewrite bulk_lengths_app, Hl0, app_nil_r. exact Hlens.
Qed.

Lemma send_file_totals_witness :
  exists evs,
    send_file healthy_bus 1048576 1 3 false 1025 0x01 1024 0x200 initial_state =
      Some (0, set_trace evs initial_state) /\
    Forall transfer_ok evs /\
    bytes_transferred evs = 1024 /\
    bulk_lengths evs = [1024; 0].
Proof.
  destruct (send_file_totals healthy_bus 1048576 1 3 false 1025 0x01 1024 0x200 initial_state)
    as (r & s' & evs & dbg & Hrun & Htrace & Hclk & _ & Htotals).
  - unfold UINT_MAX. lia.
  - reflexivity.
  - vm_compute. lia.
  - vm_compute in Hrun. injection Hrun as <- <-.
    cbn [trace initial_state app] in Htrace.
    assert (Hclean : Forall transfer_ok (evs ++ dbg)).
    { rewrite <- Htrace.
      repeat (apply List.Forall_cons; [cbn; lia|]). apply List.Forall_nil. }
    assert (Hdl : Forall (within_deadline 0) (evs ++ dbg)).
    { rewrite <- Htrace.
      repeat (apply List.Forall_cons;
              [unfold within_deadline, DEFAULT_SEND_FILE_TIMEOUT; cbn; lia|]).
      apply List.Forall_nil. }
    exists (evs ++ dbg). split; [rewrite <- Htrace; reflexivity|].
    split; [exact Hclean|].
    apply Forall_app in Hclean. apply Forall_app in Hdl.
    destruct Htotals as (_ & Hbytes & _); [apply Hclean|apply Hdl|].
    split; [exact Hbytes|]. rewrite <- Htrace. reflexivity.
Defined.

(** C5, as stated, fails when the deadline passes: eight chunks of 512
    bytes at 1.9 seconds each.  Every transfer moves what was asked for,
    but after the sixth the 10 seconds are over and send_file returns
    USB_BOOT_TIMEOUT: 3072 of 4096 bytes went out and no zero-length
    packet followed, although 4096 is a multiple of 512.  The build does
    not matter: the return is inside the loop. *)
Lemma send_file_totals_counterexample :
  exists s',
    send_file slow_bus 512 1 3 false 20 0x01 4096 0x200 initial_state = Some (3, s') /\
    send_file slow_bus 512 1 3 true 20 0x01 4096 0x200 initial_state = Some (3, s') /\
    Forall transfer_ok (trace s') /\
    bulk_lengths (trace s') = [512; 512; 512; 512; 512; 512] /\
    bytes_transferred (trace s') = 3072 /\
    bytes_transferred (trace s') <> 4096 /\
    4096 mod 512 = 0 /\ ~ In 0 (bulk_lengths (trace s')).
Proof.
  eexists. split; [vm_compute; reflexivity|].
  split; [vm_compute; reflexivity|].
  cbn [trace set_trace].
  split; [repeat (apply List.Forall_cons; [cbn; lia|]); apply List.Forall_nil|].
  split; [reflexivity|]. split; [reflexivity|].
  split; [cbn; lia|]. split; [reflexivity|].
  cbn. intuition lia.
Qed.

(** A 1000-byte image on a USB 1 device goes out in chunks of 64 with
    no zero-length packet. *)
Example send_file_usb1_chunks (NDEBUG : bool) :
  exists s',
    send_file healthy_bus 1048576 1 3 NDEBUG 20 0x01 1000 0x110 initial_state = Some (0, s') /\
    bulk_lengths (trace s') = replicate 15 64 ++ [40].
Proof. destruct NDEBUG; eexists; split; vm_compute; reflexivity. Qed.

(** C8: send_file returns; a chunk transfer of the run that failed
    decides the result: 0 (the loop is left, no code is returned from
    the check) for LIBUSB_ERROR_NO_DEVICE, USB_BOOT_TIMEOUT for
    LIBUSB_ERROR_TIMEOUT and USB_BOOT_ERROR for every other failure, a
    short write with return code 0 included.  The failed transfer is the
    last call of the run, except that in a build without NDEBUG the two
    clock readings of the log line follow a LIBUSB_ERROR_NO_DEVICE. *)
Theorem send_file_failed_chunk (bk : Backend) (CH BE BT : Z) (NDEBUG : bool) (fuel : nat)
    (endpoint filesize bcdusb : Z) (s : State) :
  0 <= filesize <= UINT_MAX -> 0 < to_int CH ->
  (Z.to_nat filesize + 1 <= fuel)%nat ->
  exists r s' evs,
    send_file bk CH BE BT NDEBUG fuel endpoint filesize bcdusb s = Some (r, s') /\
    trace s' = trace s ++ evs /\
    forall pre e post,
      evs = pre ++ e :: post -> chunk_failed e ->
      (if negb NDEBUG && (rc (ev_reply e) =? LIBUSB_ERROR_NO_DEVICE)
       then exists c1 c2,
              post = [c1; c2] /\
              ev_call c1 = steady_clock_now /\ ev_call c2 = steady_clock_now
       else post = []) /\
      (rc (ev_reply e) = LIBUSB_ERROR_NO_DEVICE -> r = 0) /\
      (rc (ev_reply e) = LIBUSB_ERROR_TIMEOUT -> r = BT) /\
      (rc (ev_reply e) <> LIBUSB_ERROR_NO_DEVICE ->
       rc (ev_reply e) <> LIBUSB_ERROR_TIMEOUT -> r = BE).
Proof.
  intros Hsize Hchunk Hfuel.
  destruct (send_file_run bk CH BE BT NDEBUG fuel endpoint filesize bcdusb s
              Hsize Hchunk Hfuel) as (r & evs & dbg & Hrun & HA & _ & Hclk & Hlen).
  eexists _, _, _. split; [exact Hrun|]. split; [reflexivity|].
  intros pre e post Hevs Hf.
  destruct pre as [|p0 pre]; [injection Hevs as <- _; contradiction|].
  injection Hevs as _ Hevs.
  assert (He : ev_call e <> steady_clock_now).
  { unfold chunk_failed in Hf. destruct (ev_call e); try contradiction; discriminate. }
  destruct (split_before_clock_readings dbg e Hclk He evs pre post Hevs)
    as (post' & Hev & ->).
  destruct (HA pre e post' Hev Hf) as (-> & Hnd & Hto & Herr).
  cbn [app]. split.
  - destruct (rc (ev_reply e) =? LIBUSB_ERROR_NO_DEVICE) eqn:E.
    + rewrite (Hnd ltac:(lia)) in Hlen. destruct NDEBUG; cbn [negb andb].
      * destruct dbg; [reflexivity|discriminate].
      * destruct dbg as [|c1 [|c2 [|c3 dbg]]]; try discriminate.
        exists c1, c2. split; [reflexivity|].
        inversion Hclk as [|? ? H1 Hclk']; subst.
        inversion Hclk' as [|? ? H2 _]; subst. split; assumption.
    + rewrite andb_false_r.
      assert (Hr : exists code, r = Some code).
      { destruct (Z.eq_dec (rc (ev_reply e)) LIBUSB_ERROR_TIMEOUT) as [Ht|Ht].
        - eexists. exact (Hto Ht).
        - eexists. apply Herr; [lia|exact Ht]. }
      destruct Hr as (code & ->). destruct dbg; [reflexivity|discriminate].
  - split; [intros H; rewrite (Hnd H); reflexivity|].
    split; [intros H; rewrite (Hto H); reflexivity|].
    intros H1 H2. rewrite (Herr H1 H2). reflexivity.
Qed.

Lemma send_file_failed_chunk_witness :
  exists e,
    chunk_failed e /\ rc (ev_reply e) = LIBUSB_ERROR_TIMEOUT /\
    exists s',
      send_file (failing_bus LIBUSB_ERROR_TIMEOUT) 1048576 1 3 false 1025 0x01 1024 0x200
        initial_state = Some (3, s') /\
      trace s' = [{| ev_call := steady_clock_now; ev_reply := reply 0 0 [] |}; e].
Proof.
  destruct (send_file_failed_chunk (failing_bus LIBUSB_ERROR_TIMEOUT) 1048576 1 3 false
              1025 0x01 1024 0x200 initial_state)
    as (r & s' & evs & Hrun & Htrace & Hfail).
  - unfold UINT_MAX. lia.
  - reflexivity.
  - vm_compute. lia.
  - vm_compute in Hrun. injection Hrun as <- <-.
    exists {| ev_call := libusb_bulk_transfer 1 1024 2000; ev_reply := reply (-7) 0 [] |}.
    split; [cbn; lia|]. split; [reflexivity|].
    eexists. split; [vm_compute; reflexivity|reflexivity].
Defined.

(** The three ways a failed chunk ends send_file, on a backend that
    fails every transfer. *)
Example send_file_no_device (NDEBUG : bool) :
  option_map fst (send_file (failing_bus LIBUSB_ERROR_NO_DEVICE) 1048576 1 3 NDEBUG 5 0x01
                    1024 0x200 initial_state) = Some 0.
Proof. destruct NDEBUG; vm_compute; reflexivity. Qed.

(** Without NDEBUG the log line reads the clock twice after the device
    went away; with NDEBUG the failed transfer is the last call. *)
Example send_file_no_device_calls :
  option_map (fun x => map ev_call (trace (snd x)))
    (send_file (failing_bus LIBUSB_ERROR_NO_DEVICE) 1048576 1 3 false 5 0x01
       1024 0x200 initial_state) =
    Some [steady_clock_now; libusb_bulk_transfer 1 1024 2000;
          steady_clock_now; steady_clock_now] /\
  option_map (fun x => map ev_call (trace (snd x)))
    (send_file (failing_bus LIBUSB_ERROR_NO_DEVICE) 1048576 1 3 true 5 0x01
       1024 0x200 initial_state) =
    Some [steady_clock_now; libusb_bulk_transfer 1 1024 2000].
Proof. split; vm_compute; reflexivity. Qed.

Example send_file_timeout (NDEBUG : bool) :
  option_map fst (send_file (failing_bus LIBUSB_ERROR_TIMEOUT) 1048576 1 3 NDEBUG 5 0x01
                    1024 0x200 initial_state) = Some 3.
Proof. destruct NDEBUG; vm_compute; reflexivity. Qed.

Example send_file_other_error (NDEBUG : bool) :
  option_map fst (send_file (failing_bus LIBUSB_ERROR_IO) 1048576 1 3 NDEBUG 5 0x01
                    1024 0x200 initial_state) = Some 1.
Proof. destruct NDEBUG; vm_compute; reflexivity. Qed.

(** * Bulk data pipe *)

Section Pipe.

Variable bk : Backend.
Variable DEFAULT_CHUNKSZ : Z.

Lemma usb_read_pipe_loop (fuel : nat) :
  forall size s,
    usb_read bk DEFAULT_CHUNKSZ fuel size s = pipe_loop bk DEFAULT_CHUNKSZ USB_ENDPOINT_IN fuel size s.
Proof.
  induction fuel as [|fuel IH]; intros size s; [reflexivity|].
  cbn [usb_read pipe_loop]. destruct (size >? 0); [|reflexivity].
  cbv zeta. rewrite !bind_libusb.
  destruct (negb (rc _ =? 0)); [reflexivity|apply IH].
Qed.

Lemma usb_write_pipe_loop (fuel : nat) :
  forall size s,
    usb_write bk DEFAULT_CHUNKSZ fuel size s = pipe_loop bk DEFAULT_CHUNKSZ USB_ENDPOINT_OUT fuel size s.
Proof.
  induction fuel as [|fuel IH]; intros size s; [reflexivity|].
  cbn [usb_write pipe_loop]. destruct (size >? 0); [|reflexivity].
  cbv zeta. rewrite !bind_libusb.
  destruct (negb (rc _ =? 0)); [reflexivity|apply IH].
Qed.

Variable ep : Z.

Let chunk_size : Z := to_int DEFAULT_CHUNKSZ.

(** The length asked for when [size] bytes are left. *)
Let request (size : Z) : Z :=
  if to_int size >? chunk_size then chunk_size else to_int size.

Lemma pipe_loop_S (fuel : nat) (size : Z) (s : State) :
  pipe_loop bk DEFAULT_CHUNKSZ ep (S fuel) size s =
  if size >? 0 then
    let c := libusb_bulk_transfer ep (request size) XLINK_USB_DATA_TIMEOUT in
    let x := bk (trace s) c in
    if negb (rc x =? 0) then Some (rc x, record_event c x s)
    else pipe_loop bk DEFAULT_CHUNKSZ ep fuel (to_size_t (size - val x)) (record_event c x s)
  else Some (0, s).
Proof.
  cbn [pipe_loop]. destruct (size >? 0); [|reflexivity].
  cbv zeta. rewrite bind_libusb. unfold request, chunk_size.
  destruct (negb (rc _ =? 0)); reflexivity.
Qed.

Lemma request_le_size (size : Z) :
  0 <= size -> 0 <= request size -> request size <= size.
Proof.
  intros H0 H1. unfold request in *.
  destruct (to_int size >? chunk_size) eqn:E.
  - pose proof (to_int_of_size_nonneg size H0). lia.
  - apply to_int_of_size_nonneg; assumption.
Qed.

Lemma pipe_loop_run (fuel : nat) :
  forall size s r s',
    pipe_loop bk DEFAULT_CHUNKSZ ep fuel size s = Some (r, s') ->
    exists evs,
      s' = set_trace (trace s ++ evs) s /\
      Forall (pipe_transfer ep chunk_size) evs /\
      (r <> 0 ->
       exists pre e, evs = pre ++ [e] /\
                     Forall (fun e' => rc (ev_reply e') = 0) pre /\
                     rc (ev_reply e) = r) /\
      (r = 0 ->
       Forall (fun e' => rc (ev_reply e') = 0) evs /\
       (0 <= size <= SIZE_MAX -> Forall transferred_in_range evs ->
        bytes_transferred evs = size)).
Proof.
  induction fuel as [|fuel IH]; intros size s r s' H; [discriminate|].
  rewrite pipe_loop_S in H. cbv zeta in H.
  set (c := libusb_bulk_transfer ep (request size) XLINK_USB_DATA_TIMEOUT) in *.
  set (x := bk (trace s) c) in *.
  set (e1 := {| ev_call := c; ev_reply := x |}).
  assert (Hreq : pipe_transfer ep chunk_size e1).
  { exists (request size). split; [reflexivity|].
    unfold request. destruct (to_int size >? chunk_size) eqn:E; lia. }
  destruct (size >? 0) eqn:Hpos.
  2:{ injection H as <- <-. exists []. split; [|split; [|split]].
      - rewrite app_nil_r, set_trace_trace. reflexivity.
      - constructor.
      - intros Hr. contradiction.
      - intros _. split; [constructor|]. intros Hsize _. cbn. lia. }
  destruct (negb (rc x =? 0)) eqn:Hrc.
  { injection H as <- <-. exists [e1]. split; [reflexivity|]. split; [|split].
    - constructor; [exact Hreq|constructor].
    - intros _. exists [], e1. repeat split. constructor.
    - intros Hr. lia. }
  apply IH in H. destruct H as (evs & -> & Hshape & Herr & Hdone).
  exists (e1 :: evs). split; [|split; [|split]].
  - unfold record_event. cbn [trace set_trace].
    rewrite set_trace_twice, <- app_assoc. reflexivity.
  - constructor; assumption.
  - intros Hr. destruct (Herr Hr) as (pre & e & -> & Hpre & He).
    exists (e1 :: pre), e. split; [reflexivity|]. split; [|exact He].
    constructor; [cbn; lia|exact Hpre].
  - intros Hr. destruct (Hdone Hr) as (Hall & Hsum).
    split; [constructor; [cbn; lia|exact Hall]|].
    intros Hsize Hrange. inversion Hrange as [|? ? Hx Hrange']; subst.
    unfold transferred_in_range in Hx. cbn in Hx.
    assert (Hle : request size <= size) by (apply request_le_size; lia).
    assert (Hnext : to_size_t (size - val x) = size - val x)
      by (apply to_size_t_small; lia).
    cbn. rewrite Hsum; [lia| |exact Hrange'].
    rewrite Hnext. lia.
Qed.

(** Every transfer of a run asks for what is left at that point, cut to
    the chunk size, and is answered by the backend on the trace so far;
    the loop goes on while something is left and ends with 0 when
    nothing is. *)
Lemma pipe_loop_requests (fuel : nat) :
  forall size s r s',
    pipe_loop bk DEFAULT_CHUNKSZ ep fuel size s = Some (r, s') ->
    exists evs,
      s' = set_trace (trace s ++ evs) s /\
      (forall pre e post,
         evs = pre ++ e :: post ->
         bytes_left size pre > 0 /\
         ev_call e = libusb_bulk_transfer ep (pipe_request DEFAULT_CHUNKSZ (bytes_left size pre))
                       XLINK_USB_DATA_TIMEOUT /\
         ev_reply e = bk (trace s ++ pre) (ev_call e)) /\
      (r = 0 -> bytes_left size evs <= 0).
Proof.
  induction fuel as [|fuel IH]; intros size s r s' H; [discriminate|].
  rewrite pipe_loop_S in H. cbv zeta in H.
  set (c := libusb_bulk_transfer ep (request size) XLINK_USB_DATA_TIMEOUT) in *.
  set (x := bk (trace s) c) in *.
  set (e1 := {| ev_call := c; ev_reply := x |}).
  assert (Hfirst : bytes_left size [] > 0 ->
            bytes_left size [] > 0 /\
            ev_call e1 = libusb_bulk_transfer ep (pipe_request DEFAULT_CHUNKSZ (bytes_left size []))
                           XLINK_USB_DATA_TIMEOUT /\
            ev_reply e1 = bk (trace s ++ []) (ev_call e1)).
  { intros Hpos. split; [exact Hpos|]. rewrite app_nil_r. split; reflexivity. }
  destruct (size >? 0) eqn:Hpos.
  2:{ injection H as <- <-. exists []. split; [|split].
      - rewrite app_nil_r, set_trace_trace. reflexivity.
      - intros pre e post Hevs. destruct pre; discriminate Hevs.
      - intros _. cbn. lia. }
  destruct (negb (rc x =? 0)) eqn:Hrc.
  { injection H as <- <-. exists [e1]. split; [reflexivity|]. split.
    - intros pre e post Hevs.
      destruct pre as [|p0 pre]; [|destruct pre; discriminate Hevs].
      injection Hevs as <- _. apply Hfirst. cbn. lia.
    - intros Hr. lia. }
  apply IH in H. destruct H as (evs & -> & Hreq & Hdone).
  exists (e1 :: evs). split; [|split].
  - unfold record_event. cbn [trace set_trace].
    rewrite set_trace_twice, <- app_assoc. reflexivity.
  - intros pre e post Hevs. destruct pre as [|p0 pre].
    + injection Hevs as <- _. apply Hfirst. cbn. lia.
    + injection Hevs as <- Hevs.
      destruct (Hreq pre e post Hevs) as (Hleft & Hcall & Hreply).
      cbn [bytes_left fold_left ev_reply e1] in *.
      split; [exact Hleft|]. split; [exact Hcall|].
      rewrite Hreply. unfold record_event. cbn [trace set_trace].
      rewrite <- app_assoc. reflexivity.
  - intros Hr. exact (Hdone Hr).
Qed.

End Pipe.

(** The loop comes back when every successful transfer moves at least
    one byte and at most what was asked for. *)
Lemma pipe_loop_returns (bk : Backend) (DEFAULT_CHUNKSZ ep : Z) :
  0 < to_int DEFAULT_CHUNKSZ ->
  (forall h len,
     let x := bk h (libusb_bulk_transfer ep len XLINK_USB_DATA_TIMEOUT) in
     0 < len -> rc x = 0 -> 1 <= val x <= len) ->
  forall fuel size s,
    0 <= size <= INT_MAX -> (Z.to_nat size + 1 <= fuel)%nat ->
    exists r s', pipe_loop bk DEFAULT_CHUNKSZ ep fuel size s = Some (r, s').
Proof.
  intros Hchunk Hprog. induction fuel as [|fuel IH]; intros size s Hsize Hfuel; [lia|].
  rewrite pipe_loop_S. cbv zeta.
  destruct (size >? 0) eqn:Hpos; [|eauto].
  rewrite (to_int_small size) by (unfold INT_MAX in *; lia).
  set (len := if size >? to_int DEFAULT_CHUNKSZ then to_int DEFAULT_CHUNKSZ else size).
  assert (Hlen : 0 < len <= size)
    by (unfold len; destruct (size >? to_int DEFAULT_CHUNKSZ) eqn:E; lia).
  set (c := libusb_bulk_transfer ep len XLINK_USB_DATA_TIMEOUT).
  set (x := bk (trace s) c).
  destruct (negb (rc x =? 0)) eqn:Hrc; [eauto|].
  assert (Hval : 1 <= val x <= len).
  { apply (Hprog (trace s) len); [lia|]. fold c. fold x. lia. }
  rewrite to_size_t_small by (unfold SIZE_MAX, INT_MAX in *; lia).
  apply IH; lia.
Qed.

(** C9: usb_read and usb_write.  A transfer that comes back with a
    non-zero code ends the call with exactly that code.  Every call of a
    run is a bulk transfer on the function's endpoint (0x81 for reads,
    0x01 for writes) with timeout 0 and a length of at most
    DEFAULT_CHUNKSZ (as the [int] the code keeps it in): each asks for
    what is left of the buffer after the transfers before it, cut to the
    chunk size, something being left, and is answered by the backend.
    A non-zero result is the code of the last transfer, all earlier ones
    having returned 0; a result of 0 means every transfer returned 0,
    nothing is left and, the backend never reporting more than was asked
    for nor less than nothing, the reported byte counts add up to the
    buffer size.  The call returns, for a buffer of up to INT_MAX bytes,
    when every successful transfer moves at least one byte and at most
    what was asked for. *)
Theorem usb_read_write_contract (bk : Backend) (CH : Z)
    (pipe : nat -> Z -> M Z) (ep : Z) :
  (pipe = usb_read bk CH /\ ep = USB_ENDPOINT_IN) \/
  (pipe = usb_write bk CH /\ ep = USB_ENDPOINT_OUT) ->
  (forall fuel size s,
     size > 0 ->
     let ss := if to_int size >? to_int CH then to_int CH else to_int size in
     let c := libusb_bulk_transfer ep ss XLINK_USB_DATA_TIMEOUT in
     let x := bk (trace s) c in
     rc x <> 0 ->
     pipe (S fuel) size s = Some (rc x, record_event c x s)) /\
  (forall fuel size s r s',
     pipe fuel size s = Some (r, s') ->
     exists evs,
       trace s' = trace s ++ evs /\
       Forall (pipe_transfer ep (to_int CH)) evs /\
       (forall pre e post,
          evs = pre ++ e :: post ->
          bytes_left size pre > 0 /\
          ev_call e = libusb_bulk_transfer ep (pipe_request CH (bytes_left size pre))
                        XLINK_USB_DATA_TIMEOUT /\
          ev_reply e = bk (trace s ++ pre) (ev_call e)) /\
       (r <> 0 ->
        exists pre e, evs = pre ++ [e] /\
                      Forall (fun e' => rc (ev_reply e') = 0) pre /\
                      rc (ev_reply e) = r) /\
       (r = 0 ->
        Forall (fun e' => rc (ev_reply e') = 0) evs /\
        bytes_left size evs <= 0 /\
        (0 <= size <= SIZE_MAX -> Forall transferred_in_range evs ->
         bytes_transferred evs = size))) /\
  (0 < to_int CH ->
   (forall h len,
      let x := bk h (libusb_bulk_transfer ep len XLINK_USB_DATA_TIMEOUT) in
      0 < len -> rc x = 0 -> 1 <= val x <= len) ->
   forall fuel size s,
     0 <= size <= INT_MAX -> (Z.to_nat size + 1 <= fuel)%nat ->
     exists r s', pipe fuel size s = Some (r, s')).
Proof.
  intros Hpipe.
  assert (Heq : forall fuel size s, pipe fuel size s = pipe_loop bk CH ep fuel size s).
  { intros fuel size s. destruct Hpipe as [[-> ->]|[-> ->]].
    - apply usb_read_pipe_loop.
    - apply usb_write_pipe_loop. }
  split; [|split].
  - intros fuel size s Hpos ss c x Hrc.
    rewrite Heq, pipe_loop_S. cbv zeta. fold ss. fold c. fold x.
    assert ((size >? 0) = true) as -> by lia.
    assert (negb (rc x =? 0) = true) as -> by lia.
    reflexivity.
  - intros fuel size s r s' Hrun. rewrite Heq in Hrun.
    destruct (pipe_loop_run bk CH ep fuel size s r s' Hrun)
      as (evs & Hs' & Hshape & Herr & Hdone).
    destruct (pipe_loop_requests bk CH ep fuel size s r s' Hrun)
      as (evs' & Hs'' & Hreq & Hleft).
    assert (evs' = evs) as ->.
    { rewrite Hs' in Hs''. apply (f_equal trace) in Hs''. cbn [trace set_trace] in Hs''.
      apply app_inv_head in Hs''. symmetry. exact Hs''. }
    exists evs. split; [rewrite Hs'; reflexivity|].
    split; [exact Hshape|]. split; [exact Hreq|]. split; [exact Herr|].
    intros Hr. destruct (Hdone Hr) as [Hall Hsum].
    split; [exact Hall|]. split; [exact (Hleft Hr)|exact Hsum].
  - intros Hchunk Hprog fuel size s Hsize Hfuel. rewrite Heq.
    apply pipe_loop_returns; assumption.
Qed.

Lemma usb_read_write_contract_witness :
  (exists evs,
     usb_read healthy_bus 1048576 3 18 initial_state = Some (0, set_trace evs initial_state) /\
     bulk_lengths evs = [18; 9] /\
     bytes_transferred evs = 18) /\
  (exists evs,
     usb_write healthy_bus 4 4 10 initial_state = Some (0, set_trace evs initial_state) /\
     bulk_lengths evs = [4; 4; 2] /\
     bytes_transferred evs = 10 /\
     bytes_left 10 evs = 0).
Proof.
  split.
  - destruct (usb_read_write_contract healthy_bus 1048576 (usb_read healthy_bus 1048576)
                USB_ENDPOINT_IN (or_introl (conj eq_refl eq_refl))) as (_ & Hrun & _).
    set (evs := [{| ev_call := libusb_bulk_transfer 0x81 18 0;
                    ev_reply := reply 0 9 [0x12; 0x34; 0x56; 0x78; 0x9A; 0xBC; 0xDE; 0xF0; 0x5A] |};
                 {| ev_call := libusb_bulk_transfer 0x81 9 0;
                    ev_reply := reply 0 9 [0x12; 0x34; 0x56; 0x78; 0x9A; 0xBC; 0xDE; 0xF0; 0x5A] |}]).
    assert (E : usb_read healthy_bus 1048576 3 18 initial_state
                = Some (0, set_trace evs initial_state)) by (vm_compute; reflexivity).
    exists evs. split; [exact E|]. split; [reflexivity|].
    destruct (Hrun _ _ _ _ _ E) as (evs' & Htrace & _ & _ & _ & Hdone).
    cbn [trace set_trace initial_state app] in Htrace. subst evs'.
    apply (Hdone eq_refl).
    + unfold SIZE_MAX. lia.
    + repeat (apply List.Forall_cons; [cbn; lia|]). apply List.Forall_nil.
  - destruct (usb_read_write_contract healthy_bus 4 (usb_write healthy_bus 4)
                USB_ENDPOINT_OUT (or_intror (conj eq_refl eq_refl))) as (_ & Hrun & _).
    set (evs := [{| ev_call := libusb_bulk_transfer 0x01 4 0; ev_reply := reply 0 4 [] |};
                 {| ev_call := libusb_bulk_transfer 0x01 4 0; ev_reply := reply 0 4 [] |};
                 {| ev_call := libusb_bulk_transfer 0x01 2 0; ev_reply := reply 0 2 [] |}]).
    assert (E : usb_write healthy_bus 4 4 10 initial_state
                = Some (0, set_trace evs initial_state)) by (vm_compute; reflexivity).
    exists evs. split; [exact E|]. split; [reflexivity|].
    destruct (Hrun _ _ _ _ _ E) as (evs' & Htrace & _ & _ & _ & Hdone).
    cbn [trace set_trace initial_state app] in Htrace. subst evs'.
    destruct (Hdone eq_refl) as (_ & _ & Hsum).
    split; [|reflexivity].
    apply Hsum.
    + unfold SIZE_MAX. lia.
    + repeat (apply List.Forall_cons; [cbn; lia|]). apply List.Forall_nil.
Defined.

(** A write that the backend refuses stops at the first transfer with
    the backend's code. *)
Example usb_write_first_error :
  option_map (fun x => (fst x, bulk_lengths (trace (snd x))))
    (usb_write (failing_bus LIBUSB_ERROR_NO_DEVICE) 64 5 200 initial_state)
  = Some (LIBUSB_ERROR_NO_DEVICE, [64]).
Proof. vm_compute. reflexivity. Qed.

(** * MxId rendering *)

Lemma hex_digit_upper (d : Z) : 0 <= d < 16 -> is_upper_hex (hex_digit d) = true.
Proof.
  intros H.
  assert (Hd : d = 0 \/ d = 1 \/ d = 2 \/ d = 3 \/ d = 4 \/ d = 5 \/ d = 6 \/ d = 7 \/
               d = 8 \/ d = 9 \/ d = 10 \/ d = 11 \/ d = 12 \/ d = 13 \/ d = 14 \/ d = 15)
    by lia.
  repeat (destruct Hd as [-> | Hd]; [reflexivity|]). subst d. reflexivity.
Qed.

Lemma to_uint8_range (z : Z) : 0 <= to_uint8 z < 256.
Proof. unfold to_uint8. apply Z.mod_pos_bound. reflexivity. Qed.

Lemma land_F0_range (b : Z) : 0 <= b < 256 -> 0 <= Z.land b 0xF0 < 256.
Proof.
  intros H.
  assert (Hnn : 0 <= Z.land b 0xF0) by (apply Z.land_nonneg; lia).
  split; [exact Hnn|].
  destruct (Z.eq_dec (Z.land b 0xF0) 0) as [->|Hne]; [lia|].
  change 256 with (2 ^ 8). apply Z.log2_lt_pow2; [lia|].
  pose proof (Z.log2_land b 0xF0 ltac:(lia) ltac:(lia)) as Hlog.
  change (Z.log2 0xF0) with 7 in Hlog. lia.
Qed.

Lemma rbuf_of_length (bytes : list Z) : List.length (rbuf_of bytes) = 128%nat.
Proof.
  unfold rbuf_of. rewrite length_take, length_app, length_replicate. lia.
Qed.

Lemma rbuf_of_range (bytes : list Z) : Forall (fun b => 0 <= b < 256) (rbuf_of bytes).
Proof.
  unfold rbuf_of. apply Forall_take, Forall_app. split.
  - apply Forall_map. apply Forall_forall. intros x _. apply to_uint8_range.
  - apply Forall_replicate. lia.
Qed.

Lemma nibbles_upper (v : Z) :
  0 <= v < 256 ->
  is_upper_hex (hex_digit (v / 16)) = true /\ is_upper_hex (hex_digit (v mod 16)) = true.
Proof.
  intros H. split; apply hex_digit_upper.
  - split; [apply Z.div_pos; lia|apply Z.div_lt_upper_bound; lia].
  - pose proof (Z.mod_pos_bound v 16). lia.
Qed.

(** The in-place mask and the [sprintf] loop produce the rendering of
    the first nine cells. *)
Lemma mxid_hex_render (rbuf : list Z) :
  (9 <= List.length rbuf)%nat ->
  mxid_hex rbuf "" = render_mxid (take 9 rbuf).
Proof.
  intros H.
  do 9 (destruct rbuf as [|? rbuf]; [cbn in H; lia|]).
  reflexivity.
Qed.

Lemma render_mxid_shape (bytes : list Z) :
  List.length bytes = 9%nat -> Forall (fun b => 0 <= b < 256) bytes ->
  String.length (render_mxid bytes) = 18%nat /\
  all_chars is_upper_hex (render_mxid bytes) = true.
Proof.
  intros Hlen Hrange.
  do 9 (destruct bytes as [|? bytes]; [discriminate|]).
  destruct bytes; [|discriminate].
  split; [reflexivity|].
  repeat match goal with
         | H : Forall _ (_ :: _) |- _ => inversion H; subst; clear H
         end.
  cbv [render_mxid map String.concat list_insert insert fmt_02X String.append
       lookup_total list_lookup_total all_chars].
  repeat match goal with
         | |- context [is_upper_hex (hex_digit (?v / 16))] =>
             let Hn := fresh in
             assert (Hn : 0 <= v < 256) by (first [assumption | apply land_F0_range; assumption]);
             destruct (nibbles_upper v Hn) as [-> ->]; clear Hn
         end.
  reflexivity.
Qed.

(** * MxId acquisition protocol *)

(** Runs a monadic program in hypothesis [H] until it returns, splitting
    on every test on the way. *)
Ltac mrun H :=
  repeat first
    [ rewrite bind_assoc in H
    | rewrite bind_libusb in H
    | rewrite bind_ret in H
    | progress cbv beta zeta in H
    | match type of H with
      | (if ?c then _ else _) _ = _ => destruct c eqn:?
      end ].

(** Writes every trace built by recorded calls as [trace s ++ [e1; ..]]. *)
Ltac norm_trace :=
  unfold record_event in *;
  cbn [trace set_trace list_mx_id bulk_chunklen] in *;
  rewrite <- ?app_assoc in *; cbn [app] in *.

Section MxId.

Variable bk : Backend.
Variable XLINK_MAX_MX_ID_SIZE : nat.
Variables usb_mx_id_get_payload_size usb_mx_id_get_payload_end_size : Z.

Let attempt :=
  mxid_attempt bk XLINK_MAX_MX_ID_SIZE usb_mx_id_get_payload_size
    usb_mx_id_get_payload_end_size.
Let retry_loop :=
  mxid_retry_loop bk XLINK_MAX_MX_ID_SIZE usb_mx_id_get_payload_size
    usb_mx_id_get_payload_end_size.
Let acquire :=
  getLibusbDeviceMxId bk XLINK_MAX_MX_ID_SIZE usb_mx_id_get_payload_size
    usb_mx_id_get_payload_end_size.

Lemma mxid_attempt_unbooted_run (pDesc : libusb_device_descriptor) (mxId : string)
    (s : State) (code : Z) (m : string) (s' : State) :
  attempt X_LINK_UNBOOTED pDesc mxId s = Some ((code, m), s') ->
  exists evs,
    s' = set_trace (trace s ++ evs) s /\ attempt_outcome mxId code m evs.
Proof.
  unfold attempt, mxid_attempt, mxid_attempt_unbooted, mxid_exchange, retry_after_sleep.
  intros H. mrun H;
    unfold ret in H; injection H as <- <- <-; norm_trace;
    (eexists; split; [reflexivity|]).
  all: try (left; split; [lia|reflexivity]).
  all: right; split; [reflexivity|]; eexists; split;
    [cbn [In]; repeat (first [left; reflexivity | right])|split; [lia|reflexivity]].
Qed.

Lemma attempt_outcome_app (mxId : string) (code : Z) (m : string)
    (before evs : list Event) :
  attempt_outcome mxId code m evs -> attempt_outcome mxId code m (before ++ evs).
Proof.
  intros [H|(Hc & r & Hin & Hr)]; [left; exact H|].
  right. split; [exact Hc|]. exists r. split; [|exact Hr].
  apply in_or_app. right. exact Hin.
Qed.

Lemma mxid_retry_loop_unbooted_run (pDesc : libusb_device_descriptor) (t1 : Z)
    (fuel : nat) :
  forall mxId s code m s',
    retry_loop fuel X_LINK_UNBOOTED pDesc t1 mxId s = Some ((code, m), s') ->
    exists evs,
      s' = set_trace (trace s ++ evs) s /\ attempt_outcome mxId code m evs.
Proof.
  induction fuel as [|fuel IH]; intros mxId s code m s' H; [discriminate|].
  unfold retry_loop in H. cbn [mxid_retry_loop] in H.
  apply bind_Some in H. destruct H as ([c1 m1] & s1 & Hatt & H).
  apply mxid_attempt_unbooted_run in Hatt. destruct Hatt as (evs1 & -> & Hout).
  cbn [fst snd] in H.
  destruct (c1 =? 0) eqn:Hc1.
  { unfold ret in H. injection H as <- <- <-. exists evs1. split; [reflexivity|exact Hout]. }
  destruct Hout as [[_ ->]|[Hz _]]; [|lia].
  rewrite bind_libusb in H. cbn [trace set_trace] in H.
  set (now := bk (trace s ++ evs1) steady_clock_now) in *.
  destruct (val now - t1 <? RETRY_TIMEOUT).
  - apply IH in H. destruct H as (evs2 & -> & Hout).
    exists (evs1 ++ {| ev_call := steady_clock_now; ev_reply := now |} :: evs2).
    split.
    + norm_trace. reflexivity.
    + apply attempt_outcome_app.
      apply (attempt_outcome_app _ _ _ [_]). exact Hout.
  - unfold ret in H. injection H as <- <- <-.
    exists (evs1 ++ [{| ev_call := steady_clock_now; ev_reply := now |}]).
    split; [norm_trace; reflexivity|].
    left. split; [lia|reflexivity].
Qed.

(** Storing an entry leaves the trace alone. *)
Lemma usb_mx_id_cache_store_entry_run (mx_id path : string) (s : State) :
  exists idx cache,
    usb_mx_id_cache_store_entry mx_id path s = Some (idx, set_list_mx_id cache s) /\
    match list_find (fun e => entry_valid e = false) (list_mx_id s) with
    | Some (i, _) =>
        idx = Z.of_nat i /\
        cache = <[i := {| entry_path := path; entry_mx_id := mx_id;
                          entry_valid := true |}]> (list_mx_id s)
    | None => idx = -1 /\ cache = list_mx_id s
    end.
Proof.
  unfold usb_mx_id_cache_store_entry, get_state, modify, bind, ret.
  destruct (list_find _ (list_mx_id s)) as [[i e]|].
  - eexists _, _. split; [reflexivity|]. split; reflexivity.
  - exists (-1), (list_mx_id s). split; [|split; reflexivity].
    destruct s; reflexivity.
Qed.

Lemma usb_mx_id_cache_get_entry_eq (path : string) (s : State) :
  usb_mx_id_cache_get_entry path s =
    Some (option_map entry_mx_id (find (entry_matches path) (list_mx_id s)), s).
Proof. reflexivity. Qed.

(** A successful acquisition that went to the device. *)
Lemma getLibusbDeviceMxId_unbooted_run (fuel : nat) (devicePath : string)
    (pDesc : libusb_device_descriptor) (dev : Z) (s : State) (m : string) (s' : State) :
  find (entry_matches devicePath) (list_mx_id s) = None ->
  acquire fuel X_LINK_UNBOOTED devicePath pDesc dev s = Some ((LIBUSB_SUCCESS, m), s') ->
  exists evs r,
    trace s' = trace s ++ evs /\
    In (mxid_read r) evs /\ val r = 9 /\
    m = mxid_hex (rbuf_of (data r)) "".
Proof.
  intros Hmiss H. unfold acquire, getLibusbDeviceMxId in H.
  apply bind_Some in H. destruct H as (found & s0 & Hget & H).
  rewrite usb_mx_id_cache_get_entry_eq, Hmiss in Hget.
  injection Hget as <- <-. cbn [option_map] in H.
  rewrite bind_libusb in H.
  set (o := bk (trace s) (libusb_open dev)) in *.
  destruct (rc o <? 0) eqn:Ho.
  { unfold ret in H. injection H as Hrc _ _. unfold LIBUSB_SUCCESS in Hrc. lia. }
  rewrite bind_libusb in H. cbv beta in H.
  apply bind_Some in H. destruct H as ([code m1] & s1 & Hloop & H).
  apply mxid_retry_loop_unbooted_run in Hloop.
  destruct Hloop as (evs & -> & Hout).
  cbn [fst snd] in H. rewrite bind_libusb in H.
  destruct (negb (code =? 0)) eqn:Hcode.
  { unfold ret in H. injection H as Hrc _ _. unfold LIBUSB_SUCCESS in Hrc. lia. }
  apply bind_Some in H. destruct H as (idx & s2 & Hstore & H).
  match type of Hstore with
  | usb_mx_id_cache_store_entry ?a ?p ?st = _ =>
      destruct (usb_mx_id_cache_store_entry_run a p st) as (idx' & cache & Hstore' & _)
  end.
  rewrite Hstore' in Hstore. injection Hstore as <- <-.
  unfold ret in H. injection H as <- <-.
  destruct Hout as [[Hne _]|(_ & r & Hin & Hval & ->)]; [lia|].
  eexists _, r. split; [norm_trace; reflexivity|].
  split; [|split; [exact Hval|reflexivity]].
  cbn [In]. right. right. apply in_or_app. left. exact Hin.
Qed.

(** Attempts and retries never touch the cache. *)
Lemma mxid_attempt_cache (state : XLinkDeviceState_t) (pDesc : libusb_device_descriptor)
    (mxId : string) (s : State) (a : Z * string) (s' : State) :
  attempt state pDesc mxId s = Some (a, s') -> list_mx_id s' = list_mx_id s.
Proof.
  intros H.
  assert (Hbooted : mxid_attempt_booted bk XLINK_MAX_MX_ID_SIZE pDesc mxId s = Some (a, s') ->
                    list_mx_id s' = list_mx_id s).
  { clear H. unfold mxid_attempt_booted, retry_after_sleep. intros H.
    mrun H; unfold ret in H; injection H as <- <-; reflexivity. }
  destruct state; try exact (Hbooted H).
  destruct a as [code m]. apply mxid_attempt_unbooted_run in H.
  destruct H as (evs & -> & _). reflexivity.
Qed.

Lemma mxid_retry_loop_cache (state : XLinkDeviceState_t) (pDesc : libusb_device_descriptor)
    (t1 : Z) (fuel : nat) :
  forall mxId s a s',
    retry_loop fuel state pDesc t1 mxId s = Some (a, s') ->
    list_mx_id s' = list_mx_id s.
Proof.
  induction fuel as [|fuel IH]; intros mxId s a s' H; [discriminate|].
  unfold retry_loop in H. cbn [mxid_retry_loop] in H.
  apply bind_Some in H. destruct H as ([c1 m1] & s1 & Hatt & H).
  apply mxid_attempt_cache in Hatt. cbn [fst snd] in H.
  destruct (c1 =? 0).
  { unfold ret in H. injection H as <- <-. exact Hatt. }
  rewrite bind_libusb in H.
  destruct (val _ - t1 <? RETRY_TIMEOUT).
  - apply IH in H. rewrite H. exact Hatt.
  - unfold ret in H. injection H as <- <-. exact Hatt.
Qed.

(** After a successful acquisition that missed the cache, the cache is
    the old one with the pair stored in its first empty slot, if any. *)
Lemma getLibusbDeviceMxId_miss_cache (fuel : nat) (state : XLinkDeviceState_t)
    (devicePath : string) (pDesc : libusb_device_descriptor) (dev : Z)
    (s : State) (m : string) (s' : State) :
  find (entry_matches devicePath) (list_mx_id s) = None ->
  acquire fuel state devicePath pDesc dev s = Some ((LIBUSB_SUCCESS, m), s') ->
  list_mx_id s' =
    match list_find (fun e => entry_valid e = false) (list_mx_id s) with
    | Some (i, _) => <[i := stored m devicePath]> (list_mx_id s)
    | None => list_mx_id s
    end.
Proof.
  intros Hmiss H. unfold acquire, getLibusbDeviceMxId in H.
  apply bind_Some in H. destruct H as (found & s0 & Hget & H).
  rewrite usb_mx_id_cache_get_entry_eq, Hmiss in Hget.
  injection Hget as <- <-. cbn [option_map] in H.
  rewrite bind_libusb in H.
  destruct (rc _ <? 0) eqn:Ho.
  { unfold ret in H. injection H as Hrc _ _. unfold LIBUSB_SUCCESS in Hrc. lia. }
  rewrite bind_libusb in H. cbv beta in H.
  apply bind_Some in H. destruct H as ([code m1] & s1 & Hloop & H).
  apply mxid_retry_loop_cache in Hloop.
  cbn [fst snd] in H. rewrite bind_libusb in H.
  destruct (negb (code =? 0)) eqn:Hcode.
  { unfold ret in H. injection H as Hrc _ _. unfold LIBUSB_SUCCESS in Hrc. lia. }
  apply bind_Some in H. destruct H as (idx & s2 & Hstore & H).
  match type of Hstore with
  | usb_mx_id_cache_store_entry ?a ?p ?st = _ =>
      destruct (usb_mx_id_cache_store_entry_run a p st) as (idx' & cache & Hstore' & Hcache)
  end.
  rewrite Hstore' in Hstore. injection Hstore as <- <-.
  unfold ret in H. injection H as <- <-.
  cbn [list_mx_id set_list_mx_id record_event set_trace] in *.
  rewrite Hloop in Hcache. cbn [list_mx_id record_event set_trace] in Hcache.
  destruct (list_find _ (list_mx_id s)) as [[i e]|]; destruct Hcache as [_ ->]; reflexivity.
Qed.

(** A pair stored after a miss is what the next lookup of the path
    finds. *)
Lemma find_after_store (path mx_id : string) (l : list MxIdListEntry) :
  forall i e0,
    find (entry_matches path) l = None ->
    list_find (fun e => entry_valid e = false) l = Some (i, e0) ->
    find (entry_matches path) (<[i := stored mx_id path]> l) = Some (stored mx_id path).
Proof.
  induction l as [|x l IH]; intros i e0 Hmiss Hslot; [discriminate|].
  cbn [find] in Hmiss. destruct (entry_matches path x) eqn:Hx; [discriminate|].
  cbn [list_find] in Hslot. destruct (decide (entry_valid x = false)) as [Hv|Hv].
  - injection Hslot as <- <-. cbn.
    unfold entry_matches. cbn. rewrite String.eqb_refl. reflexivity.
  - destruct (list_find _ l) as [[j e1]|] eqn:Hl; [|discriminate].
    cbn in Hslot. injection Hslot as <- <-.
    cbn [list_insert insert find]. change (<[j:=?v]> l) with (list_insert j v l).
    rewrite Hx. exact (IH j e1 Hmiss eq_refl).
Qed.

Lemma slept_app (a b : list Event) : slept (a ++ b) = slept a + slept b.
Proof.
  induction a as [|e a IH]; [reflexivity|].
  cbn [app slept]. destruct (ev_call e); lia.
Qed.

(** An attempt always comes back, and a failed one has slept once. *)
Lemma mxid_attempt_total (state : XLinkDeviceState_t) (pDesc : libusb_device_descriptor)
    (mxId : string) (s : State) :
  exists code m evs,
    attempt state pDesc mxId s = Some ((code, m), set_trace (trace s ++ evs) s) /\
    (code <> 0 -> slept evs = SLEEP_BETWEEN_RETRIES).
Proof.
  destruct (attempt state pDesc mxId s) as [[[code m] s']|] eqn:H.
  - exists code, m.
    unfold attempt, mxid_attempt, mxid_attempt_unbooted, mxid_attempt_booted,
      mxid_exchange, retry_after_sleep in H.
    destruct state; mrun H; unfold ret in H; injection H as <- <- <-; norm_trace;
      (eexists; split; [reflexivity|]); cbn [slept ev_call]; lia.
  - exfalso.
    unfold attempt, mxid_attempt, mxid_attempt_unbooted, mxid_attempt_booted,
      mxid_exchange, retry_after_sleep in H.
    destruct state; mrun H; discriminate.
Qed.

(** On a steady clock the retry window closes after at most fifty
    sleeps. *)
Lemma mxid_retry_loop_terminates (state : XLinkDeviceState_t)
    (pDesc : libusb_device_descriptor) (h1 : list Event) :
  steady_clock bk ->
  forall (fuel k : nat) (mxId : string) (s : State) (h' : list Event),
    trace s = h1 ++ h' ->
    Z.of_nat k * SLEEP_BETWEEN_RETRIES <= slept h' ->
    (50 <= fuel + k)%nat -> (1 <= fuel)%nat ->
    exists a s',
      retry_loop fuel state pDesc (val (bk h1 steady_clock_now)) mxId s = Some (a, s').
Proof.
  intros Hclock. induction fuel as [|fuel IH]; intros k mxId s h' Htrace Hslept Hfuel H1; [lia|].
  unfold retry_loop. cbn [mxid_retry_loop].
  destruct (mxid_attempt_total state pDesc mxId s) as (code & m & evs & Hatt & Hsleep).
  unfold bind at 1. fold attempt. rewrite Hatt. cbn [fst snd].
  destruct (code =? 0) eqn:Hcode; [eauto|].
  rewrite bind_libusb. cbn [trace set_trace].
  set (now := bk (trace s ++ evs) steady_clock_now).
  destruct (val now - val (bk h1 steady_clock_now) <? RETRY_TIMEOUT) eqn:Hwin; [|eauto].
  assert (Helapsed : slept (h' ++ evs) <= val now - val (bk h1 steady_clock_now)).
  { unfold now. rewrite Htrace, <- app_assoc. apply Hclock. }
  rewrite slept_app, Hsleep in Helapsed by lia.
  unfold RETRY_TIMEOUT, SLEEP_BETWEEN_RETRIES in *.
  apply (IH (S k) m _ (h' ++ evs ++ [{| ev_call := steady_clock_now; ev_reply := now |}])).
  - unfold record_event. cbn [trace set_trace]. rewrite Htrace, <- !app_assoc. reflexivity.
  - rewrite !slept_app. cbn [slept ev_call]. lia.
  - lia.
  - lia.
Qed.

(** On a steady clock an acquisition comes back. *)
Lemma getLibusbDeviceMxId_terminates (fuel : nat) (state : XLinkDeviceState_t)
    (devicePath : string) (pDesc : libusb_device_descriptor) (dev : Z) (s : State) :
  steady_clock bk -> (50 <= fuel)%nat ->
  exists a s', acquire fuel state devicePath pDesc dev s = Some (a, s').
Proof.
  intros Hclock Hfuel. unfold acquire, getLibusbDeviceMxId.
  unfold bind at 1. rewrite usb_mx_id_cache_get_entry_eq.
  destruct (find _ _) as [e|]; cbn [option_map]; [eauto|].
  rewrite bind_libusb.
  destruct (rc _ <? 0); [eauto|].
  rewrite bind_libusb. cbv beta.
  set (s0 := record_event (libusb_open dev) (bk (trace s) (libusb_open dev)) s).
  set (t1 := bk (trace s0) steady_clock_now).
  destruct (mxid_retry_loop_terminates state pDesc (trace s0) Hclock fuel 0 ""
              (record_event steady_clock_now t1 s0)
              [{| ev_call := steady_clock_now; ev_reply := t1 |}])
    as ([code m] & s1 & Hloop); [reflexivity|cbn; lia|lia|lia|].
  unfold bind at 1. fold retry_loop. fold t1 in Hloop. rewrite Hloop. cbn [fst snd].
  rewrite bind_libusb.
  destruct (negb (code =? 0)); [eauto|].
  match goal with
  | |- context [usb_mx_id_cache_store_entry ?a ?p] =>
      unfold bind;
      match goal with
      | |- context [usb_mx_id_cache_store_entry a p ?st] =>
          destruct (usb_mx_id_cache_store_entry_run a p st) as (idx & cache & -> & _)
      end
  end.
  eauto.
Qed.

End MxId.

(** C1: a successful acquisition on an UNBOOTED device that went to the
    device (the path was not cached) read 9 bytes from endpoint 0x81,
    and the MxId it returns is byte 8 masked with 0xF0 and all nine
    bytes as two uppercase hexadecimal digits each: 18 characters.  The
    response 12 34 56 78 9A BC DE F0 5A gives 123456789ABCDEF050. *)
Theorem mxid_unbooted_rendering (bk : Backend) (XLINK_MAX_MX_ID_SIZE : nat)
    (payload_size payload_end_size : Z) (fuel : nat) (devicePath : string)
    (pDesc : libusb_device_descriptor) (dev : Z) (s : State) (m : string) (s' : State) :
  find (entry_matches devicePath) (list_mx_id s) = None ->
  getLibusbDeviceMxId bk XLINK_MAX_MX_ID_SIZE payload_size payload_end_size fuel
    X_LINK_UNBOOTED devicePath pDesc dev s = Some ((LIBUSB_SUCCESS, m), s') ->
  exists evs r,
    trace s' = trace s ++ evs /\
    In (mxid_read r) evs /\ val r = 9 /\
    m = render_mxid (take 9 (rbuf_of (data r))) /\
    String.length m = 18%nat /\
    all_chars is_upper_hex m = true /\
    (data r = [0x12; 0x34; 0x56; 0x78; 0x9A; 0xBC; 0xDE; 0xF0; 0x5A] ->
     m = "123456789ABCDEF050").
Proof.
  intros Hmiss Hrun.
  destruct (getLibusbDeviceMxId_unbooted_run bk XLINK_MAX_MX_ID_SIZE payload_size
              payload_end_size fuel devicePath pDesc dev s m s' Hmiss Hrun)
    as (evs & r & Htrace & Hin & Hval & ->).
  exists evs, r. split; [exact Htrace|]. split; [exact Hin|]. split; [exact Hval|].
  assert (Hrender : mxid_hex (rbuf_of (data r)) "" = render_mxid (take 9 (rbuf_of (data r)))).
  { apply mxid_hex_render. rewrite rbuf_of_length. lia. }
  assert (Hshape := render_mxid_shape (take 9 (rbuf_of (data r)))).
  rewrite length_take, rbuf_of_length in Hshape.
  specialize (Hshape eq_refl (Forall_take _ 9%nat _ (rbuf_of_range (data r)))).
  rewrite Hrender. split; [reflexivity|].
  split; [apply Hshape|]. split; [apply Hshape|].
  intros ->. reflexivity.
Qed.

Lemma mxid_unbooted_rendering_witness :
  exists s',
    getLibusbDeviceMxId healthy_bus 32 1024 16 3 X_LINK_UNBOOTED "1.2.3"
      (descriptor_of (reply 0 0 [0x200; 0x03E7; 0x2485; 3])) 11 initial_state
    = Some ((LIBUSB_SUCCESS, "123456789ABCDEF050"), s') /\
    String.length "123456789ABCDEF050" = 18%nat.
Proof.
  eexists. split; [vm_compute; reflexivity|].
  destruct (mxid_unbooted_rendering healthy_bus 32 1024 16 3 "1.2.3"
              (descriptor_of (reply 0 0 [0x200; 0x03E7; 0x2485; 3])) 11 initial_state
              "123456789ABCDEF050" _ eq_refl
              ltac:(vm_compute; reflexivity))
    as (evs & r & _ & _ & _ & _ & Hlen & _).
  exact Hlen.
Defined.

(** * Enumerator *)

Lemma XLinkDeviceState_eqb_eq (a b : XLinkDeviceState_t) :
  XLinkDeviceState_eqb a b = true <-> a = b.
Proof. destruct a, b; cbn; split; intros H; congruence. Qed.

Lemma substring_all (n : nat) (s : string) :
  (String.length s <= n)%nat -> String.substring 0 n s = s.
Proof.
  revert n. induction s as [|c s IH]; intros n H.
  - destruct n; reflexivity.
  - destruct n as [|n]; [cbn in H; lia|].
    cbn. rewrite IH; [reflexivity|]. cbn in H. lia.
Qed.

Lemma strncpy_fits (n : nat) (s : string) :
  (String.length s <= n)%nat -> strncpy n s = s.
Proof. apply substring_all. Qed.

(** A set filter string that let a value pass is that value. *)
Lemma string_filter_pass (required actual : string) :
  (0 <? String.length required)%nat && negb (String.eqb required actual) = false ->
  required = "" \/ required = actual.
Proof.
  intros H. apply andb_false_iff in H. destruct H as [H|H].
  - left. destruct required; [reflexivity|discriminate].
  - right. apply negb_false_iff, String.eqb_eq in H. exact H.
Qed.

Section Enumerator.

Variable bk : Backend.
Variables XLINK_MAX_NAME_SIZE XLINK_MAX_MX_ID_SIZE : nat.
Variables usb_mx_id_get_payload_size usb_mx_id_get_payload_end_size : Z.

Let acquire :=
  getLibusbDeviceMxId bk XLINK_MAX_MX_ID_SIZE usb_mx_id_get_payload_size
    usb_mx_id_get_payload_end_size.
Let report :=
  report_device bk XLINK_MAX_NAME_SIZE XLINK_MAX_MX_ID_SIZE usb_mx_id_get_payload_size
    usb_mx_id_get_payload_end_size.
Let visit :=
  visit_device bk XLINK_MAX_NAME_SIZE XLINK_MAX_MX_ID_SIZE usb_mx_id_get_payload_size
    usb_mx_id_get_payload_end_size.
Let sweep_loop :=
  devices_loop bk XLINK_MAX_NAME_SIZE XLINK_MAX_MX_ID_SIZE usb_mx_id_get_payload_size
    usb_mx_id_get_payload_end_size.

(** What report_device answers, given what the acquisition answered. *)
Lemma report_device_run (fuel : nat) (F : deviceDesc_t) (st : XLinkDeviceState_t)
    (devicePath : string) (desc : libusb_device_descriptor) (dev : Z)
    (s : State) (code : Z) (m : string) (s' : State) :
  acquire fuel st devicePath desc dev s = Some ((code, m), s') ->
  report fuel F st devicePath desc dev s =
    Some (if (0 <? String.length (mxid F))%nat && negb (String.eqb (mxid F) m)
          then Continue
          else Filled {| status := status_of_rc code;
                         platform := X_LINK_MYRIAD_X;
                         protocol := X_LINK_USB_VSC;
                         state := st;
                         name := strncpy XLINK_MAX_NAME_SIZE devicePath;
                         mxid := strncpy XLINK_MAX_MX_ID_SIZE m |}, s').
Proof.
  intros Hacq. unfold report, report_device, bind. fold acquire. rewrite Hacq.
  cbn [fst snd]. destruct (_ && _); reflexivity.
Qed.

Lemma report_device_inv (fuel : nat) (F : deviceDesc_t) (st : XLinkDeviceState_t)
    (devicePath : string) (desc : libusb_device_descriptor) (dev : Z)
    (s : State) (x : LoopExit) (s' : State) :
  report fuel F st devicePath desc dev s = Some (x, s') ->
  exists code m,
    acquire fuel st devicePath desc dev s = Some ((code, m), s') /\
    x = (if (0 <? String.length (mxid F))%nat && negb (String.eqb (mxid F) m)
         then Continue
         else Filled {| status := status_of_rc code;
                        platform := X_LINK_MYRIAD_X;
                        protocol := X_LINK_USB_VSC;
                        state := st;
                        name := strncpy XLINK_MAX_NAME_SIZE devicePath;
                        mxid := strncpy XLINK_MAX_MX_ID_SIZE m |}).
Proof.
  intros H. unfold report, report_device in H.
  apply bind_Some in H. destruct H as ([code m] & s1 & Hacq & H).
  exists code, m. cbn [fst snd] in H.
  destruct (_ && _); unfold ret in H; injection H as <- <-; split; auto.
Qed.

(** A record the loop body fills passes the filter. *)
Lemma visit_device_filled (fuel : nat) (F : deviceDesc_t) (size n dev : Z)
    (s : State) (d : deviceDesc_t) (s' : State) :
  (String.length (name F) < XLINK_MAX_NAME_SIZE)%nat ->
  (String.length (mxid F) < XLINK_MAX_MX_ID_SIZE)%nat ->
  visit fuel F size n dev s = Some (Filled d, s') ->
  passes_filter F d.
Proof.
  intros Hname Hmxid H. unfold visit, visit_device in H. cbv zeta in H.
  destruct (dev =? 0); [discriminate|].
  destruct (n >=? size); [discriminate|].
  rewrite bind_libusb in H.
  destruct (rc _ <? 0); [discriminate|].
  destruct (vidPidToDeviceState _) as [st|]; [|discriminate].
  destruct (negb (XLinkDeviceState_eqb (state F) X_LINK_ANY_STATE)
            && negb (XLinkDeviceState_eqb st (state F))) eqn:Hstate; [discriminate|].
  apply bind_Some in H. destruct H as (devicePath & s1 & _ & H).
  destruct ((0 <? String.length (name F))%nat && negb (String.eqb (name F) devicePath))
    eqn:Hn; [discriminate|].
  apply report_device_inv in H. destruct H as (code & m & _ & Hx).
  destruct ((0 <? String.length (mxid F))%nat && negb (String.eqb (mxid F) m))
    eqn:Hm; [discriminate|].
  injection Hx as ->. unfold passes_filter. cbn [state name mxid].
  split; [|split].
  - apply andb_false_iff in Hstate.
    destruct Hstate as [Hs|Hs]; apply negb_false_iff, XLinkDeviceState_eqb_eq in Hs; auto.
  - destruct (string_filter_pass _ _ Hn) as [He|He]; [left; exact He|right].
    rewrite strncpy_fits; [exact He|]. rewrite <- He. lia.
  - destruct (string_filter_pass _ _ Hm) as [He|He]; [left; exact He|right].
    rewrite strncpy_fits; [exact He|]. rewrite <- He. lia.
Qed.

(** The device loop keeps what it has found and only adds records that
    pass the filter. *)
Lemma devices_loop_run (fuel : nat) (F : deviceDesc_t) (size : Z) (devs : list Z) :
  forall found s out s',
    (String.length (name F) < XLINK_MAX_NAME_SIZE)%nat ->
    (String.length (mxid F) < XLINK_MAX_MX_ID_SIZE)%nat ->
    sweep_loop fuel F size devs found s = Some (out, s') ->
    exists more, out = found ++ more /\ Forall (passes_filter F) more.
Proof.
  induction devs as [|dev devs IH]; intros found s out s' Hname Hmxid H.
  - unfold ret in H. injection H as <- <-. exists []. rewrite app_nil_r.
    split; [reflexivity|constructor].
  - unfold sweep_loop in H. cbn [devices_loop] in H.
    apply bind_Some in H. destruct H as (x & s1 & Hvisit & H).
    destruct x as [| |d].
    + exact (IH _ _ _ _ Hname Hmxid H).
    + unfold ret in H. injection H as <- <-. exists []. rewrite app_nil_r.
      split; [reflexivity|constructor].
    + apply (visit_device_filled fuel F size _ dev s d s1 Hname Hmxid) in Hvisit.
      destruct (IH _ _ _ _ Hname Hmxid H) as (more & -> & Hmore).
      exists (d :: more). rewrite <- app_assoc. split; [reflexivity|].
      constructor; assumption.
Qed.

(** Records already written stay where they are. *)
Lemma devices_loop_prefix (fuel : nat) (F : deviceDesc_t) (size : Z) (devs : list Z) :
  forall found s out s',
    sweep_loop fuel F size devs found s = Some (out, s') ->
    exists more, out = found ++ more.
Proof.
  induction devs as [|dev devs IH]; intros found s out s' H.
  - unfold ret in H. injection H as <- <-. exists []. rewrite app_nil_r. reflexivity.
  - unfold sweep_loop in H. cbn [devices_loop] in H.
    apply bind_Some in H. destruct H as (x & s1 & Hvisit & H).
    destruct x as [| |d].
    + exact (IH _ _ _ _ H).
    + unfold ret in H. injection H as <- <-. exists []. rewrite app_nil_r. reflexivity.
    + destruct (IH _ _ _ _ H) as (more & ->).
      exists (d :: more). rewrite <- app_assoc. reflexivity.
Qed.

Lemma devices_loop_keeps (fuel : nat) (F : deviceDesc_t) (size dev : Z) (devs : list Z)
    (found : list deviceDesc_t) (s : State) (d : deviceDesc_t) (s1 : State)
    (out : list deviceDesc_t) (s' : State) :
  visit fuel F size (Z.of_nat (List.length found)) dev s = Some (Filled d, s1) ->
  sweep_loop fuel F size (dev :: devs) found s = Some (out, s') ->
  exists more, out = found ++ d :: more.
Proof.
  intros Hvisit H. unfold sweep_loop in H. cbn [devices_loop] in H.
  unfold bind in H at 1. fold visit in H. rewrite Hvisit in H.
  apply devices_loop_prefix in H. destruct H as (more & ->).
  exists more. rewrite <- app_assoc. reflexivity.
Qed.

(** A filter string that is empty or is the value lets it pass. *)
Lemma string_filter_accepts (required actual : string) :
  required = "" \/ required = actual ->
  (0 <? String.length required)%nat && negb (String.eqb required actual) = false.
Proof.
  intros [->| ->]; [reflexivity|].
  rewrite String.eqb_refl. apply andb_false_r.
Qed.

(** A device that passes the selection is reported with the status its
    MxId acquisition maps to, whatever the acquisition returned, unless
    the MxId filter rejects it. *)
Lemma visit_device_candidate (fuel : nat) (F : deviceDesc_t) (size n dev : Z)
    (s : State) (st : XLinkDeviceState_t) (devicePath : string) (s_a : State)
    (code : Z) (m : string) (s' : State) :
  let res := bk (trace s) (libusb_get_device_descriptor dev) in
  let desc := descriptor_of res in
  dev <> 0 -> n < size -> 0 <= rc res ->
  vidPidToDeviceState (idVendor desc, idProduct desc) = Some st ->
  state F = X_LINK_ANY_STATE \/ state F = st ->
  getLibusbDevicePath bk dev (record_event (libusb_get_device_descriptor dev) res s)
    = Some (devicePath, s_a) ->
  name F = "" \/ name F = devicePath ->
  acquire fuel st devicePath desc dev s_a = Some ((code, m), s') ->
  mxid F = "" \/ mxid F = m ->
  visit fuel F size n dev s =
    Some (Filled {| status := status_of_rc code;
                    platform := X_LINK_MYRIAD_X;
                    protocol := X_LINK_USB_VSC;
                    state := st;
                    name := strncpy XLINK_MAX_NAME_SIZE devicePath;
                    mxid := strncpy XLINK_MAX_MX_ID_SIZE m |}, s').
Proof.
  intros res desc Hdev Hroom Hres Hvid Hstate Hpath Hname Hacq Hmxid.
  unfold visit, visit_device. cbv zeta.
  assert ((dev =? 0) = false) as -> by lia.
  assert ((n >=? size) = false) as -> by lia.
  rewrite bind_libusb. fold res. fold desc.
  assert ((rc res <? 0) = false) as -> by lia.
  rewrite Hvid.
  assert (negb (XLinkDeviceState_eqb (state F) X_LINK_ANY_STATE)
          && negb (XLinkDeviceState_eqb st (state F)) = false) as ->.
  { destruct Hstate as [E|E]; rewrite E.
    - reflexivity.
    - destruct st; reflexivity. }
  unfold bind at 1. rewrite Hpath.
  rewrite (string_filter_accepts _ _ Hname).
  fold report. rewrite (report_device_run fuel F st devicePath desc dev s_a code m s' Hacq).
  rewrite (string_filter_accepts _ _ Hmxid). reflexivity.
Qed.

(** The loop is only left early when the array is full. *)
Lemma visit_device_break (fuel : nat) (F : deviceDesc_t) (size n dev : Z)
    (s s' : State) :
  visit fuel F size n dev s = Some (Break, s') -> size <= n /\ s' = s.
Proof.
  intros H. unfold visit, visit_device in H. cbv zeta in H.
  destruct (dev =? 0); [discriminate|].
  destruct (n >=? size) eqn:Hn.
  { unfold ret in H. injection H as <-. split; [lia|reflexivity]. }
  rewrite bind_libusb in H.
  destruct (rc _ <? 0); [discriminate|].
  destruct (vidPidToDeviceState _) as [st|]; [|discriminate].
  destruct (negb _ && negb _); [discriminate|].
  apply bind_Some in H. destruct H as (devicePath & s1 & _ & H).
  destruct (_ && _); [discriminate|].
  apply report_device_inv in H. destruct H as (code & m & _ & Hx).
  destruct (_ && _); discriminate Hx.
Qed.

(** A run of the loop over [pre ++ rest] is a run over [pre] followed by
    a run over [rest], unless the array was full before [pre] ended. *)
Lemma devices_loop_app (fuel : nat) (F : deviceDesc_t) (size : Z) (pre : list Z) :
  forall rest found s out s',
    sweep_loop fuel F size (pre ++ rest) found s = Some (out, s') ->
    exists found_i s_i,
      sweep_loop fuel F size pre found s = Some (found_i, s_i) /\
      (sweep_loop fuel F size rest found_i s_i = Some (out, s') \/
       (out = found_i /\ s' = s_i /\ size <= Z.of_nat (List.length found_i))).
Proof.
  induction pre as [|dev pre IH]; intros rest found s out s' H.
  - exists found, s. split; [reflexivity|left; exact H].
  - unfold sweep_loop in H. cbn [app devices_loop] in H.
    apply bind_Some in H. destruct H as (x & s1 & Hvisit & H).
    unfold sweep_loop at 1. cbn [devices_loop]. unfold bind at 1. rewrite Hvisit.
    destruct x as [| |d].
    + exact (IH _ _ _ _ _ H).
    + unfold ret in H. injection H as <- <-. exists found, s1.
      split; [reflexivity|]. right.
      destruct (visit_device_break _ _ _ _ _ _ _ Hvisit) as [Hn _]. auto.
    + exact (IH _ _ _ _ _ H).
Qed.

(** A completed sweep visits every entry of the device list in turn
    while the array has room, and a record a visit fills is in the
    output, right after the records written before it. *)
Lemma getUSBDevices_sweep (fuel : nat) (F : deviceDesc_t) (size : Z)
    (s : State) (res : Enumeration) (s' : State) :
  let l := bk (trace s) libusb_get_device_list in
  0 <= rc l ->
  getUSBDevices bk XLINK_MAX_NAME_SIZE XLINK_MAX_MX_ID_SIZE usb_mx_id_get_payload_size
    usb_mx_id_get_payload_end_size fuel F size s = Some (res, s') ->
  exists s0,
    usb_mx_id_cache_init (record_event libusb_get_device_list l s) = Some (tt, s0) /\
    forall pre dev post,
      take (Z.to_nat (rc l)) (data l) = pre ++ dev :: post ->
      exists found_i s_i,
        sweep_loop fuel F size pre [] s0 = Some (found_i, s_i) /\
        (Z.of_nat (List.length found_i) < size ->
         exists x s_i',
           visit fuel F size (Z.of_nat (List.length found_i)) dev s_i = Some (x, s_i') /\
           forall d, x = Filled d ->
                     exists more, out_foundDevices res = found_i ++ d :: more).
Proof.
  intros l Hlist H. unfold getUSBDevices in H.
  rewrite bind_libusb in H. cbv zeta in H. fold l in H.
  destruct (rc l <? 0) eqn:Hneg; [lia|].
  apply bind_Some in H. destruct H as ([] & s0 & Hinit & H).
  apply bind_Some in H. destruct H as (found & s2 & Hloop & H).
  rewrite bind_libusb in H. unfold ret in H. injection H as <- <-.
  cbn [out_foundDevices].
  exists s0. split; [exact Hinit|].
  intros pre dev post Hdevs. rewrite Hdevs in Hloop.
  apply devices_loop_app in Hloop.
  destruct Hloop as (found_i & s_i & Hpre & [Hrest|(_ & _ & Hfull)]).
  2:{ exists found_i, s_i. split; [exact Hpre|]. intros Hroom. lia. }
  exists found_i, s_i. split; [exact Hpre|]. intros _.
  pose proof Hrest as Hstep. unfold sweep_loop in Hstep. cbn [devices_loop] in Hstep.
  apply bind_Some in Hstep. destruct Hstep as (x & s_i' & Hvisit & _).
  exists x, s_i'. split; [exact Hvisit|].
  intros d ->. exact (devices_loop_keeps _ _ _ _ _ _ _ _ _ _ _ Hvisit Hrest).
Qed.

(** A sweep whose device list was fetched ends with success and with the
    number of records written. *)
Lemma getUSBDevices_inv (fuel : nat) (F : deviceDesc_t) (size : Z)
    (s : State) (res : Enumeration) (s' : State) :
  0 <= rc (bk (trace s) libusb_get_device_list) ->
  getUSBDevices bk XLINK_MAX_NAME_SIZE XLINK_MAX_MX_ID_SIZE usb_mx_id_get_payload_size
    usb_mx_id_get_payload_end_size fuel F size s = Some (res, s') ->
  enum_rc res = X_LINK_PLATFORM_SUCCESS /\
  out_amountOfFoundDevices res =
    Some (to_unsigned (Z.of_nat (List.length (out_foundDevices res)))) /\
  exists devs s1 s2,
    sweep_loop fuel F size devs [] s1 = Some (out_foundDevices res, s2).
Proof.
  intros Hlist H. unfold getUSBDevices in H.
  rewrite bind_libusb in H. cbv zeta in H.
  destruct (rc _ <? 0) eqn:Hneg; [lia|].
  unfold usb_mx_id_cache_init, modify in H.
  unfold bind at 1 in H.
  apply bind_Some in H. destruct H as (found & s2 & Hloop & H).
  rewrite bind_libusb in H. unfold ret in H. injection H as <- <-.
  cbn [enum_rc out_foundDevices out_amountOfFoundDevices].
  split; [reflexivity|]. split; [reflexivity|].
  eexists _, _, _. exact Hloop.
Qed.

Lemma getLibusbDevicePath_total (dev : Z) (s : State) :
  exists devicePath s', getLibusbDevicePath bk dev s = Some (devicePath, s').
Proof.
  unfold getLibusbDevicePath. mstep.
  destruct (_ =? LIBUSB_ERROR_OVERFLOW); [unfold ret; eauto|].
  destruct (_ =? 0); unfold ret; eauto.
Qed.

Lemma visit_device_terminates (fuel : nat) (F : deviceDesc_t) (size n dev : Z) (s : State) :
  steady_clock bk -> (50 <= fuel)%nat ->
  exists x s', visit fuel F size n dev s = Some (x, s').
Proof.
  intros Hclock Hfuel. unfold visit, visit_device. cbv zeta.
  destruct (dev =? 0); [unfold ret; eauto|].
  destruct (n >=? size); [unfold ret; eauto|].
  rewrite bind_libusb.
  destruct (rc _ <? 0); [unfold ret; eauto|].
  destruct (vidPidToDeviceState _) as [st|]; [|unfold ret; eauto].
  destruct (negb _ && negb _); [unfold ret; eauto|].
  unfold bind at 1.
  match goal with
  | |- context [getLibusbDevicePath bk dev ?st'] =>
      destruct (getLibusbDevicePath_total dev st') as (devicePath & s1 & Hpath)
  end.
  rewrite Hpath.
  destruct (_ && _); [unfold ret; eauto|].
  match goal with
  | |- context [report_device _ _ _ _ _ fuel F st devicePath ?desc dev s1] =>
      destruct (getLibusbDeviceMxId_terminates bk XLINK_MAX_MX_ID_SIZE
                  usb_mx_id_get_payload_size usb_mx_id_get_payload_end_size
                  fuel st devicePath desc dev s1 Hclock Hfuel) as ([code m] & s2 & Hacq);
      fold report;
      rewrite (report_device_run fuel F st devicePath desc dev s1 code m s2 Hacq)
  end.
  eauto.
Qed.

Lemma devices_loop_terminates (fuel : nat) (F : deviceDesc_t) (size : Z) (devs : list Z) :
  steady_clock bk -> (50 <= fuel)%nat ->
  forall found s, exists out s', sweep_loop fuel F size devs found s = Some (out, s').
Proof.
  intros Hclock Hfuel. induction devs as [|dev devs IH]; intros found s.
  - unfold sweep_loop, devices_loop, ret. eauto.
  - unfold sweep_loop. cbn [devices_loop].
    destruct (visit_device_terminates fuel F size (Z.of_nat (List.length found)) dev s
                Hclock Hfuel) as (x & s1 & Hvisit).
    unfold bind at 1. fold visit. rewrite Hvisit.
    destruct x as [| |d]; [apply IH|unfold ret; eauto|apply IH].
Qed.

(** On a steady clock a sweep comes back. *)
Lemma getUSBDevices_terminates (fuel : nat) (F : deviceDesc_t) (size : Z) (s : State) :
  steady_clock bk -> (50 <= fuel)%nat ->
  exists res s',
    getUSBDevices bk XLINK_MAX_NAME_SIZE XLINK_MAX_MX_ID_SIZE usb_mx_id_get_payload_size
      usb_mx_id_get_payload_end_size fuel F size s = Some (res, s').
Proof.
  intros Hclock Hfuel. unfold getUSBDevices.
  rewrite bind_libusb. cbv zeta.
  destruct (rc _ <? 0); [unfold ret; eauto|].
  unfold usb_mx_id_cache_init, modify. unfold bind at 1. unfold bind at 1.
  match goal with
  | |- context [devices_loop _ _ _ _ _ fuel F size ?devs [] ?st] =>
      destruct (devices_loop_terminates fuel F size devs Hclock Hfuel [] st)
        as (out & s1 & Hloop)
  end.
  unfold sweep_loop in Hloop. rewrite Hloop.
  rewrite bind_libusb. unfold ret. eauto.
Qed.

End Enumerator.

(** The clock of the scripted backends is steady. *)
Lemma scripted_clock_steady (bk : Backend) :
  (forall h, bk h steady_clock_now = reply 0 (Z.of_nat (List.length h) + slept h) []) ->
  steady_clock bk.
Proof.
  intros Hbk h h'. rewrite !Hbk. cbn [val reply].
  rewrite length_app, slept_app. lia.
Qed.

(** C2: the record status follows the result of the MxId acquisition
    (success gives X_LINK_SUCCESS, LIBUSB_ERROR_ACCESS gives
    X_LINK_INSUFFICIENT_PERMISSIONS, anything else X_LINK_ERROR), and
    the device is reported whatever that result was, unless a non-empty
    MxId filter differs from the MxId obtained.  So a device that passes
    the selection (a non-null entry while the array has room, a readable
    descriptor with a known vendor and product, the state and the name
    the filter asks for) is given a record with that status and the
    MxId obtained.  A completed sweep, one that fetched the device list,
    visits every entry of the list in turn while the array has room,
    starting from the freshly initialised cache; the record a visit
    fills is in the output, right after the records of the entries
    before it; the sweep returns X_LINK_PLATFORM_SUCCESS with the number
    of records written; and on a steady clock the sweep does return. *)
Theorem getUSBDevices_status (bk : Backend) (XLINK_MAX_NAME_SIZE XLINK_MAX_MX_ID_SIZE : nat)
    (payload_size payload_end_size : Z) :
  (forall fuel F st devicePath desc dev s code m s',
     getLibusbDeviceMxId bk XLINK_MAX_MX_ID_SIZE payload_size payload_end_size fuel
       st devicePath desc dev s = Some ((code, m), s') ->
     exists x,
       report_device bk XLINK_MAX_NAME_SIZE XLINK_MAX_MX_ID_SIZE payload_size
         payload_end_size fuel F st devicePath desc dev s = Some (x, s') /\
       (mxid F = "" \/ mxid F = m ->
        exists d,
          x = Filled d /\ state d = st /\
          (code = LIBUSB_SUCCESS -> status d = X_LINK_SUCCESS) /\
          (code = LIBUSB_ERROR_ACCESS -> status d = X_LINK_INSUFFICIENT_PERMISSIONS) /\
          (code <> LIBUSB_SUCCESS -> code <> LIBUSB_ERROR_ACCESS ->
           status d = X_LINK_ERROR)) /\
       (x = Continue -> mxid F <> "" /\ mxid F <> m)) /\
  (forall fuel F size n dev s st devicePath s_a code m s',
     let res := bk (trace s) (libusb_get_device_descriptor dev) in
     let desc := descriptor_of res in
     dev <> 0 -> n < size -> 0 <= rc res ->
     vidPidToDeviceState (idVendor desc, idProduct desc) = Some st ->
     state F = X_LINK_ANY_STATE \/ state F = st ->
     getLibusbDevicePath bk dev (record_event (libusb_get_device_descriptor dev) res s)
       = Some (devicePath, s_a) ->
     name F = "" \/ name F = devicePath ->
     getLibusbDeviceMxId bk XLINK_MAX_MX_ID_SIZE payload_size payload_end_size fuel
       st devicePath desc dev s_a = Some ((code, m), s') ->
     mxid F = "" \/ mxid F = m ->
     exists d,
       visit_device bk XLINK_MAX_NAME_SIZE XLINK_MAX_MX_ID_SIZE payload_size
         payload_end_size fuel F size n dev s = Some (Filled d, s') /\
       state d = st /\
       name d = strncpy XLINK_MAX_NAME_SIZE devicePath /\
       mxid d = strncpy XLINK_MAX_MX_ID_SIZE m /\
       (code = LIBUSB_SUCCESS -> status d = X_LINK_SUCCESS) /\
       (code = LIBUSB_ERROR_ACCESS -> status d = X_LINK_INSUFFICIENT_PERMISSIONS) /\
       (code <> LIBUSB_SUCCESS -> code <> LIBUSB_ERROR_ACCESS ->
        status d = X_LINK_ERROR)) /\
  (forall fuel F size dev devs found s d s1 out s',
     visit_device bk XLINK_MAX_NAME_SIZE XLINK_MAX_MX_ID_SIZE payload_size payload_end_size
       fuel F size (Z.of_nat (List.length found)) dev s = Some (Filled d, s1) ->
     devices_loop bk XLINK_MAX_NAME_SIZE XLINK_MAX_MX_ID_SIZE payload_size payload_end_size
       fuel F size (dev :: devs) found s = Some (out, s') ->
     exists more, out = found ++ d :: more) /\
  (forall fuel F size s res s',
     let l := bk (trace s) libusb_get_device_list in
     0 <= rc l ->
     getUSBDevices bk XLINK_MAX_NAME_SIZE XLINK_MAX_MX_ID_SIZE payload_size payload_end_size
       fuel F size s = Some (res, s') ->
     enum_rc res = X_LINK_PLATFORM_SUCCESS /\
     out_amountOfFoundDevices res =
       Some (to_unsigned (Z.of_nat (List.length (out_foundDevices res)))) /\
     exists s0,
       usb_mx_id_cache_init (record_event libusb_get_device_list l s) = Some (tt, s0) /\
       forall pre dev post,
         take (Z.to_nat (rc l)) (data l) = pre ++ dev :: post ->
         exists found_i s_i,
           devices_loop bk XLINK_MAX_NAME_SIZE XLINK_MAX_MX_ID_SIZE payload_size
             payload_end_size fuel F size pre [] s0 = Some (found_i, s_i) /\
           (Z.of_nat (List.length found_i) < size ->
            exists x s_i',
              visit_device bk XLINK_MAX_NAME_SIZE XLINK_MAX_MX_ID_SIZE payload_size
                payload_end_size fuel F size (Z.of_nat (List.length found_i)) dev s_i
                = Some (x, s_i') /\
              forall d, x = Filled d ->
                        exists more, out_foundDevices res = found_i ++ d :: more)) /\
  (forall fuel F size s,
     steady_clock bk -> (50 <= fuel)%nat ->
     exists res s',
       getUSBDevices bk XLINK_MAX_NAME_SIZE XLINK_MAX_MX_ID_SIZE payload_size
         payload_end_size fuel F size s = Some (res, s')).
Proof.
  assert (Hswitch : forall code,
            (code = LIBUSB_SUCCESS -> status_of_rc code = X_LINK_SUCCESS) /\
            (code = LIBUSB_ERROR_ACCESS ->
             status_of_rc code = X_LINK_INSUFFICIENT_PERMISSIONS) /\
            (code <> LIBUSB_SUCCESS -> code <> LIBUSB_ERROR_ACCESS ->
             status_of_rc code = X_LINK_ERROR)).
  { intros code. unfold status_of_rc.
    split; [intros ->; reflexivity|]. split; [intros ->; reflexivity|].
    intros H1 H2. destruct (code =? LIBUSB_SUCCESS) eqn:E1; [lia|].
    destruct (code =? LIBUSB_ERROR_ACCESS) eqn:E2; [lia|reflexivity]. }
  split; [|split; [|split; [|split]]].
  - intros fuel F st devicePath desc dev s code m s' Hacq.
    eexists. split; [apply report_device_run; exact Hacq|].
    destruct ((0 <? String.length (mxid F))%nat && negb (String.eqb (mxid F) m)) eqn:Hf.
    + apply andb_true_iff in Hf. destruct Hf as [Hlen Hne].
      apply negb_true_iff, String.eqb_neq in Hne.
      assert (Hset : mxid F <> "") by (intros E; rewrite E in Hlen; discriminate).
      split; [intros [E|E]; contradiction|]. intros _. split; assumption.
    + split; [|discriminate]. intros _. eexists. split; [reflexivity|].
      cbn [state status]. split; [reflexivity|]. apply Hswitch.
  - intros fuel F size n dev s st devicePath s_a code m s' res desc
      Hdev Hroom Hres Hvid Hstate Hpath Hname Hacq Hmxid.
    eexists. split.
    + exact (visit_device_candidate bk XLINK_MAX_NAME_SIZE XLINK_MAX_MX_ID_SIZE payload_size
               payload_end_size fuel F size n dev s st devicePath s_a code m s'
               Hdev Hroom Hres Hvid Hstate Hpath Hname Hacq Hmxid).
    + cbn [state name mxid status]. split; [reflexivity|]. split; [reflexivity|].
      split; [reflexivity|]. apply Hswitch.
  - intros fuel F size dev devs found s d s1 out s'.
    apply devices_loop_keeps.
  - intros fuel F size s res s' l Hlist H.
    destruct (getUSBDevices_inv bk _ _ _ _ fuel F size s res s' Hlist H) as (H1 & H2 & _).
    split; [exact H1|]. split; [exact H2|].
    exact (getUSBDevices_sweep bk _ _ _ _ fuel F size s res s' Hlist H).
  - intros fuel F size s. apply getUSBDevices_terminates.
Qed.

Lemma getUSBDevices_status_witness :
  steady_clock mixed_bus /\
  exists s',
    getUSBDevices mixed_bus 64 32 1024 16 50 no_filter 8 initial_state =
      Some ({| enum_rc := X_LINK_PLATFORM_SUCCESS;
               out_foundDevices :=
                 [{| status := X_LINK_INSUFFICIENT_PERMISSIONS; platform := X_LINK_MYRIAD_X;
                     protocol := X_LINK_USB_VSC; state := X_LINK_UNBOOTED;
                     name := "1.11"; mxid := "" |};
                  {| status := X_LINK_SUCCESS; platform := X_LINK_MYRIAD_X;
                     protocol := X_LINK_USB_VSC; state := X_LINK_UNBOOTED;
                     name := "1.12"; mxid := "123456789ABCDEF050" |};
                  {| status := X_LINK_ERROR; platform := X_LINK_MYRIAD_X;
                     protocol := X_LINK_USB_VSC; state := X_LINK_UNBOOTED;
                     name := "1.13"; mxid := "" |}];
               out_amountOfFoundDevices := Some 3 |}, s') /\
    exists s_i s_i' d,
      visit_device mixed_bus 64 32 1024 16 50 no_filter 8 2 13 s_i = Some (Filled d, s_i') /\
      status d = X_LINK_ERROR /\ name d = "1.13".
Proof.
  assert (Hclock : steady_clock mixed_bus)
    by (apply scripted_clock_steady; intros h; reflexivity).
  split; [exact Hclock|].
  destruct (getUSBDevices_status mixed_bus 64 32 1024 16)
    as (_ & _ & _ & Hsweep & Hreturns).
  destruct (Hreturns 50%nat no_filter 8 initial_state Hclock (le_n 50)) as (res & s' & Hrun).
  exists s'.
  destruct (Hsweep 50%nat no_filter 8 initial_state res s'
              ltac:(vm_compute; discriminate) Hrun)
    as (Hrc & Hamount & s0 & Hinit & Hvisits).
  destruct (Hvisits [11; 12] 13 []) as (found_i & s_i & Hpre & Hthird);
    [vm_compute; reflexivity|].
  vm_compute in Hinit. injection Hinit as <-.
  vm_compute in Hpre. injection Hpre as <- <-.
  destruct Hthird as (x & s_i' & Hvisit & _); [vm_compute; reflexivity|].
  split.
  - rewrite Hrun. vm_compute in Hrun. injection Hrun as <- _. reflexivity.
  - match type of Hvisit with
    | visit_device _ _ _ _ _ _ _ _ _ _ ?st = _ => exists st, s_i'
    end.
    pose proof Hvisit as Hrecord. vm_compute in Hrecord.
    destruct x as [| |d]; try discriminate Hrecord.
    exists d. split; [exact Hvisit|].
    injection Hrecord as <- _. split; reflexivity.
Defined.

(** C6: every record a sweep writes passes the caller's filter: the
    filter state is X_LINK_ANY_STATE or the record's, the filter name is
    empty or the record's path, the filter MxId is empty or the record's
    MxId.  The filter strings are C strings in their fixed-size arrays. *)
Theorem getUSBDevices_filter (bk : Backend) (XLINK_MAX_NAME_SIZE XLINK_MAX_MX_ID_SIZE : nat)
    (payload_size payload_end_size : Z) (fuel : nat) (F : deviceDesc_t) (size : Z)
    (s : State) (res : Enumeration) (s' : State) :
  (String.length (name F) < XLINK_MAX_NAME_SIZE)%nat ->
  (String.length (mxid F) < XLINK_MAX_MX_ID_SIZE)%nat ->
  getUSBDevices bk XLINK_MAX_NAME_SIZE XLINK_MAX_MX_ID_SIZE payload_size payload_end_size
    fuel F size s = Some (res, s') ->
  forall d, In d (out_foundDevices res) ->
    (state F = X_LINK_ANY_STATE \/ state F = state d) /\
    (name F = "" \/ name F = name d) /\
    (mxid F = "" \/ mxid F = mxid d).
Proof.
  intros Hname Hmxid H d Hin.
  destruct (Z_lt_ge_dec (rc (bk (trace s) libusb_get_device_list)) 0) as [Hneg|Hpos].
  - unfold getUSBDevices in H. rewrite bind_libusb in H. cbv zeta in H.
    assert ((rc (bk (trace s) libusb_get_device_list) <? 0) = true) as E by lia.
    rewrite E in H. unfold ret in H. injection H as <- <-. destruct Hin.
  - destruct (getUSBDevices_inv bk _ _ _ _ fuel F size s res s' ltac:(lia) H)
      as (_ & _ & devs & s1 & s2 & Hloop).
    destruct (devices_loop_run bk _ _ _ _ fuel F size devs [] s1 _ s2 Hname Hmxid Hloop)
      as (more & Hout & Hall).
    cbn [app] in Hout. rewrite Hout in Hin.
    rewrite List.Forall_forall in Hall. exact (Hall d Hin).
Qed.

Lemma getUSBDevices_filter_witness :
  exists s',
    getUSBDevices healthy_bus 64 32 1024 16 3
      {| status := X_LINK_SUCCESS; platform := X_LINK_MYRIAD_X; protocol := X_LINK_USB_VSC;
         state := X_LINK_UNBOOTED; name := "1.2.3"; mxid := "123456789ABCDEF050" |}
      8 initial_state =
      Some ({| enum_rc := X_LINK_PLATFORM_SUCCESS;
               out_foundDevices :=
                 [{| status := X_LINK_SUCCESS; platform := X_LINK_MYRIAD_X;
                     protocol := X_LINK_USB_VSC; state := X_LINK_UNBOOTED;
                     name := "1.2.3"; mxid := "123456789ABCDEF050" |}];
               out_amountOfFoundDevices := Some 1 |}, s') /\
    ("1.2.3" = "" \/ "1.2.3" = "1.2.3").
Proof.
  eexists. split; [vm_compute; reflexivity|].
  refine (proj1 (proj2 (getUSBDevices_filter healthy_bus 64 32 1024 16 3
            {| status := X_LINK_SUCCESS; platform := X_LINK_MYRIAD_X;
               protocol := X_LINK_USB_VSC; state := X_LINK_UNBOOTED;
               name := "1.2.3"; mxid := "123456789ABCDEF050" |}
            8 initial_state _ _ _ _ ltac:(vm_compute; reflexivity)
            {| status := X_LINK_SUCCESS; platform := X_LINK_MYRIAD_X;
               protocol := X_LINK_USB_VSC; state := X_LINK_UNBOOTED;
               name := "1.2.3"; mxid := "123456789ABCDEF050" |} _))).
  - cbn. lia.
  - cbn. lia.
  - left. reflexivity.
Defined.

(** Two list entries that share the path 1.2: the second record carries
    the cached MxId and the sweep opened a device once. *)
Example sweep_shared_path :
  exists res s',
    getUSBDevices shared_path_bus 64 32 1024 16 3 no_filter 8 initial_state = Some (res, s') /\
    map mxid (out_foundDevices res) = ["123456789ABCDEF050"; "123456789ABCDEF050"] /\
    map name (out_foundDevices res) = ["1.2"; "1.2"] /\
    opens (trace s') = 1%nat.
Proof. eexists _, _. split; [vm_compute; reflexivity|]. repeat split. Qed.

(** An empty bus: no records, success. *)
Example sweep_empty_bus :
  option_map fst
    (getUSBDevices (fun _ _ => reply 0 0 []) 64 32 1024 16 3 no_filter 8 initial_state)
  = Some {| enum_rc := X_LINK_PLATFORM_SUCCESS; out_foundDevices := [];
            out_amountOfFoundDevices := Some 0 |}.
Proof. vm_compute. reflexivity. Qed.

(** * Further properties of the device path encoder *)

Lemma string_append_assoc (a b c : string) : (a +:+ b) +:+ c = a +:+ (b +:+ c).
Proof.
  induction a as [|x a IH]; [reflexivity|].
  change (String x a +:+ b) with (String x (a +:+ b)).
  change (String x (a +:+ b) +:+ c) with (String x ((a +:+ b) +:+ c)).
  rewrite IH. reflexivity.
Qed.

Lemma string_append_nil_r (a : string) : a +:+ "" = a.
Proof.
  induction a as [|x a IH]; [reflexivity|].
  change (String x a +:+ "") with (String x (a +:+ "")). rewrite IH. reflexivity.
Qed.

Lemma string_length_append (a b : string) :
  String.length (a +:+ b) = (String.length a + String.length b)%nat.
Proof.
  induction a as [|x a IH]; [reflexivity|].
  change (String x a +:+ b) with (String x (a +:+ b)). cbn [String.length].
  rewrite IH. reflexivity.
Qed.

(** The port loop as a fold over the port numbers themselves. *)
Lemma append_ports_fold (ports : list Z) (n : nat) :
  (n <= List.length ports)%nat ->
  forall acc : string,
    fold_left
      (fun devicePath i => devicePath +:+ to_string (to_uint8 (ports !!! i)) +:+ ".")
      (seq 0 n) acc
    = fold_left (fun devicePath p => devicePath +:+ to_string p +:+ ".")
        (map to_uint8 (take n ports)) acc.
Proof.
  induction n as [|n IH]; intros Hn acc; [reflexivity|].
  destruct (lookup_lt_is_Some_2 ports n ltac:(lia)) as [x Hx].
  rewrite seq_S, fold_left_app. cbn [fold_left Nat.add].
  rewrite (take_S_r ports n x Hx), map_app, fold_left_app. cbn [map fold_left].
  rewrite IH by lia. rewrite (list_lookup_total_correct ports n x Hx). reflexivity.
Qed.

Lemma concat_dots_cons (x : string) (l : list string) :
  l <> [] -> String.concat "." (x :: l) = x +:+ "." +:+ String.concat "." l.
Proof. destruct l; [congruence|reflexivity]. Qed.

(** Dots after every component but the last one. *)
Lemma dotted_fold (ps : list Z) :
  forall (x last : string),
    fold_left (fun devicePath p => devicePath +:+ to_string p +:+ ".") ps (x +:+ ".")
      +:+ last
    = String.concat "." (x :: map to_string ps ++ [last]).
Proof.
  induction ps as [|p ps IH]; intros x last.
  - cbn. rewrite string_append_assoc. reflexivity.
  - cbn [fold_left map app].
    replace ((x +:+ ".") +:+ to_string p +:+ ".")
      with ((x +:+ "." +:+ to_string p) +:+ ".")
      by (rewrite !string_append_assoc; reflexivity).
    rewrite IH.
    rewrite (concat_dots_cons _ (map to_string ps ++ [last]))
      by (destruct (map to_string ps); discriminate).
    rewrite (concat_dots_cons x) by discriminate.
    rewrite (concat_dots_cons (to_string p))
      by (destruct (map to_string ps); discriminate).
    rewrite !string_append_assoc. reflexivity.
Qed.

(** X1: for a device with at least one port, the path is the bus number
    and the port numbers, each as a decimal [uint8_t], joined by dots,
    with no dot at the end. *)
Theorem getLibusbDevicePath_dotted (bk : Backend) (dev : Z) (s : State) :
  let b := bk (trace s) (libusb_get_bus_number dev) in
  let s1 := record_event (libusb_get_bus_number dev) b s in
  let p := bk (trace s1) (libusb_get_port_numbers dev MAXIMUM_PORT_NUMBERS) in
  0 < rc p -> (Z.to_nat (rc p) <= List.length (data p))%nat ->
  exists s',
    getLibusbDevicePath bk dev s =
      Some (join_dots (to_uint8 (val b) :: map to_uint8 (take (Z.to_nat (rc p)) (data p))), s').
Proof.
  intros b s1 p Hpos Hlen. unfold getLibusbDevicePath. mstep.
  fold b. fold s1. fold p.
  assert ((rc p =? LIBUSB_ERROR_OVERFLOW) = false) as -> by (unfold LIBUSB_ERROR_OVERFLOW; lia).
  assert ((rc p =? 0) = false) as -> by lia.
  eexists. unfold ret. f_equal. f_equal.
  set (n := Z.to_nat (rc p - 1)).
  assert (Hn : Z.to_nat (rc p) = S n) by (unfold n; lia).
  destruct (lookup_lt_is_Some_2 (data p) n ltac:(lia)) as [x Hx].
  unfold append_ports. fold n.
  rewrite append_ports_fold by lia.
  rewrite (list_lookup_total_correct (data p) n x Hx).
  change ("" +:+ to_string (to_uint8 (val b)) +:+ ".")
    with (to_string (to_uint8 (val b)) +:+ ".").
  rewrite dotted_fold. unfold join_dots.
  rewrite Hn, (take_S_r (data p) n x Hx), map_app. cbn [map].
  rewrite map_app. reflexivity.
Qed.

Lemma getLibusbDevicePath_dotted_witness :
  exists s', getLibusbDevicePath healthy_bus 11 initial_state = Some ("1.2.3", s').
Proof.
  apply (getLibusbDevicePath_dotted healthy_bus 11 initial_state).
  - reflexivity.
  - cbn. lia.
Defined.

Lemma fold_append_prefix {A : Type} (f : A -> string) (l : list A) :
  forall acc : string,
    exists rest, fold_left (fun devicePath x => devicePath +:+ f x) l acc = acc +:+ rest.
Proof.
  induction l as [|x l IH]; intros acc.
  - exists "". rewrite string_append_nil_r. reflexivity.
  - cbn [fold_left]. destruct (IH (acc +:+ f x)) as [rest ->].
    exists (f x +:+ rest). rewrite string_append_assoc. reflexivity.
Qed.

(** X2: the encoder always returns, and its result is never empty: it
    is the sentinel "<error>" exactly when the backend reports an
    overflow of the port array, and otherwise starts with the decimal
    bus number and a dot. *)
Theorem getLibusbDevicePath_shape (bk : Backend) (dev : Z) (s : State) :
  let b := bk (trace s) (libusb_get_bus_number dev) in
  let s1 := record_event (libusb_get_bus_number dev) b s in
  let p := bk (trace s1) (libusb_get_port_numbers dev MAXIMUM_PORT_NUMBERS) in
  exists path s',
    getLibusbDevicePath bk dev s = Some (path, s') /\
    path <> "" /\
    (rc p = LIBUSB_ERROR_OVERFLOW -> path = "<error>") /\
    (rc p <> LIBUSB_ERROR_OVERFLOW ->
     exists rest, path = to_string (to_uint8 (val b)) +:+ "." +:+ rest).
Proof.
  intros b s1 p. unfold getLibusbDevicePath. mstep. fold b. fold s1. fold p.
  destruct (rc p =? LIBUSB_ERROR_OVERFLOW) eqn:Hov.
  { eexists _, _. split; [reflexivity|]. split; [discriminate|].
    split; [reflexivity|]. intros H. lia. }
  assert (Hstart : forall rest, to_string (to_uint8 (val b)) +:+ "." +:+ rest <> "").
  { intros rest E. apply (f_equal String.length) in E.
    rewrite !string_length_append in E. cbn in E. lia. }
  change ("" +:+ to_string (to_uint8 (val b)) +:+ ".")
    with (to_string (to_uint8 (val b)) +:+ ".").
  destruct (rc p =? 0) eqn:Hz.
  - eexists _, _. split; [reflexivity|].
    split; [rewrite <- (string_append_nil_r (_ +:+ ".")), string_append_assoc; apply Hstart|].
    split; [intros H; lia|]. intros _. exists "". reflexivity.
  - unfold append_ports.
    destruct (fold_append_prefix
                (fun i => to_string (to_uint8 (data p !!! i)) +:+ ".")
                (seq 0 (Z.to_nat (rc p - 1)))
                (to_string (to_uint8 (val b)) +:+ ".")) as [rest Hrest].
    eexists _, _. split; [reflexivity|].
    rewrite Hrest, !string_append_assoc.
    split; [apply Hstart|]. split; [intros H; lia|]. intros _. eexists. reflexivity.
Qed.

(** * Further properties of usb_open_device *)

Lemma bind_modify {B : Type} (f : State -> State) (k : unit -> M B) (s : State) :
  bind (modify f) k s = k tt (f s).
Proof. reflexivity. Qed.

(** As [mrun], also through [modify] and through matches on options. *)
Ltac mrun_all H :=
  repeat first
    [ rewrite bind_assoc in H
    | rewrite bind_libusb in H
    | rewrite bind_modify in H
    | rewrite bind_ret in H
    | progress cbv beta zeta in H
    | match type of H with
      | (if ?c then _ else _) _ = _ => destruct c eqn:?
      | (match ?x with Some _ => _ | None => _ end) _ = _ => destruct x eqn:?
      end ].

Lemma count_events_app (p : Event -> bool) (a b : list Event) :
  count_events p (a ++ b) = (count_events p a + count_events p b)%nat.
Proof.
  induction a as [|e a IH]; [reflexivity|].
  cbn [app count_events]. destruct (p e); lia.
Qed.

Lemma find_bulk_out_Some (eps : list libusb_endpoint_descriptor) (d : libusb_endpoint_descriptor) :
  find_bulk_out eps = Some d ->
  exists pre post,
    eps = pre ++ d :: post /\ is_bulk_out d = true /\
    Forall (fun e => is_bulk_out e = false) pre.
Proof.
  induction eps as [|e eps IH]; intros H; [discriminate|].
  cbn [find_bulk_out] in H.
  destruct (Z.land (bmAttributes e) LIBUSB_TRANSFER_TYPE_MASK =? LIBUSB_TRANSFER_TYPE_BULK) eqn:Hb;
    cbn [negb] in H.
  - destruct (Z.land (bEndpointAddress e) LIBUSB_ENDPOINT_DIR_MASK =? 0) eqn:Hd.
    + injection H as <-. exists [], eps. split; [reflexivity|].
      split; [unfold is_bulk_out; rewrite Hb, Hd; reflexivity|constructor].
    + destruct (IH H) as (pre & post & -> & Hd' & Hpre).
      exists (e :: pre), post. split; [reflexivity|]. split; [exact Hd'|].
      constructor; [unfold is_bulk_out; rewrite Hb, Hd; reflexivity|exact Hpre].
  - destruct (IH H) as (pre & post & -> & Hd' & Hpre).
    exists (e :: pre), post. split; [reflexivity|]. split; [exact Hd'|].
    constructor; [unfold is_bulk_out; rewrite Hb; reflexivity|exact Hpre].
Qed.

Lemma find_bulk_out_None (eps : list libusb_endpoint_descriptor) :
  find_bulk_out eps = None -> Forall (fun e => is_bulk_out e = false) eps.
Proof.
  induction eps as [|e eps IH]; intros H; [constructor|].
  cbn [find_bulk_out] in H.
  destruct (Z.land (bmAttributes e) LIBUSB_TRANSFER_TYPE_MASK =? LIBUSB_TRANSFER_TYPE_BULK) eqn:Hb;
    cbn [negb] in H.
  - destruct (Z.land (bEndpointAddress e) LIBUSB_ENDPOINT_DIR_MASK =? 0) eqn:Hd; [discriminate|].
    constructor; [unfold is_bulk_out; rewrite Hb, Hd; reflexivity|exact (IH H)].
  - constructor; [unfold is_bulk_out; rewrite Hb; reflexivity|exact (IH H)].
Qed.

(** X3: when usb_open_device returns a handle, the endpoint it reports
    is the first endpoint of the configuration descriptor that is bulk
    and host-to-device, and the file-scope [bulk_chunklen] holds that
    endpoint's max packet size; when the descriptor was read and has no
    such endpoint, no handle is returned. *)
Theorem usb_open_device_endpoint (bk : Backend) (dev : Z) (s : State)
    (r : option Z) (s' : State) :
  usb_open_device bk dev s = Some (r, s') ->
  exists evs,
    trace s' = trace s ++ evs /\
    (forall ep, r = Some ep ->
       exists cd pre d post,
         In {| ev_call := libusb_get_config_descriptor dev 0; ev_reply := cd |} evs /\
         endpoints_of (data cd) = pre ++ d :: post /\
         Forall (fun e => is_bulk_out e = false) pre /\
         is_bulk_out d = true /\
         ep = bEndpointAddress d /\
         bulk_chunklen s' = wMaxPacketSize d) /\
    (forall cd,
       In {| ev_call := libusb_get_config_descriptor dev 0; ev_reply := cd |} evs ->
       0 <= rc cd ->
       Forall (fun e => is_bulk_out e = false) (endpoints_of (data cd)) ->
       r = None).
Proof.
  intros H. unfold usb_open_device in H.
  mrun_all H; unfold ret in H; injection H as <- <-;
    unfold set_bulk_chunklen in *; norm_trace;
    (eexists; split; [reflexivity|]); (split; [intros ep Hep; try discriminate|]).
  all: try (intros cd Hin Hrc Hall; reflexivity).
  all: try (intros cd Hin Hrc Hall; exfalso; cbn [In] in Hin;
            repeat (destruct Hin as [Hin|Hin]; [try discriminate|]); try contradiction;
            injection Hin as <-;
            match goal with
            | Hf : find_bulk_out _ = Some ?d |- _ =>
                apply find_bulk_out_Some in Hf;
                destruct Hf as (pre & post & Heq & Hd & _);
                rewrite Heq in Hall; apply Forall_app in Hall; destruct Hall as [_ Hall];
                inversion Hall; subst; congruence
            end).
  all: injection Hep as <-;
    match goal with
    | Hf : find_bulk_out _ = Some ?d |- _ =>
        apply find_bulk_out_Some in Hf; destruct Hf as (pre & post & Heq & Hd & Hpre);
        eexists _, pre, d, post;
        split; [cbn [In]; repeat (first [left; reflexivity | right])|];
        split; [exact Heq|]; split; [exact Hpre|]; split; [exact Hd|];
        split; reflexivity
    end.
Qed.

(** Evaluates handle counts over an explicit list of events, using the
    tests already decided in the context. *)
Ltac count_handles :=
  cbn [count_events opened_handle closed_handle ev_call ev_reply];
  repeat match goal with
         | H : (_ <? 0) = _ |- _ => rewrite H
         end;
  cbn [negb]; try reflexivity; try lia.

(** X4: usb_open_device does not leak a handle.  When it returns the
    null handle, every handle libusb_open handed out during the call
    was closed again; when it returns a handle, exactly one was opened
    and it was not closed. *)
Theorem usb_open_device_handles (bk : Backend) (dev : Z) (s : State)
    (r : option Z) (s' : State) :
  usb_open_device bk dev s = Some (r, s') ->
  exists evs,
    trace s' = trace s ++ evs /\
    (r = None ->
     count_events closed_handle evs = count_events opened_handle evs) /\
    (r <> None ->
     count_events opened_handle evs = 1%nat /\ count_events closed_handle evs = 0%nat).
Proof.
  intros H. unfold usb_open_device in H.
  mrun_all H; unfold ret in H; injection H as <- <-;
    unfold set_bulk_chunklen in *; norm_trace;
    (eexists; split; [reflexivity|]);
    (split; [intros Hr; try discriminate|intros Hr; try congruence]).
  all: try (split; count_handles).
  all: count_handles.
Qed.

Lemma usb_open_device_endpoint_witness :
  exists s',
    usb_open_device healthy_bus 11 initial_state = Some (Some 0x01, s') /\
    bulk_chunklen s' = 512.
Proof.
  eexists. split; [vm_compute; reflexivity|].
  destruct (usb_open_device_endpoint healthy_bus 11 initial_state (Some 0x01) _
              ltac:(vm_compute; reflexivity)) as (evs & _ & Hep & _).
  destruct (Hep 0x01 eq_refl) as (cd & pre & d & post & _ & _ & _ & _ & _ & Hchunk).
  reflexivity.
Defined.

Lemma usb_open_device_handles_witness :
  exists s',
    usb_open_device healthy_bus 11 initial_state = Some (Some 0x01, s') /\
    count_events opened_handle (trace s') = 1%nat /\
    count_events closed_handle (trace s') = 0%nat.
Proof.
  eexists. split; [vm_compute; reflexivity|].
  destruct (usb_open_device_handles healthy_bus 11 initial_state (Some 0x01) _
              ltac:(vm_compute; reflexivity)) as (evs & Htrace & _ & Hsome).
  cbn [trace initial_state app] in Htrace. rewrite Htrace.
  apply Hsome. discriminate.
Defined.

(** * Further properties of the MxId acquisition *)

Section MxIdHandles.

Variable bk : Backend.
Variable XLINK_MAX_MX_ID_SIZE : nat.
Variables usb_mx_id_get_payload_size usb_mx_id_get_payload_end_size : Z.

Let attempt :=
  mxid_attempt bk XLINK_MAX_MX_ID_SIZE usb_mx_id_get_payload_size
    usb_mx_id_get_payload_end_size.
Let retry_loop :=
  mxid_retry_loop bk XLINK_MAX_MX_ID_SIZE usb_mx_id_get_payload_size
    usb_mx_id_get_payload_end_size.
Let acquire :=
  getLibusbDeviceMxId bk XLINK_MAX_MX_ID_SIZE usb_mx_id_get_payload_size
    usb_mx_id_get_payload_end_size.

(** An attempt neither opens nor closes a device. *)
Lemma mxid_attempt_handles (state : XLinkDeviceState_t) (pDesc : libusb_device_descriptor)
    (mxId : string) (s : State) (a : Z * string) (s' : State) :
  attempt state pDesc mxId s = Some (a, s') ->
  exists evs,
    s' = set_trace (trace s ++ evs) s /\
    count_events opened_handle evs = 0%nat /\
    count_events closed_handle evs = 0%nat.
Proof.
  unfold attempt, mxid_attempt, mxid_attempt_unbooted, mxid_attempt_booted,
    mxid_exchange, retry_after_sleep.
  intros H.
  destruct state; mrun H; unfold ret in H; injection H as <- <-; norm_trace;
    (eexists; split; [reflexivity|]); split; reflexivity.
Qed.

Lemma mxid_retry_loop_handles (state : XLinkDeviceState_t)
    (pDesc : libusb_device_descriptor) (t1 : Z) (fuel : nat) :
  forall mxId s a s',
    retry_loop fuel state pDesc t1 mxId s = Some (a, s') ->
    exists evs,
      s' = set_trace (trace s ++ evs) s /\
      count_events opened_handle evs = 0%nat /\
      count_events closed_handle evs = 0%nat.
Proof.
  induction fuel as [|fuel IH]; intros mxId s a s' H; [discriminate|].
  unfold retry_loop in H. cbn [mxid_retry_loop] in H.
  apply bind_Some in H. destruct H as ([c1 m1] & s1 & Hatt & H).
  apply mxid_attempt_handles in Hatt. destruct Hatt as (evs1 & -> & Ho1 & Hc1).
  cbn [fst snd] in H.
  destruct (c1 =? 0).
  { unfold ret in H. injection H as <- <-. exists evs1. auto. }
  rewrite bind_libusb in H. cbn [trace set_trace] in H.
  set (now := bk (trace s ++ evs1) steady_clock_now) in *.
  destruct (val now - t1 <? RETRY_TIMEOUT).
  - apply IH in H. destruct H as (evs2 & -> & Ho2 & Hc2).
    exists (evs1 ++ {| ev_call := steady_clock_now; ev_reply := now |} :: evs2).
    split; [norm_trace; reflexivity|].
    rewrite !count_events_app. cbn [count_events opened_handle closed_handle ev_call].
    split; lia.
  - unfold ret in H. injection H as <- <-.
    exists (evs1 ++ [{| ev_call := steady_clock_now; ev_reply := now |}]).
    split; [norm_trace; reflexivity|].
    rewrite !count_events_app. cbn [count_events opened_handle closed_handle ev_call].
    split; lia.
Qed.

(** What an acquisition leaves behind, whatever its result. *)
Lemma getLibusbDeviceMxId_frame (fuel : nat) (state : XLinkDeviceState_t)
    (devicePath : string) (pDesc : libusb_device_descriptor) (dev : Z)
    (s : State) (code : Z) (m : string) (s' : State) :
  acquire fuel state devicePath pDesc dev s = Some ((code, m), s') ->
  exists evs,
    trace s' = trace s ++ evs /\
    bulk_chunklen s' = bulk_chunklen s /\
    count_events closed_handle evs = count_events opened_handle evs /\
    (count_events opened_handle evs <= 1)%nat /\
    (code <> LIBUSB_SUCCESS -> m = "" /\ list_mx_id s' = list_mx_id s) /\
    (rc (bk (trace s) (libusb_open dev)) < 0 ->
     find (entry_matches devicePath) (list_mx_id s) = None ->
     code = rc (bk (trace s) (libusb_open dev)) /\
     evs = [{| ev_call := libusb_open dev; ev_reply := bk (trace s) (libusb_open dev) |}]).
Proof.
  intros H. unfold acquire, getLibusbDeviceMxId in H.
  apply bind_Some in H. destruct H as (found & s0 & Hget & H).
  rewrite usb_mx_id_cache_get_entry_eq in Hget. injection Hget as <- <-.
  destruct (find (entry_matches devicePath) (list_mx_id s)) as [e|] eqn:Hfind;
    cbn [option_map] in H.
  { unfold ret in H. injection H as <- <- <-. exists [].
    rewrite app_nil_r. split; [reflexivity|]. split; [reflexivity|].
    split; [reflexivity|]. split; [cbn [count_events]; lia|].
    split; [intros Hc; congruence|]. intros _ Hnone. discriminate Hnone. }
  rewrite bind_libusb in H.
  set (o := bk (trace s) (libusb_open dev)) in *.
  destruct (rc o <? 0) eqn:Ho.
  { unfold ret in H. injection H as <- <- <-.
    exists [{| ev_call := libusb_open dev; ev_reply := o |}].
    split; [reflexivity|]. split; [reflexivity|].
    cbn [count_events opened_handle closed_handle ev_call ev_reply]. rewrite Ho. cbn [negb].
    repeat split; try reflexivity; lia. }
  rewrite bind_libusb in H. cbv beta in H.
  apply bind_Some in H. destruct H as ([c1 m1] & s1 & Hloop & H).
  pose proof (mxid_retry_loop_cache _ _ _ _ _ _ _ _ _ _ _ _ Hloop) as Hcache.
  apply mxid_retry_loop_handles in Hloop. destruct Hloop as (evs & -> & Hopen & Hclose).
  cbn [fst snd] in H. rewrite bind_libusb in H.
  assert (Hcounts :
    forall evs',
      evs' = {| ev_call := libusb_open dev; ev_reply := o |}
             :: {| ev_call := steady_clock_now;
                   ev_reply := bk (trace (record_event (libusb_open dev) o s))
                                 steady_clock_now |}
             :: evs ++ [{| ev_call := libusb_close;
                           ev_reply :=
                             bk (trace s ++
                                 {| ev_call := libusb_open dev; ev_reply := o |}
                                 :: {| ev_call := steady_clock_now;
                                       ev_reply :=
                                         bk (trace (record_event (libusb_open dev) o s))
                                           steady_clock_now |} :: evs) libusb_close |}] ->
      count_events closed_handle evs' = count_events opened_handle evs' /\
      (count_events opened_handle evs' <= 1)%nat).
  { intros evs' ->.
    cbn [count_events opened_handle closed_handle ev_call ev_reply]. rewrite Ho. cbn [negb].
    rewrite !count_events_app. cbn [count_events opened_handle closed_handle ev_call].
    lia. }
  destruct (negb (c1 =? 0)) eqn:Hc1.
  - unfold ret in H. injection H as <- <- <-.
    eexists. split; [norm_trace; reflexivity|]. split; [reflexivity|].
    norm_trace. split; [apply (Hcounts _ eq_refl)|]. split; [apply (Hcounts _ eq_refl)|].
    split; [intros _; split; [reflexivity|exact Hcache]|]. intros Hneg. lia.
  - apply bind_Some in H. destruct H as (idx & s2 & Hstore & H).
    match type of Hstore with
    | usb_mx_id_cache_store_entry ?a ?p ?st = _ =>
        destruct (usb_mx_id_cache_store_entry_run a p st) as (idx' & cache & Hstore' & _)
    end.
    rewrite Hstore' in Hstore. injection Hstore as <- <-.
    unfold ret in H. injection H as <- <- <-.
    eexists. split; [norm_trace; reflexivity|]. split; [reflexivity|].
    norm_trace. split; [apply (Hcounts _ eq_refl)|]. split; [apply (Hcounts _ eq_refl)|].
    split; [intros Hc; unfold LIBUSB_SUCCESS in Hc; congruence|]. intros Hneg. lia.
Qed.

End MxIdHandles.

(** X5: an MxId acquisition that returns leaves no handle behind: it
    opens the device at most once (not at all on a cache hit), closes
    the handle exactly as often as it opened one, and does not touch
    the bulk chunk length of the transfer layer. *)
Theorem getLibusbDeviceMxId_handles (bk : Backend) (XLINK_MAX_MX_ID_SIZE : nat)
    (payload_size payload_end_size : Z) (fuel : nat) (state : XLinkDeviceState_t)
    (devicePath : string) (pDesc : libusb_device_descriptor) (dev : Z)
    (s : State) (code : Z) (m : string) (s' : State) :
  getLibusbDeviceMxId bk XLINK_MAX_MX_ID_SIZE payload_size payload_end_size
    fuel state devicePath pDesc dev s = Some ((code, m), s') ->
  exists evs,
    trace s' = trace s ++ evs /\
    count_events closed_handle evs = count_events opened_handle evs /\
    (count_events opened_handle evs <= 1)%nat /\
    (find (entry_matches devicePath) (list_mx_id s) <> None -> evs = []) /\
    bulk_chunklen s' = bulk_chunklen s.
Proof.
  intros H.
  assert (Hhit : find (entry_matches devicePath) (list_mx_id s) <> None -> s' = s).
  { intros Hfind. unfold getLibusbDeviceMxId in H.
    apply bind_Some in H. destruct H as (found & s0 & Hget & H).
    rewrite usb_mx_id_cache_get_entry_eq in Hget. injection Hget as <- <-.
    destruct (find _ _); [|congruence].
    cbn [option_map] in H. unfold ret in H. congruence. }
  apply getLibusbDeviceMxId_frame in H.
  destruct H as (evs & Htrace & Hchunk & Hbal & Hone & _ & _).
  exists evs. repeat (split; [assumption|]). split; [|assumption].
  intros Hfind. rewrite (Hhit Hfind) in Htrace.
  apply (f_equal (@List.length Event)) in Htrace. rewrite length_app in Htrace.
  destruct evs; [reflexivity|cbn [List.length] in Htrace; lia].
Qed.

Lemma getLibusbDeviceMxId_handles_witness :
  exists s',
    getLibusbDeviceMxId healthy_bus 32 1024 16 3 X_LINK_UNBOOTED "1.2.3"
      (descriptor_of (reply 0 0 [0x200; 0x03E7; 0x2485; 3])) 11 initial_state
    = Some ((LIBUSB_SUCCESS, "123456789ABCDEF050"), s') /\
    count_events closed_handle (trace s') = count_events opened_handle (trace s').
Proof.
  eexists. split; [vm_compute; reflexivity|].
  destruct (getLibusbDeviceMxId_handles healthy_bus 32 1024 16 3 X_LINK_UNBOOTED "1.2.3"
              (descriptor_of (reply 0 0 [0x200; 0x03E7; 0x2485; 3])) 11 initial_state
              LIBUSB_SUCCESS "123456789ABCDEF050" _ ltac:(vm_compute; reflexivity))
    as (evs & Htrace & Hbal & _).
  cbn [trace initial_state app] in Htrace. rewrite Htrace. exact Hbal.
Defined.

(** X6: an MxId acquisition that fails (returns a code other than
    LIBUSB_SUCCESS) hands back the empty MxId and stores nothing in the
    cache; and when the path is not cached and the device cannot be
    opened, the code of libusb_open is the result and the open is the
    only call made: no retry, no sleep, no close. *)
Theorem getLibusbDeviceMxId_failure (bk : Backend) (XLINK_MAX_MX_ID_SIZE : nat)
    (payload_size payload_end_size : Z) (fuel : nat) (state : XLinkDeviceState_t)
    (devicePath : string) (pDesc : libusb_device_descriptor) (dev : Z)
    (s : State) (code : Z) (m : string) (s' : State) :
  getLibusbDeviceMxId bk XLINK_MAX_MX_ID_SIZE payload_size payload_end_size
    fuel state devicePath pDesc dev s = Some ((code, m), s') ->
  (code <> LIBUSB_SUCCESS -> m = "" /\ list_mx_id s' = list_mx_id s) /\
  (find (entry_matches devicePath) (list_mx_id s) = None ->
   rc (bk (trace s) (libusb_open dev)) < 0 ->
   code = rc (bk (trace s) (libusb_open dev)) /\
   trace s' = trace s ++
     [{| ev_call := libusb_open dev; ev_reply := bk (trace s) (libusb_open dev) |}]).
Proof.
  intros H. apply getLibusbDeviceMxId_frame in H.
  destruct H as (evs & Htrace & _ & _ & _ & Hfail & Hopen).
  split; [exact Hfail|].
  intros Hmiss Hneg. destruct (Hopen Hneg Hmiss) as [-> ->]. auto.
Qed.

Lemma getLibusbDeviceMxId_failure_witness :
  exists s',
    getLibusbDeviceMxId locked_bus 32 1024 16 3 X_LINK_UNBOOTED "1.2.3"
      (descriptor_of (reply 0 0 [0x200; 0x03E7; 0x2485; 3])) 11 initial_state
    = Some ((LIBUSB_ERROR_ACCESS, ""), s') /\
    list_mx_id s' = empty_cache /\
    List.length (trace s') = 1%nat.
Proof.
  eexists. split; [vm_compute; reflexivity|].
  destruct (getLibusbDeviceMxId_failure locked_bus 32 1024 16 3 X_LINK_UNBOOTED "1.2.3"
              (descriptor_of (reply 0 0 [0x200; 0x03E7; 0x2485; 3])) 11 initial_state
              LIBUSB_ERROR_ACCESS "" _ ltac:(vm_compute; reflexivity))
    as (Hfail & Hopen).
  split.
  - apply Hfail. discriminate.
  - destruct (Hopen eq_refl ltac:(vm_compute; reflexivity)) as [_ Htrace].
    rewrite Htrace. reflexivity.
Defined.

(** * The retry window of the MxId acquisition *)

Section MxIdClock.

Variable bk : Backend.
Variable XLINK_MAX_MX_ID_SIZE : nat.
Variables usb_mx_id_get_payload_size usb_mx_id_get_payload_end_size : Z.

Let attempt :=
  mxid_attempt bk XLINK_MAX_MX_ID_SIZE usb_mx_id_get_payload_size
    usb_mx_id_get_payload_end_size.
Let retry_loop :=
  mxid_retry_loop bk XLINK_MAX_MX_ID_SIZE usb_mx_id_get_payload_size
    usb_mx_id_get_payload_end_size.
Let acquire :=
  getLibusbDeviceMxId bk XLINK_MAX_MX_ID_SIZE usb_mx_id_get_payload_size
    usb_mx_id_get_payload_end_size.

(** A failed attempt sleeps once, a successful one not at all. *)
Lemma mxid_attempt_slept (state : XLinkDeviceState_t) (pDesc : libusb_device_descriptor)
    (mxId : string) (s : State) (code : Z) (m : string) (s' : State) :
  attempt state pDesc mxId s = Some ((code, m), s') ->
  exists evs,
    s' = set_trace (trace s ++ evs) s /\
    slept evs = if code =? 0 then 0 else SLEEP_BETWEEN_RETRIES.
Proof.
  unfold attempt, mxid_attempt, mxid_attempt_unbooted, mxid_attempt_booted,
    mxid_exchange, retry_after_sleep.
  intros H.
  destruct state; mrun H; unfold ret in H; injection H as <- <- <-; norm_trace;
    (eexists; split; [reflexivity|]); cbn [slept ev_call];
    try reflexivity;
    match goal with
    | |- context [if ?c =? 0 then _ else _] => destruct (c =? 0) eqn:?; lia
    end.
Qed.

Lemma mxid_retry_loop_slept (state : XLinkDeviceState_t)
    (pDesc : libusb_device_descriptor) (h1 : list Event) :
  steady_clock bk ->
  forall (fuel : nat) (k : Z) (mxId : string) (s : State) (h' : list Event)
         (a : Z * string) (s' : State),
    trace s = h1 ++ h' ->
    slept h' = k * SLEEP_BETWEEN_RETRIES -> 0 <= k < 50 ->
    retry_loop fuel state pDesc (val (bk h1 steady_clock_now)) mxId s = Some (a, s') ->
    exists evs,
      s' = set_trace (trace s ++ evs) s /\ slept (h' ++ evs) <= RETRY_TIMEOUT.
Proof.
  intros Hclock.
  induction fuel as [|fuel IH]; intros k mxId s h' a s' Htrace Hslept Hk H; [discriminate|].
  unfold retry_loop in H. cbn [mxid_retry_loop] in H.
  apply bind_Some in H. destruct H as ([c1 m1] & s1 & Hatt & H).
  apply mxid_attempt_slept in Hatt. destruct Hatt as (evs1 & -> & Hs1).
  cbn [fst snd] in H.
  destruct (c1 =? 0) eqn:Hc1.
  { unfold ret in H. injection H as <- <-. exists evs1. split; [reflexivity|].
    rewrite slept_app. unfold RETRY_TIMEOUT, SLEEP_BETWEEN_RETRIES in *. lia. }
  rewrite bind_libusb in H. cbn [trace set_trace] in H.
  set (now := bk (trace s ++ evs1) steady_clock_now) in *.
  assert (Helapsed : slept (h' ++ evs1) <= val now - val (bk h1 steady_clock_now)).
  { unfold now. rewrite Htrace, <- app_assoc. apply Hclock. }
  rewrite slept_app, Hs1 in Helapsed.
  destruct (val now - val (bk h1 steady_clock_now) <? RETRY_TIMEOUT) eqn:Hwin.
  - apply (IH (k + 1) m1 _
             (h' ++ evs1 ++ [{| ev_call := steady_clock_now; ev_reply := now |}])) in H.
    + destruct H as (evs2 & -> & Hle).
      exists (evs1 ++ {| ev_call := steady_clock_now; ev_reply := now |} :: evs2).
      split; [norm_trace; reflexivity|].
      rewrite <- !app_assoc in Hle. cbn [app] in Hle. exact Hle.
    + unfold record_event. cbn [trace set_trace]. rewrite Htrace, <- !app_assoc. reflexivity.
    + rewrite !slept_app, Hs1. cbn [slept ev_call]. lia.
    + unfold RETRY_TIMEOUT, SLEEP_BETWEEN_RETRIES in *. lia.
  - unfold ret in H. injection H as <- <-.
    exists (evs1 ++ [{| ev_call := steady_clock_now; ev_reply := now |}]).
    split; [norm_trace; reflexivity|].
    rewrite !slept_app, Hs1. cbn [slept ev_call].
    unfold RETRY_TIMEOUT, SLEEP_BETWEEN_RETRIES in *. lia.
Qed.

Lemma getLibusbDeviceMxId_slept (fuel : nat) (state : XLinkDeviceState_t)
    (devicePath : string) (pDesc : libusb_device_descriptor) (dev : Z)
    (s : State) (a : Z * string) (s' : State) :
  steady_clock bk ->
  acquire fuel state devicePath pDesc dev s = Some (a, s') ->
  exists evs, trace s' = trace s ++ evs /\ slept evs <= RETRY_TIMEOUT.
Proof.
  intros Hclock H. unfold acquire, getLibusbDeviceMxId in H.
  apply bind_Some in H. destruct H as (found & s0 & Hget & H).
  rewrite usb_mx_id_cache_get_entry_eq in Hget. injection Hget as <- <-.
  destruct (find (entry_matches devicePath) (list_mx_id s)) as [e|];
    cbn [option_map] in H.
  { unfold ret in H. injection H as <- <-. exists [].
    rewrite app_nil_r. split; [reflexivity|]. cbn. unfold RETRY_TIMEOUT. lia. }
  rewrite bind_libusb in H.
  set (o := bk (trace s) (libusb_open dev)) in *.
  destruct (rc o <? 0) eqn:Ho.
  { unfold ret in H. injection H as <- <-.
    exists [{| ev_call := libusb_open dev; ev_reply := o |}].
    split; [reflexivity|]. cbn. unfold RETRY_TIMEOUT. lia. }
  rewrite bind_libusb in H. cbv beta in H.
  apply bind_Some in H. destruct H as ([c1 m1] & s1 & Hloop & H).
  set (s0 := record_event (libusb_open dev) o s) in *.
  set (t1 := bk (trace s0) steady_clock_now) in *.
  apply (mxid_retry_loop_slept state pDesc (trace s0) Hclock fuel 0 ""
           (record_event steady_clock_now t1 s0)
           [{| ev_call := steady_clock_now; ev_reply := t1 |}]) in Hloop;
    [|reflexivity|reflexivity|lia].
  destruct Hloop as (evs & -> & Hle).
  cbn [app slept ev_call] in Hle.
  cbn [fst snd] in H. rewrite bind_libusb in H.
  assert (Hslept :
    forall cl, slept ({| ev_call := libusb_open dev; ev_reply := o |}
                      :: {| ev_call := steady_clock_now; ev_reply := t1 |}
                      :: evs ++ [{| ev_call := libusb_close; ev_reply := cl |}])
               <= RETRY_TIMEOUT).
  { intros cl. cbn [slept ev_call]. rewrite slept_app. cbn [slept ev_call]. lia. }
  destruct (negb (c1 =? 0)).
  - unfold ret in H. injection H as <- <-.
    eexists. split; [unfold s0; norm_trace; reflexivity|]. apply Hslept.
  - apply bind_Some in H. destruct H as (idx & s2 & Hstore & H).
    match type of Hstore with
    | usb_mx_id_cache_store_entry ?a ?p ?st = _ =>
        destruct (usb_mx_id_cache_store_entry_run a p st) as (idx' & cache & Hstore' & _)
    end.
    rewrite Hstore' in Hstore. injection Hstore as <- <-.
    unfold ret in H. injection H as <- <-.
    eexists. split; [unfold s0; norm_trace; reflexivity|]. apply Hslept.
Qed.

End MxIdClock.

(** X7: on a clock that advances at least by the time slept, an MxId
    acquisition comes back within fifty attempts, and all its sleeps
    together are at most the retry window of 5 ms. *)
Theorem getLibusbDeviceMxId_bounded_retry (bk : Backend) (XLINK_MAX_MX_ID_SIZE : nat)
    (payload_size payload_end_size : Z) (fuel : nat) (state : XLinkDeviceState_t)
    (devicePath : string) (pDesc : libusb_device_descriptor) (dev : Z) (s : State) :
  steady_clock bk -> (50 <= fuel)%nat ->
  exists code m s' evs,
    getLibusbDeviceMxId bk XLINK_MAX_MX_ID_SIZE payload_size payload_end_size
      fuel state devicePath pDesc dev s = Some ((code, m), s') /\
    trace s' = trace s ++ evs /\
    slept evs <= RETRY_TIMEOUT.
Proof.
  intros Hclock Hfuel.
  destruct (getLibusbDeviceMxId_terminates bk XLINK_MAX_MX_ID_SIZE payload_size
              payload_end_size fuel state devicePath pDesc dev s Hclock Hfuel)
    as ([code m] & s' & Hrun).
  destruct (getLibusbDeviceMxId_slept bk XLINK_MAX_MX_ID_SIZE payload_size
              payload_end_size fuel state devicePath pDesc dev s _ s' Hclock Hrun)
    as (evs & Htrace & Hle).
  exists code, m, s', evs. auto.
Qed.

Lemma getLibusbDeviceMxId_bounded_retry_witness :
  exists code m s' evs,
    getLibusbDeviceMxId (failing_bus LIBUSB_ERROR_TIMEOUT) 32 1024 16 50 X_LINK_UNBOOTED
      "1.2.3" (descriptor_of (reply 0 0 [0x200; 0x03E7; 0x2485; 3])) 11 initial_state
    = Some ((code, m), s') /\
    trace s' = evs /\ slept evs <= RETRY_TIMEOUT.
Proof.
  destruct (getLibusbDeviceMxId_bounded_retry (failing_bus LIBUSB_ERROR_TIMEOUT)
              32 1024 16 50 X_LINK_UNBOOTED "1.2.3"
              (descriptor_of (reply 0 0 [0x200; 0x03E7; 0x2485; 3])) 11 initial_state)
    as (code & m & s' & evs & Hrun & Htrace & Hle).
  - apply scripted_clock_steady. intros h. reflexivity.
  - lia.
  - exists code, m, s', evs. auto.
Defined.

(** * Further properties of the enumerator *)

Lemma balanced_nil : balanced [].
Proof. split; [reflexivity|constructor]. Qed.

Lemma balanced_app (a b : list Event) : balanced a -> balanced b -> balanced (a ++ b).
Proof.
  intros [Ha Fa] [Hb Fb]. split.
  - rewrite !count_events_app. lia.
  - apply Forall_app. split; assumption.
Qed.

Lemma no_list_call_counts (evs : list Event) :
  Forall (fun e => is_list_call (ev_call e) = false) evs ->
  count_events listed_devices evs = 0%nat /\ count_events freed_devices evs = 0%nat.
Proof.
  induction 1 as [|e evs He _ [IH1 IH2]]; [split; reflexivity|].
  cbn [count_events]. unfold listed_devices, freed_devices.
  destruct (ev_call e); try discriminate He; auto.
Qed.

Lemma substring_length_le (n : nat) (s : string) :
  (String.length (String.substring 0 n s) <= n)%nat.
Proof.
  revert s. induction n as [|n IH]; intros [|c s]; cbn [String.substring String.length]; try lia.
  specialize (IH s). lia.
Qed.

Lemma vidPidToDeviceState_known (vidpid : Z * Z) (st : XLinkDeviceState_t) :
  vidPidToDeviceState vidpid = Some st -> st <> X_LINK_ANY_STATE.
Proof.
  destruct vidpid as [vid pid]. unfold vidPidToDeviceState.
  repeat match goal with
         | |- context [if ?c then _ else _] => destruct c
         end; intros H; inversion H; discriminate.
Qed.

Section EnumeratorResources.

Variable bk : Backend.
Variables XLINK_MAX_NAME_SIZE XLINK_MAX_MX_ID_SIZE : nat.
Variables usb_mx_id_get_payload_size usb_mx_id_get_payload_end_size : Z.

Let attempt :=
  mxid_attempt bk XLINK_MAX_MX_ID_SIZE usb_mx_id_get_payload_size
    usb_mx_id_get_payload_end_size.
Let retry_loop :=
  mxid_retry_loop bk XLINK_MAX_MX_ID_SIZE usb_mx_id_get_payload_size
    usb_mx_id_get_payload_end_size.
Let acquire :=
  getLibusbDeviceMxId bk XLINK_MAX_MX_ID_SIZE usb_mx_id_get_payload_size
    usb_mx_id_get_payload_end_size.
Let report :=
  report_device bk XLINK_MAX_NAME_SIZE XLINK_MAX_MX_ID_SIZE usb_mx_id_get_payload_size
    usb_mx_id_get_payload_end_size.
Let visit :=
  visit_device bk XLINK_MAX_NAME_SIZE XLINK_MAX_MX_ID_SIZE usb_mx_id_get_payload_size
    usb_mx_id_get_payload_end_size.
Let sweep_loop :=
  devices_loop bk XLINK_MAX_NAME_SIZE XLINK_MAX_MX_ID_SIZE usb_mx_id_get_payload_size
    usb_mx_id_get_payload_end_size.

Let no_list (evs : list Event) : Prop :=
  Forall (fun e => is_list_call (ev_call e) = false) evs.

Lemma mxid_attempt_no_list (state : XLinkDeviceState_t) (pDesc : libusb_device_descriptor)
    (mxId : string) (s : State) (a : Z * string) (s' : State) :
  attempt state pDesc mxId s = Some (a, s') ->
  exists evs, s' = set_trace (trace s ++ evs) s /\ no_list evs.
Proof.
  unfold attempt, mxid_attempt, mxid_attempt_unbooted, mxid_attempt_booted,
    mxid_exchange, retry_after_sleep.
  intros H.
  destruct state; mrun H; unfold ret in H; injection H as <- <-; norm_trace;
    (eexists; split; [reflexivity|]); repeat constructor.
Qed.

Lemma mxid_retry_loop_no_list (state : XLinkDeviceState_t)
    (pDesc : libusb_device_descriptor) (t1 : Z) (fuel : nat) :
  forall mxId s a s',
    retry_loop fuel state pDesc t1 mxId s = Some (a, s') ->
    exists evs, s' = set_trace (trace s ++ evs) s /\ no_list evs.
Proof.
  induction fuel as [|fuel IH]; intros mxId s a s' H; [discriminate|].
  unfold retry_loop in H. cbn [mxid_retry_loop] in H.
  apply bind_Some in H. destruct H as ([c1 m1] & s1 & Hatt & H).
  apply mxid_attempt_no_list in Hatt. destruct Hatt as (evs1 & -> & F1).
  cbn [fst snd] in H.
  destruct (c1 =? 0).
  { unfold ret in H. injection H as <- <-. exists evs1. auto. }
  rewrite bind_libusb in H. cbn [trace set_trace] in H.
  set (now := bk (trace s ++ evs1) steady_clock_now) in *.
  destruct (val now - t1 <? RETRY_TIMEOUT).
  - apply IH in H. destruct H as (evs2 & -> & F2).
    exists (evs1 ++ {| ev_call := steady_clock_now; ev_reply := now |} :: evs2).
    split; [norm_trace; reflexivity|].
    apply Forall_app. split; [exact F1|]. constructor; [reflexivity|exact F2].
  - unfold ret in H. injection H as <- <-.
    exists (evs1 ++ [{| ev_call := steady_clock_now; ev_reply := now |}]).
    split; [norm_trace; reflexivity|].
    apply Forall_app. split; [exact F1|]. repeat constructor.
Qed.

Lemma getLibusbDeviceMxId_no_list (fuel : nat) (state : XLinkDeviceState_t)
    (devicePath : string) (pDesc : libusb_device_descriptor) (dev : Z)
    (s : State) (a : Z * string) (s' : State) :
  acquire fuel state devicePath pDesc dev s = Some (a, s') ->
  exists evs, trace s' = trace s ++ evs /\ no_list evs.
Proof.
  intros H. unfold acquire, getLibusbDeviceMxId in H.
  apply bind_Some in H. destruct H as (found & s0 & Hget & H).
  rewrite usb_mx_id_cache_get_entry_eq in Hget. injection Hget as <- <-.
  destruct (find (entry_matches devicePath) (list_mx_id s)) as [e|];
    cbn [option_map] in H.
  { unfold ret in H. injection H as <- <-. exists [].
    rewrite app_nil_r. split; [reflexivity|constructor]. }
  rewrite bind_libusb in H.
  destruct (rc _ <? 0).
  { unfold ret in H. injection H as <- <-.
    eexists. split; [norm_trace; reflexivity|]. repeat constructor. }
  rewrite bind_libusb in H. cbv beta in H.
  apply bind_Some in H. destruct H as ([c1 m1] & s1 & Hloop & H).
  apply mxid_retry_loop_no_list in Hloop. destruct Hloop as (evs & -> & F).
  cbn [fst snd] in H. rewrite bind_libusb in H.
  assert (Hall : forall e1 e2 e3,
             is_list_call (ev_call e1) = false -> is_list_call (ev_call e2) = false ->
             is_list_call (ev_call e3) = false -> no_list (e1 :: e2 :: evs ++ [e3])).
  { intros e1 e2 e3 H1 H2 H3. constructor; [exact H1|]. constructor; [exact H2|].
    apply Forall_app. split; [exact F|]. constructor; [exact H3|constructor]. }
  destruct (negb (c1 =? 0)).
  - unfold ret in H. injection H as <- <-.
    eexists. split; [norm_trace; reflexivity|]. apply Hall; reflexivity.
  - apply bind_Some in H. destruct H as (idx & s2 & Hstore & H).
    match type of Hstore with
    | usb_mx_id_cache_store_entry ?a ?p ?st = _ =>
        destruct (usb_mx_id_cache_store_entry_run a p st) as (idx' & cache & Hstore' & _)
    end.
    rewrite Hstore' in Hstore. injection Hstore as <- <-.
    unfold ret in H. injection H as <- <-.
    eexists. split; [norm_trace; reflexivity|]. apply Hall; reflexivity.
Qed.

Lemma getLibusbDeviceMxId_balanced (fuel : nat) (state : XLinkDeviceState_t)
    (devicePath : string) (pDesc : libusb_device_descriptor) (dev : Z)
    (s : State) (a : Z * string) (s' : State) :
  acquire fuel state devicePath pDesc dev s = Some (a, s') ->
  exists evs, trace s' = trace s ++ evs /\ balanced evs.
Proof.
  intros H. destruct a as [code m].
  destruct (getLibusbDeviceMxId_no_list _ _ _ _ _ _ _ _ H) as (evs & Htrace & F).
  apply getLibusbDeviceMxId_frame in H.
  destruct H as (evs' & Htrace' & _ & Hbal & _).
  rewrite Htrace in Htrace'. apply app_inv_head in Htrace'. subst evs'.
  exists evs. split; [exact Htrace|]. split; assumption.
Qed.

Lemma getLibusbDevicePath_balanced (dev : Z) (s : State) (p : string) (s' : State) :
  getLibusbDevicePath bk dev s = Some (p, s') ->
  exists evs, trace s' = trace s ++ evs /\ balanced evs.
Proof.
  intros H. unfold getLibusbDevicePath in H.
  mrun H; unfold ret in H; injection H as <- <-; norm_trace;
    (eexists; split; [reflexivity|]); (split; [reflexivity|repeat constructor]).
Qed.

Lemma visit_device_balanced (fuel : nat) (F : deviceDesc_t) (size n dev : Z)
    (s : State) (x : LoopExit) (s' : State) :
  visit fuel F size n dev s = Some (x, s') ->
  exists evs, trace s' = trace s ++ evs /\ balanced evs.
Proof.
  intros H. unfold visit, visit_device in H. cbv zeta in H.
  assert (Hnil : forall y, ret y s = Some (x, s') ->
                 exists evs, trace s' = trace s ++ evs /\ balanced evs).
  { intros y Hy. unfold ret in Hy. injection Hy as _ <-. exists [].
    rewrite app_nil_r. split; [reflexivity|apply balanced_nil]. }
  destruct (dev =? 0); [exact (Hnil _ H)|].
  destruct (n >=? size); [exact (Hnil _ H)|].
  rewrite bind_libusb in H.
  set (res := bk (trace s) (libusb_get_device_descriptor dev)) in *.
  assert (Hdesc : balanced [{| ev_call := libusb_get_device_descriptor dev; ev_reply := res |}]).
  { split; [reflexivity|repeat constructor]. }
  assert (Hone : forall y, ret y (record_event (libusb_get_device_descriptor dev) res s)
                           = Some (x, s') ->
                 exists evs, trace s' = trace s ++ evs /\ balanced evs).
  { intros y Hy. unfold ret in Hy. injection Hy as _ <-.
    eexists. split; [reflexivity|exact Hdesc]. }
  destruct (rc res <? 0); [exact (Hone _ H)|].
  destruct (vidPidToDeviceState _) as [st|]; [|exact (Hone _ H)].
  destruct (negb (XLinkDeviceState_eqb (state F) X_LINK_ANY_STATE)
            && negb (XLinkDeviceState_eqb st (state F))); [exact (Hone _ H)|].
  apply bind_Some in H. destruct H as (devicePath & s1 & Hpath & H).
  apply getLibusbDevicePath_balanced in Hpath. destruct Hpath as (evs1 & Ht1 & B1).
  cbn [record_event trace set_trace] in Ht1.
  destruct ((0 <? String.length (name F))%nat && negb (String.eqb (name F) devicePath)).
  { unfold ret in H. injection H as _ <-. rewrite Ht1, <- app_assoc.
    eexists. split; [reflexivity|]. apply balanced_app; assumption. }
  apply report_device_inv in H. destruct H as (code & m & Hacq & _).
  apply getLibusbDeviceMxId_balanced in Hacq. destruct Hacq as (evs2 & Ht2 & B2).
  rewrite Ht2, Ht1, <- !app_assoc.
  eexists. split; [reflexivity|].
  apply balanced_app; [assumption|]. apply balanced_app; assumption.
Qed.

Lemma devices_loop_balanced (fuel : nat) (F : deviceDesc_t) (size : Z) (devs : list Z) :
  forall found s out s',
    sweep_loop fuel F size devs found s = Some (out, s') ->
    exists evs, trace s' = trace s ++ evs /\ balanced evs.
Proof.
  induction devs as [|dev devs IH]; intros found s out s' H.
  - unfold ret in H. injection H as _ <-. exists []. rewrite app_nil_r.
    split; [reflexivity|apply balanced_nil].
  - unfold sweep_loop in H. cbn [devices_loop] in H.
    apply bind_Some in H. destruct H as (x & s1 & Hvisit & H).
    apply visit_device_balanced in Hvisit. destruct Hvisit as (evs1 & Ht1 & B1).
    assert (Hrest : forall found', sweep_loop fuel F size devs found' s1 = Some (out, s') ->
                    exists evs, trace s' = trace s ++ evs /\ balanced evs).
    { intros found' Hl. destruct (IH _ _ _ _ Hl) as (evs2 & Ht2 & B2).
      rewrite Ht2, Ht1, <- app_assoc. eexists. split; [reflexivity|].
      apply balanced_app; assumption. }
    destruct x as [| |d].
    + exact (Hrest _ H).
    + unfold ret in H. injection H as _ <-. exists evs1. auto.
    + exact (Hrest _ H).
Qed.

(** A record the loop body fills is sound, and there was room for it. *)
Lemma visit_device_sound (fuel : nat) (F : deviceDesc_t) (size n dev : Z)
    (s : State) (d : deviceDesc_t) (s' : State) :
  visit fuel F size n dev s = Some (Filled d, s') ->
  n < size /\ sound_record XLINK_MAX_NAME_SIZE XLINK_MAX_MX_ID_SIZE d.
Proof.
  intros H. unfold visit, visit_device in H. cbv zeta in H.
  destruct (dev =? 0); [discriminate|].
  destruct (n >=? size) eqn:Hroom; [discriminate|].
  rewrite bind_libusb in H.
  destruct (rc _ <? 0); [discriminate|].
  destruct (vidPidToDeviceState _) as [st|] eqn:Hst; [|discriminate].
  destruct (negb (XLinkDeviceState_eqb (state F) X_LINK_ANY_STATE)
            && negb (XLinkDeviceState_eqb st (state F))); [discriminate|].
  apply bind_Some in H. destruct H as (devicePath & s1 & _ & H).
  destruct ((0 <? String.length (name F))%nat && negb (String.eqb (name F) devicePath));
    [discriminate|].
  apply report_device_inv in H. destruct H as (code & m & Hacq & Hx).
  destruct ((0 <? String.length (mxid F))%nat && negb (String.eqb (mxid F) m));
    [discriminate|].
  injection Hx as ->. split; [lia|].
  unfold sound_record. cbn [platform protocol state name mxid status].
  split; [reflexivity|]. split; [reflexivity|].
  split; [exact (vidPidToDeviceState_known _ _ Hst)|].
  split; [apply substring_length_le|]. split; [apply substring_length_le|].
  intros Hstatus.
  apply getLibusbDeviceMxId_frame in Hacq.
  destruct Hacq as (evs & _ & _ & _ & _ & Hfail & _).
  destruct Hfail as [-> _].
  - intros ->. apply Hstatus. reflexivity.
  - unfold strncpy. destruct XLINK_MAX_MX_ID_SIZE; reflexivity.
Qed.

Lemma devices_loop_sound (fuel : nat) (F : deviceDesc_t) (size : Z) (devs : list Z) :
  forall found s out s',
    Z.of_nat (List.length found) <= Z.max 0 size ->
    Forall (sound_record XLINK_MAX_NAME_SIZE XLINK_MAX_MX_ID_SIZE) found ->
    sweep_loop fuel F size devs found s = Some (out, s') ->
    Z.of_nat (List.length out) <= Z.max 0 size /\
    Forall (sound_record XLINK_MAX_NAME_SIZE XLINK_MAX_MX_ID_SIZE) out.
Proof.
  induction devs as [|dev devs IH]; intros found s out s' Hlen Hok H.
  - unfold ret in H. injection H as <- <-. auto.
  - unfold sweep_loop in H. cbn [devices_loop] in H.
    apply bind_Some in H. destruct H as (x & s1 & Hvisit & H).
    destruct x as [| |d].
    + exact (IH _ _ _ _ Hlen Hok H).
    + unfold ret in H. injection H as <- <-. auto.
    + apply visit_device_sound in Hvisit. destruct Hvisit as [Hroom Hd].
      apply (IH _ _ _ _) in H; [exact H| |].
      * rewrite length_app. cbn [List.length]. lia.
      * apply Forall_app. split; [exact Hok|]. constructor; [exact Hd|constructor].
Qed.

End EnumeratorResources.

(** X8: a sweep never writes more records than the caller's array
    holds (none when the capacity is zero or negative), and every
    record it writes has platform X_LINK_MYRIAD_X, protocol
    X_LINK_USB_VSC, a state other than X_LINK_ANY_STATE, a name and an
    MxId that fit their arrays, and an empty MxId whenever its status is
    not X_LINK_SUCCESS. *)
Theorem getUSBDevices_records (bk : Backend) (XLINK_MAX_NAME_SIZE XLINK_MAX_MX_ID_SIZE : nat)
    (payload_size payload_end_size : Z) (fuel : nat) (F : deviceDesc_t) (size : Z)
    (s : State) (res : Enumeration) (s' : State) :
  getUSBDevices bk XLINK_MAX_NAME_SIZE XLINK_MAX_MX_ID_SIZE payload_size payload_end_size
    fuel F size s = Some (res, s') ->
  Z.of_nat (List.length (out_foundDevices res)) <= Z.max 0 size /\
  Forall (sound_record XLINK_MAX_NAME_SIZE XLINK_MAX_MX_ID_SIZE) (out_foundDevices res).
Proof.
  intros H. unfold getUSBDevices in H.
  rewrite bind_libusb in H. cbv zeta in H.
  destruct (rc _ <? 0).
  { unfold ret in H. injection H as <- <-. cbn [out_foundDevices List.length].
    split; [lia|constructor]. }
  unfold usb_mx_id_cache_init, modify in H.
  unfold bind at 1 in H.
  apply bind_Some in H. destruct H as (found & s2 & Hloop & H).
  rewrite bind_libusb in H. unfold ret in H. injection H as <- <-.
  cbn [out_foundDevices].
  apply devices_loop_sound in Hloop; [exact Hloop|cbn [List.length]; lia|constructor].
Qed.

Lemma getUSBDevices_records_witness :
  exists res s',
    getUSBDevices locked_bus 64 32 1024 16 50 no_filter 1 initial_state = Some (res, s') /\
    List.length (out_foundDevices res) = 1%nat /\
    Forall (sound_record 64 32) (out_foundDevices res).
Proof.
  eexists _, _. split; [vm_compute; reflexivity|].
  split; [reflexivity|].
  exact (proj2 (getUSBDevices_records locked_bus 64 32 1024 16 50 no_filter 1 initial_state
                  _ _ ltac:(vm_compute; reflexivity))).
Defined.

(** X9: a sweep gives back what it took.  Over the calls it made, every
    handle opened was closed again and the device list was freed
    exactly as often as it was obtained; and when the device list
    cannot be obtained the sweep returns X_LINK_PLATFORM_ERROR after
    that one call, writing no record and no count and leaving the MxId
    cache as it was. *)
Theorem getUSBDevices_releases (bk : Backend) (XLINK_MAX_NAME_SIZE XLINK_MAX_MX_ID_SIZE : nat)
    (payload_size payload_end_size : Z) (fuel : nat) (F : deviceDesc_t) (size : Z)
    (s : State) (res : Enumeration) (s' : State) :
  getUSBDevices bk XLINK_MAX_NAME_SIZE XLINK_MAX_MX_ID_SIZE payload_size payload_end_size
    fuel F size s = Some (res, s') ->
  exists evs,
    trace s' = trace s ++ evs /\
    count_events closed_handle evs = count_events opened_handle evs /\
    count_events freed_devices evs = count_events listed_devices evs /\
    (rc (bk (trace s) libusb_get_device_list) < 0 ->
     res = {| enum_rc := X_LINK_PLATFORM_ERROR; out_foundDevices := [];
              out_amountOfFoundDevices := None |} /\
     evs = [{| ev_call := libusb_get_device_list;
               ev_reply := bk (trace s) libusb_get_device_list |}] /\
     list_mx_id s' = list_mx_id s).
Proof.
  intros H. unfold getUSBDevices in H.
  rewrite bind_libusb in H. cbv zeta in H.
  set (l := bk (trace s) libusb_get_device_list) in *.
  destruct (rc l <? 0) eqn:Hneg.
  { unfold ret in H. injection H as <- <-.
    exists [{| ev_call := libusb_get_device_list; ev_reply := l |}].
    split; [reflexivity|].
    cbn [count_events closed_handle opened_handle freed_devices listed_devices
         ev_call ev_reply].
    rewrite Hneg. cbn [negb]. auto. }
  unfold usb_mx_id_cache_init, modify in H.
  unfold bind at 1 in H.
  apply bind_Some in H. destruct H as (found & s2 & Hloop & H).
  apply devices_loop_balanced in Hloop. destruct Hloop as (evs & Htrace & Hbal & Hlist).
  cbn [trace set_list_mx_id record_event set_trace] in Htrace.
  rewrite bind_libusb in H. unfold ret in H. injection H as <- <-.
  destruct (no_list_call_counts evs Hlist) as [Hl Hf].
  exists ({| ev_call := libusb_get_device_list; ev_reply := l |}
          :: evs ++ [{| ev_call := libusb_free_device_list;
                        ev_reply := bk (trace s2) libusb_free_device_list |}]).
  split; [cbn [record_event trace set_trace]; rewrite Htrace, <- !app_assoc; reflexivity|].
  cbn [count_events closed_handle opened_handle freed_devices listed_devices
       ev_call ev_reply].
  rewrite Hneg. cbn [negb]. rewrite !count_events_app.
  cbn [count_events closed_handle opened_handle freed_devices listed_devices ev_call].
  split; [lia|]. split; [lia|]. intros Hlt. lia.
Qed.

Lemma getUSBDevices_releases_witness :
  exists res s',
    getUSBDevices healthy_bus 64 32 1024 16 3 no_filter 8 initial_state = Some (res, s') /\
    count_events closed_handle (trace s') = 2%nat /\
    count_events opened_handle (trace s') = 2%nat /\
    count_events freed_devices (trace s') = 1%nat.
Proof.
  eexists _, _. split; [vm_compute; reflexivity|].
  destruct (getUSBDevices_releases healthy_bus 64 32 1024 16 3 no_filter 8 initial_state
              _ _ ltac:(vm_compute; reflexivity)) as (evs & Htrace & Hh & Hl & _).
  cbn [trace initial_state app] in Htrace. rewrite <- Htrace in Hh, Hl.
  split; [|split].
  - etransitivity; [exact Hh|reflexivity].
  - reflexivity.
  - etransitivity; [exact Hl|reflexivity].
Defined.

(** * Further properties of the data pipe *)

Section PipeProgress.

Variable bk : Backend.
Variable DEFAULT_CHUNKSZ : Z.
Variable ep : Z.

Let transfer (h : list Event) (len : Z) : Reply :=
  bk h (libusb_bulk_transfer ep len XLINK_USB_DATA_TIMEOUT).

(** Transfers that succeed without moving a byte leave the loop where
    it was. *)
Lemma pipe_loop_stalls :
  (forall h len, rc (transfer h len) = 0 /\ val (transfer h len) = 0) ->
  forall fuel size s,
    0 < size <= SIZE_MAX ->
    pipe_loop bk DEFAULT_CHUNKSZ ep fuel size s = None.
Proof.
  intros Hstall. induction fuel as [|fuel IH]; intros size s Hsize; [reflexivity|].
  rewrite pipe_loop_S. cbv zeta.
  destruct (size >? 0) eqn:Hpos; [|lia].
  match goal with
  | |- context [bk (trace s) (libusb_bulk_transfer ep ?len XLINK_USB_DATA_TIMEOUT)] =>
      destruct (Hstall (trace s) len) as [Hrc Hval]
  end.
  unfold transfer in Hrc, Hval. rewrite Hrc, Hval. cbn [Z.eqb negb].
  rewrite Z.sub_0_r, to_size_t_small by lia.
  apply IH. exact Hsize.
Qed.

(** Transfers that move at least one byte and at most what was asked
    for bring the loop to its end, in at most one pass per byte. *)
Lemma pipe_loop_progress :
  0 < to_int DEFAULT_CHUNKSZ ->
  (forall h len, 0 < len -> rc (transfer h len) = 0 -> 1 <= val (transfer h len) <= len) ->
  forall fuel size s,
    0 <= size <= INT_MAX -> (Z.to_nat size + 1 <= fuel)%nat ->
    exists r evs,
      pipe_loop bk DEFAULT_CHUNKSZ ep fuel size s = Some (r, set_trace (trace s ++ evs) s) /\
      (List.length evs <= Z.to_nat size)%nat.
Proof.
  intros Hchunk Hprog. induction fuel as [|fuel IH]; intros size s Hsize Hfuel; [lia|].
  rewrite pipe_loop_S. cbv zeta.
  destruct (size >? 0) eqn:Hpos.
  2:{ exists 0, []. rewrite app_nil_r, set_trace_trace. split; [reflexivity|cbn; lia]. }
  rewrite (to_int_small size) by (unfold INT_MAX in *; lia).
  set (len := if size >? to_int DEFAULT_CHUNKSZ then to_int DEFAULT_CHUNKSZ else size).
  assert (Hlen : 0 < len <= size)
    by (unfold len; destruct (size >? to_int DEFAULT_CHUNKSZ) eqn:E; lia).
  set (c := libusb_bulk_transfer ep len XLINK_USB_DATA_TIMEOUT).
  set (x := bk (trace s) c).
  destruct (negb (rc x =? 0)) eqn:Hrc.
  { exists (rc x), [{| ev_call := c; ev_reply := x |}].
    split; [reflexivity|]. cbn [List.length]. lia. }
  assert (Hval : 1 <= val x <= len).
  { unfold transfer in Hprog. apply (Hprog (trace s) len); [lia|]. fold c. fold x. lia. }
  rewrite to_size_t_small by (unfold SIZE_MAX, INT_MAX in *; lia).
  destruct (IH (size - val x) (record_event c x s)) as (r & evs & Hrun & Hn).
  - lia.
  - lia.
  - exists r, ({| ev_call := c; ev_reply := x |} :: evs).
    rewrite Hrun. split.
    + unfold record_event. cbn [trace set_trace].
      rewrite set_trace_twice, <- app_assoc. reflexivity.
    + cbn [List.length]. lia.
Qed.

End PipeProgress.

(** X10: the data pipe has no deadline of its own.  While transfers
    come back with code 0 and no byte moved, usb_read and usb_write keep
    asking for the same bytes: no amount of fuel lets either call
    return. *)
Theorem usb_pipe_never_gives_up (bk : Backend) (CH : Z) (size : Z) :
  0 < size <= SIZE_MAX ->
  (forall h ep len,
     rc (bk h (libusb_bulk_transfer ep len XLINK_USB_DATA_TIMEOUT)) = 0 /\
     val (bk h (libusb_bulk_transfer ep len XLINK_USB_DATA_TIMEOUT)) = 0) ->
  forall fuel s,
    usb_read bk CH fuel size s = None /\ usb_write bk CH fuel size s = None.
Proof.
  intros Hsize Hstall fuel s.
  rewrite usb_read_pipe_loop, usb_write_pipe_loop.
  split; apply pipe_loop_stalls; auto.
Qed.

Lemma usb_pipe_never_gives_up_witness :
  usb_read stalled_bus 1048576 1000 10 initial_state = None /\
  usb_write stalled_bus 1048576 1000 10 initial_state = None.
Proof.
  apply (usb_pipe_never_gives_up stalled_bus 1048576 10).
  - unfold SIZE_MAX. lia.
  - intros h ep len. split; reflexivity.
Defined.

(** X11: when every successful transfer on the pipe's endpoint moves at
    least one byte and at most what was asked for, usb_read and
    usb_write of a buffer of up to INT_MAX bytes come back, after at
    most one transfer per byte. *)
Theorem usb_pipe_returns (bk : Backend) (CH : Z)
    (pipe : nat -> Z -> M Z) (ep : Z) :
  (pipe = usb_read bk CH /\ ep = USB_ENDPOINT_IN) \/
  (pipe = usb_write bk CH /\ ep = USB_ENDPOINT_OUT) ->
  0 < to_int CH ->
  (forall h len,
     let x := bk h (libusb_bulk_transfer ep len XLINK_USB_DATA_TIMEOUT) in
     0 < len -> rc x = 0 -> 1 <= val x <= len) ->
  forall fuel size s,
    0 <= size <= INT_MAX -> (Z.to_nat size + 1 <= fuel)%nat ->
    exists r evs,
      pipe fuel size s = Some (r, set_trace (trace s ++ evs) s) /\
      (List.length evs <= Z.to_nat size)%nat.
Proof.
  intros Hpipe Hchunk Hprog fuel size s Hsize Hfuel.
  destruct Hpipe as [[-> ->]|[-> ->]].
  - rewrite usb_read_pipe_loop. apply pipe_loop_progress; assumption.
  - rewrite usb_write_pipe_loop. apply pipe_loop_progress; assumption.
Qed.

Lemma usb_pipe_returns_witness :
  exists r evs,
    usb_write healthy_bus 4 4 10 initial_state = Some (r, set_trace evs initial_state) /\
    (List.length evs <= 10)%nat.
Proof.
  destruct (usb_pipe_returns healthy_bus 4 (usb_write healthy_bus 4) USB_ENDPOINT_OUT)
    with (fuel := 11%nat) (size := 10) (s := initial_state) as (r & evs & Hrun & Hn).
  - right. split; reflexivity.
  - reflexivity.
  - intros h len x Hlen _. subst x. cbn. lia.
  - unfold INT_MAX. lia.
  - cbn. lia.
  - exists r, evs. split; [|exact Hn].
    assert (Hfuel : usb_write healthy_bus 4 4 10 initial_state
                    = usb_write healthy_bus 4 11 10 initial_state)
      by (vm_compute; reflexivity).
    rewrite Hfuel. exact Hrun.
Defined.

(** X12: usbPlatformRead and usbPlatformWrite do not reject a size that
    is not positive.  A size of 0 returns 0 without a transfer.  Any
    other [int], negative ones included, starts a bulk transfer whose
    length is the smaller of the size and DEFAULT_CHUNKSZ: a negative
    size reaches libusb as the transfer length. *)
Theorem usbPlatform_pipe_size (bk : Backend) (CH : Z) (fuel : nat) (size : Z) (s : State) :
  - 2 ^ 31 <= size <= INT_MAX ->
  (size = 0 ->
   usbPlatformRead bk CH (S fuel) size s = Some (0, s) /\
   usbPlatformWrite bk CH (S fuel) size s = Some (0, s)) /\
  (size <> 0 ->
   (forall r s',
      usbPlatformRead bk CH (S fuel) size s = Some (r, s') ->
      exists x rest,
        trace s' = trace s ++
          {| ev_call := libusb_bulk_transfer USB_ENDPOINT_IN (Z.min size (to_int CH))
                          XLINK_USB_DATA_TIMEOUT;
             ev_reply := x |} :: rest) /\
   (forall r s',
      usbPlatformWrite bk CH (S fuel) size s = Some (r, s') ->
      exists x rest,
        trace s' = trace s ++
          {| ev_call := libusb_bulk_transfer USB_ENDPOINT_OUT (Z.min size (to_int CH))
                          XLINK_USB_DATA_TIMEOUT;
             ev_reply := x |} :: rest)).
Proof.
  intros Hsize.
  assert (Hint : to_int (to_size_t size) = size).
  { unfold to_int, to_size_t, INT_MAX in *.
    change (2 ^ 64) with (2 ^ 32 * 2 ^ 32).
    change (2 ^ 32) with 4294967296 in *. change (2 ^ 31) with 2147483648 in *.
    Z.div_mod_to_equations. lia. }
  assert (Hpos : size <> 0 -> (to_size_t size >? 0) = true).
  { intros Hnz. unfold to_size_t, INT_MAX in *.
    change (2 ^ 64) with 18446744073709551616.
    change (2 ^ 31) with 2147483648 in *.
    Z.div_mod_to_equations. lia. }
  assert (Hloop : forall ep r s',
            size <> 0 ->
            (rc <- pipe_loop bk CH ep (S fuel) (to_size_t size) ;; ret rc)%usb s
              = Some (r, s') ->
            exists x rest,
              trace s' = trace s ++
                {| ev_call := libusb_bulk_transfer ep (Z.min size (to_int CH))
                                XLINK_USB_DATA_TIMEOUT;
                   ev_reply := x |} :: rest).
  { intros ep r s' Hnz H. apply bind_Some in H. destruct H as (r1 & s1 & H & Hret).
    unfold ret in Hret. injection Hret as _ <-.
    rewrite pipe_loop_S in H. cbv zeta in H. rewrite (Hpos Hnz), Hint in H.
    replace (if size >? to_int CH then to_int CH else size)
      with (Z.min size (to_int CH)) in H by (destruct (size >? to_int CH) eqn:E; lia).
    destruct (negb (rc _ =? 0)).
    - injection H as _ <-. eexists _, []. reflexivity.
    - apply pipe_loop_run in H. destruct H as (evs & -> & _).
      eexists _, evs. cbn [trace set_trace record_event].
      rewrite <- app_assoc. reflexivity. }
  split.
  - intros ->. split; reflexivity.
  - intros Hnz. split; intros r s' H.
    + unfold usbPlatformRead in H. cbv zeta in H.
      apply (Hloop USB_ENDPOINT_IN r s' Hnz).
      unfold bind in *. rewrite <- usb_read_pipe_loop. exact H.
    + unfold usbPlatformWrite in H. cbv zeta in H.
      apply (Hloop USB_ENDPOINT_OUT r s' Hnz).
      unfold bind in *. rewrite <- usb_write_pipe_loop. exact H.
Qed.

Lemma usbPlatform_pipe_size_witness :
  exists s',
    usbPlatformWrite (failing_bus LIBUSB_ERROR_IO) 1048576 1 (-5) initial_state
      = Some (LIBUSB_ERROR_IO, s') /\
    exists x rest,
      trace s' =
        {| ev_call := libusb_bulk_transfer USB_ENDPOINT_OUT (-5) XLINK_USB_DATA_TIMEOUT;
           ev_reply := x |} :: rest.
Proof.
  eexists. split; [vm_compute; reflexivity|].
  destruct (usbPlatform_pipe_size (failing_bus LIBUSB_ERROR_IO) 1048576 0 (-5) initial_state)
    as (_ & Hneg); [unfold INT_MAX; lia|].
  destruct (Hneg ltac:(lia)) as (_ & Hwrite).
  destruct (Hwrite LIBUSB_ERROR_IO _ ltac:(vm_compute; reflexivity)) as (x & rest & Htrace).
  exists x, rest. exact Htrace.
Defined.

(** * Device references, links and boot: reasoning *)

Lemma bindH_Some {A B : Type} (m : HM A) (k : A -> HM B) (h h' : HostState) (b : B) :
  bindH m k h = Some (b, h') ->
  exists a h1, m h = Some (a, h1) /\ k a h1 = Some (b, h').
Proof.
  unfold bindH. destruct (m h) as [[a h1]|]; [|discriminate].
  intros H. exists a, h1. auto.
Qed.

Lemma bindH_libusb {B : Type} (bk : Backend) (c : Call) (k : Reply -> HM B) (h : HostState) :
  bindH (lift (libusb bk c)) k h =
  k (bk (trace (usb_state h)) c) (advance [{| ev_call := c; ev_reply := bk (trace (usb_state h)) c |}] [] h).
Proof.
  unfold bindH, lift, libusb, advance, record_event. rewrite app_nil_r. reflexivity.
Qed.

Lemma bindH_host_op {B : Type} (o : HostOp) (k : unit -> HM B) (h : HostState) :
  bindH (host_op o) k h = k tt (advance [] [o] h).
Proof.
  unfold bindH, host_op, advance. rewrite app_nil_r, set_trace_trace. reflexivity.
Qed.

Lemma advance_nil (h : HostState) : advance [] [] h = h.
Proof.
  destruct h as [s os]. unfold advance. cbn [usb_state host_ops].
  rewrite !app_nil_r, set_trace_trace. reflexivity.
Qed.

Lemma advance_advance (e1 e2 : list Event) (o1 o2 : list HostOp) (h : HostState) :
  advance e2 o2 (advance e1 o1 h) = advance (e1 ++ e2) (o1 ++ o2) h.
Proof.
  unfold advance. cbn [usb_state host_ops trace set_trace].
  rewrite set_trace_twice, !app_assoc. reflexivity.
Qed.

(** getLibusbDevicePath asks for the bus and the ports, and nothing
    else. *)
Lemma getLibusbDevicePath_run (bk : Backend) (dev : Z) (s : State) :
  exists p evs,
    getLibusbDevicePath bk dev s = Some (p, set_trace (trace s ++ evs) s) /\
    Forall (fun e => is_path_call (ev_call e) = true) evs.
Proof.
  destruct (getLibusbDevicePath bk dev s) as [[p s']|] eqn:H.
  - exists p. unfold getLibusbDevicePath in H.
    mrun H; unfold ret in H; injection H as <- <-; norm_trace;
      (eexists; split; [reflexivity|]); repeat constructor.
  - exfalso. unfold getLibusbDevicePath in H. mrun H; discriminate.
Qed.

Lemma path_calls_quiet (evs : list Event) :
  Forall (fun e => is_path_call (ev_call e) = true) evs ->
  count_events opened_handle evs = 0%nat /\
  count_events closed_handle evs = 0%nat /\
  count_events listed_devices evs = 0%nat /\
  count_events freed_devices evs = 0%nat /\
  slept evs = 0 /\
  bulk_lengths evs = [].
Proof.
  induction 1 as [|e evs He _ (IH1 & IH2 & IH3 & IH4 & IH5 & IH6)];
    [repeat split; reflexivity|].
  cbn [count_events slept bulk_lengths].
  unfold opened_handle, closed_handle, listed_devices, freed_devices.
  destruct (ev_call e); try discriminate He; auto 10.
Qed.

Section RefDevice.

Variable bk : Backend.

Lemma ref_device_loop_run (name : string) (devs : list Z) :
  forall pdev h,
    exists found dev evs os,
      ref_device_loop bk name devs pdev h = Some ((found, dev), advance evs os h) /\
      Forall (fun e => is_path_call (ev_call e) = true) evs /\
      (found = true ->
       dev <> 0 /\ In dev devs /\ name <> "" /\ os = [libusb_ref_device dev] /\
       exists s0 s1, getLibusbDevicePath bk dev s0 = Some (name, s1)) /\
      (found = false -> dev = pdev /\ os = []).
Proof.
  induction devs as [|d devs IH]; intros pdev h.
  - exists false, pdev, [], []. cbn [ref_device_loop]. unfold retH.
    rewrite advance_nil. split; [reflexivity|]. split; [constructor|].
    split; [discriminate|auto].
  - cbn [ref_device_loop].
    destruct (d =? 0) eqn:Hnull.
    { destruct (IH pdev h) as (found & dev & evs & os & Hrun & Hq & Hyes & Hno).
      exists found, dev, evs, os. split; [exact Hrun|]. split; [exact Hq|].
      split; [|exact Hno]. intros Hf. destruct (Hyes Hf) as (H1 & H2 & H3).
      split; [exact H1|]. split; [right; exact H2|exact H3]. }
    destruct (getLibusbDevicePath_run bk d (usb_state h)) as (p & evs1 & Hpath & Hq1).
    unfold bindH at 1. unfold lift at 1. rewrite Hpath. cbv zeta.
    change {| usb_state := set_trace (trace (usb_state h) ++ evs1) (usb_state h);
              host_ops := host_ops h |}
      with (let h1 := {| usb_state := set_trace (trace (usb_state h) ++ evs1) (usb_state h);
                         host_ops := host_ops h |} in h1).
    assert (Hh1 : {| usb_state := set_trace (trace (usb_state h) ++ evs1) (usb_state h);
                     host_ops := host_ops h |} = advance evs1 [] h).
    { unfold advance. rewrite app_nil_r. reflexivity. }
    cbv zeta. rewrite Hh1.
    destruct ((0 <? String.length name)%nat && String.eqb name p) eqn:Hmatch.
    + rewrite bindH_host_op, advance_advance. unfold retH. rewrite app_nil_r.
      exists true, d, evs1, [libusb_ref_device d].
      split; [reflexivity|]. split; [exact Hq1|]. split; [|discriminate].
      intros _. apply andb_true_iff in Hmatch. destruct Hmatch as [Hlen Heq].
      apply String.eqb_eq in Heq. subst p.
      split; [lia|]. split; [left; reflexivity|]. split.
      * intros ->. cbn in Hlen. discriminate.
      * split; [reflexivity|]. eauto.
    + destruct (IH pdev (advance evs1 [] h)) as (found & dev & evs & os & Hrun & Hq & Hyes & Hno).
      exists found, dev, (evs1 ++ evs), os.
      rewrite Hrun, advance_advance. split; [reflexivity|].
      split; [apply Forall_app; split; assumption|].
      split; [|exact Hno]. intros Hf. destruct (Hyes Hf) as (H1 & H2 & H3).
      split; [exact H1|]. split; [right; exact H2|exact H3].
Qed.

(** refLibusbDeviceByName always comes back; what it did and what it
    answers. *)
Lemma refLibusbDeviceByName_run (name : string) (pdev : Z) (h : HostState) :
  let l := bk (trace (usb_state h)) libusb_get_device_list in
  let e0 := {| ev_call := libusb_get_device_list; ev_reply := l |} in
  exists code dev evs os,
    refLibusbDeviceByName bk name pdev h = Some ((code, dev), advance evs os h) /\
    ((rc l < 0 /\ code = X_LINK_PLATFORM_ERROR /\ evs = [e0]) \/
     (0 <= rc l /\ code <> X_LINK_PLATFORM_ERROR /\
      exists mid f,
        evs = e0 :: mid ++ [{| ev_call := libusb_free_device_list; ev_reply := f |}] /\
        Forall (fun e => is_path_call (ev_call e) = true) mid)) /\
    (code = X_LINK_PLATFORM_SUCCESS ->
     dev <> 0 /\ In dev (take (Z.to_nat (rc l)) (data l)) /\ name <> "" /\
     os = [libusb_ref_device dev] /\
     exists s0 s1, getLibusbDevicePath bk dev s0 = Some (name, s1)) /\
    (code <> X_LINK_PLATFORM_SUCCESS -> dev = pdev /\ os = []).
Proof.
  intros l e0. unfold refLibusbDeviceByName.
  rewrite bindH_libusb. fold l. fold e0. cbv zeta.
  destruct (rc l <? 0) eqn:Hneg.
  { exists X_LINK_PLATFORM_ERROR, pdev, [e0], []. unfold retH.
    split; [reflexivity|]. split; [left; repeat split; lia|].
    split; [discriminate|auto]. }
  destruct (ref_device_loop_run name (take (Z.to_nat (rc l)) (data l)) pdev
              (advance [e0] [] h)) as (found & dev & evs & os & Hrun & Hq & Hyes & Hno).
  unfold bindH at 1. rewrite Hrun. cbn [fst snd].
  rewrite bindH_libusb, !advance_advance. cbn [app].
  set (f := bk _ libusb_free_device_list).
  destruct found; cbn [negb]; unfold retH; rewrite app_nil_r.
  - exists X_LINK_PLATFORM_SUCCESS, dev,
      (e0 :: evs ++ [{| ev_call := libusb_free_device_list; ev_reply := f |}]), os.
    split; [reflexivity|].
    split; [right; split; [lia|]; split; [discriminate|]; exists evs, f; auto|].
    split; [intros _; exact (Hyes eq_refl)|]. intros Hc. congruence.
  - exists X_LINK_PLATFORM_DEVICE_NOT_FOUND, dev,
      (e0 :: evs ++ [{| ev_call := libusb_free_device_list; ev_reply := f |}]), os.
    split; [reflexivity|].
    split; [right; split; [lia|]; split; [discriminate|]; exists evs, f; auto|].
    split; [discriminate|]. intros _. exact (Hno eq_refl).
Qed.

End RefDevice.


Lemma resources_kept_app (a b : list Event) :
  resources_kept a -> resources_kept b -> resources_kept (a ++ b).
Proof.
  intros [Ha1 Ha2] [Hb1 Hb2]. split; rewrite !count_events_app; lia.
Qed.

Lemma transfer_calls_quiet (evs : list Event) :
  Forall (fun e => is_transfer_call (ev_call e) = true) evs ->
  count_events opened_handle evs = 0%nat /\
  count_events closed_handle evs = 0%nat /\
  count_events listed_devices evs = 0%nat /\
  count_events freed_devices evs = 0%nat.
Proof.
  induction 1 as [|e evs He _ (IH1 & IH2 & IH3 & IH4)]; [repeat split; reflexivity|].
  cbn [count_events].
  unfold opened_handle, closed_handle, listed_devices, freed_devices.
  destruct (ev_call e); try discriminate He; auto.
Qed.

(** usb_open_device always comes back; what it called. *)
Lemma usb_open_device_run (bk : Backend) (dev : Z) (s : State) :
  exists r s' evs,
    usb_open_device bk dev s = Some (r, s') /\
    trace s' = trace s ++ evs /\
    list_mx_id s' = list_mx_id s /\
    (r = None -> count_events closed_handle evs = count_events opened_handle evs) /\
    (r <> None ->
     count_events opened_handle evs = 1%nat /\ count_events closed_handle evs = 0%nat) /\
    count_events listed_devices evs = 0%nat /\
    count_events freed_devices evs = 0%nat /\
    slept evs = 0 /\
    bulk_lengths evs = [].
Proof.
  destruct (usb_open_device bk dev s) as [[r s']|] eqn:H.
  - exists r, s'. unfold usb_open_device in H.
    mrun_all H; unfold ret in H; injection H as <- <-;
      unfold set_bulk_chunklen in *; norm_trace;
      (eexists; split; [reflexivity|]); (split; [reflexivity|]);
      (split; [reflexivity|]);
      (split; [intros Hr; try discriminate|]);
      try count_handles;
      (split; [intros Hr; try congruence|]);
      try (split; count_handles);
      repeat split; reflexivity.
  - exfalso. unfold usb_open_device in H. mrun_all H; discriminate.
Qed.

Section SendFootprint.

Variable bk : Backend.
Variables USB_BOOT_ERROR USB_BOOT_TIMEOUT : Z.
Variables endpoint filesize : Z.
Variable send_zlp : bool.
Variables chunk t1 : Z.

Lemma send_file_loop_footprint (fuel : nat) :
  forall twb s r s',
    send_file_loop bk USB_BOOT_ERROR USB_BOOT_TIMEOUT fuel endpoint filesize send_zlp
      chunk t1 twb s = Some (r, s') ->
    exists evs,
      s' = set_trace (trace s ++ evs) s /\
      Forall (fun e => is_transfer_call (ev_call e) = true) evs.
Proof.
  induction fuel as [|fuel IH]; intros twb s r s' H; [discriminate|].
  rewrite send_file_loop_S in H. cbv zeta in H.
  assert (Hnil : forall y, Some (y, s) = Some (r, s') ->
                 exists evs, s' = set_trace (trace s ++ evs) s /\
                   Forall (fun e => is_transfer_call (ev_call e) = true) evs).
  { intros y Hy. injection Hy as _ <-. exists [].
    rewrite app_nil_r, set_trace_trace. split; [reflexivity|constructor]. }
  destruct ((to_unsigned twb <? filesize) || send_zlp); [|exact (Hnil _ H)].
  set (c := libusb_bulk_transfer endpoint (next_chunk filesize chunk twb) write_timeout) in *.
  set (x := bk (trace s) c) in *.
  assert (Hone : forall y, Some (y, record_event c x s) = Some (r, s') ->
                 exists evs, s' = set_trace (trace s ++ evs) s /\
                   Forall (fun e => is_transfer_call (ev_call e) = true) evs).
  { intros y Hy. injection Hy as _ <-. eexists. split; [reflexivity|].
    repeat constructor. }
  destruct ((negb (rc x =? 0) || negb (_ =? val x)) && negb (_ =? 0)).
  { destruct (rc x =? LIBUSB_ERROR_NO_DEVICE); [exact (Hone _ H)|].
    destruct (rc x =? LIBUSB_ERROR_TIMEOUT); exact (Hone _ H). }
  set (now := bk (trace (record_event c x s)) steady_clock_now) in *.
  assert (Htwo : forall y,
            Some (y, record_event steady_clock_now now (record_event c x s)) = Some (r, s') ->
            exists evs, s' = set_trace (trace s ++ evs) s /\
              Forall (fun e => is_transfer_call (ev_call e) = true) evs).
  { intros y Hy. injection Hy as _ <-.
    exists [{| ev_call := c; ev_reply := x |};
            {| ev_call := steady_clock_now; ev_reply := now |}].
    split; [norm_trace; reflexivity|]. repeat constructor. }
  destruct (val now - t1 >? DEFAULT_SEND_FILE_TIMEOUT); [exact (Htwo _ H)|].
  destruct (_ =? 0); [exact (Htwo _ H)|].
  apply IH in H. destruct H as (evs & -> & Hq).
  exists ({| ev_call := c; ev_reply := x |}
          :: {| ev_call := steady_clock_now; ev_reply := now |} :: evs).
  split; [norm_trace; reflexivity|]. repeat (constructor; [reflexivity|]). exact Hq.
Qed.

End SendFootprint.

Lemma send_file_footprint (bk : Backend) (CH BE BT : Z) (NDEBUG : bool) (fuel : nat)
    (endpoint filesize bcdusb : Z) (s : State) (r : Z) (s' : State) :
  send_file bk CH BE BT NDEBUG fuel endpoint filesize bcdusb s = Some (r, s') ->
  exists evs,
    s' = set_trace (trace s ++ evs) s /\
    Forall (fun e => is_transfer_call (ev_call e) = true) evs.
Proof.
  intros H. unfold send_file in H. cbv zeta in H.
  rewrite bind_libusb in H.
  apply bind_Some in H. destruct H as (x & s1 & Hloop & H).
  apply send_file_loop_footprint in Hloop. destruct Hloop as (evs & -> & Hq).
  destruct x as [c|].
  - unfold ret in H. injection H as _ <-.
    eexists. split; [norm_trace; reflexivity|]. constructor; [reflexivity|exact Hq].
  - apply bind_Some in H. destruct H as ([] & s2 & Hlog & H).
    unfold ret in H. injection H as _ <-.
    destruct (send_file_debug_log_run bk NDEBUG
                (set_trace (trace (record_event steady_clock_now
                                     (bk (trace s) steady_clock_now) s) ++ evs)
                   (record_event steady_clock_now (bk (trace s) steady_clock_now) s)))
      as (dbg & Hd & Hclk & _).
    rewrite Hd in Hlog. injection Hlog as <-.
    exists ({| ev_call := steady_clock_now; ev_reply := bk (trace s) steady_clock_now |}
            :: evs ++ dbg).
    split; [norm_trace; reflexivity|].
    constructor; [reflexivity|]. apply Forall_app. split; [exact Hq|].
    eapply Forall_impl; [exact Hclk|]. intros e He. cbn beta in *. rewrite He. reflexivity.
Qed.

Section Boot.

Variable bk : Backend.
Variables DEFAULT_CHUNKSZ USB_BOOT_ERROR USB_BOOT_TIMEOUT : Z.
Variable platform_code : xLinkPlatformErrorCode_t -> Z.

(** What the callers of refLibusbDeviceByName need to know. *)
Lemma refLibusbDeviceByName_quiet (name : string) (pdev : Z) (h : HostState) :
  exists code dev evs os,
    refLibusbDeviceByName bk name pdev h = Some ((code, dev), advance evs os h) /\
    resources_kept evs /\
    count_events opened_handle evs = 0%nat /\
    slept evs = 0 /\
    bulk_lengths evs = [] /\
    (is_platform_success code = true -> dev <> 0 /\ os = [libusb_ref_device dev]) /\
    (is_platform_success code = false -> dev = pdev /\ os = []).
Proof.
  destruct (refLibusbDeviceByName_run bk name pdev h)
    as (code & dev & evs & os & Hrun & Hshape & Hyes & Hno).
  exists code, dev, evs, os. split; [exact Hrun|].
  assert (Hev : resources_kept evs /\ count_events opened_handle evs = 0%nat /\
                slept evs = 0 /\ bulk_lengths evs = []).
  { destruct Hshape as [(Hneg & _ & ->)|(Hpos & _ & mid & f & -> & Hq)].
    - unfold resources_kept.
      cbn [count_events closed_handle opened_handle freed_devices listed_devices
           ev_call ev_reply slept bulk_lengths].
      assert (Hb : (rc (bk (trace (usb_state h)) libusb_get_device_list) <? 0) = true) by lia.
      rewrite Hb. cbn [negb]. auto.
    - destruct (path_calls_quiet mid Hq) as (Ho & Hc & Hl & Hf & Hs & Hb).
      unfold resources_kept.
      cbn [count_events closed_handle opened_handle freed_devices listed_devices
           ev_call ev_reply slept bulk_lengths].
      assert (Hb' : (rc (bk (trace (usb_state h)) libusb_get_device_list) <? 0) = false) by lia.
      rewrite Hb'. cbn [negb]. rewrite !count_events_app, slept_app.
      cbn [count_events closed_handle opened_handle freed_devices listed_devices
           ev_call ev_reply slept].
      rewrite bulk_lengths_app, Hb. cbn [bulk_lengths ev_call app].
      repeat split; lia. }
  destruct Hev as (H1 & H2 & H3 & H4).
  repeat (split; [assumption|]). split.
  - intros Hs. destruct code; try discriminate Hs.
    destruct (Hyes eq_refl) as (Hd & _ & _ & Hos & _). auto.
  - intros Hs. destruct code; try discriminate Hs; apply Hno; discriminate.
Qed.

Lemma boot_find_loop_run (addr : string) (t1 : Z) (fuel : nat) :
  forall dev0 h dev h',
    boot_find_loop bk fuel addr t1 dev0 h = Some (dev, h') ->
    exists evs os,
      h' = advance evs os h /\
      resources_kept evs /\
      count_events opened_handle evs = 0%nat /\
      bulk_lengths evs = [] /\
      ((dev = dev0 /\ os = []) \/ (dev <> 0 /\ os = [libusb_ref_device dev])).
Proof.
  induction fuel as [|fuel IH]; intros dev0 h dev h' H; [discriminate|].
  cbn [boot_find_loop] in H.
  destruct (refLibusbDeviceByName_quiet addr dev0 h)
    as (code & d & evs1 & os1 & Hrun & Hkept & Hopen & _ & Hbulk & Hyes & Hno).
  unfold bindH at 1 in H. rewrite Hrun in H. cbn [fst snd] in H.
  destruct (is_platform_success code) eqn:Hcode.
  { unfold retH in H. injection H as <- <-. exists evs1, os1.
    destruct (Hyes eq_refl) as [Hd Hos]. auto 10. }
  destruct (Hno eq_refl) as [-> ->].
  rewrite !bindH_libusb, !advance_advance in H.
  rewrite <- ?app_assoc in H. cbn [app] in H.
  set (e1 := {| ev_call := sleep_for (10 * 1000000); ev_reply := _ |}) in H.
  set (e2 := {| ev_call := steady_clock_now; ev_reply := _ |}) in H.
  assert (Hkept' : resources_kept (evs1 ++ [e1; e2]))
    by (apply resources_kept_app; [exact Hkept|split; reflexivity]).
  assert (Hopen' : count_events opened_handle (evs1 ++ [e1; e2]) = 0%nat)
    by (rewrite count_events_app, Hopen; reflexivity).
  assert (Hbulk' : bulk_lengths (evs1 ++ [e1; e2]) = [])
    by (rewrite bulk_lengths_app, Hbulk; reflexivity).
  destruct (val _ - t1 <? DEFAULT_CONNECT_TIMEOUT).
  - apply IH in H. destruct H as (evs2 & os2 & -> & Hk2 & Ho2 & Hb2 & Hdev).
    exists ((evs1 ++ [e1; e2]) ++ evs2), os2.
    rewrite advance_advance. cbn [app]. split; [reflexivity|].
    split; [apply resources_kept_app; assumption|].
    split; [rewrite count_events_app; lia|]. split; [|exact Hdev].
    rewrite bulk_lengths_app, Hbulk', Hb2. reflexivity.
  - unfold retH in H. injection H as <- <-.
    exists (evs1 ++ [e1; e2]), []. auto 10.
Qed.

Lemma boot_open_loop_run (dev t2 : Z) (fuel : nat) :
  forall h hd h',
    boot_open_loop bk fuel dev t2 h = Some (hd, h') ->
    exists evs,
      trace (usb_state h') = trace (usb_state h) ++ evs /\
      host_ops h' = host_ops h /\
      list_mx_id (usb_state h') = list_mx_id (usb_state h) /\
      count_events listed_devices evs = 0%nat /\
      count_events freed_devices evs = 0%nat /\
      bulk_lengths evs = [] /\
      (hd = None -> count_events closed_handle evs = count_events opened_handle evs) /\
      (hd <> None ->
       count_events opened_handle evs = S (count_events closed_handle evs)).
Proof.
  induction fuel as [|fuel IH]; intros h hd h' H; [discriminate|].
  cbn [boot_open_loop] in H.
  destruct (usb_open_device_run bk dev (usb_state h))
    as (r & s1 & evs1 & Hrun & Ht1 & Hc1 & Hnone & Hsome & Hl1 & Hf1 & _ & Hb1).
  unfold bindH at 1 in H. unfold lift at 1 in H. rewrite Hrun in H.
  destruct r as [ep|].
  { unfold retH in H. injection H as <- <-. exists evs1. cbn [usb_state host_ops].
    split; [exact Ht1|]. split; [reflexivity|]. split; [exact Hc1|].
    split; [exact Hl1|]. split; [exact Hf1|]. split; [exact Hb1|].
    split; [discriminate|].
    intros _. destruct (Hsome ltac:(discriminate)) as [-> ->]. reflexivity. }
  rewrite !bindH_libusb, !advance_advance in H.
  rewrite <- ?app_assoc in H. cbn [app] in H.
  set (e1 := {| ev_call := sleep_for (100 * 1000000); ev_reply := _ |}) in H.
  set (e2 := {| ev_call := steady_clock_now; ev_reply := _ |}) in H.
  set (h1 := {| usb_state := s1; host_ops := host_ops h |}) in *.
  assert (Happ : forall p, (forall e, In e [e1; e2] -> p e = false) ->
            forall more, count_events p (evs1 ++ [e1; e2] ++ more)
                         = (count_events p evs1 + count_events p more)%nat).
  { intros p Hp more. rewrite !count_events_app. cbn [count_events].
    rewrite (Hp e1), (Hp e2) by (cbn; auto). lia. }
  assert (Hbulk : forall more, bulk_lengths more = [] ->
                    bulk_lengths (evs1 ++ [e1; e2] ++ more) = []).
  { intros more Hm. rewrite !bulk_lengths_app, Hb1, Hm. reflexivity. }
  assert (Hquiet : forall p, In p [opened_handle; closed_handle; listed_devices; freed_devices] ->
                   forall e, In e [e1; e2] -> p e = false).
  { intros p Hp e He. cbn [In] in Hp, He.
    destruct He as [<-|[<-|[]]]; destruct Hp as [<-|[<-|[<-|[<-|[]]]]]; reflexivity. }
  destruct (val _ - t2 <? DEFAULT_CONNECT_TIMEOUT).
  - apply IH in H. destruct H as (evs2 & Ht2 & Hops & Hc2 & Hl2 & Hf2 & Hb2 & Hn2 & Hs2).
    exists (evs1 ++ [e1; e2] ++ evs2).
    rewrite Ht2, Hops, Hc2. unfold h1.
    cbn [usb_state host_ops trace set_trace advance list_mx_id].
    rewrite Ht1, Hc1, app_nil_r, <- !app_assoc.
    split; [reflexivity|]. split; [reflexivity|]. split; [reflexivity|].
    rewrite !Happ by (apply Hquiet; cbn; auto).
    split; [lia|]. split; [lia|]. split; [apply Hbulk; exact Hb2|].
    specialize (Hnone eq_refl).
    split; [intros Hh; specialize (Hn2 Hh); lia|intros Hh; specialize (Hs2 Hh); lia].
  - unfold retH in H. injection H as <- <-.
    exists (evs1 ++ [e1; e2] ++ []). unfold h1.
    cbn [usb_state host_ops trace set_trace advance list_mx_id].
    rewrite Ht1, Hc1, (app_nil_r (host_ops h)), <- !app_assoc.
    split; [reflexivity|]. split; [reflexivity|]. split; [reflexivity|].
    rewrite !Happ by (apply Hquiet; cbn; auto).
    cbn [count_events]. split; [lia|]. split; [lia|].
    split; [apply (Hbulk []); reflexivity|].
    specialize (Hnone eq_refl). split; [intros _; lia|congruence].
Qed.

(** A lookup that took no reference ended because its window closed:
    its last calls are the sleep and a clock reading at least
    DEFAULT_CONNECT_TIMEOUT after [t1]. *)
Lemma boot_find_loop_gives_up (addr : string) (t1 : Z) (fuel : nat) :
  forall dev0 h dev h',
    boot_find_loop bk fuel addr t1 dev0 h = Some (dev, h') ->
    host_ops h' = host_ops h ->
    exists pre e1 e2,
      trace (usb_state h') = trace (usb_state h) ++ pre ++ [e1; e2] /\
      ev_call e1 = sleep_for (10 * 1000000) /\
      ev_call e2 = steady_clock_now /\
      DEFAULT_CONNECT_TIMEOUT <= val (ev_reply e2) - t1.
Proof.
  induction fuel as [|fuel IH]; intros dev0 h dev h' H Hops; [discriminate|].
  cbn [boot_find_loop] in H.
  destruct (refLibusbDeviceByName_quiet addr dev0 h)
    as (code & d & evs1 & os1 & Hrun & _ & _ & _ & _ & Hyes & Hno).
  unfold bindH at 1 in H. rewrite Hrun in H. cbn [fst snd] in H.
  destruct (is_platform_success code) eqn:Hcode.
  { exfalso. unfold retH in H. injection H as <- <-.
    destruct (Hyes eq_refl) as [_ ->]. cbn [advance host_ops] in Hops.
    apply (f_equal (@List.length _)) in Hops. rewrite length_app in Hops.
    cbn [List.length] in Hops. lia. }
  destruct (Hno eq_refl) as [-> ->].
  rewrite !bindH_libusb, !advance_advance in H.
  rewrite <- ?app_assoc in H. cbn [app] in H.
  set (e1 := {| ev_call := sleep_for (10 * 1000000); ev_reply := _ |}) in H.
  set (e2 := {| ev_call := steady_clock_now; ev_reply := _ |}) in H.
  destruct (val _ - t1 <? DEFAULT_CONNECT_TIMEOUT) eqn:Hwin.
  - apply IH in H.
    + destruct H as (pre & f1 & f2 & Ht & Hf1 & Hf2 & Hlate).
      exists ((evs1 ++ [e1; e2]) ++ pre), f1, f2.
      rewrite Ht. cbn [advance usb_state trace set_trace].
      rewrite <- !app_assoc. cbn [app]. auto.
    + rewrite Hops. cbn [advance host_ops]. rewrite app_nil_r. reflexivity.
  - unfold retH in H. injection H as <- <-.
    exists evs1, e1, e2. cbn [advance usb_state trace set_trace].
    split; [reflexivity|]. split; [reflexivity|]. split; [reflexivity|].
    cbn [ev_reply e2]. lia.
Qed.

(** The open loop ends with the attempt that decides: one that gave a
    handle, or one that gave none and was followed by the sleep and a
    clock reading at least DEFAULT_CONNECT_TIMEOUT after [t2].  No bulk
    transfer came before it. *)
Lemma boot_open_loop_last (dev t2 : Z) (fuel : nat) :
  forall h hd h',
    boot_open_loop bk fuel dev t2 h = Some (hd, h') ->
    exists s0 s1 pre,
      trace s0 = trace (usb_state h) ++ pre /\
      list_mx_id s0 = list_mx_id (usb_state h) /\
      bulk_lengths pre = [] /\
      usb_open_device bk dev s0 = Some (hd, s1) /\
      match hd with
      | Some _ => usb_state h' = s1
      | None =>
          exists e1 e2,
            usb_state h' = set_trace (trace s1 ++ [e1; e2]) s1 /\
            ev_call e1 = sleep_for (100 * 1000000) /\
            ev_call e2 = steady_clock_now /\
            DEFAULT_CONNECT_TIMEOUT <= val (ev_reply e2) - t2
      end.
Proof.
  induction fuel as [|fuel IH]; intros h hd h' H; [discriminate|].
  cbn [boot_open_loop] in H.
  destruct (usb_open_device_run bk dev (usb_state h))
    as (r & s1 & evs1 & Hrun & Ht1 & Hc1 & _ & _ & _ & _ & _ & Hb1).
  unfold bindH at 1 in H. unfold lift at 1 in H. rewrite Hrun in H.
  destruct r as [ep|].
  { unfold retH in H. injection H as <- <-.
    exists (usb_state h), s1, []. rewrite app_nil_r.
    split; [reflexivity|]. split; [reflexivity|]. split; [reflexivity|].
    split; [exact Hrun|reflexivity]. }
  rewrite !bindH_libusb, !advance_advance in H.
  rewrite <- ?app_assoc in H. cbn [app] in H.
  cbn [usb_state] in H.
  set (e1 := {| ev_call := sleep_for (100 * 1000000); ev_reply := _ |}) in H.
  set (e2 := {| ev_call := steady_clock_now; ev_reply := _ |}) in H.
  destruct (val _ - t2 <? DEFAULT_CONNECT_TIMEOUT) eqn:Hwin.
  - apply IH in H. destruct H as (s0 & s2 & pre & Ht & Hc & Hb & Hopen & Hend).
    exists s0, s2, (evs1 ++ [e1; e2] ++ pre).
    split; [|split; [|split; [|split; [exact Hopen|exact Hend]]]].
    + rewrite Ht. cbn [advance usb_state trace set_trace].
      rewrite Ht1, <- !app_assoc. reflexivity.
    + rewrite Hc. cbn [advance usb_state list_mx_id set_trace]. exact Hc1.
    + rewrite !bulk_lengths_app, Hb1, Hb. reflexivity.
  - unfold retH in H. injection H as <- <-.
    exists (usb_state h), s1, []. rewrite app_nil_r.
    split; [reflexivity|]. split; [reflexivity|]. split; [reflexivity|].
    split; [exact Hrun|].
    exists e1, e2. cbn [advance usb_state trace set_trace].
    split; [reflexivity|]. split; [reflexivity|]. split; [reflexivity|].
    cbn [ev_reply e2]. lia.
Qed.

End Boot.

(** Evaluates the resource counts over a trace given as a
    concatenation. *)
Ltac count_resources :=
  repeat first
    [ rewrite count_events_app
    | progress cbn [count_events closed_handle opened_handle freed_devices
                    listed_devices ev_call ev_reply] ].

Section BootRun.

Variable bk : Backend.
Variables DEFAULT_CHUNKSZ USB_BOOT_ERROR USB_BOOT_TIMEOUT : Z.
Variable platform_code : xLinkPlatformErrorCode_t -> Z.
Variable NDEBUG : bool.

Let boot := usb_boot bk DEFAULT_CHUNKSZ USB_BOOT_ERROR USB_BOOT_TIMEOUT platform_code NDEBUG.

(** usb_boot by cases.  The device was never found: the lookup window
    closed.  Or it was found and referenced, and the last call of
    usb_open_device decides: without a handle nothing is sent; with a
    handle send_file runs on the endpoint that call gave, from the state
    it left, and the interface is released and the handle closed. *)
Lemma usb_boot_run (fuel : nat) (addr : string) (size : Z) (h : HostState)
    (code : Z) (h' : HostState) :
  boot fuel addr size h = Some (code, h') ->
  let t1 := bk (trace (usb_state h)) steady_clock_now in
  exists evs os,
    trace (usb_state h') = trace (usb_state h) ++ evs /\
    host_ops h' = host_ops h ++ os /\
    list_mx_id (usb_state h') = list_mx_id (usb_state h) /\
    resources_kept evs /\
    ((os = [] /\ code = platform_code X_LINK_PLATFORM_DEVICE_NOT_FOUND /\
      count_events opened_handle evs = 0%nat /\ bulk_lengths evs = [] /\
      exists pre e1 e2,
        evs = {| ev_call := steady_clock_now; ev_reply := t1 |} :: pre ++ [e1; e2] /\
        ev_call e1 = sleep_for (10 * 1000000) /\
        ev_call e2 = steady_clock_now /\
        DEFAULT_CONNECT_TIMEOUT <= val (ev_reply e2) - val t1) \/
     (exists d, d <> 0 /\ os = [libusb_ref_device d; libusb_unref_device d] /\
        exists s0 hd s1 pre,
          trace s0 = trace (usb_state h) ++ pre /\
          list_mx_id s0 = list_mx_id (usb_state h) /\
          bulk_lengths pre = [] /\
          usb_open_device bk d s0 = Some (hd, s1) /\
          match hd with
          | None =>
              code = platform_code X_LINK_PLATFORM_INSUFFICIENT_PERMISSIONS /\
              bulk_lengths evs = [] /\
              exists e1 e2,
                trace (usb_state h') = trace s1 ++ [e1; e2] /\
                ev_call e1 = sleep_for (100 * 1000000) /\
                ev_call e2 = steady_clock_now
          | Some ep =>
              exists s2 r1 r2,
                send_file bk DEFAULT_CHUNKSZ USB_BOOT_ERROR USB_BOOT_TIMEOUT NDEBUG
                  fuel ep size 0xFFFF s1 = Some (code, s2) /\
                trace (usb_state h') =
                  trace s2 ++ [{| ev_call := libusb_release_interface 0; ev_reply := r1 |};
                               {| ev_call := libusb_close; ev_reply := r2 |}]
          end)).
Proof.
  intros H t1. unfold boot, usb_boot in H. cbv zeta in H.
  change (to_uint16 (-1)) with 0xFFFF in H.
  rewrite bindH_libusb in H. fold t1 in H.
  apply bindH_Some in H. destruct H as (dev & h1 & Hfind & H).
  pose proof (boot_find_loop_gives_up bk _ _ _ _ _ _ _ Hfind) as Hgave.
  apply boot_find_loop_run in Hfind.
  destruct Hfind as (evs1 & os1 & -> & [Hk1a Hk1b] & Ho1 & Hb1 & Hdev).
  rewrite advance_advance in H. cbn [app] in H.
  destruct (dev =? 0) eqn:Hnull.
  { unfold retH in H. injection H as <- <-.
    destruct Hdev as [[_ ->]|[Hd _]]; [|lia].
    destruct Hgave as (pre & e1 & e2 & Ht & He1 & He2 & Hlate);
      [cbn [advance host_ops]; rewrite !app_nil_r; reflexivity|].
    cbn [advance usb_state trace set_trace] in Ht.
    apply app_inv_head in Ht.
    eexists _, []. split; [reflexivity|]. split; [reflexivity|]. split; [reflexivity|].
    unfold resources_kept.
    cbn [count_events closed_handle opened_handle freed_devices listed_devices
         ev_call bulk_lengths].
    split; [split; assumption|]. left.
    split; [reflexivity|]. split; [reflexivity|]. split; [exact Ho1|]. split; [exact Hb1|].
    exists pre, e1, e2. rewrite Ht. auto. }
  clear Hgave.
  destruct Hdev as [[-> _]|[Hd ->]]; [lia|].
  rewrite bindH_libusb, advance_advance in H. cbn [app] in H.
  apply bindH_Some in H. destruct H as (hd & h2 & Hopen & H).
  pose proof (boot_open_loop_last bk _ _ _ _ _ _ Hopen) as Hlast.
  destruct Hlast as (s0 & s1 & pre & Hs0 & Hcache0 & Hpre & Hdecides & Hend).
  cbn [usb_state host_ops trace set_trace advance list_mx_id] in Hs0, Hcache0.
  rewrite <- !app_assoc in Hs0. cbn [app] in Hs0.
  match type of Hs0 with
  | _ = _ ++ ?l => assert (Hquiet : bulk_lengths l = [])
  end.
  { cbn [bulk_lengths ev_call]. rewrite !bulk_lengths_app, Hb1.
    cbn [bulk_lengths ev_call app]. exact Hpre. }
  apply boot_open_loop_run in Hopen.
  destruct Hopen as (evs2 & Ht2 & Hops2 & Hc2 & Hl2 & Hf2 & Hb2 & Hnone & Hsome).
  cbn [usb_state host_ops trace set_trace advance list_mx_id] in Ht2, Hops2, Hc2.
  rewrite <- !app_assoc in Ht2. cbn [app] in Ht2.
  pose proof Hk1a as Hcl1. rewrite Ho1 in Hcl1.
  apply bindH_Some in H. destruct H as (rc0 & h3 & Hsend & H).
  cbn [negb] in H. rewrite bindH_host_op in H. unfold retH in H. injection H as <- <-.
  destruct hd as [ep|].
  - apply bindH_Some in Hsend. destruct Hsend as (r & h4 & Hsend & Hrest).
    unfold lift in Hsend.
    destruct (send_file _ _ _ _ _ _ _ _ _ (usb_state h2)) as [[r' s4]|] eqn:Hfile;
      [|discriminate].
    injection Hsend as <- <-.
    rewrite !bindH_libusb, advance_advance in Hrest. cbn [app] in Hrest.
    unfold retH in Hrest. injection Hrest as <- <-.
    pose proof Hfile as Hfoot. apply send_file_footprint in Hfoot.
    destruct Hfoot as (evs3 & Hs4 & Hq3).
    destruct (transfer_calls_quiet evs3 Hq3) as (Ho3 & Hc3 & Hl3 & Hf3).
    specialize (Hsome ltac:(discriminate)).
    eexists _, _. split; [|split; [|split; [|split]]].
    + cbn [usb_state host_ops trace set_trace advance list_mx_id].
      rewrite Hs4. cbn [trace set_trace]. rewrite Ht2, <- !app_assoc. cbn [app].
      reflexivity.
    + cbn [usb_state host_ops trace set_trace advance list_mx_id].
      rewrite Hops2, <- !app_assoc. cbn [app]. reflexivity.
    + cbn [usb_state host_ops trace set_trace advance list_mx_id].
      rewrite Hs4. cbn [list_mx_id set_trace]. exact Hc2.
    + unfold resources_kept. count_resources. split; lia.
    + right. exists dev. split; [lia|]. split; [reflexivity|].
      eexists s0, (Some ep), s1, _. split; [exact Hs0|]. split; [exact Hcache0|].
      split; [exact Hquiet|].
      split; [exact Hdecides|].
      rewrite Hend in Hfile. eexists s4, _, _. split; [exact Hfile|].
      cbn [usb_state host_ops trace set_trace advance]. rewrite app_nil_r.
      reflexivity.
  - unfold retH in Hsend. injection Hsend as <- <-.
    specialize (Hnone eq_refl).
    assert (Hbulk : bulk_lengths
              ({| ev_call := steady_clock_now; ev_reply := t1 |} :: evs1 ++
               {| ev_call := steady_clock_now;
                  ev_reply := bk (trace (usb_state
                       (advance ({| ev_call := steady_clock_now; ev_reply := t1 |} :: evs1)
                                [libusb_ref_device dev] h))) steady_clock_now |} :: evs2) = []).
    { repeat first [ rewrite bulk_lengths_app
                   | progress cbn [bulk_lengths ev_call app] ].
      rewrite Hb1, Hb2. reflexivity. }
    eexists _, _.
    cbn [usb_state host_ops trace set_trace advance list_mx_id].
    rewrite Ht2, Hops2, Hc2, <- !app_assoc. cbn [app]. rewrite app_nil_r.
    split; [reflexivity|]. split; [reflexivity|]. split; [reflexivity|].
    split.
    + unfold resources_kept. count_resources. split; lia.
    + right. exists dev. split; [lia|]. split; [reflexivity|].
      eexists s0, None, s1, _. split; [exact Hs0|]. split; [exact Hcache0|].
      split; [exact Hquiet|].
      split; [exact Hdecides|].
      split; [reflexivity|]. split; [exact Hbulk|].
      destruct Hend as (e1 & e2 & Hh2 & He1 & He2 & _).
      exists e1, e2. split; [|auto].
      rewrite Hh2 in Ht2. cbn [trace set_trace] in Ht2.
      rewrite Ht2, <- !app_assoc. reflexivity.
Qed.

End BootRun.

Section BootTermination.

Variable bk : Backend.
Variables DEFAULT_CHUNKSZ USB_BOOT_ERROR USB_BOOT_TIMEOUT : Z.
Variable platform_code : xLinkPlatformErrorCode_t -> Z.
Variable NDEBUG : bool.

Hypothesis Hclock : steady_clock bk.




End BootTermination.

(** X14: usb_boot gives back what it took.  Over the calls of a boot
    attempt every handle opened was closed again, the device list was
    freed as often as it was obtained, and the device found by the
    lookup was referenced once and unreferenced once (no reference is
    taken when it was not found); the MxId cache is not touched. *)
Theorem usb_boot_releases (bk : Backend) (CH BE BT : Z)
    (platform_code : xLinkPlatformErrorCode_t -> Z) (NDEBUG : bool)
    (fuel : nat) (addr : string) (size : Z) (h : HostState) (code : Z) (h' : HostState) :
  usb_boot bk CH BE BT platform_code NDEBUG fuel addr size h = Some (code, h') ->
  exists evs os,
    trace (usb_state h') = trace (usb_state h) ++ evs /\
    host_ops h' = host_ops h ++ os /\
    count_events closed_handle evs = count_events opened_handle evs /\
    count_events freed_devices evs = count_events listed_devices evs /\
    (os = [] \/ exists d, d <> 0 /\ os = [libusb_ref_device d; libusb_unref_device d]) /\
    list_mx_id (usb_state h') = list_mx_id (usb_state h).
Proof.
  intros H. apply usb_boot_run in H.
  destruct H as (evs & os & Htrace & Hops & Hcache & [Hh Hl] & Hcases).
  exists evs, os. repeat (split; [assumption|]). split; [|exact Hcache].
  destruct Hcases as [(-> & _)|(d & Hd & -> & _)]; [left; reflexivity|right; eauto].
Qed.

Lemma usb_boot_releases_witness :
  exists code h',
    usb_boot healthy_bus 1048576 1 3 sample_platform_code false 3 "1.2.3" 1024 initial_host
      = Some (code, h') /\
    host_ops h' = [libusb_ref_device 11; libusb_unref_device 11] /\
    count_events closed_handle (trace (usb_state h')) = 1%nat /\
    count_events opened_handle (trace (usb_state h')) = 1%nat.
Proof.
  eexists _, _. split; [vm_compute; reflexivity|].
  destruct (usb_boot_releases healthy_bus 1048576 1 3 sample_platform_code false 3 "1.2.3"
              1024 initial_host _ _ ltac:(vm_compute; reflexivity))
    as (evs & os & Htrace & _ & Hh & _).
  split; [reflexivity|].
  cbn [trace usb_state initial_host initial_state app] in Htrace.
  rewrite <- Htrace in Hh.
  split; [etransitivity; [exact Hh|reflexivity]|reflexivity].
Defined.

(** X15: what usbPlatformBootFirmware returns, by the way the boot
    went.  Either no reference to a device was taken: the lookup window
    closed (the run ends with the 10 ms sleep and a clock reading at
    least DEFAULT_CONNECT_TIMEOUT after the first one), no device was
    opened, nothing was sent, and the result is the code of
    X_LINK_PLATFORM_DEVICE_NOT_FOUND.  Or a device [d] was referenced
    and unreferenced, and the last call of usb_open_device on [d], made
    before any bulk transfer, decides: when it gave no handle the run
    ends with the 100 ms sleep and a clock reading and the result is the
    code of X_LINK_PLATFORM_INSUFFICIENT_PERMISSIONS; when it gave a
    handle the result is what send_file returned on the endpoint that
    call discovered, run from the state that call left, with the length
    cut to 32 bits and bcdusb 0xFFFF, and the interface release and the
    close are the last calls. *)
Theorem usbPlatformBootFirmware_result (bk : Backend) (CH BE BT : Z)
    (platform_code : xLinkPlatformErrorCode_t -> Z) (NDEBUG : bool)
    (fuel : nat) (deviceDesc : deviceDesc_t) (length : Z)
    (h : HostState) (code : Z) (h' : HostState) :
  usbPlatformBootFirmware bk CH BE BT platform_code NDEBUG fuel deviceDesc length h
    = Some (code, h') ->
  let t1 := bk (trace (usb_state h)) steady_clock_now in
  (host_ops h' = host_ops h /\
   code = platform_code X_LINK_PLATFORM_DEVICE_NOT_FOUND /\
   exists pre e1 e2,
     trace (usb_state h') =
       trace (usb_state h) ++
       {| ev_call := steady_clock_now; ev_reply := t1 |} :: pre ++ [e1; e2] /\
     count_events opened_handle pre = 0%nat /\
     bulk_lengths pre = [] /\
     ev_call e1 = sleep_for (10 * 1000000) /\
     ev_call e2 = steady_clock_now /\
     DEFAULT_CONNECT_TIMEOUT <= val (ev_reply e2) - val t1) \/
  (exists d s0 hd s1 pre,
     d <> 0 /\
     host_ops h' = host_ops h ++ [libusb_ref_device d; libusb_unref_device d] /\
     trace s0 = trace (usb_state h) ++ pre /\
     list_mx_id s0 = list_mx_id (usb_state h) /\
     bulk_lengths pre = [] /\
     usb_open_device bk d s0 = Some (hd, s1) /\
     match hd with
     | None =>
         code = platform_code X_LINK_PLATFORM_INSUFFICIENT_PERMISSIONS /\
         exists e1 e2,
           trace (usb_state h') = trace s1 ++ [e1; e2] /\
           ev_call e1 = sleep_for (100 * 1000000) /\
           ev_call e2 = steady_clock_now
     | Some ep =>
         exists s2 r1 r2,
           send_file bk CH BE BT NDEBUG fuel ep (to_unsigned length) 0xFFFF s1
             = Some (code, s2) /\
           trace (usb_state h') =
             trace s2 ++ [{| ev_call := libusb_release_interface 0; ev_reply := r1 |};
                          {| ev_call := libusb_close; ev_reply := r2 |}]
     end).
Proof.
  intros H t1. unfold usbPlatformBootFirmware in H.
  apply bindH_Some in H. destruct H as (rc0 & h1 & H & Hret).
  unfold retH in Hret. injection Hret as <- <-.
  apply usb_boot_run in H. cbv zeta in H. fold t1 in H.
  destruct H as (evs & os & Htrace & Hops & _ & _ & Hcases).
  destruct Hcases as [(-> & Hc & Ho & Hb & pre & e1 & e2 & -> & He1 & He2 & Hlate)
                     |(d & Hd & -> & s0 & hd & s1 & pre & Hs0 & Hcache & Hpre & Hopen & Hend)].
  - left. rewrite app_nil_r in Hops. split; [exact Hops|]. split; [exact Hc|].
    exists pre, e1, e2. split; [exact Htrace|].
    cbn [count_events opened_handle ev_call bulk_lengths] in Ho, Hb.
    rewrite count_events_app in Ho. rewrite bulk_lengths_app in Hb.
    apply app_eq_nil in Hb. destruct Hb as [Hb _].
    split; [lia|]. split; [exact Hb|]. auto.
  - right. exists d, s0, hd, s1, pre.
    split; [exact Hd|]. split; [exact Hops|]. split; [exact Hs0|].
    split; [exact Hcache|]. split; [exact Hpre|]. split; [exact Hopen|].
    destruct hd as [ep|].
    + exact Hend.
    + destruct Hend as (Hc & _ & Hlast). split; [exact Hc|exact Hlast].
Qed.

Lemma usbPlatformBootFirmware_result_witness :
  exists h',
    usbPlatformBootFirmware healthy_bus 1048576 1 3 sample_platform_code false 3
      {| status := X_LINK_SUCCESS; platform := X_LINK_MYRIAD_X; protocol := X_LINK_USB_VSC;
         state := X_LINK_UNBOOTED; name := "1.2.3"; mxid := "" |}
      (2 ^ 32 + 5) initial_host = Some (0, h') /\
    host_ops h' = [libusb_ref_device 11; libusb_unref_device 11] /\
    bulk_lengths (trace (usb_state h')) = [5].
Proof.
  eexists. split; [vm_compute; reflexivity|].
  destruct (usbPlatformBootFirmware_result healthy_bus 1048576 1 3 sample_platform_code
              false 3
              {| status := X_LINK_SUCCESS; platform := X_LINK_MYRIAD_X;
                 protocol := X_LINK_USB_VSC; state := X_LINK_UNBOOTED;
                 name := "1.2.3"; mxid := "" |}
              (2 ^ 32 + 5) initial_host 0 _ ltac:(vm_compute; reflexivity))
    as [(Hops & _)|(d & s0 & hd & s1 & pre & _ & Hops & _)].
  - discriminate Hops.
  - split; reflexivity.
Defined.



Section Links.

Variable bk : Backend.

Lemma link_find_loop_run (path : string) (t1 : Z) (fuel : nat) :
  forall dev0 h r h',
    link_find_loop bk fuel path t1 dev0 h = Some (r, h') ->
    exists evs os,
      h' = advance evs os h /\
      resources_kept evs /\
      count_events opened_handle evs = 0%nat /\
      ((fst r = false /\ snd r = dev0 /\ os = []) \/
       (fst r = true /\ snd r <> 0 /\ os = [libusb_ref_device (snd r)])).
Proof.
  induction fuel as [|fuel IH]; intros dev0 h r h' H; [discriminate|].
  cbn [link_find_loop] in H.
  destruct (refLibusbDeviceByName_quiet bk path dev0 h)
    as (code & d & evs1 & os1 & Hrun & Hkept & Hopen & _ & _ & Hyes & Hno).
  unfold bindH at 1 in H. rewrite Hrun in H. cbn [fst snd] in H.
  destruct (is_platform_success code) eqn:Hcode.
  { unfold retH in H. injection H as <- <-. exists evs1, os1.
    destruct (Hyes eq_refl) as [Hd Hos]. cbn [fst snd]. auto 10. }
  destruct (Hno eq_refl) as [-> ->].
  rewrite bindH_libusb, advance_advance in H. cbn [app] in H.
  set (e1 := {| ev_call := steady_clock_now; ev_reply := _ |}) in H.
  assert (Hkept' : resources_kept (evs1 ++ [e1]))
    by (apply resources_kept_app; [exact Hkept|split; reflexivity]).
  assert (Hopen' : count_events opened_handle (evs1 ++ [e1]) = 0%nat)
    by (rewrite count_events_app, Hopen; reflexivity).
  destruct (val _ - t1 <? DEFAULT_OPEN_TIMEOUT).
  - apply IH in H. destruct H as (evs2 & os2 & -> & Hk2 & Ho2 & Hdev).
    exists ((evs1 ++ [e1]) ++ evs2), os2.
    rewrite advance_advance. cbn [app]. split; [reflexivity|].
    split; [apply resources_kept_app; assumption|].
    split; [rewrite count_events_app; lia|exact Hdev].
  - unfold retH in H. injection H as <- <-.
    exists (evs1 ++ [e1]), []. cbn [fst snd]. auto 10.
Qed.

(** usbLinkOpen by cases. *)
Lemma usbLinkOpen_run (fuel : nat) (path : option string) (h : HostState)
    (fd : bool) (h' : HostState) :
  usbLinkOpen bk fuel path h = Some (fd, h') ->
  exists evs os,
    h' = advance evs os h /\
    count_events freed_devices evs = count_events listed_devices evs /\
    (path = None -> fd = false /\ evs = [] /\ os = []) /\
    (fd = false ->
     count_events closed_handle evs = count_events opened_handle evs /\
     (os = [] \/
      exists d, d <> 0 /\
        (os = [libusb_ref_device d; libusb_unref_device d] \/
         os = [libusb_ref_device d; libusb_unref_device d;
               libusb_detach_kernel_driver 0]))) /\
    (fd = true ->
     count_events opened_handle evs = 1%nat /\
     count_events closed_handle evs = 0%nat /\
     (exists d, d <> 0 /\
        os = [libusb_ref_device d; libusb_unref_device d; libusb_detach_kernel_driver 0]) /\
     exists pre c,
       evs = pre ++ [{| ev_call := libusb_claim_interface 0; ev_reply := c |}] /\
       0 <= rc c).
Proof.
  intros H. unfold usbLinkOpen in H.
  destruct path as [path|].
  2:{ unfold retH in H. injection H as <- <-. exists [], [].
      rewrite advance_nil. split; [reflexivity|]. split; [reflexivity|].
      split; [auto|]. split; [intros _; split; [reflexivity|left; reflexivity]|].
      discriminate. }
  cbv zeta in H. rewrite bindH_libusb in H.
  apply bindH_Some in H. destruct H as ([found dev] & h1 & Hfind & H).
  apply link_find_loop_run in Hfind.
  destruct Hfind as (evs1 & os1 & -> & [Hk1a Hk1b] & Ho1 & Hdev).
  pose proof Hk1a as Hcl1. rewrite Ho1 in Hcl1.
  cbn [fst snd] in H, Hdev. rewrite advance_advance in H. cbn [app] in H.
  destruct found; cbn [negb] in H.
  2:{ unfold retH in H. injection H as <- <-.
      destruct Hdev as [(_ & _ & ->)|(Hf & _)]; [|discriminate].
      eexists _, []. split; [reflexivity|].
      count_resources. split; [lia|]. split; [discriminate|].
      split; [intros _; split; [lia|left; reflexivity]|discriminate]. }
  destruct Hdev as [(Hf & _)|(_ & Hd & ->)]; [discriminate|].
  rewrite bindH_libusb, advance_advance in H. rewrite <- ?app_assoc in H. cbn [app] in H.
  set (o := bk _ (libusb_open dev)) in *.
  destruct (rc o <? 0) eqn:Hneg.
  { rewrite bindH_host_op, advance_advance in H. rewrite <- ?app_assoc in H. cbn [app] in H.
    rewrite ?app_nil_r in H. unfold retH in H. injection H as <- <-.
    eexists _, _. split; [reflexivity|].
    count_resources. rewrite Hneg. cbn [negb]. count_resources.
    split; [lia|]. split; [discriminate|].
    split; [intros _; split; [lia|right; exists dev; auto]|discriminate]. }
  rewrite !bindH_host_op, !advance_advance in H. rewrite <- ?app_assoc in H. cbn [app] in H.
  rewrite bindH_libusb, advance_advance in H. rewrite <- ?app_assoc in H. cbn [app] in H.
  set (c := bk _ (libusb_claim_interface 0)) in *.
  destruct (rc c <? 0) eqn:Hclaim.
  { rewrite bindH_libusb, advance_advance in H. rewrite <- ?app_assoc in H. cbn [app] in H.
    rewrite ?app_nil_r in H. unfold retH in H. injection H as <- <-.
    eexists _, _. split; [reflexivity|].
    count_resources. rewrite Hneg. cbn [negb]. count_resources.
    split; [lia|]. split; [discriminate|].
    split; [intros _; split; [lia|right; exists dev; auto]|discriminate]. }
  rewrite ?app_nil_r in H. unfold retH in H. injection H as <- <-.
  eexists _, _. split; [reflexivity|].
  count_resources. rewrite Hneg. cbn [negb]. count_resources.
  split; [lia|]. split; [discriminate|]. split; [discriminate|].
  intros _. split; [lia|]. split; [lia|]. split; [exists dev; auto|].
  eexists (_ :: evs1 ++ [_]), c. split; [|lia].
  reflexivity.
Qed.


End Links.

(** usbPlatformClose releases interface 0, closes the handle and
    answers -1. *)
Lemma usbPlatformClose_run (bk : Backend) (s : State) :
  exists r1 r2,
    usbPlatformClose bk s =
      Some (-1, set_trace (trace s ++ [{| ev_call := libusb_release_interface 0; ev_reply := r1 |};
                                      {| ev_call := libusb_close; ev_reply := r2 |}]) s).
Proof.
  unfold usbPlatformClose, usbLinkClose. mstep.
  eexists _, _. unfold ret, record_event. cbn [trace set_trace].
  rewrite <- app_assoc. reflexivity.
Qed.

(** X17: usbLinkOpen.  A null path returns the null handle without a
    call.  Otherwise the device list is freed as often as it was
    obtained, and: when the null handle is returned every handle
    opened was closed again and a reference taken by the lookup was
    given back; when a handle is returned exactly one handle was opened
    and none closed, the device's reference was given back, the kernel
    driver of interface 0 was detached, and the last call made is a
    successful claim of interface 0.  The MxId cache and bulk_chunklen
    are left alone. *)
Theorem usbLinkOpen_contract (bk : Backend) (fuel : nat) (path : option string)
    (h : HostState) (fd : bool) (h' : HostState) :
  usbLinkOpen bk fuel path h = Some (fd, h') ->
  exists evs os,
    h' = advance evs os h /\
    count_events freed_devices evs = count_events listed_devices evs /\
    (path = None -> fd = false /\ evs = [] /\ os = []) /\
    (fd = false ->
     count_events closed_handle evs = count_events opened_handle evs /\
     (os = [] \/
      exists d, d <> 0 /\
        (os = [libusb_ref_device d; libusb_unref_device d] \/
         os = [libusb_ref_device d; libusb_unref_device d;
               libusb_detach_kernel_driver 0]))) /\
    (fd = true ->
     count_events opened_handle evs = 1%nat /\
     count_events closed_handle evs = 0%nat /\
     (exists d, d <> 0 /\
        os = [libusb_ref_device d; libusb_unref_device d; libusb_detach_kernel_driver 0]) /\
     exists pre c,
       evs = pre ++ [{| ev_call := libusb_claim_interface 0; ev_reply := c |}] /\
       0 <= rc c).
Proof.
  intros H. apply usbLinkOpen_run in H. exact H.
Qed.

Lemma usbLinkOpen_contract_witness :
  exists h',
    usbLinkOpen healthy_bus 1 (Some "1.2.3") initial_host = Some (true, h') /\
    host_ops h' = [libusb_ref_device 11; libusb_unref_device 11;
                   libusb_detach_kernel_driver 0].
Proof.
  eexists. split; [vm_compute; reflexivity|].
  destruct (usbLinkOpen_contract healthy_bus 1 (Some "1.2.3") initial_host true _
              ltac:(vm_compute; reflexivity)) as (evs & os & _).
  reflexivity.
Defined.


(** X19: usbPlatformConnect returns 0 with a handle in [*fd] or -1 with
    the null handle, and nothing else; devPathRead plays no part; a null
    devPathWrite gives -1 without a call.  After 0 exactly one handle
    is open, with interface 0 claimed by the last call made; after -1
    every handle opened has been closed again. *)
Theorem usbPlatformConnect_contract (bk : Backend) (fuel : nat)
    (devPathRead devPathWrite : option string)
    (h : HostState) (code : Z) (fd : bool) (h' : HostState) :
  usbPlatformConnect bk fuel devPathRead devPathWrite h = Some ((code, fd), h') ->
  ((code = 0 /\ fd = true) \/ (code = -1 /\ fd = false)) /\
  (forall other,
     usbPlatformConnect bk fuel other devPathWrite h = Some ((code, fd), h')) /\
  exists evs os,
    h' = advance evs os h /\
    (devPathWrite = None -> code = -1 /\ evs = [] /\ os = []) /\
    (code = -1 -> count_events closed_handle evs = count_events opened_handle evs) /\
    (code = 0 ->
     count_events opened_handle evs = 1%nat /\
     count_events closed_handle evs = 0%nat /\
     exists pre c,
       evs = pre ++ [{| ev_call := libusb_claim_interface 0; ev_reply := c |}] /\
       0 <= rc c).
Proof.
  intros H. split; [|split].
  - unfold usbPlatformConnect in H.
    apply bindH_Some in H. destruct H as (b & h1 & _ & H).
    destruct b; cbn [negb] in H; unfold retH in H; injection H as <- <- _; auto.
  - intros other. exact H.
  - unfold usbPlatformConnect in H.
    apply bindH_Some in H. destruct H as (b & h1 & Hopen & H).
    apply usbLinkOpen_run in Hopen.
    destruct Hopen as (evs & os & -> & _ & Hnull & Hno & Hyes).
    exists evs, os.
    destruct b; cbn [negb] in H; unfold retH in H; injection H as <- <- <-.
    + split; [reflexivity|].
      split; [intros Hw; destruct (Hnull Hw); discriminate|].
      split; [discriminate|]. intros _.
      destruct (Hyes eq_refl) as (Ho & Hc & _ & Hlast). auto.
    + split; [reflexivity|].
      split; [intros Hw; destruct (Hnull Hw) as (_ & -> & ->); auto|].
      split; [intros _; apply (Hno eq_refl)|]. discriminate.
Qed.

Lemma usbPlatformConnect_contract_witness :
  exists h',
    usbPlatformConnect locked_bus 1 None (Some "1.2.3") initial_host
      = Some ((-1, false), h') /\
    host_ops h' = [libusb_ref_device 11; libusb_unref_device 11] /\
    count_events closed_handle (trace (usb_state h')) = 0%nat.
Proof.
  eexists. split; [vm_compute; reflexivity|].
  destruct (usbPlatformConnect_contract locked_bus 1 None (Some "1.2.3") initial_host
              (-1) false _ ltac:(vm_compute; reflexivity)) as (_ & _ & evs & os & _).
  split; reflexivity.
Defined.

(** X20: a link that usbPlatformConnect opened is taken down by
    usbPlatformClose.  After a connect that returned 0, the close
    releases interface 0 and closes the handle, and over the two calls
    together every handle opened was closed, the device list was freed
    as often as it was obtained, and the one reference taken was given
    back. *)
Theorem usbPlatformConnect_then_close (bk : Backend) (fuel : nat)
    (devPathRead devPathWrite : option string)
    (h : HostState) (fd : bool) (h1 : HostState) :
  usbPlatformConnect bk fuel devPathRead devPathWrite h = Some ((0, fd), h1) ->
  exists pre c r1 r2 d,
    lift (usbPlatformClose bk) h1 =
      Some (-1,
            advance (pre ++ [{| ev_call := libusb_claim_interface 0; ev_reply := c |};
                             {| ev_call := libusb_release_interface 0; ev_reply := r1 |};
                             {| ev_call := libusb_close; ev_reply := r2 |}])
                    [libusb_ref_device d; libusb_unref_device d;
                     libusb_detach_kernel_driver 0] h) /\
    0 <= rc c /\
    count_events opened_handle pre = 1%nat /\
    count_events closed_handle pre = 0%nat /\
    count_events freed_devices pre = count_events listed_devices pre.
Proof.
  intros H. unfold usbPlatformConnect in H.
  apply bindH_Some in H. destruct H as (b & h2 & Hopen & H).
  apply usbLinkOpen_run in Hopen.
  destruct Hopen as (evs & os & -> & Hlist & _ & _ & Hyes).
  destruct b; cbn [negb] in H; unfold retH in H; [|discriminate].
  injection H as <- <-.
  destruct (Hyes eq_refl) as (Ho & Hc & (d & _ & ->) & pre & c & -> & Hrc).
  destruct (usbPlatformClose_run bk (usb_state (advance
              (pre ++ [{| ev_call := libusb_claim_interface 0; ev_reply := c |}])
              [libusb_ref_device d; libusb_unref_device d; libusb_detach_kernel_driver 0] h)))
    as (r1 & r2 & Hclose).
  exists pre, c, r1, r2, d.
  unfold lift. rewrite Hclose.
  rewrite count_events_app in Ho, Hc.
  rewrite (count_events_app freed_devices), (count_events_app listed_devices) in Hlist.
  cbn [count_events opened_handle closed_handle freed_devices listed_devices ev_call] in *.
  split; [|split; [exact Hrc|]; split; [lia|]; split; lia].
  unfold advance. cbn [usb_state host_ops trace set_trace].
  rewrite set_trace_twice, <- !app_assoc. reflexivity.
Qed.

Lemma usbPlatformConnect_then_close_witness :
  exists h1 h2,
    usbPlatformConnect healthy_bus 1 None (Some "1.2.3") initial_host
      = Some ((0, true), h1) /\
    lift (usbPlatformClose healthy_bus) h1 = Some (-1, h2) /\
    count_events closed_handle (trace (usb_state h2)) = 1%nat /\
    count_events opened_handle (trace (usb_state h2)) = 1%nat.
Proof.
  eexists _, _. split; [vm_compute; reflexivity|].
  destruct (usbPlatformConnect_then_close healthy_bus 1 None (Some "1.2.3") initial_host
              true _ ltac:(vm_compute; reflexivity))
    as (pre & c & r1 & r2 & d & Hclose & _).
  split; [vm_compute; reflexivity|]. split; reflexivity.
Defined.

(** * Further properties of send_file *)

Section SendShape.

Variable bk : Backend.
Variables USB_BOOT_ERROR USB_BOOT_TIMEOUT : Z.
Variables endpoint filesize : Z.
Variable send_zlp : bool.
Variables chunk t1 : Z.

Let loop (fuel : nat) (twb : Z) : M (option Z) :=
  send_file_loop bk USB_BOOT_ERROR USB_BOOT_TIMEOUT fuel endpoint filesize send_zlp chunk t1 twb.

(** What the deadline and the zero-length packet do to a run of the
    loop, and what follows a transfer that passed the check. *)
Let verdicts (r : option Z) (evs : list Event) : Prop :=
  (forall pre e post,
     evs = pre ++ e :: post -> past_deadline t1 e ->
     post = [] /\ r = Some USB_BOOT_TIMEOUT) /\
  (forall pre e post,
     evs = pre ++ e :: post -> zero_length_packet e ->
     exists c,
       post = [{| ev_call := steady_clock_now; ev_reply := c |}] /\
       r = if val c - t1 >? DEFAULT_SEND_FILE_TIMEOUT then Some USB_BOOT_TIMEOUT else None) /\
  (forall pre e post,
     evs = pre ++ e :: post -> chunk_done e ->
     exists c post', post = {| ev_call := steady_clock_now; ev_reply := c |} :: post').

Lemma next_chunk_le (twb : Z) : next_chunk filesize chunk twb <= chunk.
Proof.
  unfold next_chunk. cbv zeta.
  destruct (_ >? chunk) eqn:E; lia.
Qed.

Lemma send_file_loop_shape (fuel : nat) :
  forall twb s r s',
    loop fuel twb s = Some (r, s') ->
    exists evs,
      s' = set_trace (trace s ++ evs) s /\
      Forall (send_call endpoint chunk) evs /\
      verdicts r evs.
Proof.
  induction fuel as [|fuel IH]; intros twb s r s' H; [discriminate|].
  unfold loop in H. rewrite send_file_loop_S in H. cbv zeta in H.
  fold (loop fuel) in H.
  set (wb := next_chunk filesize chunk twb) in *.
  set (c := libusb_bulk_transfer endpoint wb write_timeout) in *.
  set (x := bk (trace s) c) in *.
  set (e1 := {| ev_call := c; ev_reply := x |}).
  set (now := bk (trace (record_event c x s)) steady_clock_now) in *.
  set (e2 := {| ev_call := steady_clock_now; ev_reply := now |}).
  assert (Hcall1 : send_call endpoint chunk e1).
  { left. exists wb. split; [reflexivity|apply next_chunk_le]. }
  assert (Hcall2 : send_call endpoint chunk e2) by (right; reflexivity).
  assert (Hnot1 : ~ past_deadline t1 e1) by (intros [Hc _]; discriminate Hc).
  assert (Hnot2 : ~ zero_length_packet e2) by (intros (ep & t & Hc); discriminate Hc).
  assert (Hnot3 : ~ chunk_done e2) by (intros [(ep & len & t & Hc) _]; discriminate Hc).
  assert (Hzlp1 : zero_length_packet e1 -> wb = 0).
  { intros (ep & t & Hc). cbn in Hc. unfold c in Hc. congruence. }
  destruct ((to_unsigned twb <? filesize) || send_zlp).
  2:{ injection H as <- <-. exists []. rewrite app_nil_r, set_trace_trace.
      split; [reflexivity|]. split; [constructor|].
      split; [|split]; intros pre e post Hevs; destruct pre; discriminate Hevs. }
  destruct ((negb (rc x =? 0) || negb (wb =? val x)) && negb (wb =? 0)) eqn:Hfail.
  { assert (Hfailed : chunk_failed e1) by (unfold chunk_failed; cbn; lia).
    assert (Hone : forall y, Some (y, record_event c x s) = Some (r, s') ->
              exists evs, s' = set_trace (trace s ++ evs) s /\
                Forall (send_call endpoint chunk) evs /\ verdicts r evs).
    { intros y Hy. injection Hy as _ <-. exists [e1]. split; [reflexivity|].
      split; [constructor; [exact Hcall1|constructor]|].
      split; [|split]; intros pre e post Hevs He.
      - destruct pre as [|p0 pre]; [|destruct pre; discriminate Hevs].
        injection Hevs as <- _. contradiction.
      - destruct pre as [|p0 pre]; [|destruct pre; discriminate Hevs].
        injection Hevs as <- _. apply Hzlp1 in He. lia.
      - destruct pre as [|p0 pre]; [|destruct pre; discriminate Hevs].
        injection Hevs as <- _. destruct He as [_ He]. contradiction. }
    destruct (rc x =? LIBUSB_ERROR_NO_DEVICE); [exact (Hone _ H)|].
    destruct (rc x =? LIBUSB_ERROR_TIMEOUT); exact (Hone _ H). }
  assert (Hpair : forall pre e post,
            [e1; e2] = pre ++ e :: post -> chunk_done e ->
            exists c0 post', post = {| ev_call := steady_clock_now; ev_reply := c0 |} :: post').
  { intros pre e post Hevs He.
    destruct pre as [|p0 pre]; [injection Hevs as _ <-; exists now, []; reflexivity|].
    destruct pre as [|p1 pre]; [|destruct pre; discriminate Hevs].
    injection Hevs as _ <- _. contradiction. }
  destruct (val now - t1 >? DEFAULT_SEND_FILE_TIMEOUT) eqn:Hlate.
  { injection H as <- <-. exists [e1; e2]. split; [norm_trace; reflexivity|].
    split; [constructor; [exact Hcall1|]; constructor; [exact Hcall2|]; constructor|].
    split; [|split; [|exact Hpair]]; intros pre e post Hevs He.
    - destruct pre as [|p0 pre]; [injection Hevs as <- _; contradiction|].
      destruct pre as [|p1 pre]; [|destruct pre; discriminate Hevs].
      injection Hevs as _ _ <-. auto.
    - destruct pre as [|p0 pre].
      + injection Hevs as _ <-. exists now. split; [reflexivity|].
        cbn [val ev_reply]. rewrite Hlate. reflexivity.
      + destruct pre as [|p1 pre]; [|destruct pre; discriminate Hevs].
        injection Hevs as _ <- _. contradiction. }
  destruct (wb =? 0) eqn:Hz.
  { injection H as <- <-. exists [e1; e2]. split; [norm_trace; reflexivity|].
    split; [constructor; [exact Hcall1|]; constructor; [exact Hcall2|]; constructor|].
    split; [|split; [|exact Hpair]]; intros pre e post Hevs He.
    - destruct pre as [|p0 pre]; [injection Hevs as <- _; contradiction|].
      destruct pre as [|p1 pre]; [|destruct pre; discriminate Hevs].
      injection Hevs as _ <- _. destruct He as [_ He]. cbn in He. lia.
    - destruct pre as [|p0 pre].
      + injection Hevs as _ <-. exists now. split; [reflexivity|].
        cbn [val ev_reply]. rewrite Hlate. reflexivity.
      + destruct pre as [|p1 pre]; [|destruct pre; discriminate Hevs].
        injection Hevs as _ <- _. contradiction. }
  apply IH in H. destruct H as (evs & -> & Hcalls & Hdl & Hzl & Hfol).
  exists (e1 :: e2 :: evs). split; [norm_trace; reflexivity|].
  split; [constructor; [exact Hcall1|]; constructor; [exact Hcall2|]; exact Hcalls|].
  split; [|split]; intros pre e post Hevs He.
  - destruct pre as [|p0 pre]; [injection Hevs as <- _; contradiction|].
    destruct pre as [|p1 pre].
    + injection Hevs as _ <- _. destruct He as [_ He]. cbn in He. lia.
    + injection Hevs as _ _ Hevs. exact (Hdl pre e post Hevs He).
  - destruct pre as [|p0 pre]; [injection Hevs as <- _; apply Hzlp1 in He; lia|].
    destruct pre as [|p1 pre]; [injection Hevs as _ <- _; contradiction|].
    injection Hevs as _ _ Hevs. exact (Hzl pre e post Hevs He).
  - destruct pre as [|p0 pre]; [injection Hevs as _ <-; exists now, evs; reflexivity|].
    destruct pre as [|p1 pre]; [injection Hevs as _ <- _; contradiction|].
    injection Hevs as _ _ Hevs. exact (Hfol pre e post Hevs He).
Qed.

End SendShape.

(** A run of send_file: the clock is read, the loop runs, and a loop
    left without a [return] is followed by the readings of the log line
    in a build without NDEBUG.  A reading of the loop follows a transfer
    that passed the check; the readings of the log line do not. *)
Lemma send_file_shape (bk : Backend) (CH BE BT : Z) (NDEBUG : bool) (fuel : nat)
    (endpoint filesize bcdusb : Z) (s : State) (r : Z) (s' : State) :
  send_file bk CH BE BT NDEBUG fuel endpoint filesize bcdusb s = Some (r, s') ->
  let chunk := if bcdusb <? 0x200 then USB1_CHUNKSZ else to_int CH in
  let t1 := bk (trace s) steady_clock_now in
  exists evs,
    s' = set_trace (trace s ++ {| ev_call := steady_clock_now; ev_reply := t1 |} :: evs) s /\
    Forall (send_call endpoint chunk) evs /\
    (forall pre b e post,
       evs = pre ++ b :: e :: post -> chunk_done b -> past_deadline (val t1) e ->
       post = [] /\ r = BT) /\
    (NDEBUG = true ->
     forall pre e post,
       evs = pre ++ e :: post -> past_deadline (val t1) e ->
       post = [] /\ r = BT) /\
    (forall pre e post,
       evs = pre ++ e :: post -> zero_length_packet e ->
       exists c dbg,
         post = {| ev_call := steady_clock_now; ev_reply := c |} :: dbg /\
         if val c - val t1 >? DEFAULT_SEND_FILE_TIMEOUT
         then r = BT /\ dbg = []
         else r = 0 /\
              if NDEBUG then dbg = []
              else exists d1 d2,
                     dbg = [d1; d2] /\
                     ev_call d1 = steady_clock_now /\ ev_call d2 = steady_clock_now).
Proof.
  intros H chunk t1. unfold send_file in H. cbv zeta in H.
  rewrite bind_libusb in H. fold t1 in H. fold chunk in H.
  apply bind_Some in H. destruct H as (x & s1 & Hloop & H).
  apply send_file_loop_shape in Hloop. destruct Hloop as (evs & -> & Hcalls & Hdl & Hzl & Hfol).
  assert (Hrun : exists dbg,
            s' = set_trace (trace s ++ {| ev_call := steady_clock_now; ev_reply := t1 |}
                                       :: evs ++ dbg) s /\
            Forall (fun e => ev_call e = steady_clock_now) dbg /\
            List.length dbg = match x with
                              | Some _ => 0%nat
                              | None => if NDEBUG then 0%nat else 2%nat
                              end /\
            r = match x with Some code => code | None => 0 end).
  { destruct x as [code|].
    - unfold ret in H. injection H as <- <-. exists []. rewrite app_nil_r.
      split; [norm_trace; reflexivity|]. split; [constructor|]. split; reflexivity.
    - apply bind_Some in H. destruct H as ([] & s2 & Hlog & H).
      unfold ret in H. injection H as <- <-.
      match type of Hlog with
      | send_file_debug_log _ _ ?st = _ =>
          destruct (send_file_debug_log_run bk NDEBUG st) as (dbg & Hd & Hclk & Hlen)
      end.
      rewrite Hd in Hlog. injection Hlog as <-. exists dbg.
      split; [norm_trace; reflexivity|]. split; [exact Hclk|]. split; [exact Hlen|reflexivity]. }
  destruct Hrun as (dbg & -> & Hclk & Hlen & ->).
  assert (Hbulk : forall e ep len t,
            ev_call e = libusb_bulk_transfer ep len t -> ev_call e <> steady_clock_now)
    by (intros e ep len t ->; discriminate).
  exists (evs ++ dbg). split; [reflexivity|]. split.
  { apply Forall_app. split; [exact Hcalls|].
    eapply Forall_impl; [exact Hclk|]. intros e He. right. exact He. }
  split; [|split].
  - intros pre b e post Hevs Hb He.
    destruct Hb as [(ep & len & t & Hb) Hok].
    destruct (split_before_clock_readings dbg b Hclk (Hbulk b ep len t Hb) evs pre (e :: post)
                Hevs) as (post1 & Hev & Hpost).
    destruct (Hfol pre b post1 Hev) as (c & post2 & ->);
      [split; [exists ep, len, t; exact Hb|exact Hok]|].
    cbn [app] in Hpost. injection Hpost as -> ->.
    destruct (Hdl (pre ++ [b]) {| ev_call := steady_clock_now; ev_reply := c |} post2)
      as [-> ->]; [rewrite <- app_assoc; exact Hev|exact He|].
    destruct dbg; [split; reflexivity|discriminate Hlen].
  - intros -> pre e post Hevs He.
    assert (dbg = []) as -> by (destruct x, dbg; try reflexivity; discriminate Hlen).
    rewrite app_nil_r in Hevs.
    destruct (Hdl pre e post Hevs He) as [-> ->]. split; reflexivity.
  - intros pre e post Hevs He.
    pose proof He as (ep & t & Hcall).
    destruct (split_before_clock_readings dbg e Hclk (Hbulk e ep 0 t Hcall) evs pre post Hevs)
      as (post1 & Hev & ->).
    destruct (Hzl pre e post1 Hev He) as (c & -> & ->).
    exists c, dbg. split; [reflexivity|].
    destruct (val c - val t1 >? DEFAULT_SEND_FILE_TIMEOUT).
    + split; [reflexivity|]. destruct dbg; [reflexivity|discriminate Hlen].
    + split; [reflexivity|]. destruct NDEBUG.
      * destruct dbg; [reflexivity|discriminate Hlen].
      * destruct dbg as [|d1 [|d2 [|d3 dbg]]]; try discriminate Hlen.
        exists d1, d2. split; [reflexivity|].
        inversion Hclk as [|? ? H1 Hclk']; subst.
        inversion Hclk' as [|? ? H2 _]; subst. split; assumption.
Qed.

(** X21: the calls of send_file and its deadline.  A run reads the
    clock, and from then on makes only bulk transfers to the given
    endpoint, with the write timeout of 2000 ms and a length of at most
    the chunk size (64 for bcdusb below 0x200, DEFAULT_CHUNKSZ
    otherwise), and clock readings.  A clock reading that follows a
    transfer that passed the check and is more than 10 s after the
    first reading is the last call of the run, and the result is
    USB_BOOT_TIMEOUT.  In a build with NDEBUG that holds of every clock
    reading after the first; without NDEBUG the two readings of the log
    line, which follow a clock reading or a failed transfer, are not
    compared with the deadline. *)
Theorem send_file_deadline (bk : Backend) (CH BE BT : Z) (NDEBUG : bool) (fuel : nat)
    (endpoint filesize bcdusb : Z) (s : State) (r : Z) (s' : State) :
  send_file bk CH BE BT NDEBUG fuel endpoint filesize bcdusb s = Some (r, s') ->
  let chunk := if bcdusb <? 0x200 then USB1_CHUNKSZ else to_int CH in
  let t1 := bk (trace s) steady_clock_now in
  exists evs,
    trace s' = trace s ++ {| ev_call := steady_clock_now; ev_reply := t1 |} :: evs /\
    list_mx_id s' = list_mx_id s /\ bulk_chunklen s' = bulk_chunklen s /\
    Forall (send_call endpoint chunk) evs /\
    (forall pre b e post,
       evs = pre ++ b :: e :: post -> chunk_done b -> past_deadline (val t1) e ->
       post = [] /\ r = BT) /\
    (NDEBUG = true ->
     forall pre e post,
       evs = pre ++ e :: post -> past_deadline (val t1) e ->
       post = [] /\ r = BT).
Proof.
  intros H chunk t1. apply send_file_shape in H.
  destruct H as (evs & -> & Hcalls & Hdl & Hnd & _).
  exists evs. repeat (split; [reflexivity|]). split; [exact Hcalls|].
  split; [exact Hdl|exact Hnd].
Qed.

Lemma send_file_deadline_witness :
  exists s',
    send_file slow_bus 512 1 3 false 20 0x01 4096 0x200 initial_state = Some (3, s') /\
    Exists (past_deadline 0) (trace s').
Proof.
  eexists. split; [vm_compute; reflexivity|].
  destruct (send_file_deadline slow_bus 512 1 3 false 20 0x01 4096 0x200 initial_state 3 _
              ltac:(vm_compute; reflexivity)) as (evs & _).
  apply List.Exists_exists.
  exists {| ev_call := steady_clock_now; ev_reply := reply 0 11400000000 [] |}.
  split.
  - cbn. repeat (first [left; reflexivity | right]).
  - split; [reflexivity|]. vm_compute. reflexivity.
Defined.

(** Without NDEBUG the readings of the log line may be past the
    deadline: five bytes go out in time, the clock then shows 11 s, and
    send_file reads it twice and returns 0. *)
Example send_file_late_log_line :
  option_map (fun x => (fst x, map (fun e => (ev_call e, val (ev_reply e))) (trace (snd x))))
    (send_file lagging_bus 1048576 1 3 false 6 0x01 5 0x200 initial_state) =
  Some (0, [(steady_clock_now, 0); (libusb_bulk_transfer 1 5 2000, 5);
            (steady_clock_now, 0); (steady_clock_now, 11000000000);
            (steady_clock_now, 11000000000)]).
Proof. vm_compute. reflexivity. Qed.

(** X22: the result of a zero-length packet is not looked at.  In a run
    of send_file a bulk transfer of length 0 is followed by one clock
    reading, and the result is USB_BOOT_TIMEOUT if that reading is past
    the deadline and 0 otherwise, whatever code the transfer came back
    with.  Nothing follows the reading, except for the two clock
    readings of the log line when the result is 0 in a build without
    NDEBUG.  So an empty image is reported as sent even when the device
    is gone. *)
Theorem send_file_zero_length_packet (bk : Backend) (CH BE BT : Z) (NDEBUG : bool)
    (fuel : nat) (endpoint filesize bcdusb : Z) (s : State) (r : Z) (s' : State) :
  send_file bk CH BE BT NDEBUG fuel endpoint filesize bcdusb s = Some (r, s') ->
  let t1 := bk (trace s) steady_clock_now in
  exists evs,
    trace s' = trace s ++ {| ev_call := steady_clock_now; ev_reply := t1 |} :: evs /\
    forall pre e post,
      evs = pre ++ e :: post -> zero_length_packet e ->
      exists c dbg,
        post = {| ev_call := steady_clock_now; ev_reply := c |} :: dbg /\
        if val c - val t1 >? DEFAULT_SEND_FILE_TIMEOUT
        then r = BT /\ dbg = []
        else r = 0 /\
             if NDEBUG then dbg = []
             else exists d1 d2,
                    dbg = [d1; d2] /\
                    ev_call d1 = steady_clock_now /\ ev_call d2 = steady_clock_now.
Proof.
  intros H t1. apply send_file_shape in H.
  destruct H as (evs & -> & _ & _ & _ & Hzl).
  exists evs. split; [reflexivity|exact Hzl].
Qed.

Lemma send_file_zero_length_packet_witness :
  exists s' t e c d1 d2,
    send_file (failing_bus LIBUSB_ERROR_NO_DEVICE) 1048576 1 3 false 1 0x01 0 0x200
      initial_state = Some (0, s') /\
    trace s' = [t; e; c; d1; d2] /\
    ev_call e = libusb_bulk_transfer 0x01 0 write_timeout /\
    rc (ev_reply e) = LIBUSB_ERROR_NO_DEVICE.
Proof.
  eexists _, _, _, _, _, _. split; [vm_compute; reflexivity|].
  destruct (send_file_zero_length_packet (failing_bus LIBUSB_ERROR_NO_DEVICE) 1048576 1 3
              false 1 0x01 0 0x200 initial_state 0 _ ltac:(vm_compute; reflexivity))
    as (evs & _).
  split; [reflexivity|]. split; reflexivity.
Defined.

(** * The serial-number branch of the MxId acquisition *)

Lemma c_str_length (bytes : list Z) : (String.length (c_str bytes) <= List.length bytes)%nat.
Proof.
  induction bytes as [|b bytes IH]; [reflexivity|].
  cbn [c_str]. destruct (to_uint8 b =? 0); cbn [String.length List.length]; lia.
Qed.

Section MxIdSerial.

Variable bk : Backend.
Variable XLINK_MAX_MX_ID_SIZE : nat.
Variables usb_mx_id_get_payload_size usb_mx_id_get_payload_end_size : Z.
Variable state : XLinkDeviceState_t.
Variable pDesc : libusb_device_descriptor.

Hypothesis Hstate : state <> X_LINK_UNBOOTED.

Let attempt :=
  mxid_attempt bk XLINK_MAX_MX_ID_SIZE usb_mx_id_get_payload_size
    usb_mx_id_get_payload_end_size state pDesc.
Let retry_loop (fuel : nat) :=
  mxid_retry_loop bk XLINK_MAX_MX_ID_SIZE usb_mx_id_get_payload_size
    usb_mx_id_get_payload_end_size fuel state pDesc.
Let serial_request : Call :=
  libusb_get_string_descriptor_ascii (iSerialNumber pDesc) (Z.of_nat XLINK_MAX_MX_ID_SIZE).
Let serial_calls (evs : list Event) : Prop :=
  Forall (fun e => is_serial_call (iSerialNumber pDesc) (Z.of_nat XLINK_MAX_MX_ID_SIZE)
                     (ev_call e) = true) evs.
Let serial_read (code : Z) (m : string) (evs : list Event) : Prop :=
  code = 0 ->
  exists pre d,
    evs = pre ++ [{| ev_call := serial_request; ev_reply := d |}] /\
    serial_calls pre /\ 0 <= rc d /\
    m = c_str (take (XLINK_MAX_MX_ID_SIZE - 1) (data d)).

Lemma serial_request_ok :
  is_serial_call (iSerialNumber pDesc) (Z.of_nat XLINK_MAX_MX_ID_SIZE) serial_request = true.
Proof. unfold serial_request. cbn. rewrite !Z.eqb_refl. reflexivity. Qed.

Lemma mxid_attempt_serial (mxId : string) (s : State) (code : Z) (m : string) (s' : State) :
  attempt mxId s = Some ((code, m), s') ->
  exists evs,
    s' = set_trace (trace s ++ evs) s /\ serial_calls evs /\ serial_read code m evs.
Proof.
  intros H.
  assert (Hb : mxid_attempt_booted bk XLINK_MAX_MX_ID_SIZE pDesc mxId s = Some ((code, m), s'))
    by (unfold attempt, mxid_attempt in H; destruct state; try exact H; contradiction).
  clear H. unfold mxid_attempt_booted, retry_after_sleep in Hb.
  fold serial_request in Hb.
  mrun Hb; unfold ret in Hb; injection Hb as <- <- <-; norm_trace;
    (eexists; split; [reflexivity|]).
  - split.
    + constructor; [apply serial_request_ok|]. constructor; [reflexivity|constructor].
    + intros Hc. lia.
  - split.
    + constructor; [apply serial_request_ok|constructor].
    + intros _. eexists [], _. split; [reflexivity|]. split; [constructor|].
      split; [lia|reflexivity].
Qed.

Lemma mxid_retry_loop_serial (t1 : Z) (fuel : nat) :
  forall mxId s code m s',
    retry_loop fuel t1 mxId s = Some ((code, m), s') ->
    exists evs,
      s' = set_trace (trace s ++ evs) s /\ serial_calls evs /\ serial_read code m evs.
Proof.
  induction fuel as [|fuel IH]; intros mxId s code m s' H; [discriminate|].
  unfold retry_loop in H. cbn [mxid_retry_loop] in H.
  apply bind_Some in H. destruct H as ([c1 m1] & s1 & Hatt & H).
  apply mxid_attempt_serial in Hatt. destruct Hatt as (evs1 & -> & F1 & R1).
  cbn [fst snd] in H.
  destruct (c1 =? 0) eqn:Hc1.
  { unfold ret in H. injection H as <- <- <-. exists evs1. auto. }
  rewrite bind_libusb in H. cbn [trace set_trace] in H.
  set (now := bk (trace s ++ evs1) steady_clock_now) in *.
  set (e := {| ev_call := steady_clock_now; ev_reply := now |}).
  destruct (val now - t1 <? RETRY_TIMEOUT).
  - apply IH in H. destruct H as (evs2 & -> & F2 & R2).
    exists (evs1 ++ e :: evs2). split; [norm_trace; reflexivity|].
    assert (F : serial_calls (evs1 ++ [e])).
    { apply Forall_app. split; [exact F1|]. constructor; [reflexivity|constructor]. }
    split.
    + apply Forall_app. split; [exact F1|]. constructor; [reflexivity|exact F2].
    + intros Hc. destruct (R2 Hc) as (pre & d & -> & Fp & Hd & Hm).
      exists ((evs1 ++ [e]) ++ pre), d. split; [rewrite <- !app_assoc; reflexivity|].
      split; [apply Forall_app; split; assumption|]. auto.
  - unfold ret in H. injection H as <- <- <-.
    exists (evs1 ++ [e]). split; [norm_trace; reflexivity|].
    split.
    + apply Forall_app. split; [exact F1|]. constructor; [reflexivity|constructor].
    + intros Hc. lia.
Qed.

Lemma getLibusbDeviceMxId_serial_run (fuel : nat) (devicePath : string) (dev : Z)
    (s : State) (m : string) (s' : State) :
  find (entry_matches devicePath) (list_mx_id s) = None ->
  getLibusbDeviceMxId bk XLINK_MAX_MX_ID_SIZE usb_mx_id_get_payload_size
    usb_mx_id_get_payload_end_size fuel state devicePath pDesc dev s
    = Some ((LIBUSB_SUCCESS, m), s') ->
  exists o t pre d cl,
    trace s' = trace s ++
      {| ev_call := libusb_open dev; ev_reply := o |}
      :: {| ev_call := steady_clock_now; ev_reply := t |}
      :: pre ++ [{| ev_call := serial_request; ev_reply := d |};
                 {| ev_call := libusb_close; ev_reply := cl |}] /\
    serial_calls pre /\ 0 <= rc o /\ 0 <= rc d /\
    m = c_str (take (XLINK_MAX_MX_ID_SIZE - 1) (data d)).
Proof.
  intros Hmiss H. unfold getLibusbDeviceMxId in H.
  apply bind_Some in H. destruct H as (found & s0 & Hget & H).
  rewrite usb_mx_id_cache_get_entry_eq, Hmiss in Hget.
  injection Hget as <- <-. cbn [option_map] in H.
  rewrite bind_libusb in H.
  set (o := bk (trace s) (libusb_open dev)) in *.
  destruct (rc o <? 0) eqn:Ho.
  { unfold ret in H. injection H as Hrc _ _. unfold LIBUSB_SUCCESS in Hrc. lia. }
  rewrite bind_libusb in H. cbv beta in H.
  apply bind_Some in H. destruct H as ([code m1] & s1 & Hloop & H).
  apply mxid_retry_loop_serial in Hloop.
  destruct Hloop as (evs & -> & _ & Hread).
  cbn [fst snd] in H. rewrite bind_libusb in H.
  destruct (negb (code =? 0)) eqn:Hcode.
  { unfold ret in H. injection H as Hrc _ _. unfold LIBUSB_SUCCESS in Hrc. lia. }
  apply bind_Some in H. destruct H as (idx & s2 & Hstore & H).
  match type of Hstore with
  | usb_mx_id_cache_store_entry ?a ?p ?st = _ =>
      destruct (usb_mx_id_cache_store_entry_run a p st) as (idx' & cache & Hstore' & _)
  end.
  rewrite Hstore' in Hstore. injection Hstore as <- <-.
  unfold ret in H. injection H as <- <-.
  destruct (Hread ltac:(lia)) as (pre & d & -> & Fp & Hd & Hm).
  eexists o, _, pre, d, _. split; [norm_trace; reflexivity|].
  split; [exact Fp|]. split; [lia|]. auto.
Qed.

End MxIdSerial.

(** X23: the MxId of a device that is not UNBOOTED is its serial-number
    string.  A successful acquisition for such a device that went to
    the device opened it, read the clock, asked for the string
    descriptor of index iSerialNumber with a buffer of
    XLINK_MAX_MX_ID_SIZE bytes (possibly several times, sleeping in
    between), and closed the device; it claimed no interface and made
    no bulk transfer.  The MxId is the answer to the last request, up
    to its first NUL and at most XLINK_MAX_MX_ID_SIZE - 1 characters. *)
Theorem mxid_serial_number (bk : Backend) (XLINK_MAX_MX_ID_SIZE : nat)
    (payload_size payload_end_size : Z) (fuel : nat) (state : XLinkDeviceState_t)
    (devicePath : string) (pDesc : libusb_device_descriptor) (dev : Z)
    (s : State) (m : string) (s' : State) :
  state <> X_LINK_UNBOOTED ->
  find (entry_matches devicePath) (list_mx_id s) = None ->
  getLibusbDeviceMxId bk XLINK_MAX_MX_ID_SIZE payload_size payload_end_size
    fuel state devicePath pDesc dev s = Some ((LIBUSB_SUCCESS, m), s') ->
  let serial_request :=
    libusb_get_string_descriptor_ascii (iSerialNumber pDesc) (Z.of_nat XLINK_MAX_MX_ID_SIZE) in
  exists o t pre d cl,
    trace s' = trace s ++
      {| ev_call := libusb_open dev; ev_reply := o |}
      :: {| ev_call := steady_clock_now; ev_reply := t |}
      :: pre ++ [{| ev_call := serial_request; ev_reply := d |};
                 {| ev_call := libusb_close; ev_reply := cl |}] /\
    Forall (fun e => is_serial_call (iSerialNumber pDesc) (Z.of_nat XLINK_MAX_MX_ID_SIZE)
                       (ev_call e) = true) pre /\
    0 <= rc d /\
    m = c_str (take (XLINK_MAX_MX_ID_SIZE - 1) (data d)) /\
    (String.length m <= XLINK_MAX_MX_ID_SIZE - 1)%nat.
Proof.
  intros Hstate Hmiss H serial_request.
  destruct (getLibusbDeviceMxId_serial_run bk XLINK_MAX_MX_ID_SIZE payload_size
              payload_end_size state pDesc Hstate fuel devicePath dev s m s' Hmiss H)
    as (o & t & pre & d & cl & Htrace & Fp & _ & Hd & Hm).
  exists o, t, pre, d, cl. repeat (split; [assumption|]).
  rewrite Hm. etransitivity; [apply c_str_length|].
  rewrite length_take. lia.
Qed.

Lemma mxid_serial_number_witness :
  exists s',
    getLibusbDeviceMxId booted_bus 32 1024 16 3 X_LINK_BOOTED "1.2.3"
      (descriptor_of (reply 0 0 [0x200; 0x03E7; 0xf63b; 3])) 11 initial_state
    = Some ((LIBUSB_SUCCESS, "14442C10"), s') /\
    bulk_lengths (trace s') = [].
Proof.
  eexists. split; [vm_compute; reflexivity|].
  destruct (mxid_serial_number booted_bus 32 1024 16 3 X_LINK_BOOTED "1.2.3"
              (descriptor_of (reply 0 0 [0x200; 0x03E7; 0xf63b; 3])) 11 initial_state
              "14442C10" _ ltac:(discriminate) eq_refl ltac:(vm_compute; reflexivity))
    as (o & _).
  reflexivity.
Defined.

(** * The path names the topology *)

Lemma string_of_uint_dot_free (d : Decimal.uint) :
  dot_free (NilEmpty.string_of_uint d) = true.
Proof. induction d; cbn; auto. Qed.

Lemma to_string_dot_free (z : Z) : dot_free (to_string z) = true.
Proof.
  unfold to_string, NilZero.string_of_uint.
  destruct (N.to_uint (Z.to_N z)); try reflexivity; apply string_of_uint_dot_free.
Qed.

Lemma to_string_nonempty (z : Z) : to_string z <> "".
Proof.
  unfold to_string, NilZero.string_of_uint.
  destruct (N.to_uint (Z.to_N z)); discriminate.
Qed.

Lemma N_to_uint_nonnil (n : N) : N.to_uint n <> Decimal.Nil.
Proof.
  destruct n as [|p]; [discriminate|]. apply DecimalPos.Unsigned.to_uint_nonnil.
Qed.

(** Decimal rendering loses nothing. *)
Lemma to_string_inj (a b : Z) : 0 <= a -> 0 <= b -> to_string a = to_string b -> a = b.
Proof.
  intros Ha Hb H. unfold to_string in H.
  apply (f_equal NilZero.uint_of_string) in H.
  rewrite !NilZero.usu in H by apply N_to_uint_nonnil.
  injection H as H. apply (f_equal N.of_uint) in H.
  rewrite !DecimalN.Unsigned.of_to in H. lia.
Qed.

Lemma dot_free_append_dot (a r : string) : dot_free (a +:+ "." +:+ r) = false.
Proof.
  induction a as [|c a IH]; [reflexivity|].
  change (String c a +:+ "." +:+ r) with (String c (a +:+ "." +:+ r)).
  unfold dot_free in *. cbn [all_chars]. rewrite IH. apply andb_false_r.
Qed.

(** Two dotted strings with dot-free heads agree on head and rest. *)
Lemma split_at_dot (a b r1 r2 : string) :
  dot_free a = true -> dot_free b = true ->
  a +:+ "." +:+ r1 = b +:+ "." +:+ r2 -> a = b /\ r1 = r2.
Proof.
  revert b. induction a as [|c a IH]; intros [|c' b] Ha Hb H.
  - injection H as H. auto.
  - exfalso. change (String c' b +:+ "." +:+ r2) with (String c' (b +:+ "." +:+ r2)) in H.
    injection H as Hc _. subst c'. discriminate Hb.
  - exfalso. change (String c a +:+ "." +:+ r1) with (String c (a +:+ "." +:+ r1)) in H.
    injection H as Hc _. subst c. discriminate Ha.
  - change (String c a +:+ "." +:+ r1) with (String c (a +:+ "." +:+ r1)) in H.
    change (String c' b +:+ "." +:+ r2) with (String c' (b +:+ "." +:+ r2)) in H.
    injection H as Hc H. subst c'.
    unfold dot_free in Ha, Hb. cbn [all_chars] in Ha, Hb.
    apply andb_true_iff in Ha, Hb.
    destruct (IH b (proj2 Ha) (proj2 Hb) H) as [-> ->]. auto.
Qed.

Lemma join_dots_nonempty (x : Z) (l : list Z) : join_dots (x :: l) <> "".
Proof.
  unfold join_dots. cbn [map]. destruct l as [|y l].
  - apply to_string_nonempty.
  - cbn [map String.concat]. intros H.
    destruct (to_string x) eqn:E; [exact (to_string_nonempty x E)|discriminate H].
Qed.

Lemma join_dots_cons (x y : Z) (l : list Z) :
  join_dots (x :: y :: l) = to_string x +:+ "." +:+ join_dots (y :: l).
Proof. reflexivity. Qed.

(** Joining with dots loses nothing either. *)
Lemma join_dots_inj (l1 : list Z) :
  forall l2,
    Forall (fun x => 0 <= x) l1 -> Forall (fun x => 0 <= x) l2 ->
    join_dots l1 = join_dots l2 -> l1 = l2.
Proof.
  induction l1 as [|x l1 IH]; intros [|y l2] H1 H2 H.
  - reflexivity.
  - exfalso. symmetry in H. exact (join_dots_nonempty _ _ H).
  - exfalso. exact (join_dots_nonempty _ _ H).
  - inversion H1 as [|? ? Hx H1']; subst. inversion H2 as [|? ? Hy H2']; subst.
    destruct l1 as [|x' l1]; destruct l2 as [|y' l2].
    + f_equal. apply to_string_inj; assumption.
    + exfalso. rewrite join_dots_cons in H. unfold join_dots in H at 1. cbn in H.
      pose proof (to_string_dot_free x) as Hd. rewrite H, dot_free_append_dot in Hd.
      discriminate Hd.
    + exfalso. rewrite join_dots_cons in H. unfold join_dots in H at 2. cbn in H.
      pose proof (to_string_dot_free y) as Hd. rewrite <- H, dot_free_append_dot in Hd.
      discriminate Hd.
    + rewrite !join_dots_cons in H.
      apply split_at_dot in H; try apply to_string_dot_free.
      destruct H as [Hxy Hrest].
      f_equal; [apply to_string_inj; assumption|].
      apply IH; assumption.
Qed.

Lemma to_uint8_nonneg (l : list Z) : Forall (fun x => 0 <= x) (map to_uint8 l).
Proof.
  apply Forall_map. apply Forall_forall. intros x _. cbn.
  pose proof (to_uint8_range x). lia.
Qed.

(** The path of a device with a port chain, as the dotted list of its
    bus and ports. *)
Lemma getLibusbDevicePath_ports_run (bk : Backend) (dev : Z) (s : State) :
  let b := bk (trace s) (libusb_get_bus_number dev) in
  let s1 := record_event (libusb_get_bus_number dev) b s in
  let p := bk (trace s1) (libusb_get_port_numbers dev MAXIMUM_PORT_NUMBERS) in
  0 <= rc p -> (Z.to_nat (rc p) <= List.length (data p))%nat ->
  exists s',
    getLibusbDevicePath bk dev s =
      Some (if rc p =? 0 then to_string (to_uint8 (val b)) +:+ "."
            else join_dots (to_uint8 (val b)
                            :: map to_uint8 (take (Z.to_nat (rc p)) (data p))), s').
Proof.
  intros b s1 p Hpos Hlen. unfold getLibusbDevicePath. mstep.
  fold b. fold s1. fold p.
  assert ((rc p =? LIBUSB_ERROR_OVERFLOW) = false) as -> by (unfold LIBUSB_ERROR_OVERFLOW; lia).
  destruct (rc p =? 0) eqn:Hzero; [eexists; reflexivity|].
  eexists. unfold ret. f_equal. f_equal.
  set (n := Z.to_nat (rc p - 1)).
  assert (Hn : Z.to_nat (rc p) = S n) by (unfold n; lia).
  destruct (lookup_lt_is_Some_2 (data p) n ltac:(lia)) as [x Hx].
  unfold append_ports. fold n.
  rewrite append_ports_fold by lia.
  rewrite (list_lookup_total_correct (data p) n x Hx).
  change ("" +:+ to_string (to_uint8 (val b)) +:+ ".")
    with (to_string (to_uint8 (val b)) +:+ ".").
  rewrite dotted_fold. unfold join_dots.
  rewrite Hn, (take_S_r (data p) n x Hx), map_app. cbn [map].
  rewrite map_app. reflexivity.
Qed.

(** X24: the path names the topology.  When libusb_get_port_numbers
    answers with a count (zero included) for two devices and
    getLibusbDevicePath returns the same path for both, they sit on the
    same bus behind the same chain of ports (bus and ports taken as
    [uint8_t]): no two different topologies are rendered alike. *)
Theorem getLibusbDevicePath_injective (bk : Backend) (dev1 dev2 : Z) (s1 s2 : State)
    (path : string) (s1' s2' : State) :
  let b1 := bk (trace s1) (libusb_get_bus_number dev1) in
  let p1 := bk (trace (record_event (libusb_get_bus_number dev1) b1 s1))
              (libusb_get_port_numbers dev1 MAXIMUM_PORT_NUMBERS) in
  let b2 := bk (trace s2) (libusb_get_bus_number dev2) in
  let p2 := bk (trace (record_event (libusb_get_bus_number dev2) b2 s2))
              (libusb_get_port_numbers dev2 MAXIMUM_PORT_NUMBERS) in
  0 <= rc p1 -> (Z.to_nat (rc p1) <= List.length (data p1))%nat ->
  0 <= rc p2 -> (Z.to_nat (rc p2) <= List.length (data p2))%nat ->
  getLibusbDevicePath bk dev1 s1 = Some (path, s1') ->
  getLibusbDevicePath bk dev2 s2 = Some (path, s2') ->
  to_uint8 (val b1) = to_uint8 (val b2) /\
  map to_uint8 (take (Z.to_nat (rc p1)) (data p1))
    = map to_uint8 (take (Z.to_nat (rc p2)) (data p2)).
Proof.
  intros b1 p1 b2 p2 Hpos1 Hlen1 Hpos2 Hlen2 Hrun1 Hrun2.
  destruct (getLibusbDevicePath_ports_run bk dev1 s1 Hpos1 Hlen1) as (t1 & E1).
  destruct (getLibusbDevicePath_ports_run bk dev2 s2 Hpos2 Hlen2) as (t2 & E2).
  fold b1 in E1. fold p1 in E1. fold b2 in E2. fold p2 in E2.
  rewrite Hrun1 in E1. rewrite Hrun2 in E2.
  injection E1 as E1 _. injection E2 as E2 _. rewrite E1 in E2. clear E1 Hrun1 Hrun2.
  set (l1 := map to_uint8 (take (Z.to_nat (rc p1)) (data p1))) in *.
  set (l2 := map to_uint8 (take (Z.to_nat (rc p2)) (data p2))) in *.
  assert (Hl1 : rc p1 = 0 -> l1 = []).
  { intros H0. unfold l1. rewrite H0. reflexivity. }
  assert (Hl2 : rc p2 = 0 -> l2 = []).
  { intros H0. unfold l2. rewrite H0. reflexivity. }
  assert (Hn1 : rc p1 <> 0 -> l1 <> []).
  { intros H0 Hnil. apply (f_equal (@List.length Z)) in Hnil. unfold l1 in Hnil.
    rewrite length_map, length_take in Hnil. cbn in Hnil. lia. }
  assert (Hn2 : rc p2 <> 0 -> l2 <> []).
  { intros H0 Hnil. apply (f_equal (@List.length Z)) in Hnil. unfold l2 in Hnil.
    rewrite length_map, length_take in Hnil. cbn in Hnil. lia. }
  assert (Hdot : forall x a l, l <> [] ->
            to_string x +:+ "." <> join_dots (a :: l)).
  { intros x a [|y l] Hne H; [congruence|].
    rewrite join_dots_cons in H.
    change (to_string x +:+ ".") with (to_string x +:+ "." +:+ "") in H.
    rewrite string_append_nil_r in H.
    replace (to_string x +:+ ".") with (to_string x +:+ "." +:+ "") in H
      by (rewrite string_append_nil_r; reflexivity).
    apply split_at_dot in H; try apply to_string_dot_free.
    destruct H as [_ H]. symmetry in H. exact (join_dots_nonempty _ _ H). }
  destruct (rc p1 =? 0) eqn:Z1; destruct (rc p2 =? 0) eqn:Z2.
  - rewrite Hl1, Hl2 by lia. split; [|reflexivity].
    replace (to_string (to_uint8 (val b1)) +:+ ".")
      with (to_string (to_uint8 (val b1)) +:+ "." +:+ "") in E2
      by (rewrite string_append_nil_r; reflexivity).
    replace (to_string (to_uint8 (val b2)) +:+ ".")
      with (to_string (to_uint8 (val b2)) +:+ "." +:+ "") in E2
      by (rewrite string_append_nil_r; reflexivity).
    apply split_at_dot in E2; try apply to_string_dot_free.
    destruct E2 as [E2 _].
    pose proof (to_uint8_range (val b1)). pose proof (to_uint8_range (val b2)).
    apply to_string_inj in E2; [congruence|lia|lia].
  - exfalso. exact (Hdot _ _ _ (Hn2 ltac:(lia)) E2).
  - exfalso. symmetry in E2. exact (Hdot _ _ _ (Hn1 ltac:(lia)) E2).
  - apply join_dots_inj in E2.
    + injection E2 as Hb Hl. auto.
    + constructor; [pose proof (to_uint8_range (val b1)); lia|apply to_uint8_nonneg].
    + constructor; [pose proof (to_uint8_range (val b2)); lia|apply to_uint8_nonneg].
Qed.

Lemma getLibusbDevicePath_injective_witness :
  exists s1 s2,
    getLibusbDevicePath healthy_bus 11 initial_state = Some ("1.2.3", s1) /\
    getLibusbDevicePath healthy_bus 11 s1 = Some ("1.2.3", s2) /\
    to_uint8 (val (healthy_bus (trace initial_state) (libusb_get_bus_number 11)))
      = to_uint8 (val (healthy_bus (trace s1) (libusb_get_bus_number 11))).
Proof.
  eexists _, _. split; [vm_compute; reflexivity|]. split; [vm_compute; reflexivity|].
  refine (proj1 (getLibusbDevicePath_injective healthy_bus 11 11 initial_state _
                   "1.2.3" _ _ _ _ _ _
                   ltac:(vm_compute; reflexivity) ltac:(vm_compute; reflexivity))).
  - vm_compute. discriminate.
  - vm_compute. lia.
  - vm_compute. discriminate.
  - vm_compute. lia.
Defined.

(** * The enumerator opens only devices it knows *)

Lemma opens_vetted_nil (F : deviceDesc_t) : opens_vetted F [].
Proof. intros pre e post dev H. destruct pre; discriminate H. Qed.

Lemma opens_vetted_app (F : deviceDesc_t) (a b : list Event) :
  opens_vetted F a -> opens_vetted F b -> opens_vetted F (a ++ b).
Proof.
  intros Ha Hb pre e post dev H Hopen.
  apply List.app_eq_app in H. destruct H as (l & [[H1 H2]|[H1 H2]]).
  - destruct l as [|x l].
    + rewrite app_nil_r in H1. subst a. cbn [app] in H2.
      destruct (Hb [] e post dev (eq_sym H2) Hopen) as (d & [] & _).
    + injection H2 as <- H2. exact (Ha pre e l dev H1 Hopen).
  - destruct (Hb l e post dev H2 Hopen) as (d & Hin & Hv).
    exists d. split; [|exact Hv]. subst pre. apply in_or_app. right. exact Hin.
Qed.

(** A stretch that opens nothing. *)
Lemma opens_vetted_quiet (F : deviceDesc_t) (evs : list Event) :
  Forall (fun e => is_open (ev_call e) = false) evs -> opens_vetted F evs.
Proof.
  intros Hq pre e post dev H Hopen. exfalso.
  rewrite List.Forall_forall in Hq.
  assert (Hin : In e evs) by (rewrite H; apply in_or_app; right; left; reflexivity).
  specialize (Hq e Hin). rewrite Hopen in Hq. discriminate Hq.
Qed.

(** A visit that got a vetted descriptor and then opened nothing but
    its own device. *)
Lemma opens_vetted_visit (F : deviceDesc_t) (dev : Z) (d : Reply) (rest : list Event) :
  vetted F d ->
  Forall (fun e => opens_only dev (ev_call e) = true) rest ->
  opens_vetted F ({| ev_call := libusb_get_device_descriptor dev; ev_reply := d |} :: rest).
Proof.
  intros Hv Hq pre e post dev' H Hopen.
  destruct pre as [|p0 pre].
  - injection H as <- _. discriminate Hopen.
  - injection H as <- H.
    rewrite List.Forall_forall in Hq.
    assert (Hin : In e rest) by (rewrite H; apply in_or_app; right; left; reflexivity).
    specialize (Hq e Hin). rewrite Hopen in Hq.
    cbn in Hq. assert (dev' = dev) as -> by lia.
    exists d. split; [left; reflexivity|exact Hv].
Qed.

Section EnumeratorOpens.

Variable bk : Backend.
Variables XLINK_MAX_NAME_SIZE XLINK_MAX_MX_ID_SIZE : nat.
Variables usb_mx_id_get_payload_size usb_mx_id_get_payload_end_size : Z.

Let attempt :=
  mxid_attempt bk XLINK_MAX_MX_ID_SIZE usb_mx_id_get_payload_size
    usb_mx_id_get_payload_end_size.
Let retry_loop :=
  mxid_retry_loop bk XLINK_MAX_MX_ID_SIZE usb_mx_id_get_payload_size
    usb_mx_id_get_payload_end_size.
Let acquire :=
  getLibusbDeviceMxId bk XLINK_MAX_MX_ID_SIZE usb_mx_id_get_payload_size
    usb_mx_id_get_payload_end_size.
Let report :=
  report_device bk XLINK_MAX_NAME_SIZE XLINK_MAX_MX_ID_SIZE usb_mx_id_get_payload_size
    usb_mx_id_get_payload_end_size.
Let visit :=
  visit_device bk XLINK_MAX_NAME_SIZE XLINK_MAX_MX_ID_SIZE usb_mx_id_get_payload_size
    usb_mx_id_get_payload_end_size.
Let sweep_loop :=
  devices_loop bk XLINK_MAX_NAME_SIZE XLINK_MAX_MX_ID_SIZE usb_mx_id_get_payload_size
    usb_mx_id_get_payload_end_size.

Let no_open (evs : list Event) : Prop :=
  Forall (fun e => is_open (ev_call e) = false) evs.

Lemma mxid_attempt_no_open (state : XLinkDeviceState_t) (pDesc : libusb_device_descriptor)
    (mxId : string) (s : State) (a : Z * string) (s' : State) :
  attempt state pDesc mxId s = Some (a, s') ->
  exists evs, s' = set_trace (trace s ++ evs) s /\ no_open evs.
Proof.
  unfold attempt, mxid_attempt, mxid_attempt_unbooted, mxid_attempt_booted,
    mxid_exchange, retry_after_sleep.
  intros H.
  destruct state; mrun H; unfold ret in H; injection H as <- <-; norm_trace;
    (eexists; split; [reflexivity|]); repeat constructor.
Qed.

Lemma mxid_retry_loop_no_open (state : XLinkDeviceState_t)
    (pDesc : libusb_device_descriptor) (t1 : Z) (fuel : nat) :
  forall mxId s a s',
    retry_loop fuel state pDesc t1 mxId s = Some (a, s') ->
    exists evs, s' = set_trace (trace s ++ evs) s /\ no_open evs.
Proof.
  induction fuel as [|fuel IH]; intros mxId s a s' H; [discriminate|].
  unfold retry_loop in H. cbn [mxid_retry_loop] in H.
  apply bind_Some in H. destruct H as ([c1 m1] & s1 & Hatt & H).
  apply mxid_attempt_no_open in Hatt. destruct Hatt as (evs1 & -> & F1).
  cbn [fst snd] in H.
  destruct (c1 =? 0).
  { unfold ret in H. injection H as <- <-. exists evs1. auto. }
  rewrite bind_libusb in H. cbn [trace set_trace] in H.
  set (now := bk (trace s ++ evs1) steady_clock_now) in *.
  destruct (val now - t1 <? RETRY_TIMEOUT).
  - apply IH in H. destruct H as (evs2 & -> & F2).
    exists (evs1 ++ {| ev_call := steady_clock_now; ev_reply := now |} :: evs2).
    split; [norm_trace; reflexivity|].
    apply Forall_app. split; [exact F1|]. constructor; [reflexivity|exact F2].
  - unfold ret in H. injection H as <- <-.
    exists (evs1 ++ [{| ev_call := steady_clock_now; ev_reply := now |}]).
    split; [norm_trace; reflexivity|].
    apply Forall_app. split; [exact F1|]. repeat constructor.
Qed.

Lemma getLibusbDeviceMxId_opens_only (fuel : nat) (state : XLinkDeviceState_t)
    (devicePath : string) (pDesc : libusb_device_descriptor) (dev : Z)
    (s : State) (a : Z * string) (s' : State) :
  acquire fuel state devicePath pDesc dev s = Some (a, s') ->
  exists evs,
    trace s' = trace s ++ evs /\
    Forall (fun e => opens_only dev (ev_call e) = true) evs.
Proof.
  intros H. unfold acquire, getLibusbDeviceMxId in H.
  apply bind_Some in H. destruct H as (found & s0 & Hget & H).
  rewrite usb_mx_id_cache_get_entry_eq in Hget. injection Hget as <- <-.
  destruct (find (entry_matches devicePath) (list_mx_id s)) as [e|];
    cbn [option_map] in H.
  { unfold ret in H. injection H as <- <-. exists [].
    rewrite app_nil_r. split; [reflexivity|constructor]. }
  rewrite bind_libusb in H.
  assert (Hopen : opens_only dev (libusb_open dev) = true) by (cbn; lia).
  destruct (rc _ <? 0).
  { unfold ret in H. injection H as <- <-.
    eexists. split; [norm_trace; reflexivity|].
    constructor; [exact Hopen|constructor]. }
  rewrite bind_libusb in H. cbv beta in H.
  apply bind_Some in H. destruct H as ([c1 m1] & s1 & Hloop & H).
  apply mxid_retry_loop_no_open in Hloop. destruct Hloop as (evs & -> & F).
  cbn [fst snd] in H. rewrite bind_libusb in H.
  assert (Hall : forall o t c,
             Forall (fun e => opens_only dev (ev_call e) = true)
               ({| ev_call := libusb_open dev; ev_reply := o |}
                :: {| ev_call := steady_clock_now; ev_reply := t |}
                :: evs ++ [{| ev_call := libusb_close; ev_reply := c |}])).
  { intros o t c. constructor; [exact Hopen|]. constructor; [reflexivity|].
    apply Forall_app. split; [|constructor; [reflexivity|constructor]].
    eapply Forall_impl; [exact F|]. intros e He. cbn in He.
    unfold opens_only. destruct (ev_call e); try reflexivity. discriminate He. }
  destruct (negb (c1 =? 0)).
  - unfold ret in H. injection H as <- <-.
    eexists. split; [norm_trace; reflexivity|]. apply Hall.
  - apply bind_Some in H. destruct H as (idx & s2 & Hstore & H).
    match type of Hstore with
    | usb_mx_id_cache_store_entry ?a ?p ?st = _ =>
        destruct (usb_mx_id_cache_store_entry_run a p st) as (idx' & cache & Hstore' & _)
    end.
    rewrite Hstore' in Hstore. injection Hstore as <- <-.
    unfold ret in H. injection H as <- <-.
    eexists. split; [norm_trace; reflexivity|]. apply Hall.
Qed.

Lemma visit_device_opens (fuel : nat) (F : deviceDesc_t) (size n dev : Z)
    (s : State) (x : LoopExit) (s' : State) :
  visit fuel F size n dev s = Some (x, s') ->
  exists evs, trace s' = trace s ++ evs /\ opens_vetted F evs.
Proof.
  intros H. unfold visit, visit_device in H. cbv zeta in H.
  assert (Hnil : forall y, ret y s = Some (x, s') ->
                 exists evs, trace s' = trace s ++ evs /\ opens_vetted F evs).
  { intros y Hy. unfold ret in Hy. injection Hy as _ <-. exists [].
    rewrite app_nil_r. split; [reflexivity|apply opens_vetted_nil]. }
  destruct (dev =? 0); [exact (Hnil _ H)|].
  destruct (n >=? size); [exact (Hnil _ H)|].
  rewrite bind_libusb in H.
  set (res := bk (trace s) (libusb_get_device_descriptor dev)) in *.
  set (e0 := {| ev_call := libusb_get_device_descriptor dev; ev_reply := res |}).
  assert (Hone : forall y, ret y (record_event (libusb_get_device_descriptor dev) res s)
                           = Some (x, s') ->
                 exists evs, trace s' = trace s ++ evs /\ opens_vetted F evs).
  { intros y Hy. unfold ret in Hy. injection Hy as _ <-.
    exists [e0]. split; [reflexivity|].
    apply opens_vetted_quiet. constructor; [reflexivity|constructor]. }
  destruct (rc res <? 0) eqn:Hrc; [exact (Hone _ H)|].
  destruct (vidPidToDeviceState _) as [st|] eqn:Hst; [|exact (Hone _ H)].
  destruct (negb (XLinkDeviceState_eqb (state F) X_LINK_ANY_STATE)
            && negb (XLinkDeviceState_eqb st (state F))) eqn:Hstate; [exact (Hone _ H)|].
  assert (Hv : vetted F res).
  { split; [lia|]. exists st. split; [exact Hst|].
    apply andb_false_iff in Hstate.
    destruct Hstate as [Hs|Hs]; apply negb_false_iff, XLinkDeviceState_eqb_eq in Hs; auto. }
  apply bind_Some in H. destruct H as (devicePath & s1 & Hpath & H).
  destruct (getLibusbDevicePath_run bk dev
              (record_event (libusb_get_device_descriptor dev) res s))
    as (p' & evs1 & Hpath' & Hq1).
  rewrite Hpath' in Hpath. injection Hpath as <- <-.
  assert (Hq1' : Forall (fun e => opens_only dev (ev_call e) = true) evs1).
  { eapply Forall_impl; [exact Hq1|]. intros e He. cbn in He.
    unfold opens_only. destruct (ev_call e); try reflexivity. discriminate He. }
  destruct ((0 <? String.length (name F))%nat && negb (String.eqb (name F) p')).
  { unfold ret in H. injection H as _ <-.
    exists (e0 :: evs1). split; [norm_trace; reflexivity|].
    apply opens_vetted_visit; assumption. }
  apply report_device_inv in H. destruct H as (code & m & Hacq & _).
  apply getLibusbDeviceMxId_opens_only in Hacq. destruct Hacq as (evs2 & Ht2 & Hq2).
  exists (e0 :: evs1 ++ evs2). split.
  - rewrite Ht2. norm_trace. reflexivity.
  - apply opens_vetted_visit; [exact Hv|]. apply Forall_app. split; assumption.
Qed.

Lemma devices_loop_opens (fuel : nat) (F : deviceDesc_t) (size : Z) (devs : list Z) :
  forall found s out s',
    sweep_loop fuel F size devs found s = Some (out, s') ->
    exists evs, trace s' = trace s ++ evs /\ opens_vetted F evs.
Proof.
  induction devs as [|dev devs IH]; intros found s out s' H.
  - unfold ret in H. injection H as _ <-. exists []. rewrite app_nil_r.
    split; [reflexivity|apply opens_vetted_nil].
  - unfold sweep_loop in H. cbn [devices_loop] in H.
    apply bind_Some in H. destruct H as (x & s1 & Hvisit & H).
    apply visit_device_opens in Hvisit. destruct Hvisit as (evs1 & Ht1 & B1).
    assert (Hrest : forall found', sweep_loop fuel F size devs found' s1 = Some (out, s') ->
                    exists evs, trace s' = trace s ++ evs /\ opens_vetted F evs).
    { intros found' Hl. destruct (IH _ _ _ _ Hl) as (evs2 & Ht2 & B2).
      rewrite Ht2, Ht1, <- app_assoc. eexists. split; [reflexivity|].
      apply opens_vetted_app; assumption. }
    destruct x as [| |d].
    + exact (Hrest _ H).
    + unfold ret in H. injection H as _ <-. exists evs1. auto.
    + exact (Hrest _ H).
Qed.

End EnumeratorOpens.

(** X25: the enumerator opens only devices it knows.  In a sweep every
    libusb_open is for a device whose descriptor was read earlier in
    the sweep, successfully, with a vendor and product id of the table
    (03E7:2485, 03E7:f63b or 03E7:f63c) and, when the filter names a
    state, with the ids of that state.  A device of another make, or in
    a state the caller did not ask for, is never opened. *)
Theorem getUSBDevices_opens_known (bk : Backend)
    (XLINK_MAX_NAME_SIZE XLINK_MAX_MX_ID_SIZE : nat)
    (payload_size payload_end_size : Z) (fuel : nat) (F : deviceDesc_t) (size : Z)
    (s : State) (res : Enumeration) (s' : State) :
  getUSBDevices bk XLINK_MAX_NAME_SIZE XLINK_MAX_MX_ID_SIZE payload_size payload_end_size
    fuel F size s = Some (res, s') ->
  exists evs,
    trace s' = trace s ++ evs /\
    forall pre e post dev,
      evs = pre ++ e :: post -> ev_call e = libusb_open dev ->
      exists d,
        In {| ev_call := libusb_get_device_descriptor dev; ev_reply := d |} pre /\
        0 <= rc d /\
        exists st,
          vidPidToDeviceState (idVendor (descriptor_of d), idProduct (descriptor_of d))
            = Some st /\
          (state F = X_LINK_ANY_STATE \/ st = state F).
Proof.
  intros H. unfold getUSBDevices in H.
  rewrite bind_libusb in H. cbv zeta in H.
  set (l := bk (trace s) libusb_get_device_list) in *.
  set (e0 := {| ev_call := libusb_get_device_list; ev_reply := l |}).
  assert (Hq0 : opens_vetted F [e0])
    by (apply opens_vetted_quiet; constructor; [reflexivity|constructor]).
  destruct (rc l <? 0).
  { unfold ret in H. injection H as _ <-. exists [e0]. split; [reflexivity|exact Hq0]. }
  unfold usb_mx_id_cache_init, modify in H.
  unfold bind at 1 in H.
  apply bind_Some in H. destruct H as (found & s2 & Hloop & H).
  apply devices_loop_opens in Hloop. destruct Hloop as (evs & Htrace & Hv).
  cbn [trace set_list_mx_id record_event set_trace] in Htrace.
  rewrite bind_libusb in H. unfold ret in H. injection H as _ <-.
  set (e1 := {| ev_call := libusb_free_device_list;
                ev_reply := bk (trace s2) libusb_free_device_list |}).
  exists ([e0] ++ evs ++ [e1]). split.
  - unfold e1. cbn [record_event trace set_trace].
    rewrite Htrace, <- !app_assoc. reflexivity.
  - apply opens_vetted_app; [exact Hq0|]. apply opens_vetted_app; [exact Hv|].
    apply opens_vetted_quiet. constructor; [reflexivity|constructor].
Qed.

Lemma getUSBDevices_opens_known_witness :
  exists res s' d,
    getUSBDevices healthy_bus 64 32 1024 16 3 no_filter 8 initial_state = Some (res, s') /\
    In {| ev_call := libusb_open 11; ev_reply := reply 0 0 [] |} (trace s') /\
    In {| ev_call := libusb_get_device_descriptor 11; ev_reply := d |} (trace s') /\
    vidPidToDeviceState (idVendor (descriptor_of d), idProduct (descriptor_of d))
      = Some X_LINK_UNBOOTED.
Proof.
  eexists _, _, _. split; [vm_compute; reflexivity|].
  destruct (getUSBDevices_opens_known healthy_bus 64 32 1024 16 3 no_filter 8 initial_state
              _ _ ltac:(vm_compute; reflexivity)) as (evs & _).
  split; [cbn; auto 10|]. split; [cbn; right; left; reflexivity|]. reflexivity.
Defined.

(** * The MxId cache within a sweep *)

Lemma find_insert_other {A : Type} (f : A -> bool) (y : A) (l : list A) :
  forall i x,
    l !! i = Some x -> f x = false -> f y = false ->
    find f (<[i := y]> l) = find f l.
Proof.
  induction l as [|a l IH]; intros i x Hl Hx Hy; [discriminate Hl|].
  destruct i as [|i].
  - cbn in Hl. injection Hl as ->. cbn. rewrite Hx, Hy. reflexivity.
  - cbn in Hl. change (<[S i := y]> (a :: l)) with (a :: <[i := y]> l).
    cbn [find]. destruct (f a); [reflexivity|]. exact (IH i x Hl Hx Hy).
Qed.

Section SweepCache.

Variable bk : Backend.
Variables XLINK_MAX_NAME_SIZE XLINK_MAX_MX_ID_SIZE : nat.
Variables usb_mx_id_get_payload_size usb_mx_id_get_payload_end_size : Z.

Let acquire :=
  getLibusbDeviceMxId bk XLINK_MAX_MX_ID_SIZE usb_mx_id_get_payload_size
    usb_mx_id_get_payload_end_size.
Let steps :=
  sweep_steps bk XLINK_MAX_MX_ID_SIZE usb_mx_id_get_payload_size
    usb_mx_id_get_payload_end_size.

(** An acquisition, for whatever path and with whatever result, leaves
    the entries that hit where they are: it stores at most one pair, in
    an empty slot, and only for a path that missed. *)
Lemma getLibusbDeviceMxId_keeps_hit (fuel : nat) (state : XLinkDeviceState_t)
    (devicePath : string) (pDesc : libusb_device_descriptor) (dev : Z)
    (s : State) (r : Z * string) (s' : State) (path : string) (e : MxIdListEntry) :
  find (entry_matches path) (list_mx_id s) = Some e ->
  acquire fuel state devicePath pDesc dev s = Some (r, s') ->
  find (entry_matches path) (list_mx_id s') = Some e.
Proof.
  intros Hhit H. destruct r as [code m].
  destruct (find (entry_matches devicePath) (list_mx_id s)) as [e'|] eqn:Hpath.
  { unfold acquire, getLibusbDeviceMxId, bind in H.
    rewrite usb_mx_id_cache_get_entry_eq, Hpath in H. cbn [option_map] in H.
    unfold ret in H. injection H as _ _ <-. exact Hhit. }
  destruct (Z.eq_dec code LIBUSB_SUCCESS) as [->|Hcode].
  - rewrite (getLibusbDeviceMxId_miss_cache bk _ _ _ fuel state devicePath pDesc dev s m s'
               Hpath H).
    destruct (list_find (fun e0 => entry_valid e0 = false) (list_mx_id s)) as [[i e0]|] eqn:Hslot;
      [|exact Hhit].
    apply list_find_Some in Hslot. destruct Hslot as (Hi & Hinvalid & _).
    rewrite (find_insert_other _ _ _ i e0 Hi); [exact Hhit| |].
    + unfold entry_matches. rewrite Hinvalid. reflexivity.
    + unfold entry_matches, stored. cbn [entry_valid entry_path andb].
      apply String.eqb_neq. intros ->. congruence.
  - destruct (getLibusbDeviceMxId_frame bk _ _ _ fuel state devicePath pDesc dev s code m s' H)
      as (evs & _ & _ & _ & _ & Hfail & _).
    destruct (Hfail Hcode) as [_ ->]. exact Hhit.
Qed.

Lemma sweep_steps_keeps_hit (path : string) (e : MxIdListEntry) (s s' : State) :
  steps s s' ->
  find (entry_matches path) (list_mx_id s) = Some e ->
  find (entry_matches path) (list_mx_id s') = Some e.
Proof.
  induction 1 as [s|c s s' _ IH|fuel state devicePath pDesc dev r s s1 s' Hacq _ IH];
    intros Hhit.
  - exact Hhit.
  - apply IH. exact Hhit.
  - apply IH. exact (getLibusbDeviceMxId_keeps_hit _ _ _ _ _ _ _ _ _ _ Hhit Hacq).
Qed.

Lemma sweep_steps_trans (s1 s2 s3 : State) :
  steps s1 s2 -> steps s2 s3 -> steps s1 s3.
Proof.
  induction 1 as [s|c s s' _ IH|fuel state devicePath pDesc dev r s s1 s' Hacq _ IH];
    intros H23.
  - exact H23.
  - apply (sweep_calls _ _ _ _ c). apply IH. exact H23.
  - apply (sweep_acquires _ _ _ _ fuel state devicePath pDesc dev r s s1); [exact Hacq|].
    apply IH. exact H23.
Qed.

Lemma getLibusbDevicePath_sweep (dev : Z) (s : State) (p : string) (s' : State) :
  getLibusbDevicePath bk dev s = Some (p, s') -> steps s s'.
Proof.
  intros H. unfold getLibusbDevicePath in H. cbv zeta in H.
  rewrite !bind_libusb in H. cbv beta in H.
  apply (sweep_calls _ _ _ _ (libusb_get_bus_number dev)).
  apply (sweep_calls _ _ _ _ (libusb_get_port_numbers dev MAXIMUM_PORT_NUMBERS)).
  destruct (_ =? LIBUSB_ERROR_OVERFLOW);
    [|destruct (_ =? 0)]; unfold ret in H; injection H as _ <-; apply sweep_stays.
Qed.

(** The body of the device loop makes sweep steps only. *)
Lemma visit_device_sweep (fuel : nat) (F : deviceDesc_t) (size n dev : Z)
    (s : State) (x : LoopExit) (s' : State) :
  visit_device bk XLINK_MAX_NAME_SIZE XLINK_MAX_MX_ID_SIZE usb_mx_id_get_payload_size
    usb_mx_id_get_payload_end_size fuel F size n dev s = Some (x, s') ->
  steps s s'.
Proof.
  intros H. unfold visit_device in H. cbv zeta in H.
  assert (Hstay : forall y, ret y s = Some (x, s') -> steps s s').
  { intros y Hy. unfold ret in Hy. injection Hy as _ <-. apply sweep_stays. }
  destruct (dev =? 0); [exact (Hstay _ H)|].
  destruct (n >=? size); [exact (Hstay _ H)|].
  clear Hstay. rewrite bind_libusb in H.
  apply (sweep_calls _ _ _ _ (libusb_get_device_descriptor dev)).
  set (s1 := record_event _ _ s) in *.
  assert (Hstay : forall (s0 : State) y, ret y s0 = Some (x, s') -> steps s0 s').
  { intros s0 y Hy. unfold ret in Hy. injection Hy as _ <-. apply sweep_stays. }
  destruct (rc _ <? 0); [exact (Hstay _ _ H)|].
  destruct (vidPidToDeviceState _) as [st|]; [|exact (Hstay _ _ H)].
  destruct (negb _ && negb _); [exact (Hstay _ _ H)|].
  apply bind_Some in H. destruct H as (devicePath & s2 & Hpath & H).
  apply getLibusbDevicePath_sweep in Hpath.
  apply (sweep_steps_trans _ _ _ Hpath).
  destruct (_ && _); [exact (Hstay _ _ H)|].
  apply report_device_inv in H. destruct H as (code & m & Hacq & _).
  exact (sweep_acquires _ _ _ _ _ _ _ _ _ _ _ _ _ Hacq (sweep_stays _ _ _ _ _)).
Qed.

(** So does the device loop. *)
Lemma devices_loop_sweep (fuel : nat) (F : deviceDesc_t) (size : Z) (devs : list Z) :
  forall found s out s',
    devices_loop bk XLINK_MAX_NAME_SIZE XLINK_MAX_MX_ID_SIZE usb_mx_id_get_payload_size
      usb_mx_id_get_payload_end_size fuel F size devs found s = Some (out, s') ->
    steps s s'.
Proof.
  induction devs as [|dev devs IH]; intros found s out s' H.
  - unfold devices_loop, ret in H. injection H as _ <-. apply sweep_stays.
  - cbn [devices_loop] in H.
    apply bind_Some in H. destruct H as (x & s1 & Hvisit & H).
    apply visit_device_sweep in Hvisit.
    apply (sweep_steps_trans _ _ _ Hvisit).
    destruct x as [| |d].
    + exact (IH _ _ _ _ H).
    + unfold ret in H. injection H as _ <-. apply sweep_stays.
    + exact (IH _ _ _ _ H).
Qed.

End SweepCache.

(** C7: on a cache hit the cached serial is returned with success and
    the state is left as it was: no device is opened and nothing goes
    over the wire.  So after a successful acquisition for a path that
    missed a cache with an empty slot, another acquisition for the same
    path returns the same MxId and leaves the state, its trace included,
    as it was; and that from any state with that cache and from any
    state the sweep reaches from there, whatever backend calls it makes
    and whatever MxIds, of this path or of others, it acquires and
    caches in between.  The body of the enumerator's device loop and the
    loop itself make such steps only, so the later candidates of the
    same sweep are covered. *)
Theorem mxid_cache_fast_path (bk : Backend) (XLINK_MAX_NAME_SIZE XLINK_MAX_MX_ID_SIZE : nat)
    (payload_size payload_end_size : Z) :
  (forall fuel state devicePath pDesc dev s e,
     find (entry_matches devicePath) (list_mx_id s) = Some e ->
     getLibusbDeviceMxId bk XLINK_MAX_MX_ID_SIZE payload_size payload_end_size fuel
       state devicePath pDesc dev s = Some ((LIBUSB_SUCCESS, entry_mx_id e), s)) /\
  (forall fuel state devicePath pDesc dev s m s1,
     find (entry_matches devicePath) (list_mx_id s) = None ->
     Exists (fun e => entry_valid e = false) (list_mx_id s) ->
     getLibusbDeviceMxId bk XLINK_MAX_MX_ID_SIZE payload_size payload_end_size fuel
       state devicePath pDesc dev s = Some ((LIBUSB_SUCCESS, m), s1) ->
     forall s2 s3,
       list_mx_id s2 = list_mx_id s1 ->
       sweep_steps bk XLINK_MAX_MX_ID_SIZE payload_size payload_end_size s2 s3 ->
       forall fuel' state' pDesc' dev',
         getLibusbDeviceMxId bk XLINK_MAX_MX_ID_SIZE payload_size payload_end_size fuel'
           state' devicePath pDesc' dev' s3 = Some ((LIBUSB_SUCCESS, m), s3)) /\
  (forall fuel F size n dev s x s',
     visit_device bk XLINK_MAX_NAME_SIZE XLINK_MAX_MX_ID_SIZE payload_size payload_end_size
       fuel F size n dev s = Some (x, s') ->
     sweep_steps bk XLINK_MAX_MX_ID_SIZE payload_size payload_end_size s s') /\
  (forall fuel F size devs found s out s',
     devices_loop bk XLINK_MAX_NAME_SIZE XLINK_MAX_MX_ID_SIZE payload_size payload_end_size
       fuel F size devs found s = Some (out, s') ->
     sweep_steps bk XLINK_MAX_MX_ID_SIZE payload_size payload_end_size s s').
Proof.
  assert (Hhit : forall fuel state devicePath pDesc dev s e,
     find (entry_matches devicePath) (list_mx_id s) = Some e ->
     getLibusbDeviceMxId bk XLINK_MAX_MX_ID_SIZE payload_size payload_end_size fuel
       state devicePath pDesc dev s = Some ((LIBUSB_SUCCESS, entry_mx_id e), s)).
  { intros fuel state devicePath pDesc dev s e Hfind.
    unfold getLibusbDeviceMxId, bind.
    rewrite usb_mx_id_cache_get_entry_eq, Hfind. reflexivity. }
  split; [exact Hhit|]. split; [|split].
  - intros fuel state devicePath pDesc dev s m s1 Hmiss Hroom Hrun s2 s3 Hs2 Hsteps
      fuel' state' pDesc' dev'.
    apply getLibusbDeviceMxId_miss_cache in Hrun; [|exact Hmiss].
    destruct (list_find (fun e => entry_valid e = false) (list_mx_id s)) as [[i e0]|] eqn:Hslot.
    + apply (Hhit fuel' state' devicePath pDesc' dev' s3 (stored m devicePath)).
      apply (sweep_steps_keeps_hit bk XLINK_MAX_MX_ID_SIZE payload_size payload_end_size
               devicePath (stored m devicePath) s2 s3 Hsteps).
      rewrite Hs2, Hrun. exact (find_after_store devicePath m _ i e0 Hmiss Hslot).
    + exfalso. apply list_find_None in Hslot.
      apply List.Exists_exists in Hroom. destruct Hroom as (e & Hin & He).
      rewrite Forall_forall in Hslot. apply list_elem_of_In in Hin.
      exact (Hslot e Hin He).
  - intros fuel F size n dev s x s'. apply visit_device_sweep.
  - intros fuel F size devs found s out s'. apply devices_loop_sweep.
Qed.

Lemma mxid_cache_fast_path_witness :
  exists s1 s2,
    getLibusbDeviceMxId revisited_bus 32 1024 16 3 X_LINK_UNBOOTED "1.2.3"
      (descriptor_of (reply 0 0 [0x200; 0x03E7; 0x2485; 3])) 11 initial_state
    = Some ((LIBUSB_SUCCESS, "0B3456789ABCDEF050"), s1) /\
    getLibusbDeviceMxId revisited_bus 32 1024 16 3 X_LINK_UNBOOTED "1.7"
      (descriptor_of (reply 0 0 [0x200; 0x03E7; 0x2485; 3])) 12 s1
    = Some ((LIBUSB_SUCCESS, "0C3456789ABCDEF050"), s2) /\
    list_mx_id s2 <> list_mx_id s1 /\
    opens (trace s2) = 2%nat /\
    getLibusbDeviceMxId revisited_bus 32 1024 16 0 X_LINK_UNBOOTED "1.2.3"
      (descriptor_of (reply 0 0 [0x200; 0x03E7; 0x2485; 3])) 13 s2
    = Some ((LIBUSB_SUCCESS, "0B3456789ABCDEF050"), s2).
Proof.
  eexists _, _. split; [vm_compute; reflexivity|]. split; [vm_compute; reflexivity|].
  split; [cbn [list_mx_id]; discriminate|]. split; [reflexivity|].
  eapply (proj1 (proj2 (mxid_cache_fast_path revisited_bus 64 32 1024 16))
            3%nat X_LINK_UNBOOTED "1.2.3"
            (descriptor_of (reply 0 0 [0x200; 0x03E7; 0x2485; 3])) 11 initial_state).
  - reflexivity.
  - apply List.Exists_cons_hd. reflexivity.
  - vm_compute. reflexivity.
  - reflexivity.
  - eapply (sweep_acquires _ _ _ _ 3%nat X_LINK_UNBOOTED "1.7"
              (descriptor_of (reply 0 0 [0x200; 0x03E7; 0x2485; 3])) 12);
      [vm_compute; reflexivity|apply sweep_stays].
Defined.

(** A sweep over three devices of which the first and the third share a
    path: the third is reported with the MxId of the first, and only
    two devices are opened. *)
Example getUSBDevices_revisited_path :
  option_map
    (fun x => (map (fun d => (name d, mxid d)) (out_foundDevices (fst x)),
               opens (trace (snd x))))
    (getUSBDevices revisited_bus 64 32 1024 16 3 no_filter 8 initial_state) =
  Some ([("1.2.3", "0B3456789ABCDEF050"); ("1.7", "0C3456789ABCDEF050");
         ("1.2.3", "0B3456789ABCDEF050")], 2%nat).
Proof. vm_compute. reflexivity. Qed.
